(** * Sleepless agent: durable task queue, task runtime and commit validation

    A shallow embedding of
      - [sleepless_agent/core/models.py]          (Task, Result and their enums),
      - [sleepless_agent/core/queue.py]           (TaskQueue),
      - [sleepless_agent/storage/results.py]      (ResultManager),
      - [sleepless_agent/storage/sqlite.py]       (SQLiteStore._run_write),
      - [sleepless_agent/storage/git.py]          (GitManager),
      - [sleepless_agent/core/task_runtime.py]    (TaskRuntime.execute),
      - [sleepless_agent/core/timeout_manager.py] (TaskTimeoutManager),
      - [sleepless_agent/tasks/refinement.py]     (ensure_refinement_task),
    followed by the properties of the queue, of the runtime and of the
    validation, and then by further properties of each of them.

    Conventions.
      - A [datetime] is a count of microseconds (the resolution of Python's
        datetime) and so is a duration; every reading of the clock a method
        takes is an argument of its model.
      - A table is the list of its rows in rowid order.  In the models of
        the queue and of the result store the SQLite layer is taken to be
        reliable: a transaction runs once and commits.  The retry loop of
        that layer is modelled on its own, in [SQLiteStore].
      - The answer of a query without ORDER BY is given in rowid order,
        where SQLite may read the rows in another order: the properties
        use such an answer through membership and length only, and
        [TaskTimeoutManager.enforce], which reports in the order of the
        answer, takes that order as a parameter.
      - A [str] is a [string], its characters the code points below 256;
        only the ASCII letters have case: [upper] and [lower] leave a
        character above 127 as it is, where Python maps some of them.  A
        text file and the output of a command are the list of their lines
        where the sources split them.  Paths are those of a POSIX system.
      - The values of a context dictionary are those of [Py.json]: floats
        and keys that are not strings are left out, and [json] is the
        library behind [Py.JsonModule], with a reference implementation
        for those values.
      - The adapter, the file system, git and the clock are not part of the
        sources: what they answer during one [execute] is a field of
        [TaskRuntime.Collaborators].  The wait on the adapter can be
        cancelled; the sleep of a pause is taken to run to its end.
      - In the model of [execute], logging, metrics, reports and chat
        notifications are left out: each is wrapped in its own
        catch-and-log in the sources and touches neither table.  Where a
        method is about them ([TaskTimeoutManager.enforce],
        [GitManager.push_all]) they are the calls and the lines of its
        model. *)

From Stdlib Require Import ZArith List String Ascii Bool Lia.
From Stdlib Require Import Sorted Permutation.
From Stdlib Require Import Decimal DecimalString.
From Stdlib Require DecimalZ DecimalPos DecimalFacts.
Import ListNotations.

Set Warnings "-register-all".

#[local] Open Scope string_scope.
#[local] Open Scope list_scope.
#[local] Open Scope Z_scope.

(* ================================================================== *)
(** ** Python values used by the sources *)
(* ================================================================== *)

Module Py.

(** [str(n)] for an [int], as the f-strings of the sources print it. *)
Definition str_of_int (n : Z) : string :=
  NilZero.string_of_int (Z.to_int n).

(** Truth value of a [str]: the empty string is falsy. *)
Definition truthy_str (s : string) : bool :=
  match s with EmptyString => false | String _ _ => true end.

(** Truth value of an [Optional[str]]. *)
Definition truthy_opt_str (o : option string) : bool :=
  match o with Some s => truthy_str s | None => false end.

(** [a or b] on strings. *)
Definition str_or (a b : string) : string :=
  if truthy_str a then a else b.

(** [c.upper()] on one character; only the ASCII letters have case: a
    character above 127 is left as it is, where Python maps some of them
    (the sharp s to two letters). *)
Definition upper_ascii (c : ascii) : ascii :=
  let n := nat_of_ascii c in
  if (Nat.leb 97 n && Nat.leb n 122)%bool then ascii_of_nat (n - 32) else c.

(** [s.upper()]. *)
Fixpoint upper (s : string) : string :=
  match s with
  | EmptyString => EmptyString
  | String c s' => String (upper_ascii c) (upper s')
  end.

(** [pattern in s]: substring test. *)
Fixpoint contains (pattern s : string) : bool :=
  if String.prefix pattern s then true
  else match s with
       | EmptyString => false
       | String _ s' => contains pattern s'
       end.

(** [s.endswith(suffix)]. *)
Fixpoint endswith (s suffix : string) : bool :=
  if String.eqb s suffix then true
  else match s with
       | EmptyString => false
       | String _ s' => endswith s' suffix
       end.

(** The line feed of ["\n".join(...)]. *)
Definition newline : string := String (ascii_of_nat 10) EmptyString.

(** [s[:n]]. *)
Definition take (n : nat) (s : string) : string := substring 0 n s.

Fixpoint sorted_insert (x : string) (l : list string) : list string :=
  match l with
  | [] => [x]
  | y :: l' => if String.leb x y then x :: l else y :: sorted_insert x l'
  end.

(** [sorted(l)] on a list of [str]. *)
Fixpoint sorted (l : list string) : list string :=
  match l with
  | [] => []
  | x :: l' => sorted_insert x (sorted l')
  end.

(** [set(l)] on a list of [str]: its elements, each once. *)
Definition set (l : list string) : list string := nodup string_dec l.

(** [s.add(x)]. *)
Definition set_add (x : string) (s : list string) : list string :=
  if in_dec string_dec x s then s else s ++ [x].

(** [s.split(sep)] on one character, [part] being the text read since
    the last separator. *)
Fixpoint split_from (sep : ascii) (part s : string) : list string :=
  match s with
  | EmptyString => [part]
  | String c s' =>
      if Ascii.eqb c sep then part :: split_from sep EmptyString s'
      else split_from sep (part ++ String c EmptyString) s'
  end.

Fixpoint leading_slashes (s : string) : nat :=
  match s with
  | String c s' => if Ascii.eqb c "/" then S (leading_slashes s') else O
  | EmptyString => O
  end.

(** [Path(s).as_posix()] on a POSIX system: the names between the
    slashes, the empty ones and the dots left out, joined by one slash
    each after the root (a slash if the text starts with one, two if it
    starts with exactly two), and a dot if nothing is left. *)
Definition as_posix (s : string) : string :=
  let root :=
    match leading_slashes s with
    | O => ""
    | S (S O) => "//"
    | S _ => "/"
    end in
  let parts :=
    filter (fun name => truthy_str name && negb (String.eqb name "."))
      (split_from "/" EmptyString s) in
  str_or (root ++ String.concat "/" parts) ".".

(** The Python values a context dictionary is built from here: [None],
    [bool], [int], [str], [list], [tuple] and [dict].  A [dict] keeps its
    items in insertion order and its keys are strings.  Floats, keys that
    are not strings and objects [json.dumps] raises on are left out. *)
Inductive json : Type :=
| JNull
| JBool (b : bool)
| JInt (n : Z)
| JStr (s : string)
| JList (items : list json)
| JTuple (items : list json)
| JDict (items : list (string * json)).

Definition dict : Type := list (string * json).

(** Truth value of a [dict]: the empty dictionary is falsy. *)
Definition truthy_dict (d : dict) : bool :=
  match d with [] => false | _ :: _ => true end.

(** The two functions of Python's [json] module the queue calls.  They are
    library code: the queue is stated over any implementation of them.
    [loads] answers [None] where the library raises [JSONDecodeError]. *)
Class JsonModule : Type := {
  dumps : json -> string;
  loads : string -> option json
}.

(** What a call gives back: a value, or an exception with its message. *)
Inductive outcome (A : Type) : Type :=
| Returned (a : A)
| Raised (message : string).
Arguments Returned {A} a.
Arguments Raised {A} message.

End Py.

(* ================================================================== *)
(** ** A reference implementation of [json.dumps] and [json.loads] *)
(* ================================================================== *)

(** The text [json.dumps] writes with its default arguments (items
    separated by a comma and a space, keys by a colon and a space,
    everything outside printable ASCII escaped), and a reader of JSON
    text, for the values of [Py.json] and strings over the code points
    below 256.  The reader answers [None] where [json.loads] raises, and
    also on a number with a fraction or an exponent, which [json.loads]
    reads as a float: floats are outside [Py.json].  The limits of the
    interpreter (the depth of the recursion, the digits of an [int] it
    converts to text) are left out. *)
Module PyJson.

Import Py.
#[local] Open Scope nat_scope.

Definition dquote : ascii := ascii_of_nat 34.
Definition backslash : ascii := ascii_of_nat 92.

Definition hex_digit (n : nat) : ascii :=
  ascii_of_nat (if Nat.ltb n 10 then 48 + n else 87 + n).

Definition hex_value (c : ascii) : option nat :=
  let n := nat_of_ascii c in
  if (Nat.leb 48 n && Nat.leb n 57)%bool then Some (n - 48)
  else if (Nat.leb 97 n && Nat.leb n 102)%bool then Some (n - 87)
  else if (Nat.leb 65 n && Nat.leb n 70)%bool then Some (n - 55)
  else None.

(** One character of a string literal, as [ensure_ascii] writes it:
    itself from the space to the tilde, the quote and the backslash
    apart, and an escape otherwise. *)
Definition escape (c : ascii) : string :=
  let n := nat_of_ascii c in
  if Nat.eqb n 34 then String backslash (String dquote "")
  else if Nat.eqb n 92 then String backslash (String backslash "")
  else if Nat.eqb n 10 then String backslash "n"
  else if Nat.eqb n 13 then String backslash "r"
  else if Nat.eqb n 9 then String backslash "t"
  else if Nat.eqb n 8 then String backslash "b"
  else if Nat.eqb n 12 then String backslash "f"
  else if (Nat.ltb n 32 || Nat.ltb 126 n)%bool then
    String backslash
      (String "u" (String "0" (String "0"
         (String (hex_digit (n / 16)) (String (hex_digit (n mod 16)) "")))))
  else String c "".

Fixpoint escape_all (s : string) : string :=
  match s with
  | EmptyString => EmptyString
  | String c s' => escape c ++ escape_all s'
  end.

Definition dump_str (s : string) : string :=
  String dquote (escape_all s ++ String dquote "").

Definition dump_int (n : Z) : string := NilZero.string_of_int (Z.to_int n).

(** Items and members are joined as [", ".join] does; a member is its
    key, a colon, a space and its value.  A tuple is written as a list
    is. *)
Fixpoint dump (v : json) : string :=
  match v with
  | JNull => "null"
  | JBool true => "true"
  | JBool false => "false"
  | JInt n => dump_int n
  | JStr s => dump_str s
  | JList items => "[" ++ String.concat ", " (map dump items) ++ "]"
  | JTuple items => "[" ++ String.concat ", " (map dump items) ++ "]"
  | JDict items =>
      "{"
      ++ String.concat ", "
           (map (fun member => dump_str (fst member) ++ ": " ++ dump (snd member))
              items)
      ++ "}"
  end%string.

Definition is_space (c : ascii) : bool :=
  let n := nat_of_ascii c in
  (Nat.eqb n 32 || Nat.eqb n 9 || Nat.eqb n 10 || Nat.eqb n 13)%bool.

Fixpoint skip_ws (s : string) : string :=
  match s with
  | String c s' => if is_space c then skip_ws s' else s
  | EmptyString => EmptyString
  end.

(** The character a backslash and [e] stand for, [\uXXXX] apart. *)
Definition unescape (e : ascii) : option ascii :=
  let n := nat_of_ascii e in
  if Nat.eqb n 34 then Some dquote
  else if Nat.eqb n 92 then Some backslash
  else if Nat.eqb n 47 then Some "/"%char
  else if Nat.eqb n 110 then Some (ascii_of_nat 10)
  else if Nat.eqb n 114 then Some (ascii_of_nat 13)
  else if Nat.eqb n 116 then Some (ascii_of_nat 9)
  else if Nat.eqb n 98 then Some (ascii_of_nat 8)
  else if Nat.eqb n 102 then Some (ascii_of_nat 12)
  else None.

Definition hex4 (a b c d : ascii) : option nat :=
  match hex_value a, hex_value b, hex_value c, hex_value d with
  | Some x, Some y, Some z, Some w => Some (((x * 16 + y) * 16 + z) * 16 + w)%nat
  | _, _, _, _ => None
  end.

Definition cons_str (c : ascii) (r : option (string * string))
  : option (string * string) :=
  match r with
  | Some (s, rest) => Some (String c s, rest)
  | None => None
  end.

(** A string literal after its opening quote: the text and what follows
    the closing quote. *)
Fixpoint read_str (s : string) : option (string * string) :=
  match s with
  | EmptyString => None
  | String c s' =>
      let n := nat_of_ascii c in
      if Nat.eqb n 34 then Some (EmptyString, s')
      else if Nat.eqb n 92 then
        match s' with
        | String e s'' =>
            match unescape e with
            | Some d => cons_str d (read_str s'')
            | None =>
                if Nat.eqb (nat_of_ascii e) 117 then
                  match s'' with
                  | String h1 (String h2 (String h3 (String h4 s3))) =>
                      match hex4 h1 h2 h3 h4 with
                      | Some code =>
                          if Nat.ltb code 256
                          then cons_str (ascii_of_nat code) (read_str s3)
                          else None
                      | None => None
                      end
                  | _ => None
                  end
                else None
            end
        | EmptyString => None
        end
      else if Nat.ltb n 32 then None
      else cons_str c (read_str s')
  end.

Definition digit (c : ascii) : option (uint -> uint) :=
  match nat_of_ascii c - 48 with
  | 0 => if Nat.eqb (nat_of_ascii c) 48 then Some D0 else None
  | 1 => Some D1 | 2 => Some D2 | 3 => Some D3 | 4 => Some D4
  | 5 => Some D5 | 6 => Some D6 | 7 => Some D7 | 8 => Some D8
  | 9 => Some D9
  | _ => None
  end%nat.

Fixpoint read_digits (s : string) : uint * string :=
  match s with
  | String c s' =>
      match digit c with
      | Some d => let (u, rest) := read_digits s' in (d u, rest)
      | None => (Nil, s)
      end
  | EmptyString => (Nil, EmptyString)
  end.

(** A number may not go on as a fraction or an exponent: those are floats. *)
Definition ends_int (rest : string) : bool :=
  match rest with
  | String c _ =>
      let n := nat_of_ascii c in
      negb (Nat.eqb n 46 || Nat.eqb n 101 || Nat.eqb n 69)
  | EmptyString => true
  end.

Definition read_uint (s : string) : option (uint * string) :=
  let (u, rest) := read_digits s in
  match u with
  | Nil => None
  | D0 Nil => if ends_int rest then Some (u, rest) else None
  | D0 _ => None
  | _ => if ends_int rest then Some (u, rest) else None
  end.

Definition read_int (s : string) : option (Z * string) :=
  match s with
  | String c s' =>
      if Nat.eqb (nat_of_ascii c) 45 then
        match read_uint s' with
        | Some (u, rest) => Some (Z.of_int (Neg u), rest)
        | None => None
        end
      else
        match read_uint s with
        | Some (u, rest) => Some (Z.of_int (Pos u), rest)
        | None => None
        end
  | EmptyString => None
  end.

(** [s] without the prefix [word], if it starts with it. *)
Fixpoint expect (word s : string) : option string :=
  match word with
  | EmptyString => Some s
  | String w word' =>
      match s with
      | String c s' => if Ascii.eqb c w then expect word' s' else None
      | EmptyString => None
      end
  end.

Fixpoint read_value (fuel : nat) (s : string) : option (json * string) :=
  match fuel with
  | O => None
  | S fuel =>
      match skip_ws s with
      | EmptyString => None
      | String c rest =>
          let n := nat_of_ascii c in
          if Nat.eqb n 110 then
            match expect "ull" rest with
            | Some r => Some (JNull, r) | None => None end
          else if Nat.eqb n 116 then
            match expect "rue" rest with
            | Some r => Some (JBool true, r) | None => None end
          else if Nat.eqb n 102 then
            match expect "alse" rest with
            | Some r => Some (JBool false, r) | None => None end
          else if Nat.eqb n 34 then
            match read_str rest with
            | Some (text, r) => Some (JStr text, r) | None => None end
          else if Nat.eqb n 91 then
            match skip_ws rest with
            | String c' r' =>
                if Nat.eqb (nat_of_ascii c') 93 then Some (JList [], r')
                else
                  match read_value fuel rest with
                  | Some (x, r) =>
                      match read_items fuel r with
                      | Some (l, r'') => Some (JList (x :: l), r'')
                      | None => None
                      end
                  | None => None
                  end
            | EmptyString => None
            end
          else if Nat.eqb n 123 then
            match skip_ws rest with
            | String c' r' =>
                if Nat.eqb (nat_of_ascii c') 125 then Some (JDict [], r')
                else
                  match read_member fuel rest with
                  | Some (kx, r) =>
                      match read_members fuel r with
                      | Some (l, r'') => Some (JDict (kx :: l), r'')
                      | None => None
                      end
                  | None => None
                  end
            | EmptyString => None
            end
          else
            match read_int (String c rest) with
            | Some (z, r) => Some (JInt z, r) | None => None end
      end
  end

with read_items (fuel : nat) (s : string) : option (list json * string) :=
  match fuel with
  | O => None
  | S fuel =>
      match skip_ws s with
      | String c rest =>
          if Nat.eqb (nat_of_ascii c) 93 then Some ([], rest)
          else if Nat.eqb (nat_of_ascii c) 44 then
            match read_value fuel rest with
            | Some (x, r) =>
                match read_items fuel r with
                | Some (l, r') => Some (x :: l, r')
                | None => None
                end
            | None => None
            end
          else None
      | EmptyString => None
      end
  end

with read_member (fuel : nat) (s : string)
  : option ((string * json) * string) :=
  match fuel with
  | O => None
  | S fuel =>
      match skip_ws s with
      | String c rest =>
          if Nat.eqb (nat_of_ascii c) 34 then
            match read_str rest with
            | Some (key, r) =>
                match skip_ws r with
                | String c' r' =>
                    if Nat.eqb (nat_of_ascii c') 58 then
                      match read_value fuel r' with
                      | Some (x, r'') => Some ((key, x), r'')
                      | None => None
                      end
                    else None
                | EmptyString => None
                end
            | None => None
            end
          else None
      | EmptyString => None
      end
  end

with read_members (fuel : nat) (s : string)
  : option (list (string * json) * string) :=
  match fuel with
  | O => None
  | S fuel =>
      match skip_ws s with
      | String c rest =>
          if Nat.eqb (nat_of_ascii c) 125 then Some ([], rest)
          else if Nat.eqb (nat_of_ascii c) 44 then
            match read_member fuel rest with
            | Some (kx, r) =>
                match read_members fuel r with
                | Some (l, r') => Some (kx :: l, r')
                | None => None
                end
            | None => None
            end
          else None
      | EmptyString => None
      end
  end.

Definition load (s : string) : option json :=
  match read_value (S (String.length s)) s with
  | Some (v, rest) =>
      match skip_ws rest with
      | EmptyString => Some v
      | String _ _ => None
      end
  | None => None
  end.


End PyJson.

Definition reference_json : Py.JsonModule :=
  {| Py.dumps := PyJson.dump; Py.loads := PyJson.load |}.

(* ================================================================== *)
(** ** core/models.py *)
(* ================================================================== *)

Inductive TaskPriority : Type := THOUGHT | SERIOUS | GENERATED.

Inductive TaskStatus : Type :=
  PENDING | IN_PROGRESS | COMPLETED | FAILED | CANCELLED.

Inductive TaskType : Type := NEW | REFINE.

Definition datetime : Type := Z.

(** [timedelta(seconds=n)], in the unit of [datetime]. *)
Definition seconds (n : Z) : Z := n * 1000000.

Definition TaskStatus_eqb (a b : TaskStatus) : bool :=
  match a, b with
  | PENDING, PENDING | IN_PROGRESS, IN_PROGRESS | COMPLETED, COMPLETED
  | FAILED, FAILED | CANCELLED, CANCELLED => true
  | _, _ => false
  end.

Module Task.

(** A row of the [tasks] table. *)
Record t : Type := mk {
  id : Z;
  description : string;
  priority : TaskPriority;
  task_type : option TaskType;
  status : TaskStatus;
  created_at : datetime;
  started_at : option datetime;
  completed_at : option datetime;
  deleted_at : option datetime;
  attempt_count : Z;
  error_message : option string;
  result_id : option Z;
  context : option string;
  assigned_to : option string;
  slack_thread_ts : option string;
  project_id : option string;
  project_name : option string
}.

(** Attribute assignments [task.f = v]. *)
Definition set_priority (v : TaskPriority) (x : t) : t :=
  mk (id x) (description x) v (task_type x) (status x) (created_at x)
     (started_at x) (completed_at x) (deleted_at x) (attempt_count x)
     (error_message x) (result_id x) (context x) (assigned_to x)
     (slack_thread_ts x) (project_id x) (project_name x).

Definition set_status (v : TaskStatus) (x : t) : t :=
  mk (id x) (description x) (priority x) (task_type x) v (created_at x)
     (started_at x) (completed_at x) (deleted_at x) (attempt_count x)
     (error_message x) (result_id x) (context x) (assigned_to x)
     (slack_thread_ts x) (project_id x) (project_name x).

Definition set_started_at (v : option datetime) (x : t) : t :=
  mk (id x) (description x) (priority x) (task_type x) (status x)
     (created_at x) v (completed_at x) (deleted_at x) (attempt_count x)
     (error_message x) (result_id x) (context x) (assigned_to x)
     (slack_thread_ts x) (project_id x) (project_name x).

Definition set_completed_at (v : option datetime) (x : t) : t :=
  mk (id x) (description x) (priority x) (task_type x) (status x)
     (created_at x) (started_at x) v (deleted_at x) (attempt_count x)
     (error_message x) (result_id x) (context x) (assigned_to x)
     (slack_thread_ts x) (project_id x) (project_name x).

Definition set_deleted_at (v : option datetime) (x : t) : t :=
  mk (id x) (description x) (priority x) (task_type x) (status x)
     (created_at x) (started_at x) (completed_at x) v (attempt_count x)
     (error_message x) (result_id x) (context x) (assigned_to x)
     (slack_thread_ts x) (project_id x) (project_name x).

Definition set_attempt_count (v : Z) (x : t) : t :=
  mk (id x) (description x) (priority x) (task_type x) (status x)
     (created_at x) (started_at x) (completed_at x) (deleted_at x) v
     (error_message x) (result_id x) (context x) (assigned_to x)
     (slack_thread_ts x) (project_id x) (project_name x).

Definition set_error_message (v : option string) (x : t) : t :=
  mk (id x) (description x) (priority x) (task_type x) (status x)
     (created_at x) (started_at x) (completed_at x) (deleted_at x)
     (attempt_count x) v (result_id x) (context x) (assigned_to x)
     (slack_thread_ts x) (project_id x) (project_name x).

Definition set_result_id (v : option Z) (x : t) : t :=
  mk (id x) (description x) (priority x) (task_type x) (status x)
     (created_at x) (started_at x) (completed_at x) (deleted_at x)
     (attempt_count x) (error_message x) v (context x) (assigned_to x)
     (slack_thread_ts x) (project_id x) (project_name x).

End Task.

Module Result.

(** A row of the [results] table.  [files_modified] and
    [commands_executed] are JSON text columns; the lists are kept as
    they are and [None] stands for the null column. *)
Record t : Type := mk {
  id : Z;
  task_id : Z;
  output : string;
  files_modified : option (list string);
  commands_executed : option (list string);
  git_commit_sha : option string;
  git_pr_url : option string;
  git_branch : option string;
  workspace_path : option string;
  processing_time_seconds : option Z;
  created_at : datetime
}.

End Result.

(* ================================================================== *)
(** ** core/queue.py: TaskQueue *)
(* ================================================================== *)

Module TaskQueue.

(** The [tasks] table. *)
Definition Store : Type := list Task.t.

(** [SQLiteStore._run_read]: the operation sees the table and leaves it
    as it is. *)
Definition _run_read {A : Type} (op : Store -> A) (db : Store) : A * Store :=
  (op db, db).

(** [SQLiteStore._run_write]: the operation runs in one transaction that
    is committed. *)
Definition _run_write {A : Type} (op : Store -> A * Store) (db : Store)
  : A * Store :=
  op db.

Definition has_id (task_id : Z) (x : Task.t) : bool :=
  Task.id x =? task_id.

(** [session.query(Task).filter(Task.id == task_id).first()]. *)
Definition query_first (task_id : Z) (db : Store) : option Task.t :=
  find (has_id task_id) db.

(** The flush of the attributes assigned on the row [query_first] gave. *)
Fixpoint flush (task_id : Z) (task : Task.t) (db : Store) : Store :=
  match db with
  | [] => []
  | x :: rest =>
      if has_id task_id x then task :: rest
      else x :: flush task_id task rest
  end.

(** The integer primary key SQLite gives a new row. *)
Definition next_id (db : Store) : Z :=
  1 + fold_right (fun x m => Z.max (Task.id x) m) 0 db.

Definition add_task {J : Py.JsonModule} (now : datetime)
    (description : string) (priority : TaskPriority)
    (context : option Py.dict)
    (slack_user_id slack_thread_ts project_id project_name : option string)
  : Store -> Task.t * Store :=
  _run_write (fun db =>
    let task :=
      Task.mk (next_id db) description priority (Some NEW) PENDING now
        None None None 0 None None
        (match context with
         | Some c =>
             if Py.truthy_dict c then Some (Py.dumps (Py.JDict c)) else None
         | None => None
         end)
        slack_user_id slack_thread_ts project_id project_name in
    (task, db ++ [task])).

Definition get_task (task_id : Z) : Store -> option Task.t * Store :=
  _run_read (fun db => query_first task_id db).

(** The [case] expression of [get_pending_tasks]. *)
Definition priority_order (x : Task.t) : Z :=
  match Task.priority x with
  | SERIOUS => 0
  | THOUGHT => 1
  | _ => 2
  end.

(** [ORDER BY priority_order, created_at]: the comparison of two rows. *)
Definition order_leb (a b : Task.t) : bool :=
  (priority_order a <? priority_order b)
  || ((priority_order a =? priority_order b)
      && (Task.created_at a <=? Task.created_at b)).

Fixpoint order_insert (x : Task.t) (l : list Task.t) : list Task.t :=
  match l with
  | [] => [x]
  | y :: l' => if order_leb x y then x :: l else y :: order_insert x l'
  end.

(** The rows in the order of the query; rows that compare equal keep
    their rowid order. *)
Fixpoint order_by (l : list Task.t) : list Task.t :=
  match l with
  | [] => []
  | x :: l' => order_insert x (order_by l')
  end.

Definition is_pending (x : Task.t) : bool :=
  TaskStatus_eqb (Task.status x) PENDING.

(** [limit] is a number of rows. *)
Definition get_pending_tasks (limit : nat) : Store -> list Task.t * Store :=
  _run_read (fun db => firstn limit (order_by (filter is_pending db))).

Definition mark_in_progress (now : datetime) (task_id : Z)
  : Store -> option Task.t * Store :=
  _run_write (fun db =>
    match query_first task_id db with
    | Some task =>
        let task := Task.set_status IN_PROGRESS task in
        let task := Task.set_started_at (Some now) task in
        let task := Task.set_attempt_count (Task.attempt_count task + 1) task in
        (Some task, flush task_id task db)
    | None => (None, db)
    end).

Definition mark_completed (now : datetime) (task_id : Z)
    (result_id : option Z) : Store -> option Task.t * Store :=
  _run_write (fun db =>
    match query_first task_id db with
    | Some task =>
        let task := Task.set_status COMPLETED task in
        let task := Task.set_completed_at (Some now) task in
        let task := Task.set_result_id result_id task in
        (Some task, flush task_id task db)
    | None => (None, db)
    end).

Definition mark_failed (now : datetime) (task_id : Z)
    (error_message : string) : Store -> option Task.t * Store :=
  _run_write (fun db =>
    match query_first task_id db with
    | Some task =>
        let task := Task.set_status FAILED task in
        let task := Task.set_error_message (Some error_message) task in
        let task :=
          match Task.completed_at task with
          | None => Task.set_completed_at (Some now) task
          | Some _ => task
          end in
        (Some task, flush task_id task db)
    | None => (None, db)
    end).

Definition cancel_task (now : datetime) (task_id : Z)
  : Store -> option Task.t * Store :=
  _run_write (fun db =>
    match query_first task_id db with
    | Some task =>
        if TaskStatus_eqb (Task.status task) PENDING then
          let task := Task.set_status CANCELLED task in
          let task := Task.set_deleted_at (Some now) task in
          (Some task, flush task_id task db)
        else (Some task, db)
    | None => (None, db)
    end).

Definition update_priority (task_id : Z) (priority : TaskPriority)
  : Store -> option Task.t * Store :=
  _run_write (fun db =>
    match query_first task_id db with
    | Some task =>
        let task := Task.set_priority priority task in
        (Some task, flush task_id task db)
    | None => (None, db)
    end).

Definition get_task_context {J : Py.JsonModule} (task_id : Z) (db : Store)
  : Py.outcome (option Py.json) * Store :=
  let (task, db) := get_task task_id db in
  match task with
  | Some task =>
      match Task.context task with
      | Some text =>
          if Py.truthy_str text then
            match Py.loads text with
            | Some value => (Py.Returned (Some value), db)
            | None => (Py.Raised "JSONDecodeError", db)
            end
          else (Py.Returned None, db)
      | None => (Py.Returned None, db)
      end
  | None => (Py.Returned None, db)
  end.

(** The filter of [timeout_expired_tasks]. *)
Definition is_expired (cutoff : datetime) (x : Task.t) : bool :=
  TaskStatus_eqb (Task.status x) IN_PROGRESS
  && match Task.started_at x with
     | Some started => started <? cutoff
     | None => false
     end.

Definition timeout_message (max_age_seconds : Z) : string :=
  "Timed out after exceeding " ++ Py.str_of_int (max_age_seconds / 60)
    ++ " minute limit.".

(** The body of the loop over the selected rows. *)
Definition time_out (now : datetime) (max_age_seconds : Z) (task : Task.t)
  : Task.t :=
  let task := Task.set_status FAILED task in
  let task := Task.set_completed_at (Some now) task in
  Task.set_error_message (Some (timeout_message max_age_seconds)) task.

(** [now_cutoff] and [now] are the two readings of the clock, in the
    order the method takes them.  The query has no ORDER BY: the rows
    returned are given here in rowid order, where SQLite may read them in
    another order. *)
Definition timeout_expired_tasks (now_cutoff now : datetime)
    (max_age_seconds : Z) (db : Store) : list Task.t * Store :=
  if max_age_seconds <=? 0 then ([], db)
  else
    _run_write (fun db =>
      let cutoff := now_cutoff - seconds max_age_seconds in
      let tasks := filter (is_expired cutoff) db in
      match tasks with
      | [] => ([], db)
      | _ :: _ =>
          (map (time_out now max_age_seconds) tasks,
           map (fun x =>
                  if is_expired cutoff x
                  then time_out now max_age_seconds x else x) db)
      end) db.

End TaskQueue.

(* ================================================================== *)
(** ** storage/results.py: ResultManager *)
(* ================================================================== *)

Module ResultManager.

(** The [results] table. *)
Definition Store : Type := list Result.t.

Definition next_id (db : Store) : Z :=
  1 + fold_right (fun x m => Z.max (Result.id x) m) 0 db.

(** A list argument as the JSON text column keeps it: null when the list
    is empty. *)
Definition column (l : list string) : option (list string) :=
  match l with [] => None | _ :: _ => Some l end.

(** [write_error] is what writing the row and its JSON file raises, if
    anything; the transaction is then rolled back and the exception
    raised again. *)
Definition save_result (write_error : option string) (now : datetime)
    (task_id : Z) (output : string)
    (files_modified commands_executed : list string)
    (processing_time_seconds : option Z)
    (git_commit_sha git_pr_url git_branch workspace_path : option string)
    (db : Store) : Py.outcome Result.t * Store :=
  let result :=
    Result.mk (next_id db) task_id output (column files_modified)
      (column commands_executed) git_commit_sha git_pr_url git_branch
      workspace_path processing_time_seconds now in
  match write_error with
  | None => (Py.Returned result, db ++ [result])
  | Some exc => (Py.Raised exc, db)
  end.

Definition set_commit_info (git_commit_sha git_pr_url git_branch : option string)
    (x : Result.t) : Result.t :=
  Result.mk (Result.id x) (Result.task_id x) (Result.output x)
    (Result.files_modified x) (Result.commands_executed x)
    git_commit_sha git_pr_url git_branch
    (Result.workspace_path x) (Result.processing_time_seconds x)
    (Result.created_at x).

Fixpoint update_result_commit_info (result_id : Z)
    (git_commit_sha git_pr_url git_branch : option string) (db : Store)
  : Store :=
  match db with
  | [] => []
  | x :: rest =>
      if Result.id x =? result_id
      then set_commit_info git_commit_sha git_pr_url git_branch x :: rest
      else x :: update_result_commit_info result_id git_commit_sha git_pr_url
                  git_branch rest
  end.

End ResultManager.

(* ================================================================== *)
(** ** storage/git.py: GitManager *)
(* ================================================================== *)

Module GitManager.

(** The files as [Path.read_text] gives them: the text at a path, or
    [None] where reading raises. *)
Definition FileSystem : Type := string -> option string.

(** [workspace / file]. *)
Definition path_join (workspace file : string) : string :=
  if String.prefix "/" file then file else workspace ++ "/" ++ file.

Definition secret_patterns : list string :=
  ["PRIVATE_KEY"; "API_KEY"; "PASSWORD"; "SECRET"; "TOKEN"; "credential"].

Definition _contains_secrets (fs : FileSystem) (file_path : string) : bool :=
  match fs file_path with
  | Some content =>
      existsb (fun pattern => Py.contains pattern (Py.upper content))
        secret_patterns
  | None => false
  end.

(** [ast_parse text] tells whether [ast.parse(text)] returns. *)
Definition _validate_python_syntax (fs : FileSystem)
    (ast_parse : string -> bool) (file_path : string) : bool :=
  match fs file_path with
  | Some text => ast_parse text
  | None => false
  end.

(** The issues one file of the loop of [validate_changes] appends. *)
Definition file_issues (fs : FileSystem) (ast_parse : string -> bool)
    (workspace file : string) : list string :=
  let file_path := path_join workspace file in
  (if _contains_secrets fs file_path
   then [("Potential secret in " ++ file)%string] else [])
  ++ (if Py.endswith file ".py"
         && negb (_validate_python_syntax fs ast_parse file_path)
      then [("Python syntax error in " ++ file)%string] else []).

Definition validate_changes (fs : FileSystem) (ast_parse : string -> bool)
    (workspace : string) (files : list string) : bool * string :=
  let issues := flat_map (file_issues fs ast_parse workspace) files in
  match issues with
  | [] => (true, "OK")
  | _ :: _ => (false, String.concat Py.newline issues)
  end.

Definition determine_branch (default_task_branch : string)
    (project_id : option string) : string :=
  match project_id with
  | Some p =>
      if Py.truthy_str p then ("project/" ++ p)%string else default_task_branch
  | None => default_task_branch
  end.

End GitManager.

(* ================================================================== *)
(** ** core/task_runtime.py: TaskRuntime *)
(* ================================================================== *)

Module TaskRuntime.

(** What awaiting [claude.execute_task] under [asyncio.wait_for] gives.
    A list the adapter leaves out is the empty list.  [Raises] is an
    [Exception] other than the pause and the timeout, with its [str];
    [Cancelled] is the await being cancelled: [asyncio.CancelledError],
    which is a [BaseException] and not an [Exception]. *)
Inductive Adapter : Type :=
| Returns (result_output : string)
          (files_modified commands_executed : list string)
          (exit_code : Z) (usage_metrics : option Py.dict)
          (eval_status : option string)
| DeadlineExceeded
| Pauses (reset_time : option datetime) (usage_percent : Z)
| Raises (message : string)
| Cancelled.

(** The exceptions [execute] tells apart.  [Error] is any other
    [Exception] and carries [str(exc)]; [CancelledError] is not an
    [Exception]: [except Exception] lets it through. *)
Inductive Exception : Type :=
| PauseException (reset_time : option datetime) (usage_percent : Z)
| Error (message : string)
| CancelledError.

(** The calls the runtime makes on the queue, the result store, the
    adapter, the commit manager and the event loop, in the order made. *)
Inductive Call : Type :=
| MarkInProgress (task_id : Z)
| MarkCompleted (task_id : Z) (result_id : option Z)
| MarkFailed (task_id : Z) (error_message : string)
| SaveResult (task_id : Z) (output : string)
| UpdateResultCommitInfo (result_id : Z) (git_commit_sha : option string)
| CleanupWorkspaceCaches (workspace : string)
| WriteSummaryFile (workspace : string)
| CommitWorkspaceChanges (branch workspace : string) (files : list string)
                         (message : string)
| Sleep (duration : Z).

(** What the runtime is built over: the configuration, the answers of the
    adapter, of the file system and of git, and the readings of the clock
    during one [execute].  The two [relpath] fields are what
    [os.path.relpath] gives for the parent directory of the workspace and
    for the shared [data] directory, [None] where it raises. *)
Record Collaborators : Type := {
  task_timeout_seconds : Z;
  execute_task : Adapter;
  get_workspace_path : string;
  workspace_exists : bool;
  default_task_branch : string;
  read_text : GitManager.FileSystem;
  ast_parse : string -> bool;
  write_summary_file : option string;
  list_workspace_files : Py.outcome (list string);
  tasks_root_exists : bool;
  tasks_root_relpath : option string;
  data_dir_exists : bool;
  data_dir_relpath : option string;
  commit_workspace_changes :
    string -> string -> list string -> string -> Py.outcome (option string);
  save_result_error : option string;
  processing_time : Z;
  now_started : datetime;
  now_saved : datetime;
  now_finished : datetime;
  now_paused : datetime
}.

(** The two tables and the calls made so far. *)
Record World : Type := mkWorld {
  tasks : TaskQueue.Store;
  results : ResultManager.Store;
  calls : list Call
}.

(** A step of the runtime: it changes the world and either returns or
    raises.  What was written before an exception stays written. *)
Definition M (A : Type) : Type := World -> (Exception + A) * World.

Definition ret {A : Type} (a : A) : M A := fun w => (inr a, w).

Definition raise {A : Type} (e : Exception) : M A := fun w => (inl e, w).

Definition bind {A B : Type} (m : M A) (k : A -> M B) : M B :=
  fun w =>
    match m w with
    | (inl e, w') => (inl e, w')
    | (inr a, w') => k a w'
    end.

Definition try_except {A : Type} (body : M A) (handler : Exception -> M A)
  : M A :=
  fun w =>
    match body w with
    | (inl e, w') => handler e w'
    | (inr a, w') => (inr a, w')
    end.

(** [except Exception as exc: handler]: a [CancelledError] is raised
    on. *)
Definition except_Exception {A : Type} (handler : Exception -> M A)
    (exc : Exception) : M A :=
  match exc with
  | CancelledError => raise CancelledError
  | _ => handler exc
  end.

Notation "x <- m ;; k" := (bind m (fun x => k))
  (at level 61, m at next level, right associativity).
Notation "m ;; k" := (bind m (fun _ => k))
  (at level 61, right associativity).

Definition call (c : Call) : M unit :=
  fun w => (inr tt, mkWorld (tasks w) (results w) (calls w ++ [c])).

Definition on_queue {A : Type} (op : TaskQueue.Store -> A * TaskQueue.Store)
  : M A :=
  fun w =>
    let (a, db) := op (tasks w) in (inr a, mkWorld db (results w) (calls w)).

Definition mark_in_progress (c : Collaborators) (task_id : Z)
  : M (option Task.t) :=
  call (MarkInProgress task_id) ;;
  on_queue (TaskQueue.mark_in_progress (now_started c) task_id).

Definition mark_completed (c : Collaborators) (task_id : Z)
    (result_id : option Z) : M (option Task.t) :=
  call (MarkCompleted task_id result_id) ;;
  on_queue (TaskQueue.mark_completed (now_finished c) task_id result_id).

Definition mark_failed (c : Collaborators) (task_id : Z)
    (error_message : string) : M (option Task.t) :=
  call (MarkFailed task_id error_message) ;;
  on_queue (TaskQueue.mark_failed (now_finished c) task_id error_message).

Definition save_result (c : Collaborators) (task_id : Z) (output : string)
    (files_modified commands_executed : list string)
    (processing_time_seconds : option Z)
    (git_commit_sha git_pr_url git_branch workspace_path : option string)
  : M Result.t :=
  call (SaveResult task_id output) ;;
  fun w =>
    match ResultManager.save_result (save_result_error c) (now_saved c)
            task_id output files_modified commands_executed
            processing_time_seconds git_commit_sha git_pr_url git_branch
            workspace_path (results w) with
    | (Py.Returned result, db) => (inr result, mkWorld (tasks w) db (calls w))
    | (Py.Raised exc, db) => (inl (Error exc), mkWorld (tasks w) db (calls w))
    end.

Definition update_result_commit_info (result_id : Z)
    (git_commit_sha git_pr_url git_branch : option string) : M unit :=
  call (UpdateResultCommitInfo result_id git_commit_sha) ;;
  fun w =>
    (inr tt,
     mkWorld (tasks w)
       (ResultManager.update_result_commit_info result_id git_commit_sha
          git_pr_url git_branch (results w))
       (calls w)).

Definition git_commit (c : Collaborators) (branch workspace : string)
    (files : list string) (message : string) : M (option string) :=
  call (CommitWorkspaceChanges branch workspace files message) ;;
  match commit_workspace_changes c branch workspace files message with
  | Py.Returned sha => ret sha
  | Py.Raised exc => raise (Error exc)
  end.

(** The message of the [TimeoutError] raised on [asyncio.TimeoutError]. *)
Definition timeout_error (timeout : Z) : string :=
  let timeout_minutes := Z.max 1 (timeout / 60) in
  ("Timed out after " ++ Py.str_of_int timeout_minutes ++ " minute(s)")%string.

Definition _run_task_with_timeout (c : Collaborators) (task : Task.t)
  : M (string * list string * list string * Z * option Py.dict
       * option string) :=
  let timeout := task_timeout_seconds c in
  match execute_task c with
  | Returns result_output files_modified commands_executed exit_code
      usage_metrics eval_status =>
      ret (result_output, files_modified, commands_executed, exit_code,
           usage_metrics, eval_status)
  | DeadlineExceeded => raise (Error (timeout_error timeout))
  | Pauses reset_time usage_percent =>
      raise (PauseException reset_time usage_percent)
  | Raises message => raise (Error message)
  | Cancelled => raise CancelledError
  end.

(** The three commit messages: a prefix, the id, a separator and the first
    60 characters of the description. *)
Definition commit_message (prefix : string) (task : Task.t) (sep : string)
  : string :=
  (prefix ++ Py.str_of_int (Task.id task) ++ sep
   ++ Py.take 60 (Task.description task))%string.

Definition _relative_to_workspace (relpath : option string) : option string :=
  match relpath with
  | Some rel_path =>
      if negb (Py.truthy_str rel_path) || String.eqb rel_path "."
      then None else Some (Py.as_posix rel_path)
  | None => None
  end.

Definition _collect_commit_targets (c : Collaborators)
    (workspace_path : string) (base_files : list string) : list string :=
  let commit_paths :=
    Py.set (map Py.as_posix (filter Py.truthy_str base_files)) in
  let commit_paths :=
    match list_workspace_files c with
    | Py.Returned files =>
        fold_left
          (fun paths file_path => Py.set_add (Py.as_posix file_path) paths)
          files commit_paths
    | Py.Raised _ => commit_paths
    end in
  let commit_paths :=
    if tasks_root_exists c then
      match _relative_to_workspace (tasks_root_relpath c) with
      | Some rel_tasks =>
          if Py.truthy_str rel_tasks then Py.set_add rel_tasks commit_paths
          else commit_paths
      | None => commit_paths
      end
    else commit_paths in
  let commit_paths :=
    if data_dir_exists c then
      match _relative_to_workspace (data_dir_relpath c) with
      | Some rel_data =>
          if Py.truthy_str rel_data then Py.set_add rel_data commit_paths
          else commit_paths
      | None => commit_paths
      end
    else commit_paths in
  Py.sorted
    (filter (fun path => Py.truthy_str path && negb (String.eqb path "."))
       commit_paths).

(** The final branch of the method, for a priority that is none of the
    three, cannot be reached on [TaskPriority]. *)
Definition _maybe_commit_changes (c : Collaborators) (task : Task.t)
    (workspace : string) (files_modified : list string)
    (result_output git_branch : string) : M (option string) :=
  let files_for_commit := Py.set files_modified in
  match Task.priority task with
  | THOUGHT | GENERATED =>
      files_for_commit <-
        match files_for_commit with
        | [] =>
            call (WriteSummaryFile workspace) ;;
            ret (if Py.truthy_opt_str (write_summary_file c)
                 then match write_summary_file c with
                      | Some summary_rel_path =>
                          Py.set_add summary_rel_path files_for_commit
                      | None => files_for_commit
                      end
                 else files_for_commit)
        | _ :: _ => ret files_for_commit
        end ;;
      let commit_targets :=
        _collect_commit_targets c workspace files_for_commit in
      match commit_targets with
      | _ :: _ =>
          git_commit c git_branch workspace commit_targets
            (commit_message "Capture thought: #" task " ")
      | [] => ret None
      end
  | SERIOUS =>
      match files_for_commit with
      | _ :: _ =>
          let (is_valid, validation_msg) :=
            GitManager.validate_changes (read_text c) (ast_parse c) workspace
              (Py.sorted files_for_commit) in
          if negb is_valid then ret None
          else
            let commit_targets :=
              _collect_commit_targets c workspace files_for_commit in
            match commit_targets with
            | _ :: _ =>
                git_commit c git_branch workspace commit_targets
                  (commit_message "Implement task #" task ": ")
            | [] => ret None
            end
      | [] => ret None
      end
  end.

Definition pause_placeholder : string := "[Task completed before pause]".

(** [sleep_seconds], kept as a duration in the unit of [datetime].  The
    sleep itself is the call [Sleep], taken to run to its end. *)
Definition sleep_seconds (reset_time : option datetime) (now : datetime) : Z :=
  match reset_time with
  | Some reset => Z.max 0 (reset - now)
  | None => 0
  end.

Definition _handle_pause_exception (c : Collaborators) (task : Task.t)
    (reset_time : option datetime) (result_output : string)
    (files_modified commands_executed : list string)
    (workspace : option string) : M unit :=
  try_except
    (result <-
       save_result c (Task.id task)
         (Py.str_or result_output pause_placeholder)
         files_modified commands_executed (Some (processing_time c))
         None None None
         (Some (match workspace with Some p => p | None => "" end)) ;;
     mark_completed c (Task.id task) (Some (Result.id result)) ;;
     ret tt)
    (except_Exception (fun save_error => ret tt)) ;;
  let sleep_seconds := sleep_seconds reset_time (now_paused c) in
  if (0 <? sleep_seconds)
     && match reset_time with Some _ => true | None => false end
  then call (Sleep sleep_seconds)
  else ret tt.

Definition failing_statuses : list string :=
  ["INCOMPLETE"; "FAILED"; "PARTIAL"].

(** [eval_status and eval_status.upper() in [...]]. *)
Definition evaluator_says_failed (eval_status : option string) : bool :=
  match eval_status with
  | Some s =>
      Py.truthy_str s && existsb (String.eqb (Py.upper s)) failing_statuses
  | None => false
  end.

(** [eval_status] as an f-string prints it. *)
Definition str_of_status (eval_status : option string) : string :=
  match eval_status with Some s => s | None => "None" end.

(** The pause handler gets the locals as they are when the adapter
    raises: still at their initial values.  The two handlers are
    [except PauseException] and [except Exception]: a [CancelledError]
    leaves [execute] as it came. *)
Definition execute (c : Collaborators) (task : Task.t) : M unit :=
  mark_in_progress c (Task.id task) ;;
  try_except
    (r <- _run_task_with_timeout c task ;;
     let '(result_output, files_modified, commands_executed, exit_code,
           usage_metrics, eval_status) := r in
     let processing_time := processing_time c in
     let files_modified :=
       match files_modified with
       | [] => []
       | _ :: _ => Py.sorted files_modified
       end in
     let git_branch :=
       GitManager.determine_branch (default_task_branch c)
         (Task.project_id task) in
     let workspace := get_workspace_path c in
     result <-
       save_result c (Task.id task) result_output files_modified
         commands_executed (Some processing_time) None None (Some git_branch)
         (Some workspace) ;;
     (if workspace_exists c then
        call (CleanupWorkspaceCaches workspace) ;;
        git_commit_sha <-
          _maybe_commit_changes c task workspace files_modified result_output
            git_branch ;;
        if Py.truthy_opt_str git_commit_sha
        then update_result_commit_info (Result.id result) git_commit_sha None
               (Some git_branch)
        else ret tt
      else ret tt) ;;
     (if evaluator_says_failed eval_status
      then mark_failed c (Task.id task)
             ("Evaluator status: " ++ str_of_status eval_status)%string
      else mark_completed c (Task.id task) (Some (Result.id result))) ;;
     ret tt)
    (fun exc =>
       match exc with
       | PauseException reset_time usage_percent =>
           _handle_pause_exception c task reset_time "" [] [] None
       | Error message =>
           mark_failed c (Task.id task) message ;; ret tt
       | CancelledError => raise CancelledError
       end).

End TaskRuntime.

(* ================================================================== *)
(** ** Stable sorting: [sorted(l, key=...)] and [ORDER BY] *)
(* ================================================================== *)

Module Stable.

Fixpoint insert_by {A : Type} (leb : A -> A -> bool) (x : A) (l : list A)
  : list A :=
  match l with
  | [] => [x]
  | y :: l' => if leb x y then x :: l else y :: insert_by leb x l'
  end.

(** The list in the order of [leb]; elements that compare equal keep
    their order. *)
Fixpoint sort_by {A : Type} (leb : A -> A -> bool) (l : list A) : list A :=
  match l with
  | [] => []
  | x :: l' => insert_by leb x (sort_by leb l')
  end.

End Stable.

(* ================================================================== *)
(** ** More of Python's [str] *)
(* ================================================================== *)

Module PyText.

(** [c.lower()] on one character; only the ASCII letters have case. *)
Definition lower_ascii (c : ascii) : ascii :=
  let n := nat_of_ascii c in
  if (Nat.leb 65 n && Nat.leb n 90)%bool then ascii_of_nat (n + 32) else c.

(** [s.lower()]. *)
Fixpoint lower (s : string) : string :=
  match s with
  | EmptyString => EmptyString
  | String c s' => String (lower_ascii c) (lower s')
  end.

(** [c.isspace()]: the white space below code point 256. *)
Definition isspace (c : ascii) : bool :=
  let n := nat_of_ascii c in
  ((Nat.leb 9 n && Nat.leb n 13) || (Nat.leb 28 n && Nat.leb n 32)
   || Nat.eqb n 133 || Nat.eqb n 160)%bool.

(** The truth value of [s.strip()]: some character of [s] is not white
    space. *)
Fixpoint strip_truthy (s : string) : bool :=
  match s with
  | EmptyString => false
  | String c s' => negb (isspace c) || strip_truthy s'
  end.

(** [s[:limit]]; a negative [limit] counts from the end. *)
Definition slice_to (limit : Z) (s : string) : string :=
  if limit <? 0
  then Py.take (Z.to_nat (Z.of_nat (String.length s) + limit)) s
  else Py.take (Z.to_nat limit) s.

(** [len(s)]. *)
Definition len (s : string) : Z := Z.of_nat (String.length s).

End PyText.

(* ================================================================== *)
(** ** core/queue.py: the views of the queue and [delete_project] *)
(* ================================================================== *)

Module TaskQueueViews.

(** [Task.status == status]. *)
Definition has_status (status : TaskStatus) (x : Task.t) : bool :=
  TaskStatus_eqb (Task.status x) status.

(** [Task.project_id == project_id]: a null column is equal to nothing. *)
Definition in_project (project_id : string) (x : Task.t) : bool :=
  match Task.project_id x with
  | Some p => String.eqb p project_id
  | None => false
  end.

(** [query.count()] and [sum(1 for t in tasks if ...)]. *)
Definition count (p : Task.t -> bool) (l : list Task.t) : Z :=
  Z.of_nat (List.length (filter p l)).

Definition get_in_progress_tasks : TaskQueue.Store -> list Task.t * TaskQueue.Store :=
  TaskQueue._run_read (fun db => filter (has_status IN_PROGRESS) db).

(** The dictionary [get_queue_status] returns, by key. *)
Record QueueStatus : Type := {
  total : Z;
  pending : Z;
  in_progress : Z;
  completed : Z;
  failed : Z
}.

Definition get_queue_status : TaskQueue.Store -> QueueStatus * TaskQueue.Store :=
  TaskQueue._run_read (fun db =>
    {| total := Z.of_nat (List.length db);
       pending := count (has_status PENDING) db;
       in_progress := count (has_status IN_PROGRESS) db;
       completed := count (has_status COMPLETED) db;
       failed := count (has_status FAILED) db |}).

(** [ORDER BY created_at DESC], and [sorted(..., key=created_at,
    reverse=True)]: the comparison of two rows. *)
Definition newer_leb (a b : Task.t) : bool :=
  Task.created_at b <=? Task.created_at a.

(** The rows, newest first.  Rows created at the same time keep their
    order, as [sorted] has it; where SQLite sorts, their order is not
    specified and no property depends on it. *)
Definition newest_first (l : list Task.t) : list Task.t :=
  Stable.sort_by newer_leb l.

Definition get_project_tasks (project_id : string)
  : TaskQueue.Store -> list Task.t * TaskQueue.Store :=
  TaskQueue._run_read (fun db => newest_first (filter (in_project project_id) db)).

Definition get_recent_tasks (limit : nat)
  : TaskQueue.Store -> list Task.t * TaskQueue.Store :=
  TaskQueue._run_read (fun db => firstn limit (newest_first db)).

Definition get_failed_tasks (limit : nat)
  : TaskQueue.Store -> list Task.t * TaskQueue.Store :=
  TaskQueue._run_read (fun db =>
    firstn limit (newest_first (filter (has_status FAILED) db))).

(** One entry of the list [get_projects] returns. *)
Record ProjectRow : Type := {
  row_project_id : string;
  row_project_name : string;
  row_total_tasks : Z;
  row_pending : Z;
  row_in_progress : Z;
  row_completed : Z
}.

(** Equality of two pairs [(project_id, project_name)]. *)
Definition key_eqb (a b : string * option string) : bool :=
  String.eqb (fst a) (fst b)
  && match snd a, snd b with
     | Some x, Some y => String.eqb x y
     | None, None => true
     | _, _ => false
     end.

(** [query.distinct()]: each pair once.  SQLite does not say in which
    order; no property depends on it. *)
Fixpoint distinct (l : list (string * option string))
  : list (string * option string) :=
  match l with
  | [] => []
  | x :: l' => if existsb (key_eqb x) l' then distinct l' else x :: distinct l'
  end.

(** The distinct pairs [(project_id, project_name)] of the rows whose
    [project_id] is not null. *)
Definition project_keys (db : TaskQueue.Store) : list (string * option string) :=
  distinct
    (flat_map (fun x =>
                 match Task.project_id x with
                 | Some p => [(p, Task.project_name x)]
                 | None => []
                 end) db).

(** [project_name or project_id]. *)
Definition name_or_id (project_name : option string) (project_id : string)
  : string :=
  match project_name with
  | Some n => Py.str_or n project_id
  | None => project_id
  end.

Definition project_row (db : TaskQueue.Store) (key : string * option string)
  : ProjectRow :=
  let (project_id, project_name) := key in
  let tasks := filter (in_project project_id) db in
  {| row_project_id := project_id;
     row_project_name := name_or_id project_name project_id;
     row_total_tasks := Z.of_nat (List.length tasks);
     row_pending := count (has_status PENDING) tasks;
     row_in_progress := count (has_status IN_PROGRESS) tasks;
     row_completed := count (has_status COMPLETED) tasks |}.

(** [sorted(result, key=lambda x: x["project_id"])]. *)
Definition sorted_by_project_id (l : list ProjectRow) : list ProjectRow :=
  Stable.sort_by
    (fun a b => String.leb (row_project_id a) (row_project_id b)) l.

Definition get_projects : TaskQueue.Store -> list ProjectRow * TaskQueue.Store :=
  TaskQueue._run_read (fun db =>
    sorted_by_project_id (map (project_row db) (project_keys db))).

(** One entry of the ["tasks"] list of [get_project_by_id].  The status
    and the priority stand for their [value], and [created_at] for the
    ISO text that prints it. *)
Record TaskSummary : Type := {
  summary_id : Z;
  summary_description : string;
  summary_status : TaskStatus;
  summary_priority : TaskPriority;
  summary_created_at : datetime
}.

Definition task_summary (t : Task.t) : TaskSummary :=
  {| summary_id := Task.id t;
     summary_description := Py.take 50 (Task.description t);
     summary_status := Task.status t;
     summary_priority := Task.priority t;
     summary_created_at := Task.created_at t |}.

(** The dictionary [get_project_by_id] returns, by key. *)
Record ProjectInfo : Type := {
  info_project_id : string;
  info_project_name : string;
  info_total_tasks : Z;
  info_pending : Z;
  info_in_progress : Z;
  info_completed : Z;
  info_failed : Z;
  info_created_at : datetime;
  info_tasks : list TaskSummary
}.

(** [min(t.created_at for t in tasks)] on a list that is not empty. *)
Definition min_created_at (first_task : Task.t) (rest : list Task.t)
  : datetime :=
  fold_left (fun m t => Z.min m (Task.created_at t)) rest
    (Task.created_at first_task).

Definition get_project_by_id (project_id : string)
  : TaskQueue.Store -> option ProjectInfo * TaskQueue.Store :=
  TaskQueue._run_read (fun db =>
    let tasks := filter (in_project project_id) db in
    match tasks with
    | [] => None
    | first_task :: rest =>
        Some
          {| info_project_id := project_id;
             info_project_name :=
               name_or_id (Task.project_name first_task) project_id;
             info_total_tasks := Z.of_nat (List.length tasks);
             info_pending := count (has_status PENDING) tasks;
             info_in_progress := count (has_status IN_PROGRESS) tasks;
             info_completed := count (has_status COMPLETED) tasks;
             info_failed := count (has_status FAILED) tasks;
             info_created_at := min_created_at first_task rest;
             info_tasks := map task_summary (firstn 5 (newest_first tasks)) |}
    end).

(** The loop of [delete_project] over the rows of the table: [clock k] is
    the reading of the clock for the row cancelled after [k] others, and
    [count] the rows cancelled so far. *)
Fixpoint delete_rows (clock : nat -> datetime) (project_id : string)
    (count : nat) (db : TaskQueue.Store) : nat * TaskQueue.Store :=
  match db with
  | [] => (count, [])
  | task :: rest =>
      if in_project project_id task && has_status PENDING task then
        let task := Task.set_status CANCELLED task in
        let task := Task.set_deleted_at (Some (clock count)) task in
        let (n, rest) := delete_rows clock project_id (S count) rest in
        (n, task :: rest)
      else
        let (n, rest) := delete_rows clock project_id count rest in
        (n, task :: rest)
  end.

Definition delete_project (clock : nat -> datetime) (project_id : string)
  : TaskQueue.Store -> Z * TaskQueue.Store :=
  TaskQueue._run_write (fun db =>
    let (n, db) := delete_rows clock project_id 0 db in (Z.of_nat n, db)).

End TaskQueueViews.

(* ================================================================== *)
(** ** storage/results.py: the reads of ResultManager *)
(* ================================================================== *)

Module ResultManagerReads.

(** [session.query(Result).filter(Result.id == result_id).first()]. *)
Definition get_result (result_id : Z) (db : ResultManager.Store)
  : option Result.t * ResultManager.Store :=
  (find (fun x => Result.id x =? result_id) db, db).

Definition get_task_results (task_id : Z) (db : ResultManager.Store)
  : list Result.t * ResultManager.Store :=
  (filter (fun x => Result.task_id x =? task_id) db, db).

End ResultManagerReads.

(* ================================================================== *)
(** ** storage/sqlite.py: SQLiteStore *)
(* ================================================================== *)

Module SQLiteStore.

(** What one attempt gives: [operation(session)] followed by
    [session.commit()] returns, or one of the two raises.  Rolling back,
    closing a session and resetting the engine are taken not to raise. *)
Inductive Attempt (A : Type) : Type :=
| Commits (result : A)
| OperationalError (text : string)
| OtherException (text : string).
Arguments Commits {A} result.
Arguments OperationalError {A} text.
Arguments OtherException {A} text.

(** What [_run_write] raises, with [str(exc)]. *)
Inductive Raised : Type :=
| RaisedOperationalError (text : string)
| RaisedException (text : string)
| RaisedRuntimeError (text : string).

(** What is done to the sessions and to the engine, in order. *)
Inductive Event : Type :=
| OpenSession
| Commit
| Rollback
| ResetEngine
| CloseSession.

Definition _should_reset_on_error (exc : string) : bool :=
  let message := PyText.lower exc in
  Py.contains "readonly" message
  || (Py.contains "sqlite" message && Py.contains "locked" message).

(** The loop [for attempt in range(retries)], from [attempt] on with
    [remaining] rounds to go, and the two statements after it.
    [operation k] is what the attempt of index [k] gives. *)
Fixpoint attempts {A : Type} (operation : nat -> Attempt A) (retries : Z)
    (last_exc : option string) (attempt remaining : nat)
  : (Raised + A) * list Event :=
  match remaining with
  | O =>
      match last_exc with
      | Some _ =>
          (inl (RaisedRuntimeError
                  ("SQLite operation failed after " ++ Py.str_of_int retries
                   ++ " attempts")), [])
      | None =>
          (inl (RaisedRuntimeError
                  "SQLite operation failed without raising an exception"),
           [])
      end
  | S remaining =>
      match operation attempt with
      | Commits result => (inr result, [OpenSession; Commit; CloseSession])
      | OperationalError exc =>
          if _should_reset_on_error exc && (Z.of_nat attempt <? retries - 1)
          then
            let (r, events) :=
              attempts operation retries (Some exc) (S attempt) remaining in
            (r, [OpenSession; Rollback; ResetEngine; CloseSession] ++ events)
          else
            (inl (RaisedOperationalError exc),
             [OpenSession; Rollback; CloseSession])
      | OtherException exc =>
          (inl (RaisedException exc), [OpenSession; Rollback; CloseSession])
      end
  end.

Definition _run_write {A : Type} (operation : nat -> Attempt A) (retries : Z)
  : (Raised + A) * list Event :=
  attempts operation retries None 0 (Z.to_nat retries).

End SQLiteStore.

(* ================================================================== *)
(** ** core/timeout_manager.py: TaskTimeoutManager *)
(* ================================================================== *)

Module TaskTimeoutManager.

(** The calls [enforce] makes on the executor, the monitors, the report
    and the chat, in the order made.  Each is wrapped in its own
    catch-and-log: what it raises does not change the calls that
    follow. *)
Inductive Call : Type :=
| CleanupWorkspace (task_id : Z)
| RecordTaskCompletion (duration_seconds : Z)
| LogTaskExecution (task_id : Z) (duration_seconds : Z)
| AppendTaskCompletion (task_id : Z) (duration_seconds : Z)
                       (error_message : string) (project_id : option string)
| SendMessage (recipient : string) (task_id : Z) (minutes : Z)
| ClearLiveStatus (task_id : Z).

(** The configuration, and whether a bot and a status tracker were
    given. *)
Record Settings : Type := {
  task_timeout_seconds : Z;
  bot : bool;
  live_status_tracker : bool
}.

(** [int(delta.total_seconds())]: the whole seconds of a span, rounded
    towards zero (the float in between is exact for any span a task can
    run). *)
Definition total_seconds (delta : Z) : Z := Z.quot delta 1000000.

Definition _compute_elapsed (task : Task.t) (now : datetime)
    (timeout_seconds : Z) : Z :=
  let started_at :=
    match Task.started_at task with Some t => t | None => now end in
  let completed_at :=
    match Task.completed_at task with Some t => t | None => now end in
  let elapsed_seconds := total_seconds (completed_at - started_at) in
  Z.max elapsed_seconds timeout_seconds.

Definition _log_timeout_metrics (task : Task.t) (elapsed_seconds : Z)
    (timeout_message : string) : list Call :=
  [RecordTaskCompletion elapsed_seconds;
   LogTaskExecution (Task.id task) elapsed_seconds;
   AppendTaskCompletion (Task.id task) elapsed_seconds timeout_message
     (Task.project_id task)].

Definition _notify_timeout (s : Settings) (task : Task.t)
    (elapsed_seconds : Z) : list Call :=
  (if Py.truthy_opt_str (Task.assigned_to task) && bot s
   then match Task.assigned_to task with
        | Some recipient =>
            [SendMessage recipient (Task.id task)
               (Z.max 1 (elapsed_seconds / 60))]
        | None => []
        end
   else [])
  ++ (if live_status_tracker s then [ClearLiveStatus (Task.id task)] else []).

(** The body of the loop of [enforce], for one task. *)
Definition report (s : Settings) (now : datetime) (task : Task.t)
  : list Call :=
  let timeout_seconds := task_timeout_seconds s in
  let elapsed_seconds := _compute_elapsed task now timeout_seconds in
  let timeout_message :=
    match Task.error_message task with
    | Some m =>
        if Py.truthy_str m then m
        else ("Timed out after " ++ Py.str_of_int (elapsed_seconds / 60)
              ++ " minutes.")%string
    | None =>
        ("Timed out after " ++ Py.str_of_int (elapsed_seconds / 60)
         ++ " minutes.")%string
    end in
  [CleanupWorkspace (Task.id task)]
  ++ _log_timeout_metrics task elapsed_seconds timeout_message
  ++ _notify_timeout s task elapsed_seconds.

(** [now_cutoff] and [now_failed] are the two readings of the clock
    [timeout_expired_tasks] takes, [now] the one [enforce] takes after
    it.  The query of [timeout_expired_tasks] has no ORDER BY: the rows
    come back in the order SQLite reads them, which need not be that of
    the table; [answered] is that order, a rearrangement of the rows. *)
Definition enforce (s : Settings) (answered : list Task.t -> list Task.t)
    (now_cutoff now_failed now : datetime)
    (db : TaskQueue.Store) : list Call * TaskQueue.Store :=
  let timeout_seconds := task_timeout_seconds s in
  if timeout_seconds <=? 0 then ([], db)
  else
    let (timed_out_tasks, db) :=
      TaskQueue.timeout_expired_tasks now_cutoff now_failed timeout_seconds
        db in
    let timed_out_tasks := answered timed_out_tasks in
    match timed_out_tasks with
    | [] => ([], db)
    | _ :: _ => (flat_map (report s now) timed_out_tasks, db)
    end.

End TaskTimeoutManager.

(* ================================================================== *)
(** ** storage/git.py: the ignore file, the summary file and the push *)
(* ================================================================== *)

Module GitWorkspace.

Definition managed_header : string := "# Sleepless Agent managed ignores".

Definition ignore_entries : list string := ["data/"].

(** [x in l] on a list of [str]. *)
Definition mem (x : string) (l : list string) : bool :=
  existsb (String.eqb x) l.

(** [updated_lines] at the end of [_ensure_gitignore], from the lines of
    the file. *)
Definition updated_lines (existing_lines : list string) : list string :=
  let updated_lines := existing_lines in
  let updated_lines :=
    if negb (mem managed_header updated_lines) then
      let updated_lines :=
        if match updated_lines with [] => false | _ :: _ => true end
           && PyText.strip_truthy (last updated_lines "")
        then updated_lines ++ [""] else updated_lines in
      updated_lines ++ [managed_header]
    else updated_lines in
  fold_left
    (fun updated_lines entry =>
       if negb (mem entry updated_lines) then updated_lines ++ [entry]
       else updated_lines)
    ignore_entries updated_lines.

(** A text file is the list of its lines: what [read_text().splitlines()]
    gives, and what ["\n".join(lines) + "\n"] writes.  [gitignore] is
    [None] when the file does not exist; the result is the lines written,
    [None] when nothing is written. *)
Definition _ensure_gitignore (gitignore : option (list string))
  : option (list string) :=
  let existing_lines :=
    match gitignore with Some lines => lines | None => [] end in
  let updated_lines := updated_lines existing_lines in
  if list_eq_dec string_dec updated_lines existing_lines then None
  else Some updated_lines.

Definition truncation_marker : string :=
  Py.newline ++ Py.newline ++ "[output truncated for summary]".

(** [truncated_output] in [write_summary_file]. *)
Definition truncated_output (limit : Z) (result_output : string) : string :=
  let truncated_output := PyText.slice_to limit result_output in
  if limit <? PyText.len result_output
  then truncated_output ++ truncation_marker
  else truncated_output.

(** [when] is the ISO text of the clock. *)
Definition summary_content (when : string) (task_id : Z)
    (priority description result_output : string) (limit : Z) : string :=
  "# Task #" ++ Py.str_of_int task_id ++ " Summary" ++ Py.newline
  ++ Py.newline
  ++ "**When**: " ++ when ++ " UTC" ++ Py.newline
  ++ "**Priority**: " ++ priority ++ Py.newline
  ++ "**Description**: " ++ description ++ Py.newline ++ Py.newline
  ++ "## Output" ++ Py.newline ++ Py.newline
  ++ truncated_output limit result_output ++ Py.newline.

(** [written] tells whether creating the directory and writing the file
    go through; the result is the path returned, relative to the
    workspace, and the file written. *)
Definition write_summary_file (written : bool) (when : string) (task_id : Z)
    (priority description result_output : string) (limit : Z)
  : option string * option (string * string) :=
  if written then
    let name := ("task_" ++ Py.str_of_int task_id ++ "_summary.md")%string in
    (Some name,
     Some (name,
           summary_content when task_id priority description result_output
             limit))
  else (None, None).

(** What [_run_git] gives: the output, or the [RuntimeError] of a failed
    command, or another exception of the subprocess. *)
Inductive GitResult : Type :=
| GitOk (stdout : string)
| GitRuntimeError (message : string)
| GitOtherError (message : string).

(** What git and the GitHub client answer during one [push_all]:
    [remote_lines] is the output of [git remote] by lines, [None] where
    the command raises. *)
Record PushAnswers : Type := {
  remote_lines : option (list string);
  remote_url : GitResult;
  _check_remote_exists : string -> bool;
  _create_github_repo : string -> bool;
  push : GitResult
}.

(** The lines [push_all] logs. *)
Inductive Log : Type :=
| DebugNoRemote
| InfoRepositoryCreated
| WarningCreateFailed
| DebugAutoCreateFailed
| InfoPushRecovered
| WarningPushUnavailable
| DebugStillUnreachable
| ErrorPushFailed (message : string).

Definition _has_remote (a : PushAnswers) (name : string) : bool :=
  match remote_lines a with
  | Some lines => mem name lines
  | None => false
  end.

Definition unavailable (message : string) : bool :=
  Py.contains "Repository not found" message
  || Py.contains "Could not read from remote repository" message.

(** The result, the flag [_push_warning_logged] afterwards, and the lines
    logged. *)
Definition push_all (auto_create_repo : bool) (a : PushAnswers)
    (_push_warning_logged : bool) : Py.outcome unit * bool * list Log :=
  if negb (_has_remote a "origin")
  then (Py.Returned tt, _push_warning_logged, [DebugNoRemote])
  else
    let created :=
      if auto_create_repo then
        match remote_url a with
        | GitOk url =>
            if Py.truthy_str url && negb (_check_remote_exists a url) then
              if _create_github_repo a url then [InfoRepositoryCreated]
              else [WarningCreateFailed]
            else []
        | _ => [DebugAutoCreateFailed]
        end
      else [] in
    match push a with
    | GitOk _ =>
        if _push_warning_logged
        then (Py.Returned tt, false, created ++ [InfoPushRecovered])
        else (Py.Returned tt, _push_warning_logged, created)
    | GitRuntimeError message =>
        if unavailable message then
          if negb _push_warning_logged
          then (Py.Returned tt, true, created ++ [WarningPushUnavailable])
          else (Py.Returned tt, _push_warning_logged,
                created ++ [DebugStillUnreachable])
        else (Py.Raised message, _push_warning_logged,
              created ++ [ErrorPushFailed message])
    | GitOtherError message =>
        (Py.Raised message, _push_warning_logged,
         created ++ [ErrorPushFailed message])
    end.

End GitWorkspace.

(* ================================================================== *)
(** ** tasks/refinement.py *)
(* ================================================================== *)

Module Refinement.

Definition REFINEMENT_CONTEXT_KEY : string := "refinement_parent_task_id".

(** A row of the [generation_history] table. *)
Record GenerationHistory : Type := {
  history_id : Z;
  history_task_id : Z;
  source : string;
  usage_percent_at_generation : Z;
  source_metadata : option string;
  history_created_at : datetime
}.

Fixpoint lstrip (p : ascii -> bool) (s : string) : string :=
  match s with
  | EmptyString => EmptyString
  | String c s' => if p c then lstrip p s' else s
  end.

Fixpoint rstrip (p : ascii -> bool) (s : string) : string :=
  match s with
  | EmptyString => EmptyString
  | String c s' =>
      match rstrip p s' with
      | EmptyString => if p c then EmptyString else String c EmptyString
      | String d r => String c (String d r)
      end
  end.

(** [s.strip()] with [p] telling white space, and [s.strip(chars)] with
    [p] telling the characters of [chars]. *)
Definition strip (p : ascii -> bool) (s : string) : string :=
  rstrip p (lstrip p s).

(** The characters of ["- *[]"] followed by three bullets above code
    point 255, which no [string] holds. *)
Definition bullet (c : ascii) : bool :=
  Ascii.eqb c "-"%char || Ascii.eqb c " "%char || Ascii.eqb c "*"%char
  || Ascii.eqb c "["%char || Ascii.eqb c "]"%char.

Definition _normalize_text_list (items : list string) : list string :=
  flat_map
    (fun item =>
       let text := strip PyText.isspace item in
       let text := strip bullet text in
       if Py.truthy_str text then [text] else [])
    items.

(** [x or []] on an optional list. *)
Definition or_nil (x : option (list string)) : list string :=
  match x with Some l => l | None => [] end.

Definition build_refinement_description (source_task : Task.t)
    (project_name : option string)
    (recommendations outstanding_items : option (list string)) : string :=
  let recommendations := _normalize_text_list (or_nil recommendations) in
  let outstanding_items := _normalize_text_list (or_nil outstanding_items) in
  let base_label :=
    match project_name with
    | Some n => Py.str_or n "project"
    | None => "project"
    end in
  match recommendations with
  | first :: _ => "Refine " ++ base_label ++ ": " ++ first
  | [] =>
      match outstanding_items with
      | first :: _ => "Refine " ++ base_label ++ ": " ++ first
      | [] =>
          "Refine " ++ base_label ++ ": "
          ++ Py.take 140 (Task.description source_task)
      end
  end.

(** [d.get(key)] on the dictionary [json.loads] built: of two members
    with one key the later one counts. *)
Fixpoint dict_get (key : string) (d : Py.dict) : option Py.json :=
  match d with
  | [] => None
  | (k, v) :: rest =>
      match dict_get key rest with
      | Some later => Some later
      | None => if String.eqb k key then Some v else None
      end
  end.

(** [v == n] for an [int] [n]: a [bool] is equal to 0 or 1. *)
Definition eq_int (v : Py.json) (n : Z) : bool :=
  match v with
  | Py.JInt m => m =? n
  | Py.JBool b => (if b then 1 else 0) =? n
  | _ => false
  end.

(** The rows the loop of [ensure_refinement_task] runs over. *)
Definition is_candidate (x : Task.t) : bool :=
  (TaskStatus_eqb (Task.status x) PENDING
   || TaskStatus_eqb (Task.status x) IN_PROGRESS)
  && match Task.context x with Some _ => true | None => false end.

(** The loop over the candidates: it returns whether one of them refines
    the task [parent_id], and raises the [AttributeError] of [get] on a
    context that is not a dictionary. *)
Fixpoint already_refined {J : Py.JsonModule} (parent_id : Z)
    (existing : list Task.t) : Py.outcome bool :=
  match existing with
  | [] => Py.Returned false
  | candidate :: rest =>
      match Task.context candidate with
      | Some text =>
          match Py.loads text with
          | None => already_refined parent_id rest
          | Some (Py.JDict context) =>
              if match dict_get REFINEMENT_CONTEXT_KEY context with
                 | Some v => eq_int v parent_id
                 | None => false
                 end
              then Py.Returned true
              else already_refined parent_id rest
          | Some Py.JNull =>
              Py.Raised "'NoneType' object has no attribute 'get'"
          | Some (Py.JBool _) =>
              Py.Raised "'bool' object has no attribute 'get'"
          | Some (Py.JInt _) =>
              Py.Raised "'int' object has no attribute 'get'"
          | Some (Py.JStr _) =>
              Py.Raised "'str' object has no attribute 'get'"
          | Some (Py.JList _) =>
              Py.Raised "'list' object has no attribute 'get'"
          | Some (Py.JTuple _) =>
              Py.Raised "'tuple' object has no attribute 'get'"
          end
      | None => already_refined parent_id rest
      end
  end.

Definition next_history_id (history : list GenerationHistory) : Z :=
  1 + fold_right (fun x m => Z.max (history_id x) m) 0 history.

(** [now] is the reading of the clock for the new task, [generated_at]
    the ISO text of the one for its context, [history_now] the one for
    the history row. *)
Definition ensure_refinement_task {J : Py.JsonModule}
    (now history_now : datetime) (generated_at : string)
    (source_task : Task.t) (project_name : option string)
    (recommendations outstanding_items : option (list string))
    (db : TaskQueue.Store) (history : list GenerationHistory)
  : Py.outcome (option Task.t) * TaskQueue.Store * list GenerationHistory :=
  let parent_id := Task.id source_task in
  let existing := filter is_candidate db in
  match already_refined parent_id existing with
  | Py.Raised exc => (Py.Raised exc, db, history)
  | Py.Returned true => (Py.Returned None, db, history)
  | Py.Returned false =>
      let description :=
        build_refinement_description source_task project_name recommendations
          outstanding_items in
      let context :=
        [("generated_by", Py.JStr "refinement");
         (REFINEMENT_CONTEXT_KEY, Py.JInt parent_id);
         ("generated_at", Py.JStr generated_at)] in
      let (refinement_task, db) :=
        TaskQueue.add_task now description SERIOUS (Some context) None None
          (Task.project_id source_task) project_name db in
      let row :=
        {| history_id := next_history_id history;
           history_task_id := Task.id refinement_task;
           source := "refinement";
           usage_percent_at_generation := 0;
           source_metadata :=
             Some (Py.dumps (Py.JDict [("parent_task_id", Py.JInt parent_id)]));
           history_created_at := history_now |} in
      (Py.Returned (Some refinement_task), db, history ++ [row])
  end.

End Refinement.

(* ================================================================== *)
(** ** storage/git.py: the commit workflow *)
(* ================================================================== *)

Module GitWorkflow.

(** [is_break c]: [c] ends a line for [str.splitlines], among the code
    points below 256; the pair carriage return, line feed ends one
    line. *)
Definition is_break (c : ascii) : bool :=
  let n := nat_of_ascii c in
  ((Nat.leb 10 n && Nat.leb n 13) || (Nat.leb 28 n && Nat.leb n 30)
   || Nat.eqb n 133)%bool.

Fixpoint splitlines_from (line : string) (s : string) : list string :=
  match s with
  | EmptyString =>
      match line with EmptyString => [] | String _ _ => [line] end
  | String c s' =>
      if Nat.eqb (nat_of_ascii c) 13 then
        match s' with
        | String d s'' =>
            if Nat.eqb (nat_of_ascii d) 10
            then line :: splitlines_from EmptyString s''
            else line :: splitlines_from EmptyString s'
        | EmptyString => [line]
        end
      else if is_break c then line :: splitlines_from EmptyString s'
      else splitlines_from (line ++ String c EmptyString) s'
  end.

(** [s.splitlines()]. *)
Definition splitlines (s : string) : list string :=
  splitlines_from EmptyString s.

(** A git command: the arguments after [git]. *)
Definition Command : Type := list string.

(** What the workflow is built over: the configuration of the manager,
    and the answers of git, of the file system and of the GitHub client.
    [run_git done args] is what [_run_git] gives for the arguments
    [args] after the commands [done]; [check_ignore path] is the return code of
    [git check-ignore], [None] where the subprocess raises;
    [resolve workspace file] is the path of the file relative to the
    repository, [None] where it lies outside.  [repo_exists] is whether
    the directory [.git] exists; [mkdir_ok], [touch_ok] and
    [gitignore_ok] are whether creating the directory, touching
    [.gitkeep] and reading and writing [.gitignore] go through, an
    exception being raised where they do not. *)
Record Env : Type := {
  main_branch : string;
  default_task_branch : string;
  auto_create_repo : bool;
  run_git : list Command -> Command -> GitWorkspace.GitResult;
  mkdir_ok : bool;
  repo_exists : bool;
  touch_ok : bool;
  gitignore_ok : bool;
  check_ignore : string -> option Z;
  resolve : string -> string -> option string;
  _check_remote_exists : string -> bool;
  _create_github_repo : string -> bool
}.

(** The repository and the manager: the commands run so far, the flag of
    the push warning, the lines of the ignore file ([None] when there is
    no file) and the lines logged by [push_all]. *)
Record Repo : Type := mkRepo {
  commands : list Command;
  _push_warning_logged : bool;
  gitignore : option (list string);
  logged : list GitWorkspace.Log
}.

(** The exceptions the workflow tells apart, with [str(exc)]. *)
Inductive Failure : Type :=
| RuntimeError (message : string)
| OtherError (message : string).

(** A step of the workflow: it changes the repository and either returns
    or raises. *)
Definition G (A : Type) : Type := Repo -> (Failure + A) * Repo.

Definition ret {A : Type} (a : A) : G A := fun r => (inr a, r).

Definition raise {A : Type} (e : Failure) : G A := fun r => (inl e, r).

Definition bind {A B : Type} (m : G A) (k : A -> G B) : G B :=
  fun r =>
    match m r with
    | (inl e, r') => (inl e, r')
    | (inr a, r') => k a r'
    end.

Definition try_except {A : Type} (body : G A) (handler : Failure -> G A)
  : G A :=
  fun r =>
    match body r with
    | (inl e, r') => handler e r'
    | (inr a, r') => (inr a, r')
    end.

Definition then_ {A B : Type} (m : G A) (k : G B) : G B :=
  bind m (fun _ => k).

Definition _run_git (env : Env) (args : Command) : G string :=
  fun r =>
    let r' :=
      mkRepo (commands r ++ [args]) (_push_warning_logged r) (gitignore r)
        (logged r) in
    match run_git env (commands r) args with
    | GitWorkspace.GitOk stdout => (inr stdout, r')
    | GitWorkspace.GitRuntimeError message => (inl (RuntimeError message), r')
    | GitWorkspace.GitOtherError message => (inl (OtherError message), r')
    end.

Definition _has_commits (env : Env) : G bool :=
  try_except (then_ (_run_git env ["rev-parse"; "HEAD"]) (ret true))
    (fun _ => ret false).

Definition _branch_exists (env : Env) (branch : string) : G bool :=
  try_except (then_ (_run_git env ["rev-parse"; "--verify"; branch]) (ret true))
    (fun _ => ret false).

Definition _checkout (env : Env) (branch : string) : G unit :=
  then_ (_run_git env ["checkout"; branch]) (ret tt).

Definition ensure_branch (env : Env) (branch : string) : G unit :=
  bind (_branch_exists env branch) (fun found =>
    if found then ret tt
    else
      then_ (_checkout env (main_branch env))
        (then_ (_run_git env ["branch"; branch; main_branch env]) (ret tt))).

(** A step of the file system that raises when [ok] is false. *)
Definition file_system (ok : bool) (what : string) : G unit :=
  if ok then ret tt else raise (OtherError what).

(** [_ensure_gitignore], on the ignore file of the repository. *)
Definition _ensure_gitignore (env : Env) : G unit :=
  then_ (file_system (gitignore_ok env) "cannot access .gitignore")
    (fun r =>
       match GitWorkspace._ensure_gitignore (gitignore r) with
       | Some written =>
           (inr tt,
            mkRepo (commands r) (_push_warning_logged r) (Some written)
              (logged r))
       | None => (inr tt, r)
       end).

Definition init_repo (env : Env) : G bool :=
  try_except
    (then_ (file_system (mkdir_ok env) "cannot create the directory")
       (then_
          (if negb (repo_exists env) then
             then_ (_run_git env ["init"])
               (then_
                  (_run_git env
                     ["config"; "user.email"; "agent@sleepless.local"])
                  (then_
                     (_run_git env ["config"; "user.name"; "Sleepless Agent"])
                     (ret tt)))
           else ret tt)
          (bind (_has_commits env) (fun has_commits =>
             then_
               (if negb has_commits then
                  then_ (file_system (touch_ok env) "cannot create .gitkeep")
                    (then_ (_run_git env ["add"; ".gitkeep"])
                       (then_ (_run_git env ["commit"; "-m"; "Initial commit"])
                          (ret tt)))
                else ret tt)
               (then_
                  (if negb (String.eqb (default_task_branch env)
                              (main_branch env))
                   then ensure_branch env (default_task_branch env)
                   else ret tt)
                  (then_ (_ensure_gitignore env) (ret true)))))))
    (fun _ => ret false).

Definition _normalize_files (env : Env) (workspace_path : string)
    (files : list string) : list string :=
  flat_map
    (fun file =>
       match resolve env workspace_path file with
       | Some rel_path => [rel_path]
       | None => []
       end)
    files.

Definition _is_ignored (env : Env) (path : string) : bool :=
  match check_ignore env path with
  | Some returncode => returncode =? 0
  | None => false
  end.

Definition _filter_tracked_paths (env : Env) (paths : list string)
  : list string :=
  filter (fun path => negb (_is_ignored env path)) paths.

Definition _stage (env : Env) (files : list string) : G unit :=
  match files with
  | [] => ret tt
  | _ :: _ =>
      match _filter_tracked_paths env files with
      | [] => ret tt
      | tracked => then_ (_run_git env ("add" :: "--" :: tracked)) (ret tt)
      end
  end.

Definition _has_pending_changes (env : Env) : G bool :=
  bind (_run_git env ["status"; "--porcelain"]) (fun status =>
    ret (PyText.strip_truthy status)).

Definition _commit_if_needed (env : Env) (message : string)
  : G (option string) :=
  bind (_has_pending_changes env) (fun pending =>
    if negb pending then ret None
    else
      then_ (_run_git env ["commit"; "-m"; message])
        (bind (_run_git env ["rev-parse"; "HEAD"]) (fun sha =>
           ret (Some sha)))).

Definition _fast_forward_with_main (env : Env) (branch : string) : G unit :=
  if String.eqb branch (main_branch env) then ret tt
  else
    try_except
      (then_ (_run_git env ["merge"; "--ff-only"; main_branch env]) (ret tt))
      (fun _ => ret tt).

Definition _merge_branch_into_main (env : Env) (branch : string) : G unit :=
  if String.eqb branch (main_branch env) then ret tt
  else
    then_ (_checkout env (main_branch env))
      (try_except
         (then_ (_run_git env ["merge"; "--ff-only"; branch]) (ret tt))
         (fun exc =>
            match exc with
            | RuntimeError _ =>
                then_
                  (_run_git env
                     ["merge"; "--no-ff"; branch; "-m";
                      ("Merge branch '" ++ branch ++ "'")%string])
                  (ret tt)
            | OtherError _ => raise exc
            end)).

(** [push_all]: the commands it runs, and [GitWorkspace.push_all] on
    what they answer. *)
Definition push_all (env : Env) : G unit :=
  fun r =>
    let remotes := ["remote"] in
    let get_url := ["remote"; "get-url"; "origin"] in
    let push := ["push"; "--all"; "origin"] in
    let done1 := commands r ++ [remotes] in
    let remote_lines :=
      match run_git env (commands r) remotes with
      | GitWorkspace.GitOk stdout => Some (splitlines stdout)
      | _ => None
      end in
    let has_remote :=
      match remote_lines with
      | Some lines => GitWorkspace.mem "origin" lines
      | None => false
      end in
    let done2 :=
      if has_remote && auto_create_repo env then done1 ++ [get_url]
      else done1 in
    let done3 := if has_remote then done2 ++ [push] else done2 in
    let answers :=
      {| GitWorkspace.remote_lines := remote_lines;
         GitWorkspace.remote_url := run_git env done1 get_url;
         GitWorkspace._check_remote_exists := _check_remote_exists env;
         GitWorkspace._create_github_repo := _create_github_repo env;
         GitWorkspace.push := run_git env done2 push |} in
    let '(result, flag, lines) :=
      GitWorkspace.push_all (auto_create_repo env) answers
        (_push_warning_logged r) in
    let r' := mkRepo done3 flag (gitignore r) (logged r ++ lines) in
    match result with
    | Py.Returned _ => (inr tt, r')
    | Py.Raised message =>
        match run_git env done2 push with
        | GitWorkspace.GitOtherError _ => (inl (OtherError message), r')
        | _ => (inl (RuntimeError message), r')
        end
    end.

Definition commit_workspace_changes (env : Env) (branch : string)
    (workspace_path : string) (files : list string) (message : string)
  : G (option string) :=
  then_ (init_repo env)
    (then_ (ensure_branch env branch)
       (let repo_relative_files := _normalize_files env workspace_path files in
        match repo_relative_files with
        | [] => ret None
        | _ :: _ =>
            then_ (_checkout env branch)
              (then_ (_fast_forward_with_main env branch)
                 (then_ (_stage env repo_relative_files)
                    (bind (_commit_if_needed env message) (fun commit_sha =>
                       if negb (Py.truthy_opt_str commit_sha) then
                         then_ (_checkout env (main_branch env)) (ret None)
                       else
                         then_ (_merge_branch_into_main env branch)
                           (then_ (push_all env) (ret commit_sha))))))
        end)).

End GitWorkflow.

(* ================================================================== *)
(** * Vocabulary of the properties *)
(* ================================================================== *)

(** The terminal statuses. *)
Definition terminal (s : TaskStatus) : Prop :=
  s = COMPLETED \/ s = FAILED \/ s = CANCELLED.

(** An IN_PROGRESS row whose [started_at] is older than
    [now - max_age_seconds]. *)
Definition stale (now : datetime) (max_age_seconds : Z) (x : Task.t) : Prop :=
  Task.status x = IN_PROGRESS
  /\ exists started,
       Task.started_at x = Some started
       /\ started < now - seconds max_age_seconds.

(** [a] comes somewhere before [b] in [l]. *)
Definition precedes {A : Type} (l : list A) (a b : A) : Prop :=
  exists l1 l2 l3, l = l1 ++ a :: l2 ++ b :: l3.

(** The order of [get_pending_tasks]: priority rank, then [created_at]. *)
Definition rank_then_created (a b : Task.t) : Prop :=
  TaskQueue.priority_order a < TaskQueue.priority_order b
  \/ (TaskQueue.priority_order a = TaskQueue.priority_order b
      /\ Task.created_at a <= Task.created_at b).

(** The row [x] after a timeout at [now]: FAILED, [completed_at] set, the
    generated message, every other column as before. *)
Definition timed_out (now : datetime) (max_age_seconds : Z) (x : Task.t)
  : Task.t :=
  Task.mk (Task.id x) (Task.description x) (Task.priority x)
    (Task.task_type x) FAILED (Task.created_at x) (Task.started_at x)
    (Some now) (Task.deleted_at x) (Task.attempt_count x)
    (Some ("Timed out after exceeding "
           ++ Py.str_of_int (max_age_seconds / 60) ++ " minute limit.")%string)
    (Task.result_id x) (Task.context x) (Task.assigned_to x)
    (Task.slack_thread_ts x) (Task.project_id x) (Task.project_name x).

(** The row [x] after [mark_in_progress] at [now]: IN_PROGRESS, a new
    [started_at], one more attempt, every other column as before. *)
Definition started (now : datetime) (x : Task.t) : Task.t :=
  Task.mk (Task.id x) (Task.description x) (Task.priority x)
    (Task.task_type x) IN_PROGRESS (Task.created_at x) (Some now)
    (Task.completed_at x) (Task.deleted_at x) (Task.attempt_count x + 1)
    (Task.error_message x) (Task.result_id x) (Task.context x)
    (Task.assigned_to x) (Task.slack_thread_ts x) (Task.project_id x)
    (Task.project_name x).

(** The row [x] after [mark_completed] at [now]: COMPLETED, a new
    [completed_at], the [result_id] given, every other column as before. *)
Definition completed (now : datetime) (result_id : option Z) (x : Task.t)
  : Task.t :=
  Task.mk (Task.id x) (Task.description x) (Task.priority x)
    (Task.task_type x) COMPLETED (Task.created_at x) (Task.started_at x)
    (Some now) (Task.deleted_at x) (Task.attempt_count x)
    (Task.error_message x) result_id (Task.context x) (Task.assigned_to x)
    (Task.slack_thread_ts x) (Task.project_id x) (Task.project_name x).

(** The row [x] after [mark_failed] at [now]: FAILED, the message given,
    [completed_at] set to [now] if it was unset and kept if it was set,
    every other column as before. *)
Definition failed (now : datetime) (error_message : string) (x : Task.t)
  : Task.t :=
  Task.mk (Task.id x) (Task.description x) (Task.priority x)
    (Task.task_type x) FAILED (Task.created_at x) (Task.started_at x)
    (match Task.completed_at x with
     | Some at_ => Some at_
     | None => Some now
     end)
    (Task.deleted_at x) (Task.attempt_count x) (Some error_message)
    (Task.result_id x) (Task.context x) (Task.assigned_to x)
    (Task.slack_thread_ts x) (Task.project_id x) (Task.project_name x).

(** The row [x] after [update_priority]: the priority given, every other
    column as before. *)
Definition reprioritised (priority : TaskPriority) (x : Task.t) : Task.t :=
  Task.mk (Task.id x) (Task.description x) priority (Task.task_type x)
    (Task.status x) (Task.created_at x) (Task.started_at x)
    (Task.completed_at x) (Task.deleted_at x) (Task.attempt_count x)
    (Task.error_message x) (Task.result_id x) (Task.context x)
    (Task.assigned_to x) (Task.slack_thread_ts x) (Task.project_id x)
    (Task.project_name x).

(** [db'] is [db] with the row at position [i] replaced by [x']: the
    other rows are as they were. *)
Definition rewritten_at (i : nat) (x' : Task.t) (db db' : list Task.t)
  : Prop :=
  List.length db' = List.length db
  /\ nth_error db' i = Some x'
  /\ forall j, j <> i -> nth_error db' j = nth_error db j.

(** A finished task, for the examples. *)
Definition completed_task : Task.t :=
  Task.mk 1 "write the report" SERIOUS (Some NEW) COMPLETED 10 (Some 20)
    (Some 30) None 1 None (Some 7) None None None None None.

(** The commit manager answers every call: it may commit or not, it does
    not raise. *)
Definition commit_never_raises (c : TaskRuntime.Collaborators) : Prop :=
  forall branch workspace files message,
  exists sha,
    TaskRuntime.commit_workspace_changes c branch workspace files message
    = Py.Returned sha.

(** The evaluator status, in upper case, is one of the failing ones. *)
Definition reports_failure (eval_status : option string) : Prop :=
  exists s,
    eval_status = Some s
    /\ In (Py.upper s) ["INCOMPLETE"; "FAILED"; "PARTIAL"].

(** The row [save_result] writes into the table [db]. *)
Definition saved_result (c : TaskRuntime.Collaborators) (task_id : Z)
    (output : string) (files_modified commands_executed : list string)
    (processing_time_seconds : option Z)
    (git_commit_sha git_pr_url git_branch workspace_path : option string)
    (db : ResultManager.Store) : Result.t :=
  Result.mk (ResultManager.next_id db) task_id output
    (ResultManager.column files_modified)
    (ResultManager.column commands_executed) git_commit_sha git_pr_url
    git_branch workspace_path processing_time_seconds
    (TaskRuntime.now_saved c).

(** A task waiting in the queue, for the examples. *)
Definition pending_task : Task.t :=
  Task.mk 1 "write the report" SERIOUS (Some NEW) PENDING 10 None None None 0
    None None None None None None None.

(** A world with that task and nothing else. *)
Definition one_task_world : TaskRuntime.World :=
  TaskRuntime.mkWorld [pending_task] [] [].

(** Collaborators for the examples: a workspace with one Python file that
    parses, a commit manager that commits, and the adapter given. *)
Definition sample_collaborators (adapter : TaskRuntime.Adapter)
  : TaskRuntime.Collaborators :=
  {| TaskRuntime.task_timeout_seconds := 1800;
     TaskRuntime.execute_task := adapter;
     TaskRuntime.get_workspace_path := "/ws/task_1";
     TaskRuntime.workspace_exists := true;
     TaskRuntime.default_task_branch := "tasks";
     TaskRuntime.read_text :=
       fun path =>
         if String.eqb path "/ws/task_1/main.py" then Some "print(1)"
         else None;
     TaskRuntime.ast_parse := fun _ => true;
     TaskRuntime.write_summary_file := Some "task_1_summary.md";
     TaskRuntime.list_workspace_files := Py.Returned ["main.py"];
     TaskRuntime.tasks_root_exists := true;
     TaskRuntime.tasks_root_relpath := Some "..";
     TaskRuntime.data_dir_exists := false;
     TaskRuntime.data_dir_relpath := Some "../../data";
     TaskRuntime.commit_workspace_changes :=
       fun _ _ _ _ => Py.Returned (Some "0a1b2c3d");
     TaskRuntime.save_result_error := None;
     TaskRuntime.processing_time := 12;
     TaskRuntime.now_started := 100;
     TaskRuntime.now_saved := 110;
     TaskRuntime.now_finished := 111;
     TaskRuntime.now_paused := 112 |}.

(** A workspace whose only file names a credential and no other keyword. *)
Definition credential_notes : GitManager.FileSystem :=
  fun path =>
    if String.eqb path "/ws/notes.txt"
    then Some "the admin credential is hunter2"
    else None.

(** The same file, naming a token instead. *)
Definition token_notes : GitManager.FileSystem :=
  fun path =>
    if String.eqb path "/ws/notes.txt"
    then Some "the admin token is hunter2"
    else None.

(** What may follow a value inside a list or a dictionary, or at the end
    of the text. *)
Definition closes (rest : string) : bool :=
  match rest with
  | EmptyString => true
  | String c _ =>
      Ascii.eqb c ","%char || Ascii.eqb c "]"%char || Ascii.eqb c "}"%char
  end.

(** The first character of a number. *)
Definition starts_number (c : ascii) : bool :=
  Ascii.eqb c "-"%char
  || match PyJson.digit c with Some _ => true | None => false end.

(** What [", ".join] writes after the first item. *)
Fixpoint joined_tail (l : list string) : string :=
  match l with
  | [] => EmptyString
  | x :: l' => ", " ++ x ++ joined_tail l'
  end.

(** The text of one member of a dictionary. *)
Definition dump_member (member : string * Py.json) : string :=
  PyJson.dump_str (fst member) ++ ": " ++ PyJson.dump (snd member).

(** The value [v] with every tuple in it turned into a list. *)
Fixpoint as_loaded (v : Py.json) : Py.json :=
  match v with
  | Py.JList items => Py.JList (map as_loaded items)
  | Py.JTuple items => Py.JList (map as_loaded items)
  | Py.JDict items =>
      Py.JDict (map (fun member => (fst member, as_loaded (snd member))) items)
  | _ => v
  end.

(** There is no tuple in [v]. *)
Fixpoint tuple_free (v : Py.json) : bool :=
  match v with
  | Py.JTuple _ => false
  | Py.JList items => forallb tuple_free items
  | Py.JDict items => forallb (fun member => tuple_free (snd member)) items
  | _ => true
  end.

(** [read_value] reads what [dump] wrote for [v], whatever closes it, and
    gives [v] with its tuples as lists. *)
Definition reads_back (v : Py.json) : Prop :=
  forall fuel rest,
    closes rest = true ->
    (String.length (PyJson.dump v ++ rest) < fuel)%nat ->
    PyJson.read_value fuel (PyJson.dump v ++ rest) = Some (as_loaded v, rest).

(** A small queue for the examples: a THOUGHT task, a SERIOUS task created
    after it, a GENERATED task created before both, a THOUGHT task that is
    done, and a THOUGHT task created last. *)
Definition queue_row (id : Z) (priority : TaskPriority) (status : TaskStatus)
    (created_at : datetime) : Task.t :=
  Task.mk id "task" priority (Some NEW) status created_at None None None 0
    None None None None None None None.

Definition sample_queue : TaskQueue.Store :=
  [queue_row 1 THOUGHT PENDING 10;
   queue_row 2 SERIOUS PENDING 50;
   queue_row 3 GENERATED PENDING 5;
   queue_row 4 THOUGHT COMPLETED 1;
   queue_row 5 THOUGHT PENDING 90].

(** A task started at second 0 and one started at second 100, both still
    running. *)
Definition running_row (id : Z) (started_at : datetime) : Task.t :=
  Task.mk id "task" SERIOUS (Some NEW) IN_PROGRESS 0 (Some started_at) None
    None 1 None None None None None None None.

Definition running_queue : TaskQueue.Store :=
  [running_row 1 0; running_row 2 (seconds 100)].

(** Collaborators whose commit manager raises. *)
Definition failing_git (adapter : TaskRuntime.Adapter)
  : TaskRuntime.Collaborators :=
  {| TaskRuntime.task_timeout_seconds := 1800;
     TaskRuntime.execute_task := adapter;
     TaskRuntime.get_workspace_path := "/ws/task_1";
     TaskRuntime.workspace_exists := true;
     TaskRuntime.default_task_branch := "tasks";
     TaskRuntime.read_text := fun _ => Some "print(1)";
     TaskRuntime.ast_parse := fun _ => true;
     TaskRuntime.write_summary_file := Some "task_1_summary.md";
     TaskRuntime.list_workspace_files := Py.Returned ["main.py"];
     TaskRuntime.tasks_root_exists := true;
     TaskRuntime.tasks_root_relpath := Some "..";
     TaskRuntime.data_dir_exists := false;
     TaskRuntime.data_dir_relpath := Some "../../data";
     TaskRuntime.commit_workspace_changes :=
       fun _ _ _ _ => Py.Raised "git command failed";
     TaskRuntime.save_result_error := None;
     TaskRuntime.processing_time := 12;
     TaskRuntime.now_started := 100;
     TaskRuntime.now_saved := 110;
     TaskRuntime.now_finished := 111;
     TaskRuntime.now_paused := 112 |}.

(** The columns no method of the queue assigns after [add_task]. *)
Definition identity (x : Task.t)
  : Z * string * option TaskType * datetime * option string * option string
    * option string * option string * option string :=
  (Task.id x, Task.description x, Task.task_type x, Task.created_at x,
   Task.context x, Task.assigned_to x, Task.slack_thread_ts x,
   Task.project_id x, Task.project_name x).

(** A call of one of the writing methods of the queue on rows that
    exist, with its arguments and the readings of the clock. *)
Inductive QueueWrite : Type :=
| WMarkInProgress (now : datetime) (task_id : Z)
| WMarkCompleted (now : datetime) (task_id : Z) (result_id : option Z)
| WMarkFailed (now : datetime) (task_id : Z) (error_message : string)
| WCancelTask (now : datetime) (task_id : Z)
| WUpdatePriority (task_id : Z) (priority : TaskPriority)
| WTimeoutExpiredTasks (now_cutoff now : datetime) (max_age_seconds : Z)
| WDeleteProject (clock : nat -> datetime) (project_id : string).

(** The table after the call. *)
Definition after_write (w : QueueWrite) (db : TaskQueue.Store)
  : TaskQueue.Store :=
  match w with
  | WMarkInProgress now task_id =>
      snd (TaskQueue.mark_in_progress now task_id db)
  | WMarkCompleted now task_id result_id =>
      snd (TaskQueue.mark_completed now task_id result_id db)
  | WMarkFailed now task_id error_message =>
      snd (TaskQueue.mark_failed now task_id error_message db)
  | WCancelTask now task_id => snd (TaskQueue.cancel_task now task_id db)
  | WUpdatePriority task_id priority =>
      snd (TaskQueue.update_priority task_id priority db)
  | WTimeoutExpiredTasks now_cutoff now max_age_seconds =>
      snd (TaskQueue.timeout_expired_tasks now_cutoff now max_age_seconds db)
  | WDeleteProject clock project_id =>
      snd (TaskQueueViews.delete_project clock project_id db)
  end.

(** The table after the calls, made in the order of the list. *)
Definition after_writes (ws : list QueueWrite) (db : TaskQueue.Store)
  : TaskQueue.Store :=
  fold_left (fun db w => after_write w db) ws db.

(** Newest first. *)
Definition not_older (a b : Task.t) : Prop :=
  Task.created_at b <= Task.created_at a.

(** The PENDING rows of a project. *)
Definition pending_in_project (project_id : string) (x : Task.t) : bool :=
  TaskQueueViews.in_project project_id x
  && TaskQueueViews.has_status PENDING x.

(** The row [x] after a soft delete at [now]. *)
Definition soft_deleted (now : datetime) (x : Task.t) : Task.t :=
  Task.mk (Task.id x) (Task.description x) (Task.priority x)
    (Task.task_type x) CANCELLED (Task.created_at x) (Task.started_at x)
    (Task.completed_at x) (Some now) (Task.attempt_count x)
    (Task.error_message x) (Task.result_id x) (Task.context x)
    (Task.assigned_to x) (Task.slack_thread_ts x) (Task.project_id x)
    (Task.project_name x).

(** [tasks] are the [limit] newest of the [candidates], newest first. *)
Definition newest_of (limit : nat) (candidates tasks : list Task.t) : Prop :=
  List.length tasks = Nat.min limit (List.length candidates)
  /\ (forall x, In x tasks -> In x candidates)
  /\ StronglySorted not_older tasks
  /\ (forall x y,
        In x tasks -> In y candidates -> ~ In y tasks -> not_older x y).

(** The order of [get_projects]. *)
Definition project_id_le (a b : TaskQueueViews.ProjectRow) : Prop :=
  String.leb (TaskQueueViews.row_project_id a)
    (TaskQueueViews.row_project_id b) = true.

(** The tasks of one project carry one project name. *)
Definition names_agree (db : TaskQueue.Store) : Prop :=
  forall x y p,
    In x db -> In y db ->
    Task.project_id x = Some p -> Task.project_id y = Some p ->
    Task.project_name x = Task.project_name y.

(** Two tasks of one project stored under two names. *)
Definition renamed_project : TaskQueue.Store :=
  [Task.mk 1 "first" THOUGHT (Some NEW) PENDING 10 None None None 0 None None
     None None None (Some "site") (Some "Site");
   Task.mk 2 "second" THOUGHT (Some NEW) COMPLETED 20 None None None 0 None
     None None None None (Some "site") (Some "Web site")].

(** What [_run_write] gives when the attempt [a] is its last one. *)
Definition attempt_outcome {A : Type} (a : SQLiteStore.Attempt A)
  : SQLiteStore.Raised + A :=
  match a with
  | SQLiteStore.Commits result => inr result
  | SQLiteStore.OperationalError text =>
      inl (SQLiteStore.RaisedOperationalError text)
  | SQLiteStore.OtherException text => inl (SQLiteStore.RaisedException text)
  end.

(** The attempt of index [k] is followed by another one: it raised an
    [OperationalError] that names a read-only or locked database, and it
    is not the last of the [retries] rounds. *)
Definition retried {A : Type} (retries : Z) (k : nat)
    (a : SQLiteStore.Attempt A) : bool :=
  match a with
  | SQLiteStore.OperationalError text =>
      SQLiteStore._should_reset_on_error text && (Z.of_nat k <? retries - 1)
  | _ => false
  end.

(** The events of an attempt that is retried, and of the last attempt. *)
Definition retry_events : list SQLiteStore.Event :=
  [SQLiteStore.OpenSession; SQLiteStore.Rollback; SQLiteStore.ResetEngine;
   SQLiteStore.CloseSession].

Definition last_events {A : Type} (a : SQLiteStore.Attempt A)
  : list SQLiteStore.Event :=
  match a with
  | SQLiteStore.Commits _ =>
      [SQLiteStore.OpenSession; SQLiteStore.Commit; SQLiteStore.CloseSession]
  | _ =>
      [SQLiteStore.OpenSession; SQLiteStore.Rollback;
       SQLiteStore.CloseSession]
  end.

(** A write that meets a locked database once and then goes through. *)
Definition locked_once (k : nat) : SQLiteStore.Attempt Z :=
  match k with
  | O => SQLiteStore.OperationalError
           "(sqlite3.OperationalError) database is locked"
  | S _ => SQLiteStore.Commits 5
  end.

(** The flag and the lines logged after the calls of [push_all] made in
    the order of the list, whatever each returns or raises. *)
Fixpoint pushes (auto_create_repo : bool) (flag : bool)
    (calls : list GitWorkspace.PushAnswers) : bool * list GitWorkspace.Log :=
  match calls with
  | [] => (flag, [])
  | a :: calls =>
      let '(_, flag, logged) :=
        GitWorkspace.push_all auto_create_repo a flag in
      let (flag, later) := pushes auto_create_repo flag calls in
      (flag, logged ++ later)
  end.

(** In [logs], the warning of an unavailable remote and the notice of a
    recovery alternate; [warned] tells whether the last of the two before
    [logs] was the warning. *)
Fixpoint alternates (warned : bool) (logs : list GitWorkspace.Log) : bool :=
  match logs with
  | [] => true
  | GitWorkspace.WarningPushUnavailable :: logs =>
      negb warned && alternates true logs
  | GitWorkspace.InfoPushRecovered :: logs => warned && alternates false logs
  | _ :: logs => alternates warned logs
  end.

(** A remote that cannot be reached. *)
Definition unreachable : GitWorkspace.PushAnswers :=
  {| GitWorkspace.remote_lines := Some ["origin"];
     GitWorkspace.remote_url := GitWorkspace.GitOk "git@github.com:me/ws.git";
     GitWorkspace._check_remote_exists := fun _ => true;
     GitWorkspace._create_github_repo := fun _ => false;
     GitWorkspace.push :=
       GitWorkspace.GitRuntimeError
         "fatal: Could not read from remote repository." |}.

(** Whatever the world, [m] relates the world before to the world after
    by [R], whether it returns or raises. *)
Definition keeps {A : Type} (R : TaskRuntime.World -> TaskRuntime.World -> Prop)
    (m : TaskRuntime.M A) : Prop :=
  forall w, R w (snd (m w)).

(** [m] never raises. *)
Definition never_raises {A : Type} (m : TaskRuntime.M A) : Prop :=
  forall w, exists a, fst (m w) = inr a.

(** What [m] raises is an [Exception]: it is never cancelled. *)
Definition never_cancelled {A : Type} (m : TaskRuntime.M A) : Prop :=
  forall w, fst (m w) <> inl TaskRuntime.CancelledError.

(** What the steps of [execute] after [mark_in_progress] leave as it is:
    the rows of the other tasks, the columns of every row that are set
    when it is added, the attempts counted and the start time of the task
    itself, which does not go back to PENDING; calls are only added. *)
Definition touches_only (task_id : Z) (w w' : TaskRuntime.World) : Prop :=
  (forall other,
     other <> task_id ->
     TaskQueue.query_first other (TaskRuntime.tasks w')
     = TaskQueue.query_first other (TaskRuntime.tasks w))
  /\ map identity (TaskRuntime.tasks w') = map identity (TaskRuntime.tasks w)
  /\ (forall row,
        TaskQueue.query_first task_id (TaskRuntime.tasks w) = Some row ->
        exists row',
          TaskQueue.query_first task_id (TaskRuntime.tasks w') = Some row'
          /\ Task.attempt_count row' = Task.attempt_count row
          /\ Task.started_at row' = Task.started_at row
          /\ (Task.status row <> PENDING -> Task.status row' <> PENDING))
  /\ (TaskQueue.query_first task_id (TaskRuntime.tasks w) = None ->
      TaskRuntime.tasks w' = TaskRuntime.tasks w)
  /\ exists later, TaskRuntime.calls w' = TaskRuntime.calls w ++ later.

(** Collaborators for the examples whose result store cannot be
    written. *)
Definition failing_store (adapter : TaskRuntime.Adapter)
  : TaskRuntime.Collaborators :=
  {| TaskRuntime.task_timeout_seconds := 1800;
     TaskRuntime.execute_task := adapter;
     TaskRuntime.get_workspace_path := "/ws/task_1";
     TaskRuntime.workspace_exists := true;
     TaskRuntime.default_task_branch := "tasks";
     TaskRuntime.read_text := fun _ => Some "print(1)";
     TaskRuntime.ast_parse := fun _ => true;
     TaskRuntime.write_summary_file := Some "task_1_summary.md";
     TaskRuntime.list_workspace_files := Py.Returned ["main.py"];
     TaskRuntime.tasks_root_exists := true;
     TaskRuntime.tasks_root_relpath := Some "..";
     TaskRuntime.data_dir_exists := false;
     TaskRuntime.data_dir_relpath := Some "../../data";
     TaskRuntime.commit_workspace_changes :=
       fun _ _ _ _ => Py.Returned (Some "0a1b2c3d");
     TaskRuntime.save_result_error := Some "disk full";
     TaskRuntime.processing_time := 12;
     TaskRuntime.now_started := 100;
     TaskRuntime.now_saved := 110;
     TaskRuntime.now_finished := 111;
     TaskRuntime.now_paused := 112 |}.

(** [entry] is one of the paths [_collect_commit_targets] gathers, as it
    is before [as_posix]: a base file that is not empty, a file listed in
    the workspace, or the parent directory of the workspace or the shared
    data directory, where they exist, as [os.path.relpath] gives them
    when that is neither empty nor a dot. *)
Definition gathered (c : TaskRuntime.Collaborators) (base_files : list string)
    (entry : string) : Prop :=
  (In entry base_files /\ entry <> "")
  \/ (exists files,
        TaskRuntime.list_workspace_files c = Py.Returned files
        /\ In entry files)
  \/ (TaskRuntime.tasks_root_exists c = true
      /\ TaskRuntime.tasks_root_relpath c = Some entry
      /\ entry <> "" /\ entry <> ".")
  \/ (TaskRuntime.data_dir_exists c = true
      /\ TaskRuntime.data_dir_relpath c = Some entry
      /\ entry <> "" /\ entry <> ".").

(** A workspace whose files cannot be listed and that has no directory
    above it to add. *)
Definition bare_workspace : TaskRuntime.Collaborators :=
  {| TaskRuntime.task_timeout_seconds := 1800;
     TaskRuntime.execute_task := TaskRuntime.DeadlineExceeded;
     TaskRuntime.get_workspace_path := "/ws/task_1";
     TaskRuntime.workspace_exists := true;
     TaskRuntime.default_task_branch := "tasks";
     TaskRuntime.read_text := fun _ => None;
     TaskRuntime.ast_parse := fun _ => true;
     TaskRuntime.write_summary_file := None;
     TaskRuntime.list_workspace_files := Py.Raised "cannot list";
     TaskRuntime.tasks_root_exists := true;
     TaskRuntime.tasks_root_relpath := None;
     TaskRuntime.data_dir_exists := false;
     TaskRuntime.data_dir_relpath := None;
     TaskRuntime.commit_workspace_changes := fun _ _ _ _ => Py.Returned None;
     TaskRuntime.save_result_error := None;
     TaskRuntime.processing_time := 12;
     TaskRuntime.now_started := 100;
     TaskRuntime.now_saved := 110;
     TaskRuntime.now_finished := 111;
     TaskRuntime.now_paused := 112 |}.

(** A workspace where the adapter reports one file and leaves a second
    one, which names a password, unreported. *)
Definition unreported_secret : TaskRuntime.Collaborators :=
  {| TaskRuntime.task_timeout_seconds := 1800;
     TaskRuntime.execute_task :=
       TaskRuntime.Returns "done" ["main.py"] [] 0 None None;
     TaskRuntime.get_workspace_path := "/ws/task_1";
     TaskRuntime.workspace_exists := true;
     TaskRuntime.default_task_branch := "tasks";
     TaskRuntime.read_text :=
       fun path =>
         if String.eqb path "/ws/task_1/main.py" then Some "print(1)"
         else if String.eqb path "/ws/task_1/settings.env"
              then Some "PASSWORD=hunter2"
              else None;
     TaskRuntime.ast_parse := fun _ => true;
     TaskRuntime.write_summary_file := Some "task_1_summary.md";
     TaskRuntime.list_workspace_files :=
       Py.Returned ["main.py"; "./settings.env"];
     TaskRuntime.tasks_root_exists := true;
     TaskRuntime.tasks_root_relpath := Some "..";
     TaskRuntime.data_dir_exists := false;
     TaskRuntime.data_dir_relpath := Some "../../data";
     TaskRuntime.commit_workspace_changes :=
       fun _ _ _ _ => Py.Returned (Some "0a1b2c3d");
     TaskRuntime.save_result_error := None;
     TaskRuntime.processing_time := 12;
     TaskRuntime.now_started := 100;
     TaskRuntime.now_saved := 110;
     TaskRuntime.now_finished := 111;
     TaskRuntime.now_paused := 112 |}.

(** [w'] has the calls of [w] followed by calls that all satisfy [P]. *)
Definition adds_calls (P : TaskRuntime.Call -> Prop)
    (w w' : TaskRuntime.World) : Prop :=
  exists later,
    TaskRuntime.calls w' = TaskRuntime.calls w ++ later /\ Forall P later.

(** When [execute] may write the summary file or commit: the adapter has
    returned, the Result is saved and the workspace exists; the commit is
    then of files, some, of that workspace on the branch of the
    project. *)
Definition commit_allowed (c : TaskRuntime.Collaborators) (task : Task.t)
    (call : TaskRuntime.Call) : Prop :=
  let ready :=
    TaskRuntime.workspace_exists c = true
    /\ TaskRuntime.save_result_error c = None
    /\ exists result_output files_modified commands_executed exit_code
              usage_metrics eval_status,
         TaskRuntime.execute_task c
         = TaskRuntime.Returns result_output files_modified commands_executed
             exit_code usage_metrics eval_status in
  match call with
  | TaskRuntime.CommitWorkspaceChanges branch workspace files message =>
      ready
      /\ branch
         = GitManager.determine_branch (TaskRuntime.default_task_branch c)
             (Task.project_id task)
      /\ workspace = TaskRuntime.get_workspace_path c
      /\ files <> []
  | TaskRuntime.WriteSummaryFile workspace =>
      ready /\ workspace = TaskRuntime.get_workspace_path c
  | TaskRuntime.CleanupWorkspaceCaches workspace =>
      ready /\ workspace = TaskRuntime.get_workspace_path c
  | _ => True
  end.

(** The collaborators [c] with another answer of the adapter. *)
Definition with_adapter (c : TaskRuntime.Collaborators)
    (adapter : TaskRuntime.Adapter) : TaskRuntime.Collaborators :=
  {| TaskRuntime.task_timeout_seconds := TaskRuntime.task_timeout_seconds c;
     TaskRuntime.execute_task := adapter;
     TaskRuntime.get_workspace_path := TaskRuntime.get_workspace_path c;
     TaskRuntime.workspace_exists := TaskRuntime.workspace_exists c;
     TaskRuntime.default_task_branch := TaskRuntime.default_task_branch c;
     TaskRuntime.read_text := TaskRuntime.read_text c;
     TaskRuntime.ast_parse := TaskRuntime.ast_parse c;
     TaskRuntime.write_summary_file := TaskRuntime.write_summary_file c;
     TaskRuntime.list_workspace_files := TaskRuntime.list_workspace_files c;
     TaskRuntime.tasks_root_exists := TaskRuntime.tasks_root_exists c;
     TaskRuntime.tasks_root_relpath := TaskRuntime.tasks_root_relpath c;
     TaskRuntime.data_dir_exists := TaskRuntime.data_dir_exists c;
     TaskRuntime.data_dir_relpath := TaskRuntime.data_dir_relpath c;
     TaskRuntime.commit_workspace_changes :=
       TaskRuntime.commit_workspace_changes c;
     TaskRuntime.save_result_error := TaskRuntime.save_result_error c;
     TaskRuntime.processing_time := TaskRuntime.processing_time c;
     TaskRuntime.now_started := TaskRuntime.now_started c;
     TaskRuntime.now_saved := TaskRuntime.now_saved c;
     TaskRuntime.now_finished := TaskRuntime.now_finished c;
     TaskRuntime.now_paused := TaskRuntime.now_paused c |}.

(** The steps of [execute] between [mark_in_progress] and the mark that
    ends it, when the adapter has returned: saving the Result, cleaning
    the workspace and committing. *)
Definition save_and_commit (c : TaskRuntime.Collaborators) (task : Task.t)
    (result_output : string) (files_modified commands_executed : list string)
  : TaskRuntime.M Result.t :=
  let files_modified :=
    match files_modified with
    | [] => []
    | _ :: _ => Py.sorted files_modified
    end in
  let git_branch :=
    GitManager.determine_branch (TaskRuntime.default_task_branch c)
      (Task.project_id task) in
  let workspace := TaskRuntime.get_workspace_path c in
  TaskRuntime.bind
    (TaskRuntime.save_result c (Task.id task) result_output files_modified
       commands_executed (Some (TaskRuntime.processing_time c)) None None
       (Some git_branch) (Some workspace))
    (fun result =>
       TaskRuntime.bind
         (if TaskRuntime.workspace_exists c then
            TaskRuntime.bind
              (TaskRuntime.call (TaskRuntime.CleanupWorkspaceCaches workspace))
              (fun _ =>
                 TaskRuntime.bind
                   (TaskRuntime._maybe_commit_changes c task workspace
                      files_modified result_output git_branch)
                   (fun git_commit_sha =>
                      if Py.truthy_opt_str git_commit_sha
                      then TaskRuntime.update_result_commit_info
                             (Result.id result) git_commit_sha None
                             (Some git_branch)
                      else TaskRuntime.ret tt))
          else TaskRuntime.ret tt)
         (fun _ => TaskRuntime.ret result)).

(** The context [ensure_refinement_task] gives the task it creates. *)
Definition refinement_context (parent_id : Z) (generated_at : string)
  : Py.dict :=
  [("generated_by", Py.JStr "refinement");
   ("refinement_parent_task_id", Py.JInt parent_id);
   ("generated_at", Py.JStr generated_at)].

(** The commands of the workflow the properties name. *)
Definition git_push : GitWorkflow.Command := ["push"; "--all"; "origin"].

Definition git_commit (message : string) : GitWorkflow.Command :=
  ["commit"; "-m"; message].

Definition git_checkout (branch : string) : GitWorkflow.Command :=
  ["checkout"; branch].

(** A command that neither stages paths, nor makes the commit with
    [message], nor pushes. *)
Definition plumbing (message : string) (c : GitWorkflow.Command) : Prop :=
  c <> git_commit message /\ c <> git_push
  /\ forall paths, c <> "add" :: "--" :: paths.

Definition not_checkout (c : GitWorkflow.Command) : Prop :=
  forall branch, c <> git_checkout branch.

Definition not_push (c : GitWorkflow.Command) : Prop := c <> git_push.

(** A command that neither pushes nor changes the branch. *)
Definition in_place (c : GitWorkflow.Command) : Prop :=
  not_push c /\ not_checkout c.

(** In [added], every push comes after the commit with [message]. *)
Definition push_after_commit (message : string)
    (added : list GitWorkflow.Command) : Prop :=
  forall before after,
    added = before ++ git_push :: after -> In (git_commit message) before.

(** The last checkout among [added] is of [branch]. *)
Definition left_on (branch : string) (added : list GitWorkflow.Command)
  : Prop :=
  exists before after,
    added = before ++ git_checkout branch :: after
    /\ Forall not_checkout after.

(** Whatever the repository, [m] relates it to the repository after by
    [R], whether it returns or raises. *)
Definition runs {A : Type}
    (R : GitWorkflow.Repo -> GitWorkflow.Repo -> Prop) (m : GitWorkflow.G A)
  : Prop :=
  forall r, R r (snd (m r)).

(** [r'] has the commands of [r] followed by commands that all satisfy
    [P]. *)
Definition adds_commands (P : GitWorkflow.Command -> Prop)
    (r r' : GitWorkflow.Repo) : Prop :=
  exists added,
    GitWorkflow.commands r' = GitWorkflow.commands r ++ added
    /\ Forall P added.

(** A repository with a remote that answers, where every command goes
    through and the work tree has changes. *)
Definition agreeable : GitWorkflow.Env :=
  {| GitWorkflow.main_branch := "main";
     GitWorkflow.default_task_branch := "tasks";
     GitWorkflow.auto_create_repo := false;
     GitWorkflow.run_git :=
       fun _ args =>
         match args with
         | ["remote"] => GitWorkspace.GitOk "origin"
         | ["status"; "--porcelain"] => GitWorkspace.GitOk "M main.py"
         | ["rev-parse"; "HEAD"] => GitWorkspace.GitOk "0a1b2c3d"
         | _ => GitWorkspace.GitOk ""
         end;
     GitWorkflow.mkdir_ok := true;
     GitWorkflow.repo_exists := true;
     GitWorkflow.touch_ok := true;
     GitWorkflow.gitignore_ok := true;
     GitWorkflow.check_ignore := fun _ => Some 1;
     GitWorkflow.resolve := fun _ file => Some ("tasks/task_1/" ++ file)%string;
     GitWorkflow._check_remote_exists := fun _ => true;
     GitWorkflow._create_github_repo := fun _ => false |}.

(** A repository with nothing done yet. *)
Definition fresh_repo : GitWorkflow.Repo :=
  GitWorkflow.mkRepo [] false None [].

(* ================================================================== *)
(** * Properties of the queue *)
(* ================================================================== *)

Lemma TaskStatus_eqb_eq (a b : TaskStatus) :
  TaskStatus_eqb a b = true <-> a = b.
Proof. destruct a, b; simpl; split; intro H; congruence. Qed.

Lemma TaskStatus_eqb_neq (a b : TaskStatus) :
  TaskStatus_eqb a b = false <-> a <> b.
Proof. destruct a, b; simpl; split; intro H; congruence. Qed.

Section RowsByKey.

Variable task_id : Z.
Variable task' : Task.t.
Hypothesis same_key : Task.id task' = task_id.

Lemma query_first_id db task :
  TaskQueue.query_first task_id db = Some task -> Task.id task = task_id.
Proof.
  unfold TaskQueue.query_first. intro H.
  apply find_some in H. destruct H as [_ H].
  unfold TaskQueue.has_id in H. lia.
Qed.

Lemma query_first_None db :
  TaskQueue.query_first task_id db = None <->
  forall x, In x db -> Task.id x <> task_id.
Proof.
  unfold TaskQueue.query_first. split.
  - intros H x Hx Heq.
    pose proof (find_none _ _ H x Hx) as Hn.
    unfold TaskQueue.has_id in Hn. lia.
  - intro H. induction db as [|x db IH]; simpl; [reflexivity|].
    unfold TaskQueue.has_id at 1.
    destruct (Z.eqb_spec (Task.id x) task_id) as [E|E].
    + exfalso. apply (H x); [now left | exact E].
    + apply IH. intros y Hy. apply H. now right.
Qed.

Lemma length_flush db :
  List.length (TaskQueue.flush task_id task' db) = List.length db.
Proof.
  induction db as [|x db IH]; simpl; [reflexivity|].
  destruct (TaskQueue.has_id task_id x); simpl; congruence.
Qed.

Lemma query_first_flush db task :
  TaskQueue.query_first task_id db = Some task ->
  TaskQueue.query_first task_id (TaskQueue.flush task_id task' db)
  = Some task'.
Proof.
  unfold TaskQueue.query_first.
  induction db as [|x db IH]; simpl; [discriminate|].
  destruct (TaskQueue.has_id task_id x) eqn:E; simpl.
  - intros _. unfold TaskQueue.has_id. rewrite same_key, Z.eqb_refl.
    reflexivity.
  - rewrite E. exact IH.
Qed.

Lemma query_first_flush_other db other :
  other <> task_id ->
  TaskQueue.query_first other (TaskQueue.flush task_id task' db)
  = TaskQueue.query_first other db.
Proof.
  intro Hne. unfold TaskQueue.query_first.
  induction db as [|x db IH]; simpl; [reflexivity|].
  destruct (TaskQueue.has_id task_id x) eqn:E; simpl.
  - unfold TaskQueue.has_id in *. rewrite same_key.
    apply Z.eqb_eq in E. rewrite E.
    destruct (Z.eqb_spec task_id other); [congruence | reflexivity].
  - destruct (TaskQueue.has_id other x); [reflexivity | exact IH].
Qed.

(** A row either stays as it is, or it is the row [query_first] gives and
    becomes the flushed one. *)
Lemma nth_error_flush db i x :
  nth_error db i = Some x ->
  nth_error (TaskQueue.flush task_id task' db) i = Some x
  \/ (TaskQueue.query_first task_id db = Some x
      /\ nth_error (TaskQueue.flush task_id task' db) i = Some task').
Proof.
  unfold TaskQueue.query_first. revert i.
  induction db as [|y db IH]; intros i Hi.
  - destruct i; discriminate.
  - simpl. destruct (TaskQueue.has_id task_id y) eqn:E.
    + destruct i as [|i]; simpl in *.
      * right. split; congruence.
      * left. exact Hi.
    + destruct i as [|i]; simpl in *.
      * left. exact Hi.
      * apply IH. exact Hi.
Qed.

End RowsByKey.

(** Under the primary key, the id of a row finds that row, and the flush
    rewrites it where it lies and no other row. *)
Lemma flush_rewritten_at db i x x' :
  NoDup (map Task.id db) ->
  nth_error db i = Some x ->
  TaskQueue.query_first (Task.id x) db = Some x
  /\ rewritten_at i x' db (TaskQueue.flush (Task.id x) x' db).
Proof.
  unfold TaskQueue.query_first. revert i.
  induction db as [|y db IH]; intros i Hkey Hi.
  - now destruct i.
  - cbn [map] in Hkey. inversion Hkey as [| k ks Hfresh Hrest]; subst.
    cbn [find TaskQueue.flush]. destruct i as [|i].
    + cbn in Hi. injection Hi as ->.
      assert (Hx : TaskQueue.has_id (Task.id x) x = true)
        by apply Z.eqb_refl.
      rewrite Hx.
      split; [reflexivity|]. split; [reflexivity|].
      split; [reflexivity|]. intros [|j] Hj; [contradiction | reflexivity].
    + cbn in Hi.
      assert (Hy : TaskQueue.has_id (Task.id x) y = false).
      { unfold TaskQueue.has_id. apply Z.eqb_neq. intro E.
        apply Hfresh. rewrite E. apply in_map.
        eapply nth_error_In, Hi. }
      rewrite Hy. destruct (IH i Hrest Hi) as (Hq & Hlen & Hat & Hother).
      split; [exact Hq|]. split; [cbn; now rewrite Hlen|].
      split; [exact Hat|].
      intros [|j] Hj; [reflexivity|]. cbn. apply Hother. congruence.
Qed.

(** C4.  [cancel_task] on an id no row has returns nothing and writes
    nothing; on a row that is not PENDING it returns the row as it is and
    writes nothing; on a PENDING row it sets the status to CANCELLED and
    [deleted_at] to the time of the call, on that row only. *)
Theorem cancel_task_only_from_pending (now : datetime) (task_id : Z)
    (db : TaskQueue.Store) :
  ((forall x, In x db -> Task.id x <> task_id) ->
   TaskQueue.cancel_task now task_id db = (None, db))
  /\ (forall task,
        TaskQueue.query_first task_id db = Some task ->
        Task.status task <> PENDING ->
        TaskQueue.cancel_task now task_id db = (Some task, db))
  /\ (forall task,
        TaskQueue.query_first task_id db = Some task ->
        Task.status task = PENDING ->
        exists task' db',
          TaskQueue.cancel_task now task_id db = (Some task', db')
          /\ task' = Task.set_deleted_at (Some now)
                       (Task.set_status CANCELLED task)
          /\ Task.status task' = CANCELLED
          /\ Task.deleted_at task' = Some now
          /\ TaskQueue.query_first task_id db' = Some task'
          /\ (forall other, other <> task_id ->
                TaskQueue.query_first other db'
                = TaskQueue.query_first other db)
          /\ List.length db' = List.length db).
Proof.
  unfold TaskQueue.cancel_task, TaskQueue._run_write.
  split; [|split].
  - intro Hnone. apply query_first_None in Hnone. now rewrite Hnone.
  - intros task Hq Hst. rewrite Hq.
    apply TaskStatus_eqb_neq in Hst. now rewrite Hst.
  - intros task Hq Hst. rewrite Hq.
    assert (E : TaskStatus_eqb (Task.status task) PENDING = true)
      by now apply TaskStatus_eqb_eq.
    rewrite E.
    pose proof (query_first_id _ _ _ Hq) as Hid.
    eexists; eexists. split; [reflexivity|].
    split; [reflexivity|]. split; [reflexivity|]. split; [reflexivity|].
    split; [|split].
    + eapply query_first_flush; [exact Hid | exact Hq].
    + intros other Hne. apply query_first_flush_other; assumption.
    + apply length_flush.
Qed.

(** An instance: cancelling the waiting task at time 7. *)
Lemma cancel_task_witness :
  exists task' db',
    TaskQueue.cancel_task 7 1 [pending_task] = (Some task', db')
    /\ Task.status task' = CANCELLED
    /\ Task.deleted_at task' = Some 7
    /\ TaskQueue.query_first 1 db' = Some task'.
Proof.
  destruct (proj2 (proj2 (cancel_task_only_from_pending 7 1 [pending_task]))
              pending_task eq_refl eq_refl)
    as (task' & db' & Hrun & _ & Hstatus & Hdeleted & Hfound & _).
  exists task', db'. repeat split; assumption.
Defined.

Lemma is_expired_stale now max_age_seconds x :
  TaskQueue.is_expired (now - seconds max_age_seconds) x = true
  <-> stale now max_age_seconds x.
Proof.
  unfold TaskQueue.is_expired, stale. rewrite andb_true_iff, TaskStatus_eqb_eq.
  split; intros [Hs Ht]; split; try exact Hs.
  - destruct (Task.started_at x) as [started|]; [|discriminate].
    exists started. split; [reflexivity | now apply Z.ltb_lt].
  - destruct Ht as (started & -> & Hlt). now apply Z.ltb_lt.
Qed.

Lemma map_if_filter_nil {A : Type} (p : A -> bool) (f : A -> A) (l : list A) :
  filter p l = [] -> map (fun x => if p x then f x else x) l = l.
Proof.
  induction l as [|x l IH]; simpl; [reflexivity|].
  destruct (p x); [discriminate|]. intro H. now rewrite IH.
Qed.

(** With the feature enabled the method is one filter and one update. *)
Lemma timeout_expired_tasks_enabled now_cutoff now max_age_seconds db :
  0 < max_age_seconds ->
  TaskQueue.timeout_expired_tasks now_cutoff now max_age_seconds db
  = (map (TaskQueue.time_out now max_age_seconds)
       (filter (TaskQueue.is_expired (now_cutoff - seconds max_age_seconds)) db),
     map (fun x =>
            if TaskQueue.is_expired (now_cutoff - seconds max_age_seconds) x
            then TaskQueue.time_out now max_age_seconds x else x) db).
Proof.
  intro Hpos. unfold TaskQueue.timeout_expired_tasks, TaskQueue._run_write.
  destruct (Z.leb_spec max_age_seconds 0) as [Hle|_]; [lia|].
  destruct (filter _ db) as [|y tasks] eqn:E; [|reflexivity].
  now rewrite map_if_filter_nil.
Qed.

Lemma filter_none {A : Type} (p : A -> bool) (l : list A) :
  (forall x, In x l -> p x = false) -> filter p l = [].
Proof.
  induction l as [|x l IH]; simpl; intro H; [reflexivity|].
  rewrite (H x) by now left. apply IH. intros y Hy. apply H. now right.
Qed.

(** C3.  With [max_age_seconds > 0], [timeout_expired_tasks] rewrites the
    stale IN_PROGRESS rows, and no other row, to FAILED with [completed_at]
    set and the generated message; it returns exactly the rewritten rows;
    called again at once it returns nothing and writes nothing.  With
    [max_age_seconds <= 0] it returns nothing and writes nothing. *)
Theorem timeout_expired_tasks_spec (now_cutoff now : datetime)
    (max_age_seconds : Z) (db : TaskQueue.Store) :
  (0 < max_age_seconds ->
   exists tasks db',
     TaskQueue.timeout_expired_tasks now_cutoff now max_age_seconds db
     = (tasks, db')
     /\ List.length db' = List.length db
     /\ (forall i x,
           nth_error db i = Some x ->
           stale now_cutoff max_age_seconds x ->
           nth_error db' i = Some (timed_out now max_age_seconds x))
     /\ (forall i x,
           nth_error db i = Some x ->
           ~ stale now_cutoff max_age_seconds x ->
           nth_error db' i = Some x)
     /\ (forall y,
           In y tasks <->
           exists x,
             In x db /\ stale now_cutoff max_age_seconds x
             /\ y = timed_out now max_age_seconds x)
     /\ (forall now',
           TaskQueue.timeout_expired_tasks now_cutoff now' max_age_seconds db'
           = ([], db')))
  /\ (max_age_seconds <= 0 ->
      TaskQueue.timeout_expired_tasks now_cutoff now max_age_seconds db
      = ([], db)).
Proof.
  split.
  - intro Hpos.
    set (cutoff := now_cutoff - seconds max_age_seconds).
    exists (map (TaskQueue.time_out now max_age_seconds)
              (filter (TaskQueue.is_expired cutoff) db)).
    exists (map (fun x => if TaskQueue.is_expired cutoff x
                          then TaskQueue.time_out now max_age_seconds x
                          else x) db).
    split; [now apply timeout_expired_tasks_enabled|].
    split; [apply length_map|].
    split; [|split; [|split]].
    + intros i x Hi Hst. rewrite nth_error_map, Hi. simpl.
      apply is_expired_stale in Hst. fold cutoff in Hst. now rewrite Hst.
    + intros i x Hi Hst. rewrite nth_error_map, Hi. simpl.
      destruct (TaskQueue.is_expired cutoff x) eqn:E; [|reflexivity].
      exfalso. apply Hst. now apply is_expired_stale.
    + intro y. rewrite in_map_iff. split.
      * intros (x & <- & Hx). apply filter_In in Hx. destruct Hx as [Hx He].
        exists x. split; [exact Hx|]. split; [|reflexivity].
        now apply is_expired_stale.
      * intros (x & Hx & Hst & ->). exists x. split; [reflexivity|].
        apply filter_In. split; [exact Hx|]. now apply is_expired_stale.
    + intro now'. rewrite timeout_expired_tasks_enabled by exact Hpos.
      fold cutoff.
      assert (Hnone : forall y,
                 In y (map (fun x => if TaskQueue.is_expired cutoff x
                                     then TaskQueue.time_out now max_age_seconds x
                                     else x) db) ->
                 TaskQueue.is_expired cutoff y = false).
      { intros y Hy. apply in_map_iff in Hy. destruct Hy as (x & <- & _).
        destruct (TaskQueue.is_expired cutoff x) eqn:E; [reflexivity | exact E]. }
      rewrite (filter_none _ _ Hnone). simpl.
      f_equal. rewrite map_if_filter_nil; [reflexivity|].
      now apply filter_none.
  - intro Hle. unfold TaskQueue.timeout_expired_tasks.
    destruct (Z.leb_spec max_age_seconds 0) as [_|Hgt]; [reflexivity | lia].
Qed.

(** An instance: at second 120 with a limit of 60 seconds, the task started
    at second 0 is returned as failed, and a second call returns
    nothing. *)
Lemma timeout_expired_tasks_witness :
  exists tasks db',
    TaskQueue.timeout_expired_tasks (seconds 120) (seconds 121) 60
      running_queue = (tasks, db')
    /\ (In (timed_out (seconds 121) 60 (running_row 1 0)) tasks)
    /\ TaskQueue.timeout_expired_tasks (seconds 120) (seconds 122) 60 db'
       = ([], db').
Proof.
  destruct (proj1 (timeout_expired_tasks_spec (seconds 120) (seconds 121) 60
                     running_queue) eq_refl)
    as (tasks & db' & Hrun & _ & _ & _ & Hreturned & Hagain).
  exists tasks, db'. split; [exact Hrun|]. split; [|apply Hagain].
  apply Hreturned. exists (running_row 1 0).
  split; [now left|]. split; [|reflexivity].
  split; [reflexivity|]. exists 0. split; reflexivity.
Defined.

(** C2, as the code has it.  A row in a terminal status is left as it is
    by [cancel_task] and by [timeout_expired_tasks], whatever their
    arguments.  The four other transitions do not look at the status: on
    the id of any row, terminal or not, of a table whose ids are unique,
    they return and write that row with their columns set ([status],
    [started_at] and [attempt_count]; [status], [completed_at] and
    [result_id]; [status], [error_message] and [completed_at] if it is
    unset; [priority]) and every other column and every other row as
    before. *)
Theorem terminal_rows_kept_by_cancel_and_timeout (db : TaskQueue.Store)
    (i : nat) (x : Task.t) :
  nth_error db i = Some x ->
  (terminal (Task.status x) ->
   (forall now task_id,
       nth_error (snd (TaskQueue.cancel_task now task_id db)) i = Some x)
   /\ (forall now_cutoff now max_age_seconds,
         nth_error
           (snd (TaskQueue.timeout_expired_tasks now_cutoff now
                   max_age_seconds db)) i = Some x))
  /\ (NoDup (map Task.id db) ->
      (forall now,
          fst (TaskQueue.mark_in_progress now (Task.id x) db)
          = Some (started now x)
          /\ rewritten_at i (started now x) db
               (snd (TaskQueue.mark_in_progress now (Task.id x) db)))
      /\ (forall now result_id,
            fst (TaskQueue.mark_completed now (Task.id x) result_id db)
            = Some (completed now result_id x)
            /\ rewritten_at i (completed now result_id x) db
                 (snd (TaskQueue.mark_completed now (Task.id x) result_id db)))
      /\ (forall now error_message,
            fst (TaskQueue.mark_failed now (Task.id x) error_message db)
            = Some (failed now error_message x)
            /\ rewritten_at i (failed now error_message x) db
                 (snd (TaskQueue.mark_failed now (Task.id x) error_message
                         db)))
      /\ (forall priority,
            fst (TaskQueue.update_priority (Task.id x) priority db)
            = Some (reprioritised priority x)
            /\ rewritten_at i (reprioritised priority x) db
                 (snd (TaskQueue.update_priority (Task.id x) priority db)))).
Proof.
  intros Hi. split.
  - intro Hterm. split.
    + intros now task_id.
      unfold TaskQueue.cancel_task, TaskQueue._run_write.
      destruct (TaskQueue.query_first task_id db) as [task|] eqn:Hq;
        [|exact Hi].
      destruct (TaskStatus_eqb (Task.status task) PENDING) eqn:Hp;
        [|exact Hi].
      simpl.
      destruct (nth_error_flush task_id
                  (Task.set_deleted_at (Some now)
                     (Task.set_status CANCELLED task))
                  db i x Hi) as [Hkeep | [Hfirst _]]; [exact Hkeep|].
      exfalso. rewrite Hq in Hfirst. injection Hfirst as ->.
      apply TaskStatus_eqb_eq in Hp.
      destruct Hterm as [H | [H | H]]; congruence.
    + intros now_cutoff now max_age_seconds.
      destruct (Z.leb_spec max_age_seconds 0) as [Hle|Hgt].
      * unfold TaskQueue.timeout_expired_tasks.
        destruct (Z.leb_spec max_age_seconds 0); [exact Hi | lia].
      * rewrite timeout_expired_tasks_enabled by exact Hgt. simpl.
        rewrite nth_error_map, Hi. simpl.
        destruct (TaskQueue.is_expired _ x) eqn:E; [|reflexivity].
        exfalso. apply is_expired_stale in E. destruct E as [E _].
        destruct Hterm as [H | [H | H]]; congruence.
  - intro Hkey.
    assert (Hq : TaskQueue.query_first (Task.id x) db = Some x)
      by apply (proj1 (flush_rewritten_at db i x x Hkey Hi)).
    assert (Hflush : forall x',
               rewritten_at i x' db (TaskQueue.flush (Task.id x) x' db))
      by (intro x'; apply (proj2 (flush_rewritten_at db i x x' Hkey Hi))).
    split; [|split; [|split]].
    + intro now. unfold TaskQueue.mark_in_progress, TaskQueue._run_write.
      rewrite Hq. split; [reflexivity | apply Hflush].
    + intros now result_id.
      unfold TaskQueue.mark_completed, TaskQueue._run_write.
      rewrite Hq. split; [reflexivity | apply Hflush].
    + intros now error_message.
      unfold TaskQueue.mark_failed, TaskQueue._run_write.
      rewrite Hq. cbn [fst snd].
      replace (failed now error_message x)
        with (match
                Task.completed_at
                  (Task.set_error_message (Some error_message)
                     (Task.set_status FAILED x))
              with
              | Some _ =>
                  Task.set_error_message (Some error_message)
                    (Task.set_status FAILED x)
              | None =>
                  Task.set_completed_at (Some now)
                    (Task.set_error_message (Some error_message)
                       (Task.set_status FAILED x))
              end)
        by (unfold failed;
            now destruct x as [? ? ? ? ? ? ? [at_|] ? ? ? ? ? ? ? ? ?]).
      split; [reflexivity | apply Hflush].
    + intro priority.
      unfold TaskQueue.update_priority, TaskQueue._run_write.
      rewrite Hq. split; [reflexivity | apply Hflush].
Qed.

(** An instance: the finished task stays as it is under [cancel_task] and
    [timeout_expired_tasks], and is written by the four other methods. *)
Lemma terminal_rows_kept_witness :
  (forall now task_id,
      nth_error (snd (TaskQueue.cancel_task now task_id [completed_task])) 0
      = Some completed_task)
  /\ (forall now_cutoff now max_age_seconds,
        nth_error
          (snd (TaskQueue.timeout_expired_tasks now_cutoff now
                  max_age_seconds [completed_task])) 0
        = Some completed_task)
  /\ (forall now error_message,
        fst (TaskQueue.mark_failed now 1 error_message [completed_task])
        = Some (failed now error_message completed_task)
        /\ rewritten_at 0 (failed now error_message completed_task)
             [completed_task]
             (snd (TaskQueue.mark_failed now 1 error_message
                     [completed_task]))).
Proof.
  pose proof (terminal_rows_kept_by_cancel_and_timeout [completed_task] 0%nat
                completed_task eq_refl) as [Hkept Hwritten].
  specialize (Hkept (or_introl eq_refl)).
  assert (Hkey : NoDup (map Task.id [completed_task]))
    by (constructor; [intros [] | constructor]).
  specialize (Hwritten Hkey).
  split; [exact (proj1 Hkept)|]. split; [exact (proj2 Hkept)|].
  exact (proj1 (proj2 (proj2 Hwritten))).
Defined.

(** C2, as stated, fails: [mark_in_progress] on a COMPLETED task makes it
    IN_PROGRESS again, with a new [started_at] and one more attempt, and
    [update_priority] rewrites its priority. *)
Lemma mark_in_progress_reopens_completed_task :
  terminal (Task.status completed_task)
  /\ TaskQueue.mark_in_progress 40 1 [completed_task]
     = (Some (Task.mk 1 "write the report" SERIOUS (Some NEW) IN_PROGRESS 10
                (Some 40) (Some 30) None 2 None (Some 7) None None None None
                None),
        [Task.mk 1 "write the report" SERIOUS (Some NEW) IN_PROGRESS 10
           (Some 40) (Some 30) None 2 None (Some 7) None None None None None])
  /\ snd (TaskQueue.mark_in_progress 40 1 [completed_task]) <> [completed_task]
  /\ snd (TaskQueue.update_priority 1 THOUGHT [completed_task])
     <> [completed_task].
Proof.
  split; [left; reflexivity|].
  split; [reflexivity|].
  split; intro H; discriminate H.
Qed.

(** *** The order of [get_pending_tasks] *)

Lemma order_leb_spec a b :
  TaskQueue.order_leb a b = true <-> rank_then_created a b.
Proof.
  unfold TaskQueue.order_leb, rank_then_created.
  rewrite orb_true_iff, andb_true_iff, Z.ltb_lt, Z.eqb_eq, Z.leb_le.
  reflexivity.
Qed.

Lemma order_leb_false a b :
  TaskQueue.order_leb a b = false -> rank_then_created b a.
Proof.
  unfold TaskQueue.order_leb, rank_then_created.
  rewrite orb_false_iff, andb_false_iff, Z.ltb_ge, Z.eqb_neq, Z.leb_gt.
  lia.
Qed.

Lemma rank_then_created_refl a : rank_then_created a a.
Proof. unfold rank_then_created. lia. Qed.

Lemma rank_then_created_trans a b c :
  rank_then_created a b -> rank_then_created b c -> rank_then_created a c.
Proof. unfold rank_then_created. lia. Qed.

Lemma order_insert_perm x l : Permutation (x :: l) (TaskQueue.order_insert x l).
Proof.
  induction l as [|y l IH]; simpl; [apply Permutation_refl|].
  destruct (TaskQueue.order_leb x y); [apply Permutation_refl|].
  eapply perm_trans; [apply perm_swap|]. now apply perm_skip.
Qed.

Lemma order_by_perm l : Permutation l (TaskQueue.order_by l).
Proof.
  induction l as [|x l IH]; simpl; [constructor|].
  eapply perm_trans; [apply perm_skip, IH | apply order_insert_perm].
Qed.

Lemma order_insert_sorted x l :
  StronglySorted rank_then_created l ->
  StronglySorted rank_then_created (TaskQueue.order_insert x l).
Proof.
  induction 1 as [|y l Hl IH Hy]; simpl.
  - constructor; constructor.
  - destruct (TaskQueue.order_leb x y) eqn:E.
    + apply order_leb_spec in E. constructor; [now constructor|].
      constructor; [exact E|].
      eapply Forall_impl; [|exact Hy].
      intros z Hz. eapply rank_then_created_trans; eassumption.
    + apply order_leb_false in E. constructor; [exact IH|].
      rewrite Forall_forall in *. intros z Hz.
      apply (Permutation_in _ (Permutation_sym (order_insert_perm x l))) in Hz.
      destruct Hz as [<- | Hz]; [exact E | now apply Hy].
Qed.

Lemma order_by_sorted l : StronglySorted rank_then_created (TaskQueue.order_by l).
Proof.
  induction l as [|x l IH]; simpl; [constructor | now apply order_insert_sorted].
Qed.

Section SortedLists.

Context {A : Type} (R : A -> A -> Prop).

Lemma StronglySorted_firstn n l :
  StronglySorted R l -> StronglySorted R (firstn n l).
Proof.
  intro H. revert n. induction H as [|x l Hl IH Hx]; intro n.
  - rewrite firstn_nil. constructor.
  - destruct n as [|n]; simpl; constructor; [apply IH|].
    rewrite Forall_forall in *. intros y Hy. apply Hx.
    rewrite <- (firstn_skipn n l). apply in_or_app. now left.
Qed.

Lemma StronglySorted_after l1 b l2 :
  StronglySorted R (l1 ++ b :: l2) -> Forall (R b) l2.
Proof.
  induction l1 as [|x l1 IH]; simpl; intro H;
    apply StronglySorted_inv in H; destruct H as [H1 H2];
    [exact H2 | now apply IH].
Qed.

(** In a sorted list, what is not above [b] lies before [b]. *)
Lemma sorted_before a b l1 l2 :
  (forall x, R x x) ->
  StronglySorted R (l1 ++ b :: l2) ->
  In a (l1 ++ b :: l2) -> ~ R b a -> In a l1.
Proof.
  intros Hrefl Hs Hin Hnot.
  apply in_app_or in Hin. destruct Hin as [Hin | [-> | Hin]].
  - exact Hin.
  - exfalso. apply Hnot, Hrefl.
  - exfalso. apply Hnot.
    pose proof (StronglySorted_after _ _ _ Hs) as Hall.
    rewrite Forall_forall in Hall. now apply Hall.
Qed.

Lemma sorted_precedes a b l rest :
  (forall x, R x x) ->
  StronglySorted R (l ++ rest) ->
  In a (l ++ rest) -> In b l -> ~ R b a -> precedes l a b.
Proof.
  intros Hrefl Hs Ha Hb Hnot.
  apply in_split in Hb. destruct Hb as (r1 & r2 & ->).
  rewrite <- app_assoc in Hs, Ha. simpl in Hs, Ha.
  pose proof (sorted_before a b r1 (r2 ++ rest) Hrefl Hs Ha Hnot) as Hin.
  apply in_split in Hin. destruct Hin as (l1 & l2 & ->).
  exists l1, l2, r2. rewrite <- app_assoc. reflexivity.
Qed.

Lemma sorted_not_precedes a b l :
  StronglySorted R l -> ~ R b a -> ~ precedes l b a.
Proof.
  intros Hs Hnot (l1 & l2 & l3 & ->). apply Hnot.
  pose proof (StronglySorted_after _ _ _ Hs) as Hall.
  rewrite Forall_forall in Hall. apply Hall.
  apply in_or_app. right. now left.
Qed.

End SortedLists.

Lemma is_pending_spec x :
  TaskQueue.is_pending x = true <-> Task.status x = PENDING.
Proof. apply TaskStatus_eqb_eq. Qed.

(** C1.  [get_pending_tasks limit] writes nothing; it returns
    [min limit n] of the [n] PENDING rows, ordered by priority rank and
    then by [created_at], and these are the first of the PENDING rows in
    that order.  A PENDING SERIOUS task precedes every returned THOUGHT
    task, whenever created; two returned tasks of one priority come in the
    order of their [created_at]; a second call returns the same list. *)
Theorem get_pending_tasks_spec (limit : nat) (db : TaskQueue.Store) :
  let tasks := fst (TaskQueue.get_pending_tasks limit db) in
  snd (TaskQueue.get_pending_tasks limit db) = db
  /\ List.length tasks
     = Nat.min limit (List.length (filter TaskQueue.is_pending db))
  /\ (forall x, In x tasks -> In x db /\ Task.status x = PENDING)
  /\ StronglySorted rank_then_created tasks
  /\ (forall x y,
        In x tasks -> In y db -> Task.status y = PENDING -> ~ In y tasks ->
        rank_then_created x y)
  /\ (forall a b,
        In a db -> Task.status a = PENDING -> Task.priority a = SERIOUS ->
        In b tasks -> Task.priority b = THOUGHT ->
        precedes tasks a b)
  /\ (forall a b,
        In a tasks -> In b tasks ->
        Task.priority a = Task.priority b ->
        Task.created_at a < Task.created_at b ->
        precedes tasks a b /\ ~ precedes tasks b a)
  /\ TaskQueue.get_pending_tasks limit
       (snd (TaskQueue.get_pending_tasks limit db))
     = TaskQueue.get_pending_tasks limit db.
Proof.
  unfold TaskQueue.get_pending_tasks, TaskQueue._run_read. simpl.
  set (pending := filter TaskQueue.is_pending db).
  set (full := TaskQueue.order_by pending).
  assert (Hperm : Permutation pending full) by apply order_by_perm.
  assert (Hsorted : StronglySorted rank_then_created full)
    by apply order_by_sorted.
  assert (Hsplit : firstn limit full ++ skipn limit full = full)
    by apply firstn_skipn.
  assert (Hfull : forall x,
             In x full <-> In x db /\ Task.status x = PENDING).
  { intro x. rewrite <- is_pending_spec, <- filter_In. fold pending.
    split; apply Permutation_in;
      [apply Permutation_sym|]; exact Hperm. }
  assert (Hfirst : forall x, In x (firstn limit full) -> In x full).
  { intros x Hx. rewrite <- Hsplit. apply in_or_app. now left. }
  split; [reflexivity|].
  split.
  { rewrite length_firstn. f_equal. symmetry.
    now apply Permutation_length. }
  split; [intros x Hx; now apply Hfull, Hfirst|].
  split; [now apply StronglySorted_firstn|].
  split.
  { intros x y Hx Hy Hpy Hny.
    assert (Hy' : In y (skipn limit full)).
    { assert (In y full) as Hin by now apply Hfull.
      rewrite <- Hsplit in Hin. apply in_app_or in Hin. tauto. }
    apply in_split in Hx. destruct Hx as (l1 & l2 & Hx).
    rewrite <- Hsplit, Hx, <- app_assoc in Hsorted. simpl in Hsorted.
    pose proof (StronglySorted_after _ _ _ _ Hsorted) as Hall.
    rewrite Forall_forall in Hall. apply Hall.
    apply in_or_app. now right. }
  split.
  { intros a b Ha Hpa Hsa Hb Hsb.
    apply (sorted_precedes rank_then_created a b _ (skipn limit full)).
    - apply rank_then_created_refl.
    - now rewrite Hsplit.
    - rewrite Hsplit. now apply Hfull.
    - exact Hb.
    - unfold rank_then_created, TaskQueue.priority_order.
      rewrite Hsa, Hsb. lia. }
  split; [|reflexivity].
  intros a b Ha Hb Hprio Hlt.
  assert (Hnot : ~ rank_then_created b a).
  { unfold rank_then_created, TaskQueue.priority_order.
    rewrite Hprio. lia. }
  split.
  - apply (sorted_precedes rank_then_created a b _ []).
    + apply rank_then_created_refl.
    + rewrite app_nil_r. now apply StronglySorted_firstn.
    + now rewrite app_nil_r.
    + exact Hb.
    + exact Hnot.
  - apply (sorted_not_precedes rank_then_created).
    + now apply StronglySorted_firstn.
    + exact Hnot.
Qed.

(** An instance, on the sample queue: the SERIOUS task created at 50 comes
    before the THOUGHT task created at 10, which comes before the THOUGHT
    task created at 90. *)
Lemma get_pending_tasks_witness :
  precedes (fst (TaskQueue.get_pending_tasks 10 sample_queue))
    (queue_row 2 SERIOUS PENDING 50) (queue_row 1 THOUGHT PENDING 10)
  /\ precedes (fst (TaskQueue.get_pending_tasks 10 sample_queue))
       (queue_row 1 THOUGHT PENDING 10) (queue_row 5 THOUGHT PENDING 90).
Proof.
  destruct (get_pending_tasks_spec 10 sample_queue)
    as (_ & _ & _ & _ & _ & Hpriority & Hcreated & _).
  split.
  - apply Hpriority; try reflexivity.
    + right. now left.
    + right. now left.
  - apply Hcreated; try reflexivity.
    + right. now left.
    + right. right. now left.
Defined.

(** The sample queue: the SERIOUS task first although created later, then
    the THOUGHT tasks in the order of their creation, then the GENERATED
    one; the finished task is not returned. *)
Example get_pending_tasks_sample :
  fst (TaskQueue.get_pending_tasks 10 sample_queue)
  = [queue_row 2 SERIOUS PENDING 50;
     queue_row 1 THOUGHT PENDING 10;
     queue_row 5 THOUGHT PENDING 90;
     queue_row 3 GENERATED PENDING 5]
  /\ fst (TaskQueue.get_pending_tasks 2 sample_queue)
     = [queue_row 2 SERIOUS PENDING 50; queue_row 1 THOUGHT PENDING 10].
Proof. split; reflexivity. Qed.

(** At second 120 with a limit of 60 seconds, the task started at second 0
    is failed and the one started at second 100 is not; a second call
    returns nothing. *)
Example timeout_expired_tasks_sample :
  TaskQueue.timeout_expired_tasks (seconds 120) (seconds 121) 60 running_queue
  = ([timed_out (seconds 121) 60 (running_row 1 0)],
     [timed_out (seconds 121) 60 (running_row 1 0);
      running_row 2 (seconds 100)])
  /\ Task.error_message (timed_out (seconds 121) 60 (running_row 1 0))
     = Some "Timed out after exceeding 1 minute limit."
  /\ fst (TaskQueue.timeout_expired_tasks (seconds 120) (seconds 122) 60
            (snd (TaskQueue.timeout_expired_tasks (seconds 120) (seconds 121)
                    60 running_queue)))
     = [].
Proof. repeat split; reflexivity. Qed.

(** *** The reference JSON implementation reads back what it writes *)

Lemma append_assoc (a b c : string) : ((a ++ b) ++ c = a ++ b ++ c)%string.
Proof. induction a as [|x a IH]; simpl; [reflexivity | now rewrite IH]. Qed.

Lemma append_nil_r (a : string) : (a ++ "" = a)%string.
Proof. induction a as [|x a IH]; simpl; [reflexivity | now rewrite IH]. Qed.

Lemma length_append (a b : string) :
  String.length (a ++ b) = (String.length a + String.length b)%nat.
Proof. induction a as [|x a IH]; simpl; [reflexivity | now rewrite IH]. Qed.

(** Induction on values, through lists, tuples and dictionaries. *)
Lemma json_values_ind (P : Py.json -> Prop) :
  P Py.JNull ->
  (forall b, P (Py.JBool b)) ->
  (forall n, P (Py.JInt n)) ->
  (forall s, P (Py.JStr s)) ->
  (forall items, Forall P items -> P (Py.JList items)) ->
  (forall items, Forall P items -> P (Py.JTuple items)) ->
  (forall items,
      Forall (fun member => P (snd member)) items -> P (Py.JDict items)) ->
  forall v, P v.
Proof.
  intros Hnull Hbool Hint Hstr Hlist Htuple Hdict.
  fix IH 1. intros [ | b | n | s | items | items | items ].
  - exact Hnull.
  - apply Hbool.
  - apply Hint.
  - apply Hstr.
  - apply Hlist.
    revert items. fix IHitems 1. intros [|x items].
    + constructor.
    + constructor; [apply IH | apply IHitems].
  - apply Htuple.
    revert items. fix IHitems 1. intros [|x items].
    + constructor.
    + constructor; [apply IH | apply IHitems].
  - apply Hdict.
    revert items. fix IHitems 1. intros [|[key x] items].
    + constructor.
    + constructor; [apply IH | apply IHitems].
Qed.

(** **** Strings *)

Lemma read_str_escape c tail :
  PyJson.read_str (PyJson.escape c ++ tail)
  = PyJson.cons_str c (PyJson.read_str tail).
Proof. destruct c as [[] [] [] [] [] [] [] []]; reflexivity. Qed.

Lemma read_str_dump s rest :
  PyJson.read_str (PyJson.escape_all s ++ String PyJson.dquote rest)
  = Some (s, rest).
Proof.
  induction s as [|c s IH]; [reflexivity|].
  cbn [PyJson.escape_all]. rewrite append_assoc, read_str_escape, IH.
  reflexivity.
Qed.

(** **** Numbers *)

Lemma read_digits_closes rest :
  closes rest = true -> PyJson.read_digits rest = (Nil, rest).
Proof.
  destruct rest as [|c rest]; [reflexivity|].
  destruct c as [[] [] [] [] [] [] [] []]; intro H;
    (discriminate H || reflexivity).
Qed.

Lemma ends_int_closes rest : closes rest = true -> PyJson.ends_int rest = true.
Proof.
  destruct rest as [|c rest]; [reflexivity|].
  destruct c as [[] [] [] [] [] [] [] []]; intro H;
    (discriminate H || reflexivity).
Qed.

Lemma read_digits_dump u rest :
  closes rest = true ->
  PyJson.read_digits (NilEmpty.string_of_uint u ++ rest) = (u, rest).
Proof.
  intro Hrest.
  induction u as [|u IH|u IH|u IH|u IH|u IH|u IH|u IH|u IH|u IH|u IH];
    [now apply read_digits_closes|..];
    cbn [NilEmpty.string_of_uint append];
    cbn [PyJson.read_digits]; cbn; now rewrite IH.
Qed.

(** The digits of a positive number: at least one, and no leading zero. *)
Lemma to_uint_head p :
  Pos.to_uint p <> Nil /\ forall u, Pos.to_uint p <> D0 u.
Proof.
  split; [apply DecimalPos.Unsigned.to_uint_nonnil|].
  intros u Hu.
  assert (Hnorm : unorm (Pos.to_uint p) = Pos.to_uint p).
  { rewrite <- (DecimalPos.Unsigned.to_of (Pos.to_uint p)).
    now rewrite DecimalPos.Unsigned.of_to. }
  unfold unorm in Hnorm.
  destruct (nzhead (Pos.to_uint p)) eqn:E;
    [apply (DecimalPos.Unsigned.to_uint_nonzero p); now rewrite <- Hnorm|..];
    apply (DecimalFacts.nzhead_nonzero (Pos.to_uint p) u); congruence.
Qed.

Lemma read_uint_dump u rest :
  u <> Nil -> (forall u', u = D0 u' -> u' = Nil) ->
  closes rest = true ->
  PyJson.read_uint (NilEmpty.string_of_uint u ++ rest) = Some (u, rest).
Proof.
  intros Hnil Hzero Hrest. unfold PyJson.read_uint.
  rewrite (read_digits_dump u rest Hrest). cbv beta iota.
  rewrite (ends_int_closes rest Hrest).
  destruct u as [|u'|u'|u'|u'|u'|u'|u'|u'|u'|u']; try reflexivity;
    [congruence|].
  now rewrite (Hzero u' eq_refl).
Qed.

Lemma read_int_dump n rest :
  closes rest = true ->
  PyJson.read_int (PyJson.dump_int n ++ rest) = Some (n, rest).
Proof.
  intro Hrest. unfold PyJson.dump_int.
  destruct n as [|p|p]; cbn [Z.to_int NilZero.string_of_int].
  - change (NilZero.string_of_uint zero) with (NilEmpty.string_of_uint zero).
    cbn [NilEmpty.string_of_uint append PyJson.read_int].
    change (Nat.eqb (nat_of_ascii "0") 45) with false. cbv iota.
    change (String "0" rest) with (NilEmpty.string_of_uint zero ++ rest)%string.
    rewrite read_uint_dump; [reflexivity | discriminate | | exact Hrest].
    now intros u' [= <-].
  - destruct (to_uint_head p) as [Hnil Hzero].
    pose proof (DecimalZ.of_to (Z.pos p)) as Hback. cbn [Z.to_int] in Hback.
    assert (Hread : PyJson.read_uint
                      (NilEmpty.string_of_uint (Pos.to_uint p) ++ rest)
                    = Some (Pos.to_uint p, rest)).
    { apply read_uint_dump; [exact Hnil | | exact Hrest].
      intros u' Hu'. now elim (Hzero u'). }
    unfold NilZero.string_of_uint.
    destruct (Pos.to_uint p) as [|u|u|u|u|u|u|u|u|u|u] eqn:E;
      [congruence | now elim (Hzero u) |..];
      cbn [NilEmpty.string_of_uint append] in *;
      cbn [PyJson.read_int];
      match goal with
      | |- context [Nat.eqb (nat_of_ascii ?c) 45] =>
          change (Nat.eqb (nat_of_ascii c) 45) with false
      end;
      cbv iota; now rewrite Hread, Hback.
  - destruct (to_uint_head p) as [Hnil Hzero].
    pose proof (DecimalZ.of_to (Z.neg p)) as Hback. cbn [Z.to_int] in Hback.
    assert (Hread : PyJson.read_uint
                      (NilEmpty.string_of_uint (Pos.to_uint p) ++ rest)
                    = Some (Pos.to_uint p, rest)).
    { apply read_uint_dump; [exact Hnil | | exact Hrest].
      intros u' Hu'. now elim (Hzero u'). }
    assert (Hstr : NilZero.string_of_uint (Pos.to_uint p)
                   = NilEmpty.string_of_uint (Pos.to_uint p)).
    { unfold NilZero.string_of_uint.
      destruct (Pos.to_uint p); [congruence | reflexivity..]. }
    rewrite Hstr. cbn [append PyJson.read_int].
    change (Nat.eqb (nat_of_ascii "-") 45) with true. cbv iota.
    now rewrite Hread, Hback.
Qed.

Lemma dump_int_head n :
  exists c tail,
    PyJson.dump_int n = String c tail /\ starts_number c = true.
Proof.
  unfold PyJson.dump_int.
  destruct n as [|p|p]; cbn [Z.to_int NilZero.string_of_int].
  - eexists; eexists. split; reflexivity.
  - destruct (to_uint_head p) as [Hnil _]. unfold NilZero.string_of_uint.
    destruct (Pos.to_uint p); [congruence|..];
      eexists; eexists; split; reflexivity.
  - eexists; eexists. split; reflexivity.
Qed.

(** **** Values *)

Lemma read_value_space fuel s :
  PyJson.read_value fuel (String " " s) = PyJson.read_value fuel s.
Proof. destruct fuel; reflexivity. Qed.

Lemma read_member_space fuel s :
  PyJson.read_member fuel (String " " s) = PyJson.read_member fuel s.
Proof. destruct fuel; reflexivity. Qed.

Lemma read_value_number fuel c tail :
  starts_number c = true ->
  PyJson.read_value (S fuel) (String c tail)
  = match PyJson.read_int (String c tail) with
    | Some (z, r) => Some (Py.JInt z, r)
    | None => None
    end.
Proof.
  destruct c as [[] [] [] [] [] [] [] []]; intro H;
    (discriminate H || reflexivity).
Qed.

(** A list that is not empty: its first item, then the others. *)
Lemma read_value_list fuel c tail :
  PyJson.is_space c = false -> c <> "]"%char ->
  PyJson.read_value (S fuel) (String "[" (String c tail))
  = match PyJson.read_value fuel (String c tail) with
    | Some (x, r) =>
        match PyJson.read_items fuel r with
        | Some (l, r') => Some (Py.JList (x :: l), r')
        | None => None
        end
    | None => None
    end.
Proof.
  destruct c as [[] [] [] [] [] [] [] []]; intros Hspace Hclose;
    (discriminate Hspace || (now elim Hclose) || reflexivity).
Qed.

(** The first character of a value: no space, and no closing bracket. *)
Lemma dump_head v :
  exists c tail,
    PyJson.dump v = String c tail
    /\ PyJson.is_space c = false /\ c <> "]"%char.
Proof.
  destruct v as [ | [] | n | s | items | items | items ];
    try (eexists; eexists; split; [reflexivity | split; [reflexivity|discriminate]]).
  cbn [PyJson.dump].
  destruct (dump_int_head n) as (c & tail & -> & Hc).
  exists c, tail. split; [reflexivity|].
  destruct c as [[] [] [] [] [] [] [] []];
    (discriminate Hc || (split; [reflexivity | discriminate])).
Qed.

Lemma concat_joined_tail x l :
  String.concat ", " (x :: l) = (x ++ joined_tail l)%string.
Proof.
  revert x. induction l as [|y l IH]; intro x.
  - cbn. now rewrite append_nil_r.
  - change (String.concat ", " (x :: y :: l))
      with (x ++ ", " ++ String.concat ", " (y :: l))%string.
    now rewrite IH.
Qed.

Lemma closes_joined_tail l close rest :
  closes (String close rest) = true ->
  closes (joined_tail l ++ String close rest) = true.
Proof. destruct l; [trivial | reflexivity]. Qed.

(** The items after the first, up to the closing bracket. *)
Lemma read_items_dump items :
  Forall reads_back items ->
  forall fuel rest,
    (String.length (joined_tail (map PyJson.dump items) ++ String "]" rest)
     < fuel)%nat ->
    PyJson.read_items fuel
      (joined_tail (map PyJson.dump items) ++ String "]" rest)
    = Some (map as_loaded items, rest).
Proof.
  induction 1 as [|x items Hx _ IH]; intros fuel rest Hfuel;
    cbn [map joined_tail append] in *.
  - destruct fuel; [inversion Hfuel | reflexivity].
  - destruct fuel as [|fuel]; [inversion Hfuel|].
    rewrite append_assoc in *.
    cbn [String.length] in Hfuel.
    change (PyJson.read_items (S fuel) (String "," (String " " ?s)))
      with (match PyJson.read_value fuel (String " " s) with
            | Some (x, r) =>
                match PyJson.read_items fuel r with
                | Some (l, r') => Some (x :: l, r')
                | None => None
                end
            | None => None
            end).
    rewrite read_value_space, Hx.
    + rewrite IH; [reflexivity|]. rewrite length_append in Hfuel. lia.
    + now apply closes_joined_tail.
    + lia.
Qed.

Lemma dump_member_text key x tail :
  (dump_member (key, x) ++ tail
   = String PyJson.dquote
       (PyJson.escape_all key
        ++ String PyJson.dquote
             (String ":" (String " " (PyJson.dump x ++ tail)))))%string.
Proof.
  unfold dump_member, PyJson.dump_str. cbn [fst snd append].
  now rewrite !append_assoc.
Qed.

Lemma read_member_key fuel text :
  PyJson.read_member (S fuel) (String PyJson.dquote text)
  = match PyJson.read_str text with
    | Some (key, r) =>
        match PyJson.skip_ws r with
        | String c r' =>
            if Nat.eqb (nat_of_ascii c) 58 then
              match PyJson.read_value fuel r' with
              | Some (x, r'') => Some ((key, x), r'')
              | None => None
              end
            else None
        | EmptyString => None
        end
    | None => None
    end.
Proof. reflexivity. Qed.

Lemma read_member_dump key x :
  reads_back x ->
  forall fuel tail,
    closes tail = true ->
    (String.length (dump_member (key, x) ++ tail) < fuel)%nat ->
    PyJson.read_member fuel (dump_member (key, x) ++ tail)
    = Some ((key, as_loaded x), tail).
Proof.
  intros Hx fuel tail Htail Hfuel.
  rewrite dump_member_text in *.
  destruct fuel as [|fuel]; [inversion Hfuel|].
  rewrite read_member_key, read_str_dump.
  change (PyJson.skip_ws (String ":" ?r)) with (String ":" r).
  change (Nat.eqb (nat_of_ascii ":") 58) with true. cbv iota.
  rewrite read_value_space, Hx; [reflexivity | exact Htail |].
  cbn [String.length] in Hfuel. rewrite length_append in Hfuel.
  cbn [String.length] in Hfuel. lia.
Qed.

(** The members after the first, up to the closing brace. *)
Lemma read_members_dump items :
  Forall (fun member => reads_back (snd member)) items ->
  forall fuel rest,
    (String.length (joined_tail (map dump_member items) ++ String "}" rest)
     < fuel)%nat ->
    PyJson.read_members fuel
      (joined_tail (map dump_member items) ++ String "}" rest)
    = Some (map (fun member => (fst member, as_loaded (snd member))) items,
            rest).
Proof.
  induction 1 as [|[key x] items Hx _ IH]; intros fuel rest Hfuel;
    cbn [map joined_tail append] in *.
  - destruct fuel; [inversion Hfuel | reflexivity].
  - destruct fuel as [|fuel]; [inversion Hfuel|].
    rewrite append_assoc in *.
    cbn [String.length] in Hfuel.
    change (PyJson.read_members (S fuel) (String "," (String " " ?s)))
      with (match PyJson.read_member fuel (String " " s) with
            | Some (kx, r) =>
                match PyJson.read_members fuel r with
                | Some (l, r') => Some (kx :: l, r')
                | None => None
                end
            | None => None
            end).
    rewrite read_member_space, (read_member_dump key x Hx).
    + rewrite IH; [reflexivity|]. rewrite length_append in Hfuel. lia.
    + now apply closes_joined_tail.
    + lia.
Qed.

Lemma read_value_dict fuel text :
  PyJson.read_value (S fuel) (String "{" (String PyJson.dquote text))
  = match PyJson.read_member fuel (String PyJson.dquote text) with
    | Some (kx, r) =>
        match PyJson.read_members fuel r with
        | Some (l, r') => Some (Py.JDict (kx :: l), r')
        | None => None
        end
    | None => None
    end.
Proof. reflexivity. Qed.

(** Every value is read back, its tuples as lists. *)
Lemma read_value_dump v : reads_back v.
Proof.
  induction v as [ | b | n | s | items IH | items IH | items IH ]
    using json_values_ind;
    intros fuel rest Hrest Hfuel;
    (destruct fuel as [|fuel]; [inversion Hfuel|]).
  - reflexivity.
  - destruct b; reflexivity.
  - cbn [PyJson.dump].
    destruct (dump_int_head n) as (c & tail & E & Hc).
    pose proof (read_int_dump n rest Hrest) as Hread.
    rewrite E in *. cbn [append] in *.
    now rewrite (read_value_number fuel c _ Hc), Hread.
  - cbn [PyJson.dump]. unfold PyJson.dump_str. cbn [append].
    rewrite append_assoc. cbn [append].
    change (PyJson.read_value (S fuel) (String PyJson.dquote ?text))
      with (match PyJson.read_str text with
            | Some (text', r) => Some (Py.JStr text', r)
            | None => None
            end).
    now rewrite read_str_dump.
  - destruct items as [|x items]; [reflexivity|].
    cbn [PyJson.dump map] in *. rewrite concat_joined_tail in *.
    cbn [append] in *. rewrite !append_assoc in *. cbn [append] in *.
    cbn [String.length] in Hfuel.
    inversion IH as [|x' items' Hx Hitems]; subst.
    destruct (dump_head x) as (c & tail & E & Hspace & Hclose).
    assert (Hlist :
              PyJson.read_value (S fuel)
                (String "["
                   (PyJson.dump x
                    ++ joined_tail (map PyJson.dump items) ++ String "]" rest))
              = match
                  PyJson.read_value fuel
                    (PyJson.dump x
                     ++ joined_tail (map PyJson.dump items)
                     ++ String "]" rest)
                with
                | Some (x, r) =>
                    match PyJson.read_items fuel r with
                    | Some (l, r') => Some (Py.JList (x :: l), r')
                    | None => None
                    end
                | None => None
                end).
    { rewrite E. cbn [append]. now apply read_value_list. }
    rewrite Hlist, Hx.
    + rewrite read_items_dump; [reflexivity | exact Hitems |].
      rewrite length_append in Hfuel. lia.
    + now apply closes_joined_tail.
    + lia.
  - destruct items as [|x items]; [reflexivity|].
    cbn [PyJson.dump map] in *. rewrite concat_joined_tail in *.
    cbn [append] in *. rewrite !append_assoc in *. cbn [append] in *.
    cbn [String.length] in Hfuel.
    inversion IH as [|x' items' Hx Hitems]; subst.
    destruct (dump_head x) as (c & tail & E & Hspace & Hclose).
    assert (Hlist :
              PyJson.read_value (S fuel)
                (String "["
                   (PyJson.dump x
                    ++ joined_tail (map PyJson.dump items) ++ String "]" rest))
              = match
                  PyJson.read_value fuel
                    (PyJson.dump x
                     ++ joined_tail (map PyJson.dump items)
                     ++ String "]" rest)
                with
                | Some (x, r) =>
                    match PyJson.read_items fuel r with
                    | Some (l, r') => Some (Py.JList (x :: l), r')
                    | None => None
                    end
                | None => None
                end).
    { rewrite E. cbn [append]. now apply read_value_list. }
    rewrite Hlist, Hx.
    + rewrite read_items_dump; [reflexivity | exact Hitems |].
      rewrite length_append in Hfuel. lia.
    + now apply closes_joined_tail.
    + lia.
  - destruct items as [|[key x] items]; [reflexivity|].
    cbn [PyJson.dump map] in *.
    change (fun member : string * Py.json =>
              (PyJson.dump_str (fst member) ++ ": " ++ PyJson.dump (snd member))%string)
      with dump_member in *.
    rewrite concat_joined_tail in *.
    cbn [append] in *. rewrite !append_assoc in *. cbn [append] in *.
    cbn [String.length] in Hfuel.
    inversion IH as [|x' items' Hx Hitems]; subst. cbn [snd] in Hx.
    pose proof (read_member_dump key x Hx fuel
                  (joined_tail (map dump_member items) ++ String "}" rest))
      as Hmember.
    rewrite dump_member_text in Hmember.
    unfold PyJson.dump_str in *. cbn [fst snd append] in *.
    rewrite !append_assoc in *. cbn [append] in *.
    rewrite read_value_dict, Hmember.
    + rewrite read_members_dump; [reflexivity | exact Hitems |].
      rewrite length_append. cbn [String.length].
      repeat (cbn [String.length] in Hfuel; rewrite ?length_append in Hfuel).
      lia.
    + now apply closes_joined_tail.
    + cbn [String.length] in *. lia.
Qed.

(** [load] reads what [dump] wrote and gives the value back with its
    tuples as lists: what [json.loads(json.dumps(v))] is. *)
Lemma load_dump v : PyJson.load (PyJson.dump v) = Some (as_loaded v).
Proof.
  unfold PyJson.load.
  pose proof (read_value_dump v (S (String.length (PyJson.dump v)))
                EmptyString eq_refl) as Hread.
  rewrite append_nil_r in Hread. rewrite Hread; [reflexivity | lia].
Qed.

(** A value comes back as it is exactly when it holds no tuple. *)
Lemma as_loaded_tuple_free v : as_loaded v = v <-> tuple_free v = true.
Proof.
  induction v as [ | b | n | s | items IH | items IH | items IH ]
    using json_values_ind; cbn [as_loaded tuple_free];
    try (split; [reflexivity | reflexivity]).
  - rewrite forallb_forall. split.
    + intros [= E] x Hx.
      assert (Hall : forall y, In y items -> as_loaded y = y).
      { clear Hx. induction items as [|z items IHitems]; [contradiction|].
        cbn [map] in E. injection E as Ez E.
        inversion IH as [|? ? _ IH']; subst.
        intros y [<- | Hy]; [exact Ez | now apply IHitems]. }
      rewrite Forall_forall in IH. now apply IH, Hall.
    + intro H. f_equal. rewrite Forall_forall in IH.
      induction items as [|z items IHitems]; [reflexivity|].
      cbn [map]. f_equal.
      * apply IH; [now left|]. apply H. now left.
      * apply IHitems; intros y Hy; [apply IH | apply H]; now right.
  - split; discriminate.
  - rewrite forallb_forall. split.
    + intros [= E] x Hx.
      assert (Hall : forall y, In y items -> as_loaded (snd y) = snd y).
      { clear Hx. induction items as [|z items IHitems]; [contradiction|].
        cbn [map] in E. injection E as Ez E.
        inversion IH as [|? ? _ IH']; subst.
        intros y [<- | Hy]; [|now apply IHitems].
        destruct z as [key z]. cbn [fst snd] in *. congruence. }
      rewrite Forall_forall in IH. now apply IH, Hall.
    + intro H. f_equal. rewrite Forall_forall in IH.
      induction items as [|z items IHitems]; [reflexivity|].
      cbn [map]. f_equal.
      * destruct z as [key z]. cbn [fst snd]. f_equal.
        apply (IH (key, z)); [now left|]. apply (H (key, z)). now left.
      * apply IHitems; intros y Hy; [apply IH | apply H]; now right.
Qed.

Lemma dump_not_empty v : PyJson.dump v <> EmptyString.
Proof.
  destruct (dump_head v) as (c & tail & E & _). rewrite E. discriminate.
Qed.

(** *** The context column *)

Lemma next_id_above db x : In x db -> Task.id x < TaskQueue.next_id db.
Proof.
  unfold TaskQueue.next_id.
  induction db as [|y db IH]; cbn [fold_right In]; [contradiction|].
  intros [-> | Hx]; [lia|]. specialize (IH Hx). lia.
Qed.

Lemma find_app_None {A : Type} (p : A -> bool) (l l' : list A) :
  find p l = None -> find p (l ++ l') = find p l'.
Proof.
  induction l as [|x l IH]; simpl; [reflexivity|].
  destruct (p x); [discriminate | exact IH].
Qed.

(** The row [add_task] appends is the one its id finds. *)
Lemma query_first_new_row db task :
  Task.id task = TaskQueue.next_id db ->
  TaskQueue.query_first (Task.id task) (db ++ [task]) = Some task.
Proof.
  intro Hid. unfold TaskQueue.query_first.
  assert (Hnone : find (TaskQueue.has_id (Task.id task)) db = None).
  { apply (query_first_None (Task.id task) db).
    intros x Hx. pose proof (next_id_above db x Hx). lia. }
  rewrite (find_app_None _ _ _ Hnone). simpl. unfold TaskQueue.has_id.
  now rewrite Z.eqb_refl.
Qed.

(** With any JSON library: a non-empty context dictionary [c] that the
    library writes as a non-empty text comes back from [get_task_context]
    as the library reads that text. *)
Lemma get_task_context_after_add_task (J : Py.JsonModule)
    (now : datetime) (description : string) (priority : TaskPriority)
    (c : Py.dict) (read : Py.json)
    (slack_user_id slack_thread_ts project_id project_name : option string)
    (db : TaskQueue.Store) :
  c <> [] ->
  Py.dumps (Py.JDict c) <> EmptyString ->
  Py.loads (Py.dumps (Py.JDict c)) = Some read ->
  let task :=
    fst (TaskQueue.add_task now description priority (Some c) slack_user_id
           slack_thread_ts project_id project_name db) in
  let db' :=
    snd (TaskQueue.add_task now description priority (Some c) slack_user_id
           slack_thread_ts project_id project_name db) in
  TaskQueue.get_task_context (Task.id task) db'
  = (Py.Returned (Some read), db').
Proof.
  intros Hc Hdumps Hloads. cbv zeta.
  unfold TaskQueue.add_task, TaskQueue._run_write. cbn [fst snd].
  unfold TaskQueue.get_task_context, TaskQueue.get_task, TaskQueue._run_read.
  rewrite (query_first_new_row db) by reflexivity.
  destruct c as [|item c]; [congruence|]. cbn [Py.truthy_dict Task.context].
  destruct (Py.dumps (Py.JDict (item :: c))) as [|ch text] eqn:E;
    [congruence|].
  cbn [Py.truthy_str]. now rewrite Hloads.
Qed.

(** C9, as the code has it.  With [json.dumps] and [json.loads] as the
    reference implementation has them, a non-empty context dictionary
    given to [add_task] comes back from [get_task_context] on the id of
    the new task with every tuple in it turned into a list: it is equal
    to what was given when it holds no tuple, and not otherwise. *)
Theorem add_task_get_task_context_roundtrip
    (now : datetime) (description : string) (priority : TaskPriority)
    (c : Py.dict)
    (slack_user_id slack_thread_ts project_id project_name : option string)
    (db : TaskQueue.Store) :
  c <> [] ->
  let task :=
    fst (TaskQueue.add_task (J := reference_json) now description priority
           (Some c) slack_user_id slack_thread_ts project_id project_name db) in
  let db' :=
    snd (TaskQueue.add_task (J := reference_json) now description priority
           (Some c) slack_user_id slack_thread_ts project_id project_name db) in
  TaskQueue.get_task_context (J := reference_json) (Task.id task) db'
  = (Py.Returned (Some (as_loaded (Py.JDict c))), db')
  /\ (tuple_free (Py.JDict c) = true ->
      TaskQueue.get_task_context (J := reference_json) (Task.id task) db'
      = (Py.Returned (Some (Py.JDict c)), db'))
  /\ (tuple_free (Py.JDict c) = false ->
      TaskQueue.get_task_context (J := reference_json) (Task.id task) db'
      <> (Py.Returned (Some (Py.JDict c)), db')).
Proof.
  intro Hc. cbv zeta.
  assert (Hread :
            TaskQueue.get_task_context (J := reference_json)
              (Task.id
                 (fst (TaskQueue.add_task (J := reference_json) now
                         description priority (Some c) slack_user_id
                         slack_thread_ts project_id project_name db)))
              (snd (TaskQueue.add_task (J := reference_json) now description
                      priority (Some c) slack_user_id slack_thread_ts
                      project_id project_name db))
            = (Py.Returned (Some (as_loaded (Py.JDict c))),
               snd (TaskQueue.add_task (J := reference_json) now description
                      priority (Some c) slack_user_id slack_thread_ts
                      project_id project_name db))).
  { apply (get_task_context_after_add_task reference_json); [exact Hc | |].
    - apply dump_not_empty.
    - apply load_dump. }
  split; [exact Hread|]. split.
  - intro Hfree. rewrite Hread.
    now rewrite (proj2 (as_loaded_tuple_free (Py.JDict c)) Hfree).
  - intros Htuple Hsame. rewrite Hread in Hsame.
    assert (Hloaded : as_loaded (Py.JDict c) = Py.JDict c) by congruence.
    apply as_loaded_tuple_free in Hloaded. congruence.
Qed.

(** An instance: the context [{"k": "v"}] of the specification, stored as
    the text [{"k": "v"}] and read back. *)
Lemma add_task_get_task_context_witness :
  [("k", Py.JStr "v")] <> []
  /\ TaskQueue.get_task_context (J := reference_json) 1
       (snd (TaskQueue.add_task (J := reference_json) 5 "x" SERIOUS
               (Some [("k", Py.JStr "v")]) None None None None []))
     = (Py.Returned (Some (Py.JDict [("k", Py.JStr "v")])),
        snd (TaskQueue.add_task (J := reference_json) 5 "x" SERIOUS
               (Some [("k", Py.JStr "v")]) None None None None [])).
Proof.
  split; [discriminate|].
  apply (add_task_get_task_context_roundtrip 5 "x" SERIOUS
           [("k", Py.JStr "v")] None None None None []);
    [discriminate | reflexivity].
Defined.

(** C9, as stated, fails: the context [{"k": (1, 2)}] is stored as the
    text [{"k": [1, 2]}] and comes back as [{"k": [1, 2]}], with a list
    where the tuple was. *)
Lemma context_tuple_comes_back_as_list :
  Task.context
    (fst (TaskQueue.add_task (J := reference_json) 5 "x" SERIOUS
            (Some [("k", Py.JTuple [Py.JInt 1; Py.JInt 2])]) None None None
            None []))
  = Some ("{" ++ String PyJson.dquote "k" ++ String PyJson.dquote ": [1, 2]}")%string
  /\ TaskQueue.get_task_context (J := reference_json) 1
       (snd (TaskQueue.add_task (J := reference_json) 5 "x" SERIOUS
               (Some [("k", Py.JTuple [Py.JInt 1; Py.JInt 2])]) None None
               None None []))
     = (Py.Returned (Some (Py.JDict [("k", Py.JList [Py.JInt 1; Py.JInt 2])])),
        snd (TaskQueue.add_task (J := reference_json) 5 "x" SERIOUS
               (Some [("k", Py.JTuple [Py.JInt 1; Py.JInt 2])]) None None
               None None []))
  /\ Py.JDict [("k", Py.JList [Py.JInt 1; Py.JInt 2])]
     <> Py.JDict [("k", Py.JTuple [Py.JInt 1; Py.JInt 2])].
Proof.
  split; [reflexivity|]. split; [reflexivity|]. discriminate.
Qed.

(** C10.  With the empty dictionary [add_task] writes the same row as with
    no context at all, its context column is null, and
    [get_task_context] on the new id returns [None]. *)
Theorem add_task_empty_context_is_null (J : Py.JsonModule)
    (now : datetime) (description : string) (priority : TaskPriority)
    (slack_user_id slack_thread_ts project_id project_name : option string)
    (db : TaskQueue.Store) :
  let added :=
    TaskQueue.add_task now description priority (Some []) slack_user_id
      slack_thread_ts project_id project_name db in
  added
  = TaskQueue.add_task now description priority None slack_user_id
      slack_thread_ts project_id project_name db
  /\ Task.context (fst added) = None
  /\ TaskQueue.get_task_context (Task.id (fst added)) (snd added)
     = (Py.Returned None, snd added).
Proof.
  cbv zeta. unfold TaskQueue.add_task, TaskQueue._run_write. cbn [fst snd].
  split; [reflexivity|]. split; [reflexivity|].
  unfold TaskQueue.get_task_context, TaskQueue.get_task, TaskQueue._run_read.
  now rewrite (query_first_new_row db) by reflexivity.
Qed.

(* ================================================================== *)
(** * Properties of the runtime and of the validation *)
(* ================================================================== *)

Lemma evaluator_says_failed_spec eval_status :
  TaskRuntime.evaluator_says_failed eval_status = true
  <-> reports_failure eval_status.
Proof.
  unfold TaskRuntime.evaluator_says_failed, reports_failure.
  destruct eval_status as [s|].
  - rewrite andb_true_iff, existsb_exists. split.
    + intros [_ (x & Hx & He)]. exists s. split; [reflexivity|].
      apply String.eqb_eq in He. now rewrite He.
    + intros (s' & [= <-] & Hin). split.
      * destruct s; [|reflexivity]. simpl in Hin.
        destruct Hin as [H | [H | [H | []]]]; discriminate H.
      * exists (Py.upper s). split; [exact Hin | apply String.eqb_refl].
  - split; [discriminate|]. intros (s & H & _). discriminate H.
Qed.

Section CommitStep.

Variable c : TaskRuntime.Collaborators.

Lemma git_commit_returns branch workspace files message w :
  commit_never_raises c ->
  exists sha w',
    TaskRuntime.git_commit c branch workspace files message w = (inr sha, w')
    /\ TaskRuntime.tasks w' = TaskRuntime.tasks w
    /\ TaskRuntime.results w' = TaskRuntime.results w
    /\ TaskRuntime.calls w'
       = TaskRuntime.calls w
         ++ [TaskRuntime.CommitWorkspaceChanges branch workspace files message].
Proof.
  intro Hok. destruct (Hok branch workspace files message) as [sha Hsha].
  exists sha. eexists.
  unfold TaskRuntime.git_commit, TaskRuntime.bind, TaskRuntime.call.
  rewrite Hsha. cbn. repeat split; reflexivity.
Qed.

(** The commit step returns, and writes to neither table. *)
Lemma _maybe_commit_changes_returns task workspace files_modified
    result_output git_branch w :
  commit_never_raises c ->
  exists sha w' extra,
    TaskRuntime._maybe_commit_changes c task workspace files_modified
      result_output git_branch w = (inr sha, w')
    /\ TaskRuntime.tasks w' = TaskRuntime.tasks w
    /\ TaskRuntime.results w' = TaskRuntime.results w
    /\ TaskRuntime.calls w' = TaskRuntime.calls w ++ extra.
Proof.
  intro Hok. unfold TaskRuntime._maybe_commit_changes.
  assert (Hstay : forall (sha : option string) w0,
             exists sha' w' extra,
               TaskRuntime.ret sha w0 = (inr sha', w')
               /\ TaskRuntime.tasks w' = TaskRuntime.tasks w0
               /\ TaskRuntime.results w' = TaskRuntime.results w0
               /\ TaskRuntime.calls w' = TaskRuntime.calls w0 ++ extra).
  { intros sha w0. exists sha, w0, []. rewrite app_nil_r.
    repeat split; reflexivity. }
  assert (Hgit : forall b ws fs m w0,
             exists sha' w' extra,
               TaskRuntime.git_commit c b ws fs m w0 = (inr sha', w')
               /\ TaskRuntime.tasks w' = TaskRuntime.tasks w0
               /\ TaskRuntime.results w' = TaskRuntime.results w0
               /\ TaskRuntime.calls w' = TaskRuntime.calls w0 ++ extra).
  { intros b ws fs m w0.
    destruct (git_commit_returns b ws fs m w0 Hok) as (sha & w' & H & Ht & Hr & Hc).
    exists sha, w', [TaskRuntime.CommitWorkspaceChanges b ws fs m]. auto. }
  assert (Hsummary :
            exists sha w' extra,
              TaskRuntime.bind
                match Py.set files_modified with
                | [] =>
                    TaskRuntime.bind
                      (TaskRuntime.call (TaskRuntime.WriteSummaryFile workspace))
                      (fun _ =>
                         TaskRuntime.ret
                           (if Py.truthy_opt_str (TaskRuntime.write_summary_file c)
                            then match TaskRuntime.write_summary_file c with
                                 | Some summary_rel_path =>
                                     Py.set_add summary_rel_path
                                       (Py.set files_modified)
                                 | None => Py.set files_modified
                                 end
                            else Py.set files_modified))
                | _ :: _ => TaskRuntime.ret (Py.set files_modified)
                end
                (fun files_for_commit =>
                   match
                     TaskRuntime._collect_commit_targets c workspace
                       files_for_commit
                   with
                   | [] => TaskRuntime.ret None
                   | _ :: _ =>
                       TaskRuntime.git_commit c git_branch workspace
                         (TaskRuntime._collect_commit_targets c workspace
                            files_for_commit)
                         (TaskRuntime.commit_message "Capture thought: #" task
                            " ")
                   end) w = (inr sha, w')
              /\ TaskRuntime.tasks w' = TaskRuntime.tasks w
              /\ TaskRuntime.results w' = TaskRuntime.results w
              /\ TaskRuntime.calls w' = TaskRuntime.calls w ++ extra).
  { destruct (Py.set files_modified) as [|f fs].
    - unfold TaskRuntime.bind at 1. unfold TaskRuntime.bind at 1.
      cbn [TaskRuntime.call TaskRuntime.ret].
      match goal with
      | |- context [TaskRuntime._collect_commit_targets c workspace ?x] =>
          destruct (TaskRuntime._collect_commit_targets c workspace x)
            as [|t ts]
      end.
      + eexists; eexists; exists [TaskRuntime.WriteSummaryFile workspace].
        cbn. repeat split; reflexivity.
      + match goal with
        | |- context [TaskRuntime.git_commit c ?b ?ws ?fs ?m ?w0] =>
            destruct (Hgit b ws fs m w0) as (sha & w' & extra & H & Ht & Hr & Hc)
        end.
        exists sha, w', (TaskRuntime.WriteSummaryFile workspace :: extra).
        rewrite H, Ht, Hr, Hc. cbn. rewrite <- app_assoc.
        repeat split; reflexivity.
    - unfold TaskRuntime.bind, TaskRuntime.ret at 1.
      destruct (TaskRuntime._collect_commit_targets c workspace (f :: fs));
        [apply Hstay | apply Hgit]. }
  destruct (Task.priority task); [exact Hsummary | | exact Hsummary].
  destruct (Py.set files_modified) as [|f fs]; [apply Hstay|].
  destruct (GitManager.validate_changes _ _ _ _) as [is_valid msg].
  destruct is_valid; cbn [negb]; [|apply Hstay].
  destruct (TaskRuntime._collect_commit_targets c workspace (f :: fs));
    [apply Hstay | apply Hgit].
Qed.

(** A SERIOUS task whose files do not pass the validation: the commit step
    returns no commit and makes no call. *)
Lemma _maybe_commit_changes_validation_failure task workspace files_modified
    result_output git_branch w validation_msg :
  Task.priority task = SERIOUS ->
  GitManager.validate_changes (TaskRuntime.read_text c)
    (TaskRuntime.ast_parse c) workspace (Py.sorted (Py.set files_modified))
  = (false, validation_msg) ->
  TaskRuntime._maybe_commit_changes c task workspace files_modified
    result_output git_branch w = (inr None, w).
Proof.
  intros Hserious Hinvalid. unfold TaskRuntime._maybe_commit_changes.
  rewrite Hserious.
  destruct (Py.set files_modified); [reflexivity|].
  now rewrite Hinvalid.
Qed.

End CommitStep.

Section Steps.

Context {A B : Type}.

Lemma bind_returns (m : TaskRuntime.M A) (k : A -> TaskRuntime.M B) w a w' :
  m w = (inr a, w') -> TaskRuntime.bind m k w = k a w'.
Proof. intro H. unfold TaskRuntime.bind. now rewrite H. Qed.

Lemma bind_raises (m : TaskRuntime.M A) (k : A -> TaskRuntime.M B) w e w' :
  m w = (inl e, w') -> TaskRuntime.bind m k w = (inl e, w').
Proof. intro H. unfold TaskRuntime.bind. now rewrite H. Qed.

Lemma try_except_returns (body : TaskRuntime.M A) handler w a w' :
  body w = (inr a, w') -> TaskRuntime.try_except body handler w = (inr a, w').
Proof. intro H. unfold TaskRuntime.try_except. now rewrite H. Qed.

Lemma try_except_raises (body : TaskRuntime.M A) handler w e w' :
  body w = (inl e, w') ->
  TaskRuntime.try_except body handler w = handler e w'.
Proof. intro H. unfold TaskRuntime.try_except. now rewrite H. Qed.

End Steps.

Section QueueCalls.

Variable c : TaskRuntime.Collaborators.
Variable task_id : Z.
Variable w : TaskRuntime.World.

Lemma mark_in_progress_run :
  TaskRuntime.mark_in_progress c task_id w
  = (inr (fst (TaskQueue.mark_in_progress (TaskRuntime.now_started c) task_id
                 (TaskRuntime.tasks w))),
     TaskRuntime.mkWorld
       (snd (TaskQueue.mark_in_progress (TaskRuntime.now_started c) task_id
               (TaskRuntime.tasks w)))
       (TaskRuntime.results w)
       (TaskRuntime.calls w ++ [TaskRuntime.MarkInProgress task_id])).
Proof.
  unfold TaskRuntime.mark_in_progress, TaskRuntime.bind, TaskRuntime.call,
    TaskRuntime.on_queue. cbn.
  now destruct (TaskQueue.mark_in_progress _ _ _).
Qed.

Lemma mark_completed_run result_id :
  TaskRuntime.mark_completed c task_id result_id w
  = (inr (fst (TaskQueue.mark_completed (TaskRuntime.now_finished c) task_id
                 result_id (TaskRuntime.tasks w))),
     TaskRuntime.mkWorld
       (snd (TaskQueue.mark_completed (TaskRuntime.now_finished c) task_id
               result_id (TaskRuntime.tasks w)))
       (TaskRuntime.results w)
       (TaskRuntime.calls w ++ [TaskRuntime.MarkCompleted task_id result_id])).
Proof.
  unfold TaskRuntime.mark_completed, TaskRuntime.bind, TaskRuntime.call,
    TaskRuntime.on_queue. cbn.
  now destruct (TaskQueue.mark_completed _ _ _ _).
Qed.

Lemma mark_failed_run error_message :
  TaskRuntime.mark_failed c task_id error_message w
  = (inr (fst (TaskQueue.mark_failed (TaskRuntime.now_finished c) task_id
                 error_message (TaskRuntime.tasks w))),
     TaskRuntime.mkWorld
       (snd (TaskQueue.mark_failed (TaskRuntime.now_finished c) task_id
               error_message (TaskRuntime.tasks w)))
       (TaskRuntime.results w)
       (TaskRuntime.calls w ++ [TaskRuntime.MarkFailed task_id error_message])).
Proof.
  unfold TaskRuntime.mark_failed, TaskRuntime.bind, TaskRuntime.call,
    TaskRuntime.on_queue. cbn.
  now destruct (TaskQueue.mark_failed _ _ _ _).
Qed.

Lemma save_result_run output files_modified commands_executed
    processing_time_seconds git_commit_sha git_pr_url git_branch
    workspace_path :
  TaskRuntime.save_result_error c = None ->
  TaskRuntime.save_result c task_id output files_modified commands_executed
    processing_time_seconds git_commit_sha git_pr_url git_branch
    workspace_path w
  = (inr (saved_result c task_id output files_modified commands_executed
            processing_time_seconds git_commit_sha git_pr_url git_branch
            workspace_path (TaskRuntime.results w)),
     TaskRuntime.mkWorld (TaskRuntime.tasks w)
       (TaskRuntime.results w
        ++ [saved_result c task_id output files_modified commands_executed
              processing_time_seconds git_commit_sha git_pr_url git_branch
              workspace_path (TaskRuntime.results w)])
       (TaskRuntime.calls w ++ [TaskRuntime.SaveResult task_id output])).
Proof.
  intro Hok.
  unfold TaskRuntime.save_result, TaskRuntime.bind, TaskRuntime.call,
    ResultManager.save_result. rewrite Hok. reflexivity.
Qed.

End QueueCalls.

Section QueueRows.

Variables (now : datetime) (task_id : Z) (db : TaskQueue.Store) (row : Task.t).
Hypothesis found : TaskQueue.query_first task_id db = Some row.

Lemma mark_in_progress_row :
  exists row',
    TaskQueue.query_first task_id
      (snd (TaskQueue.mark_in_progress now task_id db)) = Some row'
    /\ Task.status row' = IN_PROGRESS.
Proof.
  unfold TaskQueue.mark_in_progress, TaskQueue._run_write. rewrite found.
  eexists. cbn [snd]. split; [|shelve].
  eapply query_first_flush; [|exact found].
  apply (query_first_id _ _ _ found).
  Unshelve. reflexivity.
Qed.

Lemma mark_completed_row result_id :
  exists row',
    TaskQueue.query_first task_id
      (snd (TaskQueue.mark_completed now task_id result_id db)) = Some row'
    /\ Task.status row' = COMPLETED
    /\ Task.result_id row' = result_id
    /\ Task.completed_at row' = Some now.
Proof.
  unfold TaskQueue.mark_completed, TaskQueue._run_write. rewrite found.
  eexists. cbn [snd]. split; [|shelve].
  eapply query_first_flush; [|exact found].
  apply (query_first_id _ _ _ found).
  Unshelve. repeat split.
Qed.

Lemma mark_failed_row error_message :
  exists row',
    TaskQueue.query_first task_id
      (snd (TaskQueue.mark_failed now task_id error_message db)) = Some row'
    /\ Task.status row' = FAILED
    /\ Task.error_message row' = Some error_message.
Proof.
  pose proof (query_first_id _ _ _ found) as Hid.
  unfold TaskQueue.mark_failed, TaskQueue._run_write. rewrite found. simpl.
  destruct (Task.completed_at row); eexists;
    (split; [eapply query_first_flush; [exact Hid | exact found]
            | split; reflexivity]).
Qed.

End QueueRows.

Lemma timeout_run c task w :
  TaskRuntime.execute_task c = TaskRuntime.DeadlineExceeded ->
  TaskRuntime._run_task_with_timeout c task w
  = (inl (TaskRuntime.Error
            (TaskRuntime.timeout_error (TaskRuntime.task_timeout_seconds c))),
     w).
Proof.
  intro H. unfold TaskRuntime._run_task_with_timeout. now rewrite H.
Qed.

(** C6.  When the wait on the adapter runs into the deadline, [execute]
    returns; the only calls it makes are [mark_in_progress] and
    [mark_failed] with the message "Timed out after N minute(s)", N being
    the configured timeout in whole minutes and at least 1; no Result is
    saved, nothing is committed, and the task is FAILED with that
    message. *)
Theorem execute_timeout_marks_failed (c : TaskRuntime.Collaborators)
    (task row : Task.t) (w : TaskRuntime.World) :
  TaskRuntime.execute_task c = TaskRuntime.DeadlineExceeded ->
  TaskQueue.query_first (Task.id task) (TaskRuntime.tasks w) = Some row ->
  let message :=
    ("Timed out after "
     ++ Py.str_of_int (Z.max 1 (TaskRuntime.task_timeout_seconds c / 60))
     ++ " minute(s)")%string in
  exists w' row',
    TaskRuntime.execute c task w = (inr tt, w')
    /\ TaskRuntime.results w' = TaskRuntime.results w
    /\ TaskRuntime.calls w'
       = TaskRuntime.calls w
         ++ [TaskRuntime.MarkInProgress (Task.id task);
             TaskRuntime.MarkFailed (Task.id task) message]
    /\ TaskQueue.query_first (Task.id task) (TaskRuntime.tasks w') = Some row'
    /\ Task.status row' = FAILED
    /\ Task.error_message row' = Some message.
Proof.
  intros Hadapter Hrow message.
  destruct (mark_in_progress_row (TaskRuntime.now_started c) _ _ _ Hrow)
    as (row1 & Hrow1 & _).
  destruct (mark_failed_row (TaskRuntime.now_finished c) _ _ _ Hrow1 message)
    as (row2 & Hrow2 & Hstatus & Hmessage).
  eexists. exists row2.
  split.
  - unfold TaskRuntime.execute.
    erewrite bind_returns; [|apply mark_in_progress_run].
    erewrite try_except_raises;
      [|erewrite bind_raises; [reflexivity | now apply timeout_run]].
    cbv beta iota.
    erewrite bind_returns; [|apply mark_failed_run].
    reflexivity.
  - cbn [TaskRuntime.tasks TaskRuntime.results TaskRuntime.calls].
    split; [reflexivity|].
    split; [now rewrite <- app_assoc|].
    split; [exact Hrow2|]. split; assumption.
Qed.

Lemma pause_run c task w reset_time usage_percent :
  TaskRuntime.execute_task c = TaskRuntime.Pauses reset_time usage_percent ->
  TaskRuntime._run_task_with_timeout c task w
  = (inl (TaskRuntime.PauseException reset_time usage_percent), w).
Proof.
  intro H. unfold TaskRuntime._run_task_with_timeout. now rewrite H.
Qed.

Lemma str_or_placeholder result_output :
  Py.str_or result_output TaskRuntime.pause_placeholder <> EmptyString.
Proof.
  unfold Py.str_or. destruct result_output; simpl; discriminate.
Qed.

(** The pause handler, when the Result can be written. *)
Lemma _handle_pause_exception_run c task reset_time result_output
    files_modified commands_executed workspace w :
  TaskRuntime.save_result_error c = None ->
  let result :=
    saved_result c (Task.id task)
      (Py.str_or result_output TaskRuntime.pause_placeholder)
      files_modified commands_executed
      (Some (TaskRuntime.processing_time c)) None None None
      (Some (match workspace with Some p => p | None => EmptyString end))
      (TaskRuntime.results w) in
  let duration :=
    TaskRuntime.sleep_seconds reset_time (TaskRuntime.now_paused c) in
  TaskRuntime._handle_pause_exception c task reset_time result_output
    files_modified commands_executed workspace w
  = (inr tt,
     TaskRuntime.mkWorld
       (snd (TaskQueue.mark_completed (TaskRuntime.now_finished c)
               (Task.id task) (Some (Result.id result))
               (TaskRuntime.tasks w)))
       (TaskRuntime.results w ++ [result])
       (TaskRuntime.calls w
        ++ [TaskRuntime.SaveResult (Task.id task) (Result.output result);
            TaskRuntime.MarkCompleted (Task.id task)
              (Some (Result.id result))]
        ++ (if 0 <? duration then [TaskRuntime.Sleep duration] else []))).
Proof.
  intros Hsave result duration.
  unfold TaskRuntime._handle_pause_exception.
  erewrite bind_returns.
  2:{ apply try_except_returns.
      erewrite bind_returns; [|now apply save_result_run].
      erewrite bind_returns; [|apply mark_completed_run].
      reflexivity. }
  fold duration.
  assert (Hsleep : (0 <? duration)
                   && match reset_time with Some _ => true | None => false end
                   = (0 <? duration)).
  { destruct reset_time; [apply andb_true_r | reflexivity]. }
  rewrite Hsleep.
  destruct (0 <? duration);
    unfold TaskRuntime.call, TaskRuntime.ret;
    cbn [TaskRuntime.tasks TaskRuntime.results TaskRuntime.calls];
    repeat rewrite <- app_assoc; [reflexivity|].
  now rewrite app_nil_r.
Qed.

(** C7.  When the adapter signals a pause and the Result can be written,
    [execute] returns without raising after, in this order: saving one
    Result with a non-empty output, marking the task COMPLETED with the
    id of that Result, and sleeping for the time from now to the reset
    time; it does not sleep when there is no reset time or it is not in
    the future. *)
Theorem execute_pause_saves_completes_sleeps (c : TaskRuntime.Collaborators)
    (task row : Task.t) (w : TaskRuntime.World)
    (reset_time : option datetime) (usage_percent : Z) :
  TaskRuntime.execute_task c = TaskRuntime.Pauses reset_time usage_percent ->
  TaskRuntime.save_result_error c = None ->
  TaskQueue.query_first (Task.id task) (TaskRuntime.tasks w) = Some row ->
  let duration :=
    match reset_time with
    | Some reset => Z.max 0 (reset - TaskRuntime.now_paused c)
    | None => 0
    end in
  exists w' result row',
    TaskRuntime.execute c task w = (inr tt, w')
    /\ TaskRuntime.results w' = TaskRuntime.results w ++ [result]
    /\ Result.task_id result = Task.id task
    /\ Result.output result <> EmptyString
    /\ TaskQueue.query_first (Task.id task) (TaskRuntime.tasks w') = Some row'
    /\ Task.status row' = COMPLETED
    /\ Task.result_id row' = Some (Result.id result)
    /\ TaskRuntime.calls w'
       = TaskRuntime.calls w
         ++ [TaskRuntime.MarkInProgress (Task.id task);
             TaskRuntime.SaveResult (Task.id task) (Result.output result);
             TaskRuntime.MarkCompleted (Task.id task)
               (Some (Result.id result))]
         ++ (if 0 <? duration then [TaskRuntime.Sleep duration] else []).
Proof.
  intros Hadapter Hsave Hrow duration.
  destruct (mark_in_progress_row (TaskRuntime.now_started c) _ _ _ Hrow)
    as (row1 & Hrow1 & _).
  set (result :=
         saved_result c (Task.id task)
           (Py.str_or EmptyString TaskRuntime.pause_placeholder) [] []
           (Some (TaskRuntime.processing_time c)) None None None
           (Some EmptyString) (TaskRuntime.results w)).
  destruct (mark_completed_row (TaskRuntime.now_finished c) _ _ _ Hrow1
              (Some (Result.id result)))
    as (row2 & Hrow2 & Hstatus & Hresult & _).
  eexists. exists result, row2.
  split.
  - unfold TaskRuntime.execute.
    erewrite bind_returns; [|apply mark_in_progress_run].
    erewrite try_except_raises;
      [|erewrite bind_raises; [reflexivity | eapply pause_run; exact Hadapter]].
    cbv beta iota.
    now apply _handle_pause_exception_run.
  - cbn [TaskRuntime.tasks TaskRuntime.results TaskRuntime.calls].
    split; [reflexivity|]. split; [reflexivity|].
    split; [discriminate|]. split; [exact Hrow2|].
    split; [exact Hstatus|]. split; [exact Hresult|].
    now rewrite <- app_assoc.
Qed.

Lemma sorted_if_any files :
  match files with [] => [] | _ :: _ => Py.sorted files end = Py.sorted files.
Proof. now destruct files. Qed.

Lemma returns_run c task w result_output files_modified commands_executed
    exit_code usage_metrics eval_status :
  TaskRuntime.execute_task c
  = TaskRuntime.Returns result_output files_modified commands_executed
      exit_code usage_metrics eval_status ->
  TaskRuntime._run_task_with_timeout c task w
  = (inr (result_output, files_modified, commands_executed, exit_code,
          usage_metrics, eval_status), w).
Proof.
  intro H. unfold TaskRuntime._run_task_with_timeout. now rewrite H.
Qed.

(** Writing the commit information on the row just appended. *)
Lemma update_result_commit_info_last db result sha pr branch :
  Result.id result = ResultManager.next_id db ->
  ResultManager.update_result_commit_info (Result.id result) sha pr branch
    (db ++ [result])
  = db ++ [ResultManager.set_commit_info sha pr branch result].
Proof.
  intro Hid.
  assert (Hbelow : forall x, In x db -> Result.id x <> Result.id result).
  { rewrite Hid. unfold ResultManager.next_id. clear Hid.
    enough (forall x, In x db ->
              Result.id x
              < 1 + fold_right (fun y m => Z.max (Result.id y) m) 0 db)
      as Hlt by (intros x Hx; specialize (Hlt x Hx); lia).
    induction db as [|y db IH]; cbn [fold_right In]; [contradiction|].
    intros x [-> | Hx]; [lia|]. specialize (IH x Hx). lia. }
  clear Hid. induction db as [|y db IH]; simpl.
  - now rewrite Z.eqb_refl.
  - destruct (Z.eqb_spec (Result.id y) (Result.id result)) as [E|E].
    + exfalso. apply (Hbelow y); [now left | exact E].
    + f_equal. apply IH. intros x Hx. apply Hbelow. now right.
Qed.

(** The commit step of [execute], after the Result [result] was appended
    to the table [db]: it returns, leaves the task table as it is, and
    may only write the commit columns of [result]. *)
Lemma commit_step_run c task result db workspace files_modified result_output
    git_branch w :
  commit_never_raises c ->
  TaskRuntime.results w = db ++ [result] ->
  Result.id result = ResultManager.next_id db ->
  exists w' extra sha pr branch,
    (if TaskRuntime.workspace_exists c then
       TaskRuntime.bind
         (TaskRuntime.call (TaskRuntime.CleanupWorkspaceCaches workspace))
         (fun _ =>
            TaskRuntime.bind
              (TaskRuntime._maybe_commit_changes c task workspace
                 files_modified result_output git_branch)
              (fun git_commit_sha =>
                 if Py.truthy_opt_str git_commit_sha
                 then TaskRuntime.update_result_commit_info (Result.id result)
                        git_commit_sha None (Some git_branch)
                 else TaskRuntime.ret tt))
     else TaskRuntime.ret tt) w = (inr tt, w')
    /\ TaskRuntime.tasks w' = TaskRuntime.tasks w
    /\ TaskRuntime.calls w' = TaskRuntime.calls w ++ extra
    /\ TaskRuntime.results w'
       = db ++ [ResultManager.set_commit_info sha pr branch result].
Proof.
  intros Hok Hdb Hid.
  assert (Hsame : result
                  = ResultManager.set_commit_info (Result.git_commit_sha result)
                      (Result.git_pr_url result) (Result.git_branch result)
                      result) by now destruct result.
  destruct (TaskRuntime.workspace_exists c).
  - set (w1 := TaskRuntime.mkWorld (TaskRuntime.tasks w) (TaskRuntime.results w)
                 (TaskRuntime.calls w
                  ++ [TaskRuntime.CleanupWorkspaceCaches workspace])).
    destruct (_maybe_commit_changes_returns c task workspace files_modified
                result_output git_branch w1 Hok)
      as (sha & w2 & extra & Hrun & Htasks & Hresults & Hcalls).
    erewrite bind_returns; [|reflexivity].
    erewrite bind_returns; [|exact Hrun].
    destruct (Py.truthy_opt_str sha).
    + eexists. exists (TaskRuntime.CleanupWorkspaceCaches workspace
                       :: extra
                       ++ [TaskRuntime.UpdateResultCommitInfo (Result.id result)
                             sha]).
      exists sha, None, (Some git_branch).
      unfold TaskRuntime.update_result_commit_info, TaskRuntime.bind,
        TaskRuntime.call.
      cbn [TaskRuntime.tasks TaskRuntime.results TaskRuntime.calls].
      split; [reflexivity|].
      cbn [TaskRuntime.tasks TaskRuntime.results TaskRuntime.calls].
      rewrite Htasks, Hresults, Hcalls. subst w1.
      cbn [TaskRuntime.tasks TaskRuntime.results TaskRuntime.calls].
      rewrite Hdb. split; [reflexivity|].
      split; [now rewrite <- !app_assoc|].
      now apply update_result_commit_info_last.
    + exists w2, (TaskRuntime.CleanupWorkspaceCaches workspace :: extra).
      exists (Result.git_commit_sha result), (Result.git_pr_url result),
        (Result.git_branch result).
      rewrite Htasks, Hresults, Hcalls, <- Hsame. subst w1.
      cbn [TaskRuntime.tasks TaskRuntime.results TaskRuntime.calls].
      split; [reflexivity|]. split; [reflexivity|].
      split; [now rewrite <- app_assoc | exact Hdb].
  - exists w, [].
    exists (Result.git_commit_sha result), (Result.git_pr_url result),
      (Result.git_branch result).
    rewrite <- Hsame, app_nil_r.
    split; [reflexivity|]. split; [reflexivity|].
    split; [reflexivity | exact Hdb].
Qed.

(** C5, as the code has it.  When the adapter returns, the Result can be
    written and the commit manager does not raise, [execute] returns
    after saving one Result with the output, the sorted files, the
    commands, the processing time and the workspace path, and after that
    marks the task: FAILED with "Evaluator status: X" when the reported
    status X is, in upper case, one of INCOMPLETE, FAILED, PARTIAL, and
    COMPLETED with the id of the saved Result otherwise. *)
Theorem execute_evaluator_status_decides (c : TaskRuntime.Collaborators)
    (task row : Task.t) (w : TaskRuntime.World) (result_output : string)
    (files_modified commands_executed : list string) (exit_code : Z)
    (usage_metrics : option Py.dict) (eval_status : option string) :
  TaskRuntime.execute_task c
  = TaskRuntime.Returns result_output files_modified commands_executed
      exit_code usage_metrics eval_status ->
  TaskRuntime.save_result_error c = None ->
  commit_never_raises c ->
  TaskQueue.query_first (Task.id task) (TaskRuntime.tasks w) = Some row ->
  exists w' result row' extra,
    TaskRuntime.execute c task w = (inr tt, w')
    /\ TaskRuntime.results w' = TaskRuntime.results w ++ [result]
    /\ Result.task_id result = Task.id task
    /\ Result.output result = result_output
    /\ Result.files_modified result
       = ResultManager.column (Py.sorted files_modified)
    /\ Result.commands_executed result
       = ResultManager.column commands_executed
    /\ Result.processing_time_seconds result
       = Some (TaskRuntime.processing_time c)
    /\ Result.workspace_path result = Some (TaskRuntime.get_workspace_path c)
    /\ TaskQueue.query_first (Task.id task) (TaskRuntime.tasks w') = Some row'
    /\ (reports_failure eval_status ->
        exists status,
          eval_status = Some status
          /\ Task.status row' = FAILED
          /\ Task.error_message row'
             = Some ("Evaluator status: " ++ status)%string
          /\ TaskRuntime.calls w'
             = TaskRuntime.calls w
               ++ TaskRuntime.MarkInProgress (Task.id task)
                  :: TaskRuntime.SaveResult (Task.id task) result_output
                  :: extra
               ++ [TaskRuntime.MarkFailed (Task.id task)
                     ("Evaluator status: " ++ status)%string])
    /\ (~ reports_failure eval_status ->
        Task.status row' = COMPLETED
        /\ Task.result_id row' = Some (Result.id result)
        /\ TaskRuntime.calls w'
           = TaskRuntime.calls w
             ++ TaskRuntime.MarkInProgress (Task.id task)
                :: TaskRuntime.SaveResult (Task.id task) result_output
                :: extra
             ++ [TaskRuntime.MarkCompleted (Task.id task)
                   (Some (Result.id result))]).
Proof.
  intros Hadapter Hsave Hok Hrow.
  destruct (mark_in_progress_row (TaskRuntime.now_started c) _ _ _ Hrow)
    as (row1 & Hrow1 & _).
  set (branch := GitManager.determine_branch (TaskRuntime.default_task_branch c)
                   (Task.project_id task)).
  set (saved :=
         saved_result c (Task.id task) result_output
           (Py.sorted files_modified) commands_executed
           (Some (TaskRuntime.processing_time c)) None None (Some branch)
           (Some (TaskRuntime.get_workspace_path c)) (TaskRuntime.results w)).
  set (w1 := TaskRuntime.mkWorld
               (snd (TaskQueue.mark_in_progress (TaskRuntime.now_started c)
                       (Task.id task) (TaskRuntime.tasks w)))
               (TaskRuntime.results w)
               (TaskRuntime.calls w
                ++ [TaskRuntime.MarkInProgress (Task.id task)])).
  set (w2 := TaskRuntime.mkWorld (TaskRuntime.tasks w1)
               (TaskRuntime.results w1 ++ [saved])
               (TaskRuntime.calls w1
                ++ [TaskRuntime.SaveResult (Task.id task) result_output])).
  destruct (commit_step_run c task saved (TaskRuntime.results w)
              (TaskRuntime.get_workspace_path c) (Py.sorted files_modified)
              result_output branch w2 Hok eq_refl eq_refl)
    as (w3 & extra & sha & pr & br & Hstep & Htasks3 & Hcalls3 & Hresults3).
  set (result := ResultManager.set_commit_info sha pr br saved) in *.
  destruct (TaskRuntime.evaluator_says_failed eval_status) eqn:Hev.
  - (* the evaluator reports a failure *)
    pose proof (proj1 (evaluator_says_failed_spec eval_status) Hev)
      as (status & -> & Hin).
    set (message := ("Evaluator status: " ++ status)%string).
    assert (Hrow3 : TaskQueue.query_first (Task.id task) (TaskRuntime.tasks w3)
                    = Some row1) by (rewrite Htasks3; exact Hrow1).
    destruct (mark_failed_row (TaskRuntime.now_finished c) _ _ _ Hrow3 message)
      as (row' & Hrow' & Hstatus & Hmessage).
    eexists. exists result, row', extra.
    split.
    + unfold TaskRuntime.execute.
      erewrite bind_returns; [|apply mark_in_progress_run].
      apply try_except_returns.
      erewrite bind_returns; [|eapply returns_run; exact Hadapter].
      cbv beta iota. rewrite sorted_if_any.
      erewrite bind_returns; [|now apply save_result_run].
      erewrite bind_returns; [|exact Hstep].
      rewrite Hev.
      erewrite bind_returns; [|apply mark_failed_run].
      reflexivity.
    + cbn [TaskRuntime.tasks TaskRuntime.results TaskRuntime.calls].
      split; [exact Hresults3|].
      do 6 (split; [reflexivity|]).
      split; [exact Hrow'|].
      split.
      * intros _. exists status. split; [reflexivity|].
        split; [exact Hstatus|]. split; [exact Hmessage|].
        rewrite Hcalls3. subst w2 w1.
        cbn [TaskRuntime.tasks TaskRuntime.results TaskRuntime.calls].
        now rewrite <- !app_assoc.
      * intro Hnot. exfalso. apply Hnot.
        now apply evaluator_says_failed_spec.
  - (* the evaluator does not *)
    assert (Hrow3 : TaskQueue.query_first (Task.id task) (TaskRuntime.tasks w3)
                    = Some row1) by (rewrite Htasks3; exact Hrow1).
    destruct (mark_completed_row (TaskRuntime.now_finished c) _ _ _ Hrow3
                (Some (Result.id result)))
      as (row' & Hrow' & Hstatus & Hresult & _).
    eexists. exists result, row', extra.
    split.
    + unfold TaskRuntime.execute.
      erewrite bind_returns; [|apply mark_in_progress_run].
      apply try_except_returns.
      erewrite bind_returns; [|eapply returns_run; exact Hadapter].
      cbv beta iota. rewrite sorted_if_any.
      erewrite bind_returns; [|now apply save_result_run].
      erewrite bind_returns; [|exact Hstep].
      rewrite Hev.
      erewrite bind_returns; [|apply mark_completed_run].
      reflexivity.
    + cbn [TaskRuntime.tasks TaskRuntime.results TaskRuntime.calls].
      split; [exact Hresults3|].
      do 6 (split; [reflexivity|]).
      split; [exact Hrow'|].
      split.
      * intro Hyes. apply evaluator_says_failed_spec in Hyes. congruence.
      * intros _. split; [exact Hstatus|]. split; [exact Hresult|].
        rewrite Hcalls3. subst w2 w1.
        cbn [TaskRuntime.tasks TaskRuntime.results TaskRuntime.calls].
        now rewrite <- !app_assoc.
Qed.

(** An instance of C6: a timeout of 1800 seconds, reported as 30 minutes. *)
Lemma execute_timeout_witness :
  exists w' row',
    TaskRuntime.execute (sample_collaborators TaskRuntime.DeadlineExceeded)
      pending_task one_task_world = (inr tt, w')
    /\ TaskRuntime.results w' = []
    /\ TaskRuntime.calls w'
       = [TaskRuntime.MarkInProgress 1;
          TaskRuntime.MarkFailed 1 "Timed out after 30 minute(s)"]
    /\ TaskQueue.query_first 1 (TaskRuntime.tasks w') = Some row'
    /\ Task.status row' = FAILED
    /\ Task.error_message row' = Some "Timed out after 30 minute(s)".
Proof.
  exact (execute_timeout_marks_failed
           (sample_collaborators TaskRuntime.DeadlineExceeded)
           pending_task pending_task one_task_world eq_refl eq_refl).
Defined.

(** An instance of C7: a reset time 120 seconds after the clock reading. *)
Lemma execute_pause_witness :
  exists w' result row',
    TaskRuntime.execute
      (sample_collaborators (TaskRuntime.Pauses (Some 120000112) 95))
      pending_task one_task_world = (inr tt, w')
    /\ TaskRuntime.results w' = [result]
    /\ Result.task_id result = 1
    /\ Result.output result <> EmptyString
    /\ TaskQueue.query_first 1 (TaskRuntime.tasks w') = Some row'
    /\ Task.status row' = COMPLETED
    /\ Task.result_id row' = Some (Result.id result)
    /\ TaskRuntime.calls w'
       = [TaskRuntime.MarkInProgress 1;
          TaskRuntime.SaveResult 1 (Result.output result);
          TaskRuntime.MarkCompleted 1 (Some (Result.id result));
          TaskRuntime.Sleep 120000000].
Proof.
  exact (execute_pause_saves_completes_sleeps
           (sample_collaborators (TaskRuntime.Pauses (Some 120000112) 95))
           pending_task pending_task one_task_world (Some 120000112) 95
           eq_refl eq_refl eq_refl).
Defined.

Lemma sample_commit_never_raises adapter :
  commit_never_raises (sample_collaborators adapter).
Proof. intros branch workspace files message. eexists. reflexivity. Defined.

(** An instance of C5: the evaluator reports PARTIAL. *)
Lemma execute_evaluator_status_witness :
  exists w' result row' extra,
    TaskRuntime.execute
      (sample_collaborators
         (TaskRuntime.Returns "done" ["main.py"] ["pytest"] 0 None
            (Some "PARTIAL")))
      pending_task one_task_world = (inr tt, w')
    /\ TaskRuntime.results w' = [result]
    /\ Result.output result = "done"
    /\ TaskQueue.query_first 1 (TaskRuntime.tasks w') = Some row'
    /\ Task.status row' = FAILED
    /\ Task.error_message row' = Some "Evaluator status: PARTIAL"
    /\ TaskRuntime.calls w'
       = TaskRuntime.MarkInProgress 1
         :: TaskRuntime.SaveResult 1 "done"
         :: extra ++ [TaskRuntime.MarkFailed 1 "Evaluator status: PARTIAL"].
Proof.
  destruct (execute_evaluator_status_decides
              (sample_collaborators
                 (TaskRuntime.Returns "done" ["main.py"] ["pytest"] 0 None
                    (Some "PARTIAL")))
              pending_task pending_task one_task_world "done" ["main.py"]
              ["pytest"] 0 None (Some "PARTIAL") eq_refl eq_refl
              (sample_commit_never_raises _) eq_refl)
    as (w' & result & row' & extra & Hrun & Hresults & _ & Hout & _ & _ & _ & _
        & Hrow & Hfail & _).
  assert (Hyes : reports_failure (Some "PARTIAL")).
  { exists "PARTIAL". split; [reflexivity|]. right. right. now left. }
  destruct (Hfail Hyes) as (status & Heq & Hstatus & Hmessage & Hcalls).
  injection Heq as <-.
  exists w', result, row', extra.
  repeat (split; [assumption|]). exact Hcalls.
Defined.

(** C5, as stated, fails: a status reported as [incomplete], which is none
    of the three strings, does not give a COMPLETED task but a FAILED
    one. *)
Lemma lowercase_evaluator_status_marks_failed :
  let c :=
    sample_collaborators
      (TaskRuntime.Returns "done" [] [] 0 None (Some "incomplete")) in
  ~ In "incomplete" ["INCOMPLETE"; "FAILED"; "PARTIAL"]
  /\ fst (TaskRuntime.execute c pending_task one_task_world) = inr tt
  /\ option_map Task.status
       (TaskQueue.query_first 1
          (TaskRuntime.tasks
             (snd (TaskRuntime.execute c pending_task one_task_world))))
     = Some FAILED
  /\ option_map Task.error_message
       (TaskQueue.query_first 1
          (TaskRuntime.tasks
             (snd (TaskRuntime.execute c pending_task one_task_world))))
     = Some (Some "Evaluator status: incomplete").
Proof.
  split.
  - intros [H | [H | [H | []]]]; discriminate H.
  - repeat split; vm_compute; reflexivity.
Qed.

(** When the commit manager raises, the exception reaches the handler of
    [execute]: the task is FAILED with the message of the exception,
    whatever the evaluator reported, and the Result saved before stays. *)
Lemma commit_failure_marks_failed :
  let c := failing_git (TaskRuntime.Returns "done" ["main.py"] [] 0 None None) in
  let w' := snd (TaskRuntime.execute c pending_task one_task_world) in
  fst (TaskRuntime.execute c pending_task one_task_world) = inr tt
  /\ option_map Task.status (TaskQueue.query_first 1 (TaskRuntime.tasks w'))
     = Some FAILED
  /\ option_map Task.error_message
       (TaskQueue.query_first 1 (TaskRuntime.tasks w'))
     = Some (Some "git command failed")
  /\ map Result.output (TaskRuntime.results w') = ["done"].
Proof. repeat split; vm_compute; reflexivity. Qed.

(** *** Validation of the changes *)

Lemma upper_ascii_not_lower ch :
  Nat.leb 97 (nat_of_ascii (Py.upper_ascii ch))
  && Nat.leb (nat_of_ascii (Py.upper_ascii ch)) 122 = false.
Proof.
  destruct ch as [[] [] [] [] [] [] [] []]; reflexivity.
Qed.

(** No text in upper case contains a pattern that starts with a lower-case
    letter. *)
Lemma upper_contains_no_lower first pattern content :
  Nat.leb 97 (nat_of_ascii first) && Nat.leb (nat_of_ascii first) 122 = true ->
  Py.contains (String first pattern) (Py.upper content) = false.
Proof.
  intro Hlower. induction content as [|ch content IH]; [reflexivity|].
  cbn [Py.upper Py.contains String.prefix].
  destruct (ascii_dec first (Py.upper_ascii ch)) as [E|E]; [|exact IH].
  exfalso. rewrite E, upper_ascii_not_lower in Hlower. discriminate.
Qed.

(** C8, in general: the pattern [credential] never matches, so a file is
    reported for a secret exactly when its text, in upper case, contains
    one of the five other patterns. *)
Lemma _contains_secrets_without_credential fs file_path :
  GitManager._contains_secrets fs file_path
  = match fs file_path with
    | Some content =>
        existsb (fun pattern => Py.contains pattern (Py.upper content))
          ["PRIVATE_KEY"; "API_KEY"; "PASSWORD"; "SECRET"; "TOKEN"]
    | None => false
    end.
Proof.
  unfold GitManager._contains_secrets, GitManager.secret_patterns.
  destruct (fs file_path) as [content|]; [|reflexivity].
  cbn [existsb].
  rewrite (upper_contains_no_lower "c" "redential" content) by reflexivity.
  now rewrite !orb_false_r.
Qed.

(** C8, at the failing input: a file whose text holds the keyword
    [credential] passes the validation, with any Python parser, while the
    same file with [token] in its place does not; and so does every file
    that is not Python and whose text, in upper case, holds none of the
    five other patterns, whatever it says about credentials. *)
Lemma validate_changes_misses_credential (ast_parse : string -> bool) :
  Py.contains "CREDENTIAL" (Py.upper "the admin credential is hunter2") = true
  /\ GitManager.validate_changes credential_notes ast_parse "/ws" ["notes.txt"]
     = (true, "OK")
  /\ GitManager.validate_changes token_notes ast_parse "/ws" ["notes.txt"]
     = (false, "Potential secret in notes.txt")
  /\ (forall fs workspace file content,
        fs (GitManager.path_join workspace file) = Some content ->
        Py.endswith file ".py" = false ->
        (forall pattern,
            In pattern ["PRIVATE_KEY"; "API_KEY"; "PASSWORD"; "SECRET"; "TOKEN"] ->
            Py.contains pattern (Py.upper content) = false) ->
        GitManager.validate_changes fs ast_parse workspace [file]
        = (true, "OK")).
Proof.
  split; [reflexivity|]. split; [reflexivity|]. split; [reflexivity|].
  intros fs workspace file content Hread Hpy Hnone.
  unfold GitManager.validate_changes, GitManager.file_issues.
  cbn [flat_map]. rewrite _contains_secrets_without_credential, Hread, Hpy.
  cbn [existsb].
  rewrite !Hnone by (cbn [In]; tauto).
  reflexivity.
Qed.

(** The validation passes exactly when no file of the batch has an issue:
    a secret keyword, or a name in [.py] and a text that does not parse. *)
Lemma validate_changes_ok fs ast_parse workspace files :
  fst (GitManager.validate_changes fs ast_parse workspace files) = true
  <-> forall file,
        In file files ->
        GitManager._contains_secrets fs (GitManager.path_join workspace file)
        = false
        /\ (Py.endswith file ".py" = true ->
            GitManager._validate_python_syntax fs ast_parse
              (GitManager.path_join workspace file) = true).
Proof.
  unfold GitManager.validate_changes.
  assert (Hissues : forall file,
             GitManager.file_issues fs ast_parse workspace file = []
             <-> GitManager._contains_secrets fs
                   (GitManager.path_join workspace file) = false
                 /\ (Py.endswith file ".py" = true ->
                     GitManager._validate_python_syntax fs ast_parse
                       (GitManager.path_join workspace file) = true)).
  { intro file. unfold GitManager.file_issues.
    destruct (GitManager._contains_secrets _ _);
      destruct (Py.endswith file ".py");
      destruct (GitManager._validate_python_syntax _ _ _);
      cbn; split; try discriminate; try tauto;
      intros [H1 H2]; try discriminate; specialize (H2 eq_refl); discriminate. }
  induction files as [|file files IH]; cbn [flat_map].
  - split; [intros _ file [] | reflexivity].
  - destruct (GitManager.file_issues fs ast_parse workspace file) eqn:E.
    + cbn [app]. rewrite IH. split.
      * intros H f [<- | Hf]; [now apply Hissues | now apply H].
      * intros H f Hf. apply H. now right.
    + cbn. split; [discriminate|]. intro H.
      assert (GitManager.file_issues fs ast_parse workspace file = [])
        by (apply Hissues, H; now left).
      congruence.
Qed.

(* ================================================================== *)
(** * Further properties of the queue *)
(* ================================================================== *)

Lemma has_status_spec s x :
  TaskQueueViews.has_status s x = true <-> Task.status x = s.
Proof. apply TaskStatus_eqb_eq. Qed.

Lemma count_cons p x l :
  TaskQueueViews.count p (x :: l)
  = (if p x then 1 else 0) + TaskQueueViews.count p l.
Proof.
  unfold TaskQueueViews.count. simpl. destruct (p x); [|lia].
  cbn [List.length]. lia.
Qed.

Lemma count_nonneg p l : 0 <= TaskQueueViews.count p l.
Proof. unfold TaskQueueViews.count. lia. Qed.

(** The five statuses split any list of rows. *)
Lemma count_by_status (l : list Task.t) :
  Z.of_nat (List.length l)
  = TaskQueueViews.count (TaskQueueViews.has_status PENDING) l
    + TaskQueueViews.count (TaskQueueViews.has_status IN_PROGRESS) l
    + TaskQueueViews.count (TaskQueueViews.has_status COMPLETED) l
    + TaskQueueViews.count (TaskQueueViews.has_status FAILED) l
    + TaskQueueViews.count (TaskQueueViews.has_status CANCELLED) l.
Proof.
  induction l as [|x l IH]; [reflexivity|].
  rewrite !count_cons. cbn [List.length]. rewrite Nat2Z.inj_succ, IH.
  unfold TaskQueueViews.has_status. destruct (Task.status x); cbn [TaskStatus_eqb]; lia.
Qed.

(** X1.  The counts of [get_queue_status] leave the CANCELLED rows out:
    [total] is the sum of the four counts reported and of the number of
    CANCELLED rows, so the four add up to [total] exactly when no task was
    cancelled.  The call writes nothing. *)
Theorem get_queue_status_leaves_cancelled_out (db : TaskQueue.Store) :
  let status := fst (TaskQueueViews.get_queue_status db) in
  snd (TaskQueueViews.get_queue_status db) = db
  /\ TaskQueueViews.total status
     = TaskQueueViews.pending status + TaskQueueViews.in_progress status
       + TaskQueueViews.completed status + TaskQueueViews.failed status
       + TaskQueueViews.count (TaskQueueViews.has_status CANCELLED) db
  /\ (TaskQueueViews.total status
      = TaskQueueViews.pending status + TaskQueueViews.in_progress status
        + TaskQueueViews.completed status + TaskQueueViews.failed status
      <-> forall x, In x db -> Task.status x <> CANCELLED).
Proof.
  cbn. split; [reflexivity|].
  pose proof (count_by_status db) as H. split; [exact H|].
  rewrite H. split.
  - intros Hsum x Hx Hc.
    assert (Hz : TaskQueueViews.count (TaskQueueViews.has_status CANCELLED) db
                 = 0) by lia.
    unfold TaskQueueViews.count in Hz.
    assert (Hin : In x (filter (TaskQueueViews.has_status CANCELLED) db)).
    { apply filter_In. split; [exact Hx|]. now apply has_status_spec. }
    destruct (filter _ db); [contradiction|]. simpl in Hz. lia.
  - intro Hnone. unfold TaskQueueViews.count at 5.
    rewrite filter_none; [simpl; lia|].
    intros x Hx. apply TaskStatus_eqb_neq. now apply Hnone.
Qed.

(** *** Rows are added with a fresh id and are never removed *)

Lemma next_id_fresh (db : TaskQueue.Store) :
  ~ In (TaskQueue.next_id db) (map Task.id db).
Proof.
  intro H. apply in_map_iff in H. destruct H as (x & Hx & Hin).
  apply next_id_above in Hin. lia.
Qed.

Lemma query_first_app_old (db : TaskQueue.Store) (task : Task.t) other :
  other <> Task.id task ->
  TaskQueue.query_first other (db ++ [task]) = TaskQueue.query_first other db.
Proof.
  intro Hne. unfold TaskQueue.query_first.
  induction db as [|x db IH]; simpl.
  - unfold TaskQueue.has_id.
    destruct (Z.eqb_spec (Task.id task) other); [congruence|reflexivity].
  - destruct (TaskQueue.has_id other x); [reflexivity|exact IH].
Qed.

(** Under the primary key, a row is the one its id finds. *)
Lemma query_first_unique (db : TaskQueue.Store) (x : Task.t) :
  NoDup (map Task.id db) -> In x db ->
  TaskQueue.query_first (Task.id x) db = Some x.
Proof.
  unfold TaskQueue.query_first.
  induction db as [|y db IH]; simpl; intros Hnd Hin; [contradiction|].
  inversion Hnd as [|? ? Hny Hnd']; subst.
  unfold TaskQueue.has_id at 1.
  destruct Hin as [-> | Hin].
  - now rewrite Z.eqb_refl.
  - destruct (Z.eqb_spec (Task.id y) (Task.id x)) as [E|E].
    + exfalso. apply Hny. rewrite E. now apply in_map.
    + now apply IH.
Qed.

(** X2.  [add_task] appends one row: its id is above every id of the
    table, it is PENDING with no attempt made and created at the time of
    the call; [get_task] on that id returns it and on any other id returns
    what it returned before; ids stay distinct; and
    [get_pending_tasks], asked for as many rows as the table has, hands
    the new task out. *)
Theorem add_task_appends_fresh_pending_row {J : Py.JsonModule}
    (now : datetime) (description : string) (priority : TaskPriority)
    (context : option Py.dict)
    (slack_user_id slack_thread_ts project_id project_name : option string)
    (db : TaskQueue.Store) :
  let task :=
    fst (TaskQueue.add_task now description priority context slack_user_id
           slack_thread_ts project_id project_name db) in
  let db' :=
    snd (TaskQueue.add_task now description priority context slack_user_id
           slack_thread_ts project_id project_name db) in
  (forall x, In x db -> Task.id x < Task.id task)
  /\ Task.status task = PENDING
  /\ Task.attempt_count task = 0
  /\ Task.created_at task = now
  /\ List.length db' = S (List.length db)
  /\ fst (TaskQueue.get_task (Task.id task) db') = Some task
  /\ (forall other,
        other <> Task.id task ->
        fst (TaskQueue.get_task other db') = fst (TaskQueue.get_task other db))
  /\ (NoDup (map Task.id db) -> NoDup (map Task.id db'))
  /\ In task (fst (TaskQueue.get_pending_tasks (List.length db') db')).
Proof.
  unfold TaskQueue.add_task, TaskQueue._run_write.
  cbv zeta. cbn [fst snd].
  set (task := Task.mk (TaskQueue.next_id db) _ _ _ _ _ _ _ _ _ _ _ _ _ _ _ _).
  assert (Hid : Task.id task = TaskQueue.next_id db) by reflexivity.
  split; [intros x Hx; rewrite Hid; now apply next_id_above|].
  split; [reflexivity|]. split; [reflexivity|]. split; [reflexivity|].
  split; [rewrite length_app; simpl; lia|].
  split; [now apply query_first_new_row|].
  split; [intros other Hne; now apply query_first_app_old|].
  split.
  - intro Hnd. rewrite map_app. simpl.
    apply NoDup_app; [exact Hnd | repeat constructor; intros [] |].
    intros a Ha [<- | []]. now apply next_id_fresh in Ha.
  - unfold TaskQueue.get_pending_tasks, TaskQueue._run_read. cbn [fst].
    rewrite firstn_all2.
    + apply (Permutation_in _ (order_by_perm _)).
      apply filter_In. split; [apply in_or_app; right; now left|reflexivity].
    + rewrite <- (Permutation_length (order_by_perm _)).
      apply filter_length_le.
Qed.

Lemma identity_flush task_id task' (db : TaskQueue.Store) row :
  TaskQueue.query_first task_id db = Some row ->
  identity task' = identity row ->
  map identity (TaskQueue.flush task_id task' db) = map identity db.
Proof.
  unfold TaskQueue.query_first.
  induction db as [|x db IH]; simpl; intros Hq Hid; [reflexivity|].
  destruct (TaskQueue.has_id task_id x).
  - injection Hq as ->. simpl. now rewrite Hid.
  - simpl. f_equal. now apply IH.
Qed.

Lemma identity_delete_rows clock project_id count (db : TaskQueue.Store) :
  map identity (snd (TaskQueueViews.delete_rows clock project_id count db))
  = map identity db.
Proof.
  revert count. induction db as [|x db IH]; intro count; [reflexivity|].
  simpl.
  destruct (TaskQueueViews.in_project project_id x
            && TaskQueueViews.has_status PENDING x).
  - specialize (IH (S count)).
    destruct (TaskQueueViews.delete_rows clock project_id (S count) db).
    simpl in *. now rewrite IH.
  - specialize (IH count).
    destruct (TaskQueueViews.delete_rows clock project_id count db).
    simpl in *. now rewrite IH.
Qed.

Lemma identity_after_write (w : QueueWrite) (db : TaskQueue.Store) :
  map identity (after_write w db) = map identity db.
Proof.
  destruct w; simpl.
  - unfold TaskQueue.mark_in_progress, TaskQueue._run_write.
    destruct (TaskQueue.query_first task_id db) as [row|] eqn:E;
      [|reflexivity].
    cbn [snd]. now apply (identity_flush _ _ _ row).
  - unfold TaskQueue.mark_completed, TaskQueue._run_write.
    destruct (TaskQueue.query_first task_id db) as [row|] eqn:E;
      [|reflexivity].
    cbn [snd]. now apply (identity_flush _ _ _ row).
  - unfold TaskQueue.mark_failed, TaskQueue._run_write.
    destruct (TaskQueue.query_first task_id db) as [row|] eqn:E;
      [|reflexivity].
    cbn [snd]. apply (identity_flush _ _ _ row); [exact E|].
    simpl. now destruct (Task.completed_at row).
  - unfold TaskQueue.cancel_task, TaskQueue._run_write.
    destruct (TaskQueue.query_first task_id db) as [row|] eqn:E;
      [|reflexivity].
    destruct (TaskStatus_eqb (Task.status row) PENDING); [|reflexivity].
    cbn [snd]. now apply (identity_flush _ _ _ row).
  - unfold TaskQueue.update_priority, TaskQueue._run_write.
    destruct (TaskQueue.query_first task_id db) as [row|] eqn:E;
      [|reflexivity].
    cbn [snd]. now apply (identity_flush _ _ _ row).
  - unfold TaskQueue.timeout_expired_tasks, TaskQueue._run_write.
    destruct (max_age_seconds <=? 0); [reflexivity|].
    destruct (filter _ db); [reflexivity|]. cbn [snd].
    rewrite map_map. apply map_ext. intro x.
    now destruct (TaskQueue.is_expired _ x).
  - unfold TaskQueueViews.delete_project, TaskQueue._run_write.
    pose proof (identity_delete_rows clock project_id 0%nat db) as H.
    destruct (TaskQueueViews.delete_rows clock project_id 0 db). exact H.
Qed.

(** X3.  No sequence of calls of [mark_in_progress], [mark_completed],
    [mark_failed], [cancel_task], [update_priority],
    [timeout_expired_tasks] and [delete_project] removes a row, adds one,
    or rewrites the id, the description, the type, [created_at], the
    context, the assignee, the thread or the project of a row: cancelling
    and deleting are soft. *)
Theorem queue_writes_keep_rows (ws : list QueueWrite) (db : TaskQueue.Store) :
  map identity (after_writes ws db) = map identity db
  /\ map Task.id (after_writes ws db) = map Task.id db
  /\ List.length (after_writes ws db) = List.length db.
Proof.
  assert (H : map identity (after_writes ws db) = map identity db).
  { unfold after_writes. revert db.
    induction ws as [|w ws IH]; intro db; [reflexivity|].
    simpl. rewrite IH. apply identity_after_write. }
  split; [exact H|]. split.
  - assert (E : forall l : TaskQueue.Store,
               map Task.id l
               = map (fun k => fst (fst (fst (fst (fst (fst (fst (fst k))))))))
                   (map identity l)).
    { intro l. rewrite map_map. reflexivity. }
    now rewrite !E, H.
  - now rewrite <- (length_map identity), H, length_map.
Qed.

(** *** A task that was taken is not handed out again *)

Lemma In_flush_other task_id task' (db : TaskQueue.Store) x :
  Task.id task' = task_id -> Task.id x <> task_id ->
  In x (TaskQueue.flush task_id task' db) <-> In x db.
Proof.
  intros Hid Hne. induction db as [|y db IH]; simpl; [tauto|].
  unfold TaskQueue.has_id at 1.
  destruct (Z.eqb_spec (Task.id y) task_id) as [E|E]; simpl.
  - split; intros [<- | H]; try tauto; congruence.
  - rewrite IH. tauto.
Qed.

Lemma NoDup_after_write (w : QueueWrite) (db : TaskQueue.Store) :
  NoDup (map Task.id db) -> NoDup (map Task.id (after_write w db)).
Proof.
  intro H.
  assert (E : forall l : TaskQueue.Store,
             map Task.id l
             = map (fun k => fst (fst (fst (fst (fst (fst (fst (fst k))))))))
                 (map identity l)).
  { intro l. rewrite map_map. reflexivity. }
  now rewrite E, identity_after_write, <- E.
Qed.

Lemma cancel_task_row now task_id (db : TaskQueue.Store) row :
  TaskQueue.query_first task_id db = Some row ->
  exists row',
    TaskQueue.query_first task_id (snd (TaskQueue.cancel_task now task_id db))
    = Some row'
    /\ Task.status row' <> PENDING.
Proof.
  intro found. unfold TaskQueue.cancel_task, TaskQueue._run_write.
  rewrite found.
  destruct (TaskStatus_eqb (Task.status row) PENDING) eqn:E.
  - eexists. cbn [snd]. split.
    + eapply query_first_flush; [|exact found].
      apply (query_first_id _ _ _ found).
    + discriminate.
  - exists row. split; [exact found|]. now apply TaskStatus_eqb_neq.
Qed.

(** X4.  Under the primary key, the task [mark_in_progress],
    [mark_completed], [mark_failed] or [cancel_task] was called on is not
    returned by [get_pending_tasks] afterwards, whatever the limit; and
    the rows of the other tasks are the ones of before. *)
Theorem taken_task_is_not_handed_out_again (now : datetime) (task_id : Z)
    (result_id : option Z) (error_message : string) (limit : nat)
    (db : TaskQueue.Store) (w : QueueWrite) :
  NoDup (map Task.id db) ->
  In w [WMarkInProgress now task_id;
        WMarkCompleted now task_id result_id;
        WMarkFailed now task_id error_message;
        WCancelTask now task_id] ->
  (forall x,
     In x (fst (TaskQueue.get_pending_tasks limit (after_write w db))) ->
     Task.id x <> task_id)
  /\ (forall x,
        Task.id x <> task_id -> (In x (after_write w db) <-> In x db)).
Proof.
  intros Hnd Hw.
  assert (Hrow : forall row,
             TaskQueue.query_first task_id db = Some row ->
             exists row',
               TaskQueue.query_first task_id (after_write w db) = Some row'
               /\ Task.status row' <> PENDING).
  { intros row found. simpl in Hw.
    destruct Hw as [<- | [<- | [<- | [<- | []]]]]; simpl.
    - destruct (mark_in_progress_row now task_id db row found)
        as (row' & H1 & H2).
      exists row'. split; [exact H1|]. congruence.
    - destruct (mark_completed_row now task_id db row found result_id)
        as (row' & H1 & H2 & _).
      exists row'. split; [exact H1|]. congruence.
    - destruct (mark_failed_row now task_id db row found error_message)
        as (row' & H1 & H2 & _).
      exists row'. split; [exact H1|]. congruence.
    - now apply (cancel_task_row now task_id db row). }
  assert (Hnone : TaskQueue.query_first task_id db = None ->
                  after_write w db = db).
  { intro E. simpl in Hw.
    destruct Hw as [<- | [<- | [<- | [<- | []]]]]; simpl;
      unfold TaskQueue.mark_in_progress, TaskQueue.mark_completed,
        TaskQueue.mark_failed, TaskQueue.cancel_task, TaskQueue._run_write;
      now rewrite E. }
  split.
  - intros x Hx Hid.
    unfold TaskQueue.get_pending_tasks, TaskQueue._run_read in Hx.
    cbn [fst] in Hx.
    assert (Hin : In x (after_write w db) /\ Task.status x = PENDING).
    { rewrite <- is_pending_spec, <- filter_In.
      apply (Permutation_in _ (Permutation_sym (order_by_perm _))).
      rewrite <- (firstn_skipn limit (TaskQueue.order_by _)).
      apply in_or_app. now left. }
    destruct Hin as [Hin Hst].
    pose proof (query_first_unique _ x (NoDup_after_write w db Hnd) Hin) as Hq.
    rewrite Hid in Hq.
    destruct (TaskQueue.query_first task_id db) as [row|] eqn:E.
    + destruct (Hrow row eq_refl) as (row' & H1 & H2). congruence.
    + rewrite (Hnone eq_refl) in Hq. congruence.
  - intros x Hne.
    destruct (TaskQueue.query_first task_id db) as [row|] eqn:E;
      [|now rewrite (Hnone eq_refl)].
    pose proof (query_first_id _ _ _ E) as Hid.
    simpl in Hw.
    destruct Hw as [<- | [<- | [<- | [<- | []]]]]; simpl;
      unfold TaskQueue.mark_in_progress, TaskQueue.mark_completed,
        TaskQueue.mark_failed, TaskQueue.cancel_task, TaskQueue._run_write;
      rewrite E; cbn [snd].
    + now apply In_flush_other.
    + now apply In_flush_other.
    + apply In_flush_other; [|exact Hne].
      simpl. now destruct (Task.completed_at row).
    + destruct (TaskStatus_eqb (Task.status row) PENDING); [|tauto].
      now apply In_flush_other.
Qed.

(** An instance, on the sample queue: once task 2 is started, the tasks
    handed out are the three others. *)
Lemma taken_task_witness :
  (forall x,
     In x (fst (TaskQueue.get_pending_tasks 10
                  (after_write (WMarkInProgress 100 2) sample_queue))) ->
     Task.id x <> 2)
  /\ (forall x,
        Task.id x <> 2 ->
        (In x (after_write (WMarkInProgress 100 2) sample_queue)
         <-> In x sample_queue)).
Proof.
  apply (taken_task_is_not_handed_out_again 100 2 None "" 10 sample_queue).
  - simpl. repeat constructor; simpl; intuition discriminate.
  - now left.
Defined.

(** *** A completed task that is run again and fails *)

(** X5.  [mark_failed] sets [completed_at] only where it is null.  So a
    task completed at [t1], started again at [t2] and failed at [t3] ends
    FAILED with the message of the failure, but with the completion time
    [t1] and the result id of its first run, and one more attempt
    counted. *)
Theorem failure_after_completion_keeps_completed_at (t1 t2 t3 : datetime)
    (task_id : Z) (result_id : option Z) (error_message : string)
    (db : TaskQueue.Store) (row : Task.t) :
  TaskQueue.query_first task_id db = Some row ->
  exists row',
    TaskQueue.query_first task_id
      (after_writes [WMarkCompleted t1 task_id result_id;
                     WMarkInProgress t2 task_id;
                     WMarkFailed t3 task_id error_message] db)
    = Some row'
    /\ Task.status row' = FAILED
    /\ Task.error_message row' = Some error_message
    /\ Task.completed_at row' = Some t1
    /\ Task.started_at row' = Some t2
    /\ Task.result_id row' = result_id
    /\ Task.attempt_count row' = Task.attempt_count row + 1.
Proof.
  intro found.
  pose proof (query_first_id _ _ _ found) as Hid.
  unfold after_writes. cbn [fold_left after_write].
  unfold TaskQueue.mark_completed at 1, TaskQueue._run_write.
  rewrite found. cbn [snd].
  set (row1 := Task.set_result_id _ _).
  set (db1 := TaskQueue.flush task_id row1 db).
  assert (found1 : TaskQueue.query_first task_id db1 = Some row1)
    by (eapply query_first_flush; [exact Hid | exact found]).
  unfold TaskQueue.mark_in_progress at 1, TaskQueue._run_write.
  rewrite found1. cbn [snd].
  set (row2 := Task.set_attempt_count _ _).
  set (db2 := TaskQueue.flush task_id row2 db1).
  assert (found2 : TaskQueue.query_first task_id db2 = Some row2)
    by (eapply query_first_flush; [exact Hid | exact found1]).
  unfold TaskQueue.mark_failed, TaskQueue._run_write.
  rewrite found2. cbn [snd].
  eexists. split.
  - eapply query_first_flush; [|exact found2]. exact Hid.
  - repeat split.
Qed.

(** An instance: the waiting task, completed at 20 with result 7, started
    again at 30 and failed at 40. *)
Lemma failure_after_completion_witness :
  exists row',
    TaskQueue.query_first 1
      (after_writes [WMarkCompleted 20 1 (Some 7);
                     WMarkInProgress 30 1;
                     WMarkFailed 40 1 "boom"] [pending_task])
    = Some row'
    /\ Task.status row' = FAILED
    /\ Task.error_message row' = Some "boom"
    /\ Task.completed_at row' = Some 20
    /\ Task.started_at row' = Some 30
    /\ Task.result_id row' = Some 7
    /\ Task.attempt_count row' = Task.attempt_count pending_task + 1.
Proof.
  apply (failure_after_completion_keeps_completed_at 20 30 40 1 (Some 7)
           "boom" [pending_task] pending_task).
  reflexivity.
Defined.

(** *** The timeout sweep, seen through the counts *)

Lemma count_after_timeout cutoff now max_age_seconds (db : TaskQueue.Store) :
  let sweep :=
    map (fun x => if TaskQueue.is_expired cutoff x
                  then TaskQueue.time_out now max_age_seconds x else x) db in
  let n := Z.of_nat (List.length (filter (TaskQueue.is_expired cutoff) db)) in
  TaskQueueViews.count (TaskQueueViews.has_status PENDING) sweep
  = TaskQueueViews.count (TaskQueueViews.has_status PENDING) db
  /\ TaskQueueViews.count (TaskQueueViews.has_status IN_PROGRESS) sweep
     = TaskQueueViews.count (TaskQueueViews.has_status IN_PROGRESS) db - n
  /\ TaskQueueViews.count (TaskQueueViews.has_status COMPLETED) sweep
     = TaskQueueViews.count (TaskQueueViews.has_status COMPLETED) db
  /\ TaskQueueViews.count (TaskQueueViews.has_status FAILED) sweep
     = TaskQueueViews.count (TaskQueueViews.has_status FAILED) db + n.
Proof.
  induction db as [|x db IH]; [repeat split|].
  cbv zeta in *. cbn [map filter]. rewrite !count_cons.
  destruct IH as (-> & -> & -> & ->).
  destruct (TaskQueue.is_expired cutoff x) eqn:E.
  - assert (Est : Task.status x = IN_PROGRESS).
    { unfold TaskQueue.is_expired in E. apply andb_prop in E.
      now apply TaskStatus_eqb_eq. }
    unfold TaskQueueViews.has_status.
    change (Task.status (TaskQueue.time_out now max_age_seconds x))
      with FAILED.
    rewrite Est. cbn [TaskStatus_eqb List.length].
    rewrite Nat2Z.inj_succ. repeat split; lia.
  - unfold TaskQueueViews.has_status.
    destruct (Task.status x); cbn [TaskStatus_eqb]; repeat split; lia.
Qed.

(** X6.  With a positive limit, a sweep of [timeout_expired_tasks] that
    returns [n] tasks moves [n] from the IN_PROGRESS count of
    [get_queue_status] to its FAILED count and leaves the other counts as
    they are; no task [get_in_progress_tasks] returns afterwards is stale
    at the time of the sweep. *)
Theorem timeout_expired_tasks_moves_counts (now_cutoff now : datetime)
    (max_age_seconds : Z) (db : TaskQueue.Store) :
  0 < max_age_seconds ->
  let tasks :=
    fst (TaskQueue.timeout_expired_tasks now_cutoff now max_age_seconds db) in
  let db' :=
    snd (TaskQueue.timeout_expired_tasks now_cutoff now max_age_seconds db) in
  let before := fst (TaskQueueViews.get_queue_status db) in
  let after := fst (TaskQueueViews.get_queue_status db') in
  let n := Z.of_nat (List.length tasks) in
  TaskQueueViews.total after = TaskQueueViews.total before
  /\ TaskQueueViews.pending after = TaskQueueViews.pending before
  /\ TaskQueueViews.in_progress after = TaskQueueViews.in_progress before - n
  /\ TaskQueueViews.completed after = TaskQueueViews.completed before
  /\ TaskQueueViews.failed after = TaskQueueViews.failed before + n
  /\ (forall x,
        In x (fst (TaskQueueViews.get_in_progress_tasks db')) ->
        In x db /\ ~ stale now_cutoff max_age_seconds x).
Proof.
  intro Hpos. rewrite (timeout_expired_tasks_enabled _ _ _ _ Hpos).
  cbv zeta. cbn [fst snd].
  unfold TaskQueueViews.get_queue_status, TaskQueueViews.get_in_progress_tasks,
    TaskQueue._run_read.
  cbn [fst TaskQueueViews.total TaskQueueViews.pending
       TaskQueueViews.in_progress TaskQueueViews.completed
       TaskQueueViews.failed].
  rewrite !length_map.
  destruct (count_after_timeout (now_cutoff - seconds max_age_seconds) now
              max_age_seconds db) as (H1 & H2 & H3 & H4).
  split; [reflexivity|]. split; [exact H1|]. split; [exact H2|].
  split; [exact H3|]. split; [exact H4|].
  intros x Hx. apply filter_In in Hx. destruct Hx as [Hx Hst].
  apply in_map_iff in Hx. destruct Hx as (y & Hy & Hin).
  destruct (TaskQueue.is_expired _ y) eqn:E.
  - subst x. discriminate Hst.
  - subst y. split; [exact Hin|].
    intro Hstale. apply is_expired_stale in Hstale. congruence.
Qed.

(** An instance, on the two running tasks: at second 120 with a limit of
    60 seconds one of them is failed. *)
Lemma timeout_expired_tasks_counts_witness :
  let db' :=
    snd (TaskQueue.timeout_expired_tasks (seconds 120) (seconds 121) 60
           running_queue) in
  TaskQueueViews.in_progress (fst (TaskQueueViews.get_queue_status db')) = 1
  /\ TaskQueueViews.failed (fst (TaskQueueViews.get_queue_status db')) = 1.
Proof.
  destruct (timeout_expired_tasks_moves_counts (seconds 120) (seconds 121) 60
              running_queue) as (_ & _ & H1 & _ & H2 & _); [lia|].
  split; [rewrite H1 | rewrite H2]; reflexivity.
Defined.

(** *** Deleting a project *)

Lemma pending_in_project_soft_deleted project_id now x :
  pending_in_project project_id (soft_deleted now x) = false.
Proof.
  unfold pending_in_project, TaskQueueViews.has_status. simpl.
  apply andb_false_r.
Qed.

Lemma delete_rows_spec clock project_id (db : TaskQueue.Store) :
  forall count,
    let n := fst (TaskQueueViews.delete_rows clock project_id count db) in
    let db' := snd (TaskQueueViews.delete_rows clock project_id count db) in
    n = (count + List.length (filter (pending_in_project project_id) db))%nat
    /\ List.length db' = List.length db
    /\ (forall i x,
          nth_error db i = Some x ->
          pending_in_project project_id x = false ->
          nth_error db' i = Some x)
    /\ (forall i x,
          nth_error db i = Some x ->
          pending_in_project project_id x = true ->
          exists k,
            (count <= k < n)%nat
            /\ nth_error db' i = Some (soft_deleted (clock k) x)).
Proof.
  induction db as [|x db IH]; intro count.
  - cbn. repeat split; try lia.
    + intros [|i] x H; discriminate H.
    + intros [|i] x H; discriminate H.
  - cbn [TaskQueueViews.delete_rows filter].
    fold (pending_in_project project_id x).
    destruct (pending_in_project project_id x) eqn:E.
    + specialize (IH (S count)).
      destruct (TaskQueueViews.delete_rows clock project_id (S count) db)
        as [n db'].
      cbv zeta in *. cbn [fst snd List.length] in *.
      destruct IH as (Hn & Hlen & Hkeep & Hdel).
      split; [lia|]. split; [lia|]. split.
      * intros [|i] y Hi Hy; simpl in *.
        -- injection Hi as <-. congruence.
        -- now apply Hkeep.
      * intros [|i] y Hi Hy; simpl in *.
        -- injection Hi as <-. exists count. split; [lia|reflexivity].
        -- destruct (Hdel i y Hi Hy) as (k & Hk & Hnth).
           exists k. split; [lia|exact Hnth].
    + specialize (IH count).
      destruct (TaskQueueViews.delete_rows clock project_id count db)
        as [n db'].
      cbv zeta in *. cbn [fst snd List.length] in *.
      destruct IH as (Hn & Hlen & Hkeep & Hdel).
      split; [lia|]. split; [lia|]. split.
      * intros [|i] y Hi Hy; simpl in *.
        -- exact Hi.
        -- now apply Hkeep.
      * intros [|i] y Hi Hy; simpl in *.
        -- injection Hi as <-. congruence.
        -- now apply Hdel.
Qed.

(** X7.  [delete_project] returns the number of PENDING rows of the
    project and soft-deletes exactly those: each becomes CANCELLED with
    [deleted_at] set to a reading of the clock, every other column as
    before.  The rows of the project that are running or finished, and
    the rows of other projects, stay as they are, so the project is still
    listed; a second call returns 0 and writes nothing. *)
Theorem delete_project_cancels_pending_rows_only (clock : nat -> datetime)
    (project_id : string) (db : TaskQueue.Store) :
  let n := fst (TaskQueueViews.delete_project clock project_id db) in
  let db' := snd (TaskQueueViews.delete_project clock project_id db) in
  n = TaskQueueViews.count (pending_in_project project_id) db
  /\ List.length db' = List.length db
  /\ (forall i x,
        nth_error db i = Some x ->
        pending_in_project project_id x = false ->
        nth_error db' i = Some x)
  /\ (forall i x,
        nth_error db i = Some x ->
        pending_in_project project_id x = true ->
        exists k, nth_error db' i = Some (soft_deleted (clock k) x))
  /\ (forall x, In x db' -> pending_in_project project_id x = false)
  /\ (forall clock',
        TaskQueueViews.delete_project clock' project_id db' = (0, db')).
Proof.
  unfold TaskQueueViews.delete_project, TaskQueue._run_write.
  pose proof (delete_rows_spec clock project_id db 0%nat) as H.
  destruct (TaskQueueViews.delete_rows clock project_id 0 db) as [n db'].
  cbv zeta in *. cbn [fst snd] in *.
  destruct H as (Hn & Hlen & Hkeep & Hdel).
  assert (Hnone : forall x, In x db' -> pending_in_project project_id x = false).
  { intros x Hx. apply In_nth_error in Hx. destruct Hx as (i & Hi).
    destruct (nth_error db i) as [y|] eqn:Ey.
    - destruct (pending_in_project project_id y) eqn:E.
      + destruct (Hdel i y Ey E) as (k & _ & Hk).
        rewrite Hk in Hi. injection Hi as <-.
        apply pending_in_project_soft_deleted.
      + rewrite (Hkeep i y Ey E) in Hi. now injection Hi as <-.
    - apply nth_error_None in Ey.
      assert (nth_error db' i <> None) as Hsome by congruence.
      apply nth_error_Some in Hsome. lia. }
  split; [unfold TaskQueueViews.count; rewrite Hn; reflexivity|].
  split; [exact Hlen|]. split; [exact Hkeep|]. split.
  - intros i x Hi Hx. destruct (Hdel i x Hi Hx) as (k & _ & Hk). now exists k.
  - split; [exact Hnone|]. intro clock'.
    pose proof (delete_rows_spec clock' project_id db' 0%nat) as H.
    destruct (TaskQueueViews.delete_rows clock' project_id 0 db')
      as [n2 db2].
    cbv zeta in *. cbn [fst snd] in *.
    destruct H as (Hn2 & Hlen2 & Hkeep2 & _).
    rewrite (filter_none _ _ Hnone) in Hn2. subst n2. simpl. f_equal.
    apply nth_error_ext. intro i.
    destruct (nth_error db' i) as [y|] eqn:Ey.
    + apply Hkeep2; [exact Ey|]. apply Hnone. eapply nth_error_In, Ey.
    + apply nth_error_None. apply nth_error_None in Ey. lia.
Qed.

(** *** Stable sorting *)

Section StableSort.

Context {A : Type} (leb : A -> A -> bool).

Lemma insert_by_perm x l : Permutation (x :: l) (Stable.insert_by leb x l).
Proof.
  induction l as [|y l IH]; simpl; [reflexivity|].
  destruct (leb x y); [reflexivity|].
  etransitivity; [apply perm_swap|]. now constructor.
Qed.

Lemma sort_by_perm l : Permutation l (Stable.sort_by leb l).
Proof.
  induction l as [|x l IH]; simpl; [constructor|].
  etransitivity; [|apply insert_by_perm]. now constructor.
Qed.

Hypothesis leb_total : forall a b, leb a b = true \/ leb b a = true.
Hypothesis leb_trans :
  forall a b c, leb a b = true -> leb b c = true -> leb a c = true.

Lemma insert_by_sorted x l :
  StronglySorted (fun a b => leb a b = true) l ->
  StronglySorted (fun a b => leb a b = true) (Stable.insert_by leb x l).
Proof.
  induction 1 as [|y l Hl IH Hy]; simpl.
  - repeat constructor.
  - destruct (leb x y) eqn:E.
    + constructor; [now constructor|].
      constructor; [exact E|].
      rewrite Forall_forall in *. intros z Hz. eapply leb_trans; eauto.
    + constructor; [exact IH|].
      rewrite Forall_forall in *. intros z Hz.
      apply (Permutation_in _ (Permutation_sym (insert_by_perm x l))) in Hz.
      destruct Hz as [<- | Hz]; [|now apply Hy].
      destruct (leb_total x y) as [H | H]; [congruence|exact H].
Qed.

Lemma sort_by_sorted l :
  StronglySorted (fun a b => leb a b = true) (Stable.sort_by leb l).
Proof.
  induction l as [|x l IH]; simpl; [constructor|].
  now apply insert_by_sorted.
Qed.

End StableSort.

Lemma StronglySorted_impl {A : Type} (R S : A -> A -> Prop) l :
  (forall a b, R a b -> S a b) -> StronglySorted R l -> StronglySorted S l.
Proof.
  intros H Hs. induction Hs as [|x l Hl IH Hx]; constructor; [exact IH|].
  rewrite Forall_forall in *. auto.
Qed.

Lemma newest_first_perm l : Permutation l (TaskQueueViews.newest_first l).
Proof. apply sort_by_perm. Qed.

Lemma newest_first_sorted l :
  StronglySorted not_older (TaskQueueViews.newest_first l).
Proof.
  apply (StronglySorted_impl
           (fun a b => TaskQueueViews.newer_leb a b = true)).
  - intros a b H. unfold TaskQueueViews.newer_leb in H. unfold not_older. lia.
  - apply sort_by_sorted; unfold TaskQueueViews.newer_leb; intros; lia.
Qed.

Lemma firstn_newest_first limit l :
  newest_of limit l (firstn limit (TaskQueueViews.newest_first l)).
Proof.
  set (full := TaskQueueViews.newest_first l).
  assert (Hperm : Permutation l full) by apply newest_first_perm.
  assert (Hsorted : StronglySorted not_older full)
    by apply newest_first_sorted.
  assert (Hsplit : firstn limit full ++ skipn limit full = full)
    by apply firstn_skipn.
  split; [|split; [|split]].
  - rewrite length_firstn. f_equal. symmetry. now apply Permutation_length.
  - intros x Hx. apply (Permutation_in _ (Permutation_sym Hperm)).
    rewrite <- Hsplit. apply in_or_app. now left.
  - now apply StronglySorted_firstn.
  - intros x y Hx Hy Hny.
    assert (Hy' : In y (skipn limit full)).
    { apply (Permutation_in _ Hperm) in Hy.
      rewrite <- Hsplit in Hy. apply in_app_or in Hy. tauto. }
    apply in_split in Hx. destruct Hx as (l1 & l2 & Hx).
    rewrite <- Hsplit, Hx, <- app_assoc in Hsorted. simpl in Hsorted.
    pose proof (StronglySorted_after _ _ _ _ Hsorted) as Hall.
    rewrite Forall_forall in Hall. apply Hall.
    apply in_or_app. now right.
Qed.

(** X8.  [get_recent_tasks limit] returns the [limit] newest rows of the
    table and [get_failed_tasks limit] the [limit] newest FAILED rows,
    newest first: as many as asked for or as there are, and none left out
    is newer than one returned.  [get_project_tasks] returns every row of
    the project, newest first.  None of the three writes. *)
Theorem newest_first_views (limit : nat) (project_id : string)
    (db : TaskQueue.Store) :
  newest_of limit db (fst (TaskQueueViews.get_recent_tasks limit db))
  /\ newest_of limit (filter (TaskQueueViews.has_status FAILED) db)
       (fst (TaskQueueViews.get_failed_tasks limit db))
  /\ Permutation (filter (TaskQueueViews.in_project project_id) db)
       (fst (TaskQueueViews.get_project_tasks project_id db))
  /\ StronglySorted not_older
       (fst (TaskQueueViews.get_project_tasks project_id db))
  /\ snd (TaskQueueViews.get_recent_tasks limit db) = db
  /\ snd (TaskQueueViews.get_failed_tasks limit db) = db
  /\ snd (TaskQueueViews.get_project_tasks project_id db) = db.
Proof.
  unfold TaskQueueViews.get_recent_tasks, TaskQueueViews.get_failed_tasks,
    TaskQueueViews.get_project_tasks, TaskQueue._run_read.
  cbn [fst snd].
  split; [apply firstn_newest_first|].
  split; [apply firstn_newest_first|].
  split; [apply newest_first_perm|].
  split; [apply newest_first_sorted|].
  repeat split.
Qed.

(** *** Projects *)

Lemma string_leb_trans (a b c : string) :
  String.leb a b = true -> String.leb b c = true -> String.leb a c = true.
Proof.
  unfold String.leb. revert b c.
  induction a as [|x a IH]; intros [|y b] [|z c]; simpl; try congruence.
  unfold Ascii.compare.
  destruct (N.compare_spec (N_of_ascii x) (N_of_ascii y)) as [E1|E1|E1];
    destruct (N.compare_spec (N_of_ascii y) (N_of_ascii z)) as [E2|E2|E2];
    try congruence.
  - rewrite E1, E2, N.compare_refl. apply IH.
  - intros _ _.
    assert (H : (N_of_ascii x < N_of_ascii z)%N) by lia.
    apply N.compare_lt_iff in H. now rewrite H.
  - intros _ _.
    assert (H : (N_of_ascii x < N_of_ascii z)%N) by lia.
    apply N.compare_lt_iff in H. now rewrite H.
  - intros _ _.
    assert (H : (N_of_ascii x < N_of_ascii z)%N) by lia.
    apply N.compare_lt_iff in H. now rewrite H.
Qed.

Lemma key_eqb_spec a b : TaskQueueViews.key_eqb a b = true <-> a = b.
Proof.
  destruct a as [p n], b as [q m]. unfold TaskQueueViews.key_eqb. simpl.
  rewrite andb_true_iff, String.eqb_eq.
  destruct n as [n|], m as [m|]; try rewrite String.eqb_eq;
    split; intro H; try (destruct H; congruence);
    try (injection H as -> ->; now split); try (injection H as ->; now split).
Qed.

Lemma existsb_key_eqb x l :
  existsb (TaskQueueViews.key_eqb x) l = true <-> In x l.
Proof.
  rewrite existsb_exists. split.
  - intros (y & Hy & E). apply key_eqb_spec in E. now subst.
  - intro H. exists x. split; [exact H|]. now apply key_eqb_spec.
Qed.

Lemma In_distinct x l : In x (TaskQueueViews.distinct l) <-> In x l.
Proof.
  induction l as [|y l IH]; simpl; [tauto|].
  destruct (existsb (TaskQueueViews.key_eqb y) l) eqn:E.
  - rewrite IH. apply existsb_key_eqb in E.
    split; [tauto|]. intros [<- | H]; tauto.
  - simpl. rewrite IH. tauto.
Qed.

Lemma NoDup_distinct l : NoDup (TaskQueueViews.distinct l).
Proof.
  induction l as [|y l IH]; simpl; [constructor|].
  destruct (existsb (TaskQueueViews.key_eqb y) l) eqn:E; [exact IH|].
  constructor; [|exact IH].
  intro H. apply (proj1 (In_distinct _ _)) in H.
  apply (proj2 (existsb_key_eqb _ _)) in H. congruence.
Qed.

Lemma in_project_spec p x :
  TaskQueueViews.in_project p x = true <-> Task.project_id x = Some p.
Proof.
  unfold TaskQueueViews.in_project.
  destruct (Task.project_id x) as [q|]; [|split; discriminate].
  rewrite String.eqb_eq. split; congruence.
Qed.

Lemma In_project_keys (db : TaskQueue.Store) p n :
  In (p, n) (TaskQueueViews.project_keys db)
  <-> exists x,
        In x db /\ Task.project_id x = Some p /\ Task.project_name x = n.
Proof.
  unfold TaskQueueViews.project_keys. rewrite In_distinct, in_flat_map.
  split.
  - intros (x & Hx & Hin). exists x. split; [exact Hx|].
    destruct (Task.project_id x) as [q|]; [|contradiction].
    destruct Hin as [E | []]. injection E as -> ->. now split.
  - intros (x & Hx & Hp & Hn). exists x. split; [exact Hx|].
    rewrite Hp, Hn. now left.
Qed.

Lemma NoDup_map_injective {A B : Type} (f : A -> B) (l : list A) a b :
  NoDup (map f l) -> In a l -> In b l -> f a = f b -> a = b.
Proof.
  induction l as [|x l IH]; simpl; intros Hnd Ha Hb E; [contradiction|].
  inversion Hnd as [|? ? Hnx Hnd']; subst.
  destruct Ha as [-> | Ha], Hb as [-> | Hb]; try reflexivity.
  - exfalso. apply Hnx. rewrite E. now apply in_map.
  - exfalso. apply Hnx. rewrite <- E. now apply in_map.
  - now apply IH.
Qed.

Lemma NoDup_map_of_injective {A B : Type} (f : A -> B) (l : list A) :
  NoDup l ->
  (forall a b, In a l -> In b l -> f a = f b -> a = b) ->
  NoDup (map f l).
Proof.
  induction 1 as [|x l Hx Hnd IH]; simpl; intro Hinj; [constructor|].
  constructor.
  - intro H. apply in_map_iff in H. destruct H as (y & E & Hy).
    assert (y = x) by (apply Hinj; [now right | now left | exact E]).
    now subst.
  - apply IH. intros a b Ha Hb. apply Hinj; now right.
Qed.

(** X9.  [get_projects] lists the projects in the order of their ids:
    every project id some row carries, and no other; each entry counts
    the rows of its project, at least one, and its three counts leave the
    FAILED and CANCELLED rows out.  A project is listed once per name its
    rows carry: the ids listed are distinct exactly when the rows of each
    project agree on the name. *)
Theorem get_projects_lists_each_name (db : TaskQueue.Store) :
  let rows := fst (TaskQueueViews.get_projects db) in
  snd (TaskQueueViews.get_projects db) = db
  /\ StronglySorted project_id_le rows
  /\ (forall p,
        In p (map TaskQueueViews.row_project_id rows)
        <-> exists x, In x db /\ Task.project_id x = Some p)
  /\ (forall r,
        In r rows ->
        let tasks :=
          filter (TaskQueueViews.in_project (TaskQueueViews.row_project_id r))
            db in
        TaskQueueViews.row_total_tasks r = Z.of_nat (List.length tasks)
        /\ 1 <= TaskQueueViews.row_total_tasks r
        /\ TaskQueueViews.row_total_tasks r
           = TaskQueueViews.row_pending r + TaskQueueViews.row_in_progress r
             + TaskQueueViews.row_completed r
             + TaskQueueViews.count (TaskQueueViews.has_status FAILED) tasks
             + TaskQueueViews.count (TaskQueueViews.has_status CANCELLED)
                 tasks)
  /\ (NoDup (map TaskQueueViews.row_project_id rows) <-> names_agree db).
Proof.
  unfold TaskQueueViews.get_projects, TaskQueue._run_read. cbn [fst snd].
  set (keys := TaskQueueViews.project_keys db).
  set (rows := TaskQueueViews.sorted_by_project_id _).
  assert (Hperm : Permutation (map (TaskQueueViews.project_row db) keys) rows)
    by apply sort_by_perm.
  assert (Hids : Permutation (map fst keys)
                   (map TaskQueueViews.row_project_id rows)).
  { rewrite <- Hperm, map_map.
    erewrite map_ext; [reflexivity|]. now intros [p n]. }
  split; [reflexivity|]. split; [|split; [|split]].
  - apply sort_by_sorted.
    + intros a b. apply String.leb_total.
    + intros a b c. apply string_leb_trans.
  - intro p. split.
    + intro H. apply (Permutation_in _ (Permutation_sym Hids)) in H.
      apply in_map_iff in H. destruct H as ([q n] & E & H). simpl in E.
      subst q. apply In_project_keys in H. destruct H as (x & Hx & Hp & _).
      now exists x.
    + intros (x & Hx & Hp). apply (Permutation_in _ Hids).
      apply in_map_iff. exists (p, Task.project_name x).
      split; [reflexivity|]. apply In_project_keys. now exists x.
  - intros r Hr. apply (Permutation_in _ (Permutation_sym Hperm)) in Hr.
    apply in_map_iff in Hr. destruct Hr as ([p n] & <- & Hk).
    cbn [TaskQueueViews.project_row TaskQueueViews.row_project_id
         TaskQueueViews.row_total_tasks TaskQueueViews.row_pending
         TaskQueueViews.row_in_progress TaskQueueViews.row_completed].
    cbv zeta. split; [reflexivity|]. split.
    + apply In_project_keys in Hk. destruct Hk as (x & Hx & Hp & _).
      assert (Hin : In x (filter (TaskQueueViews.in_project p) db)).
      { apply filter_In. split; [exact Hx|]. now apply in_project_spec. }
      destruct (filter _ db); [contradiction|]. simpl List.length. lia.
    + apply count_by_status.
  - split.
    + intros Hnd x y p Hx Hy Hpx Hpy.
      apply (Permutation_NoDup (Permutation_sym Hids)) in Hnd.
      assert (E : (p, Task.project_name x) = (p, Task.project_name y)).
      { apply (NoDup_map_injective fst keys); [exact Hnd| | |reflexivity];
          apply In_project_keys; eauto. }
      congruence.
    + intro Hagree. apply (Permutation_NoDup Hids).
      apply NoDup_map_of_injective; [apply NoDup_distinct|].
      intros [p n] [q m] Ha Hb E. simpl in E. subst q.
      apply In_project_keys in Ha, Hb.
      destruct Ha as (x & Hx & Hpx & <-), Hb as (y & Hy & Hpy & <-).
      f_equal. now apply (Hagree x y p).
Qed.

(** Two tasks of the project [site], stored under two names: the project
    is listed twice, each time with both tasks counted. *)
Example get_projects_renamed_project :
  let rows :=
    map (fun r => (TaskQueueViews.row_project_id r,
                   TaskQueueViews.row_project_name r,
                   TaskQueueViews.row_total_tasks r))
      (fst (TaskQueueViews.get_projects renamed_project)) in
  List.length rows = 2%nat
  /\ In ("site", "Site", 2) rows
  /\ In ("site", "Web site", 2) rows.
Proof. cbv zeta. split; [reflexivity|]. split; [now left | right; now left]. Qed.

Lemma fold_min_le (l : list Task.t) (m : Z) :
  let r := fold_left (fun m t => Z.min m (Task.created_at t)) l m in
  r <= m
  /\ (forall x, In x l -> r <= Task.created_at x)
  /\ (r = m \/ exists x, In x l /\ Task.created_at x = r).
Proof.
  revert m. induction l as [|y l IH]; intro m; simpl.
  - split; [lia|]. split; [intros x []|now left].
  - destruct (IH (Z.min m (Task.created_at y))) as (H1 & H2 & H3).
    split; [lia|]. split.
    + intros x [<- | Hx]; [lia|now apply H2].
    + destruct H3 as [H3 | (x & Hx & E)].
      * destruct (Z.min_spec m (Task.created_at y)) as [[_ E] | [_ E]].
        -- left. congruence.
        -- right. exists y. split; [now left|congruence].
      * right. exists x. split; [now right|exact E].
Qed.

(** X10.  [get_project_by_id] returns nothing exactly when no row carries
    the project id.  Otherwise it counts the rows of the project, at
    least one, split by status with the CANCELLED rows left out of the
    four counts; [created_at] is the creation time of the oldest row;
    [tasks] summarises the five newest rows, newest first; and
    [get_projects] has an entry with the same id, name and counts. *)
Theorem get_project_by_id_spec (project_id : string) (db : TaskQueue.Store) :
  let tasks := filter (TaskQueueViews.in_project project_id) db in
  snd (TaskQueueViews.get_project_by_id project_id db) = db
  /\ match fst (TaskQueueViews.get_project_by_id project_id db) with
     | None => forall x, In x db -> Task.project_id x <> Some project_id
     | Some info =>
         TaskQueueViews.info_project_id info = project_id
         /\ TaskQueueViews.info_total_tasks info = Z.of_nat (List.length tasks)
         /\ 1 <= TaskQueueViews.info_total_tasks info
         /\ TaskQueueViews.info_total_tasks info
            = TaskQueueViews.info_pending info
              + TaskQueueViews.info_in_progress info
              + TaskQueueViews.info_completed info
              + TaskQueueViews.info_failed info
              + TaskQueueViews.count (TaskQueueViews.has_status CANCELLED)
                  tasks
         /\ (exists x,
               In x tasks
               /\ Task.created_at x = TaskQueueViews.info_created_at info)
         /\ (forall x,
               In x tasks ->
               TaskQueueViews.info_created_at info <= Task.created_at x)
         /\ (exists shown,
               newest_of 5 tasks shown
               /\ TaskQueueViews.info_tasks info
                  = map TaskQueueViews.task_summary shown)
         /\ (exists row,
               In row (fst (TaskQueueViews.get_projects db))
               /\ TaskQueueViews.row_project_id row = project_id
               /\ TaskQueueViews.row_project_name row
                  = TaskQueueViews.info_project_name info
               /\ TaskQueueViews.row_total_tasks row
                  = TaskQueueViews.info_total_tasks info
               /\ TaskQueueViews.row_pending row
                  = TaskQueueViews.info_pending info
               /\ TaskQueueViews.row_in_progress row
                  = TaskQueueViews.info_in_progress info
               /\ TaskQueueViews.row_completed row
                  = TaskQueueViews.info_completed info)
     end.
Proof.
  cbv zeta.
  unfold TaskQueueViews.get_project_by_id, TaskQueue._run_read.
  cbn [fst snd]. split; [reflexivity|].
  destruct (filter (TaskQueueViews.in_project project_id) db)
    as [|first_task rest] eqn:E.
  - intros x Hx Hp. apply in_project_spec in Hp.
    assert (Hin : In x (filter (TaskQueueViews.in_project project_id) db))
      by (apply filter_In; now split).
    now rewrite E in Hin.
  - cbn [TaskQueueViews.info_project_id TaskQueueViews.info_total_tasks
         TaskQueueViews.info_pending TaskQueueViews.info_in_progress
         TaskQueueViews.info_completed TaskQueueViews.info_failed
         TaskQueueViews.info_created_at TaskQueueViews.info_tasks
         TaskQueueViews.info_project_name].
    split; [reflexivity|]. split; [reflexivity|].
    split; [cbn [List.length]; lia|].
    split; [apply count_by_status|].
    destruct (fold_min_le rest (Task.created_at first_task))
      as (H1 & H2 & H3).
    cbv zeta in H1, H2, H3. unfold TaskQueueViews.min_created_at.
    split; [|split; [|split]].
    + destruct H3 as [H3 | (x & Hx & H3)].
      * exists first_task. split; [now left|now rewrite H3].
      * exists x. split; [now right|exact H3].
    + intros x [<- | Hx]; [exact H1|now apply H2].
    + eexists. split; [apply firstn_newest_first|reflexivity].
    + assert (Hfirst : In first_task db
                       /\ Task.project_id first_task = Some project_id).
      { rewrite <- in_project_spec, <- filter_In, E. now left. }
      destruct Hfirst as [Hin Hp].
      exists (TaskQueueViews.project_row db
                (project_id, Task.project_name first_task)).
      split.
      * unfold TaskQueueViews.get_projects, TaskQueue._run_read. cbn [fst].
        apply (Permutation_in _ (sort_by_perm _ _)).
        apply in_map. apply In_project_keys. now exists first_task.
      * cbn [TaskQueueViews.project_row TaskQueueViews.row_project_id
             TaskQueueViews.row_total_tasks TaskQueueViews.row_pending
             TaskQueueViews.row_in_progress TaskQueueViews.row_completed
             TaskQueueViews.row_project_name].
        rewrite E. repeat split.
Qed.

(* ================================================================== *)
(** * Further properties of the result store *)
(* ================================================================== *)

Lemma result_next_id_above (db : ResultManager.Store) x :
  In x db -> Result.id x < ResultManager.next_id db.
Proof.
  unfold ResultManager.next_id.
  induction db as [|y db IH]; cbn [fold_right In]; [contradiction|].
  intros [-> | H]; [lia|]. specialize (IH H). lia.
Qed.

Lemma find_result_app_new (db : ResultManager.Store) (r : Result.t) other :
  (forall x, In x db -> Result.id x <> Result.id r) ->
  find (fun x => Result.id x =? other) (db ++ [r])
  = if Result.id r =? other then
      match find (fun x => Result.id x =? other) db with
      | Some x => Some x
      | None => Some r
      end
    else find (fun x => Result.id x =? other) db.
Proof.
  intro Hfresh. induction db as [|y db IH]; simpl.
  - now destruct (Result.id r =? other).
  - destruct (Z.eqb_spec (Result.id y) other) as [E|E].
    + destruct (Z.eqb_spec (Result.id r) other); reflexivity.
    + apply IH. intros x Hx. apply Hfresh. now right.
Qed.

(** X11.  [save_result] appends one row with an id above every id of the
    table; [get_result] on that id returns the row and on any other id
    returns what it returned before; [get_task_results] of the task
    returns its earlier results followed by the new one.  An empty list
    of files or of commands is stored as a null column.  When the write
    raises, the exception is raised again and the table is as before. *)
Theorem save_result_then_get_result (now : datetime) (task_id : Z)
    (output : string) (files_modified commands_executed : list string)
    (processing_time_seconds : option Z)
    (git_commit_sha git_pr_url git_branch workspace_path : option string)
    (db : ResultManager.Store) :
  (exists r,
     ResultManager.save_result None now task_id output files_modified
       commands_executed processing_time_seconds git_commit_sha git_pr_url
       git_branch workspace_path db
     = (Py.Returned r, db ++ [r])
     /\ (forall x, In x db -> Result.id x < Result.id r)
     /\ fst (ResultManagerReads.get_result (Result.id r) (db ++ [r])) = Some r
     /\ (forall other,
           other <> Result.id r ->
           fst (ResultManagerReads.get_result other (db ++ [r]))
           = fst (ResultManagerReads.get_result other db))
     /\ fst (ResultManagerReads.get_task_results task_id (db ++ [r]))
        = fst (ResultManagerReads.get_task_results task_id db) ++ [r]
     /\ Result.task_id r = task_id
     /\ Result.output r = output
     /\ (Result.files_modified r = None <-> files_modified = [])
     /\ (Result.commands_executed r = None <-> commands_executed = [])
     /\ (files_modified <> [] -> Result.files_modified r = Some files_modified))
  /\ (forall exc,
        ResultManager.save_result (Some exc) now task_id output files_modified
          commands_executed processing_time_seconds git_commit_sha git_pr_url
          git_branch workspace_path db
        = (Py.Raised exc, db)).
Proof.
  split; [|reflexivity].
  unfold ResultManager.save_result.
  set (r := Result.mk (ResultManager.next_id db) _ _ _ _ _ _ _ _ _ _).
  exists r.
  assert (Hfresh : forall x, In x db -> Result.id x < Result.id r)
    by (intros x Hx; now apply result_next_id_above).
  assert (Hne : forall x, In x db -> Result.id x <> Result.id r)
    by (intros x Hx; specialize (Hfresh x Hx); lia).
  split; [reflexivity|]. split; [exact Hfresh|].
  unfold ResultManagerReads.get_result, ResultManagerReads.get_task_results.
  cbn [fst]. split; [|split; [|split; [|split; [|split; [|split; [|split]]]]]].
  - rewrite (find_result_app_new db r _ Hne), Z.eqb_refl.
    destruct (find _ db) as [x|] eqn:E; [|reflexivity].
    apply find_some in E. destruct E as [Hx E].
    apply Z.eqb_eq in E. now apply Hne in Hx.
  - intros other Hother. rewrite (find_result_app_new db r _ Hne).
    destruct (Z.eqb_spec (Result.id r) other); [congruence|reflexivity].
  - rewrite filter_app. simpl. now rewrite Z.eqb_refl.
  - reflexivity.
  - reflexivity.
  - simpl. unfold ResultManager.column.
    destruct files_modified; split; congruence.
  - simpl. unfold ResultManager.column.
    destruct commands_executed; split; congruence.
  - simpl. unfold ResultManager.column.
    destruct files_modified; congruence.
Qed.

Lemma map_id_update_result_commit_info result_id sha pr branch
    (db : ResultManager.Store) :
  map Result.id
    (ResultManager.update_result_commit_info result_id sha pr branch db)
  = map Result.id db.
Proof.
  induction db as [|x db IH]; simpl; [reflexivity|].
  destruct (Result.id x =? result_id); simpl; [reflexivity|now rewrite IH].
Qed.

(** X12.  [update_result_commit_info] rewrites the three git columns of
    the result with the id given and nothing else: the ids stay, every
    other result reads as before, and the output, the files, the commands
    and the workspace of the result updated are kept.  The pull request
    url and the branch are assigned as given, so a call that names only
    the commit erases them.  With an id no result has, the table is as
    before. *)
Theorem update_result_commit_info_touches_three_columns (result_id : Z)
    (git_commit_sha git_pr_url git_branch : option string)
    (db : ResultManager.Store) :
  let db' :=
    ResultManager.update_result_commit_info result_id git_commit_sha
      git_pr_url git_branch db in
  map Result.id db' = map Result.id db
  /\ (forall other,
        other <> result_id ->
        fst (ResultManagerReads.get_result other db')
        = fst (ResultManagerReads.get_result other db))
  /\ match fst (ResultManagerReads.get_result result_id db) with
     | Some r =>
         exists r',
           fst (ResultManagerReads.get_result result_id db') = Some r'
           /\ Result.git_commit_sha r' = git_commit_sha
           /\ Result.git_pr_url r' = git_pr_url
           /\ Result.git_branch r' = git_branch
           /\ Result.id r' = Result.id r
           /\ Result.task_id r' = Result.task_id r
           /\ Result.output r' = Result.output r
           /\ Result.files_modified r' = Result.files_modified r
           /\ Result.commands_executed r' = Result.commands_executed r
           /\ Result.workspace_path r' = Result.workspace_path r
           /\ Result.processing_time_seconds r'
              = Result.processing_time_seconds r
           /\ Result.created_at r' = Result.created_at r
     | None => db' = db
     end.
Proof.
  cbv zeta.
  unfold ResultManagerReads.get_result. cbn [fst].
  split; [apply map_id_update_result_commit_info|]. split.
  - intros other Hne. induction db as [|x db IH]; simpl; [reflexivity|].
    destruct (Z.eqb_spec (Result.id x) result_id) as [E|E]; simpl.
    + destruct (Z.eqb_spec (Result.id x) other); [congruence|reflexivity].
    + destruct (Result.id x =? other); [reflexivity|exact IH].
  - induction db as [|x db IH]; simpl; [reflexivity|].
    destruct (Z.eqb_spec (Result.id x) result_id) as [E|E]; simpl.
    + rewrite E, Z.eqb_refl. eexists. split; [reflexivity|].
      repeat split. exact E.
    + destruct (Z.eqb_spec (Result.id x) result_id); [contradiction|].
      destruct (find _ db) as [r|]; [exact IH|now rewrite IH].
Qed.

(* ================================================================== *)
(** * Properties of the retry loop of the SQLite layer *)
(* ================================================================== *)

Lemma attempts_spec {A : Type} (operation : nat -> SQLiteStore.Attempt A)
    (retries : Z) (remaining : nat) :
  forall attempt last_exc,
    (0 < remaining)%nat ->
    Z.of_nat attempt + Z.of_nat remaining = retries ->
    exists k,
      (attempt <= k)%nat
      /\ Z.of_nat k < retries
      /\ (forall j, (attempt <= j < k)%nat ->
                    retried retries j (operation j) = true)
      /\ retried retries k (operation k) = false
      /\ SQLiteStore.attempts operation retries last_exc attempt remaining
         = (attempt_outcome (operation k),
            List.concat (repeat retry_events (k - attempt))
            ++ last_events (operation k)).
Proof.
  induction remaining as [|remaining IH]; intros attempt last_exc Hpos Hsum;
    [lia|].
  cbn [SQLiteStore.attempts].
  destruct (operation attempt) as [result | exc | exc] eqn:E.
  - exists attempt. rewrite E, Nat.sub_diag.
    split; [lia|]. split; [lia|]. split; [intros; lia|].
    split; reflexivity.
  - destruct (SQLiteStore._should_reset_on_error exc
              && (Z.of_nat attempt <? retries - 1)) eqn:R.
    + assert (Hlt : Z.of_nat attempt < retries - 1).
      { apply andb_prop in R. destruct R as [_ R]. lia. }
      destruct (IH (S attempt) (Some exc)) as (k & H1 & H2 & H3 & H4 & H5);
        [lia | lia |].
      exists k. split; [lia|]. split; [exact H2|]. split.
      * intros j Hj. destruct (Nat.eq_dec j attempt) as [-> | Hne].
        -- rewrite E. exact R.
        -- apply H3. lia.
      * split; [exact H4|]. rewrite H5.
        replace (k - attempt)%nat with (S (k - S attempt)) by lia.
        reflexivity.
    + exists attempt. rewrite E, Nat.sub_diag.
      split; [lia|]. split; [lia|]. split; [intros; lia|].
      split; [exact R|reflexivity].
  - exists attempt. rewrite E, Nat.sub_diag.
    split; [lia|]. split; [lia|]. split; [intros; lia|].
    split; reflexivity.
Qed.

(** X13.  With [retries > 0], [_run_write] gives what its last attempt
    gives, the result or the exception itself: every attempt before the
    last raised an [OperationalError] naming a read-only or locked
    database and was rolled back, followed by a reset of the engine; the
    last attempt either commits, or raises something else, or is the
    attempt of index [retries - 1].  Every session opened is closed, and
    no more than [retries] attempts are made. *)
Theorem _run_write_gives_last_attempt {A : Type}
    (operation : nat -> SQLiteStore.Attempt A) (retries : Z) :
  0 < retries ->
  exists k,
    Z.of_nat k < retries
    /\ (forall j, (j < k)%nat -> retried retries j (operation j) = true)
    /\ retried retries k (operation k) = false
    /\ SQLiteStore._run_write operation retries
       = (attempt_outcome (operation k),
          List.concat (repeat retry_events k) ++ last_events (operation k)).
Proof.
  intro Hpos. unfold SQLiteStore._run_write.
  destruct (attempts_spec operation retries (Z.to_nat retries) 0%nat None)
    as (k & _ & H2 & H3 & H4 & H5); [lia | lia |].
  exists k. split; [exact H2|]. split; [intros j Hj; apply H3; lia|].
  split; [exact H4|]. now rewrite H5, Nat.sub_0_r.
Qed.

(** An instance, with the two rounds of the default: the first attempt
    meets a locked database, the engine is reset, the second commits. *)
Lemma _run_write_witness :
  exists k,
    Z.of_nat k < 2
    /\ (forall j, (j < k)%nat -> retried 2 j (locked_once j) = true)
    /\ retried 2 k (locked_once k) = false
    /\ SQLiteStore._run_write locked_once 2
       = (attempt_outcome (locked_once k),
          List.concat (repeat retry_events k) ++ last_events (locked_once k)).
Proof. apply (_run_write_gives_last_attempt locked_once 2). lia. Defined.

(** The same instance, evaluated. *)
Example _run_write_locked_once :
  SQLiteStore._run_write locked_once 2
  = (inr 5,
     [SQLiteStore.OpenSession; SQLiteStore.Rollback; SQLiteStore.ResetEngine;
      SQLiteStore.CloseSession; SQLiteStore.OpenSession; SQLiteStore.Commit;
      SQLiteStore.CloseSession]).
Proof. reflexivity. Qed.

(** X14.  [_run_write] never raises the [RuntimeError] that counts the
    attempts: when the attempts run out, the exception of the last one is
    raised as it is.  A [RuntimeError] comes out only with
    [retries <= 0], where no session is opened and the message says that
    nothing was raised. *)
Theorem _run_write_never_counts_attempts {A : Type}
    (operation : nat -> SQLiteStore.Attempt A) (retries : Z) :
  (forall text,
     fst (SQLiteStore._run_write operation retries)
     = inl (SQLiteStore.RaisedRuntimeError text) ->
     retries <= 0
     /\ text = "SQLite operation failed without raising an exception")
  /\ (retries <= 0 ->
      SQLiteStore._run_write operation retries
      = (inl (SQLiteStore.RaisedRuntimeError
                "SQLite operation failed without raising an exception"),
         [])).
Proof.
  assert (Hnone : retries <= 0 ->
                  SQLiteStore._run_write operation retries
                  = (inl (SQLiteStore.RaisedRuntimeError
                            "SQLite operation failed without raising an exception"),
                     [])).
  { intro H. unfold SQLiteStore._run_write.
    replace (Z.to_nat retries) with 0%nat by lia. reflexivity. }
  split; [|exact Hnone].
  intros text H.
  destruct (Z_lt_le_dec 0 retries) as [Hpos | Hle].
  - unfold SQLiteStore._run_write in H.
    destruct (attempts_spec operation retries (Z.to_nat retries) 0%nat None)
      as (k & _ & _ & _ & _ & E); [lia | lia |].
    rewrite E in H. cbn [fst] in H.
    destruct (operation k); discriminate H.
  - rewrite (Hnone Hle) in H. cbn [fst] in H.
    injection H as <-. now split.
Qed.

(* ================================================================== *)
(** * Properties of the timeout manager *)
(* ================================================================== *)

Lemma timeout_sweep_leaves_none cutoff now max_age_seconds
    (db : TaskQueue.Store) :
  filter (TaskQueue.is_expired cutoff)
    (map (fun x => if TaskQueue.is_expired cutoff x
                   then TaskQueue.time_out now max_age_seconds x else x) db)
  = [].
Proof.
  apply filter_none. intros y Hy. apply in_map_iff in Hy.
  destruct Hy as (x & <- & _).
  destruct (TaskQueue.is_expired cutoff x) eqn:E; [reflexivity|exact E].
Qed.

Lemma timeout_message_truthy max_age_seconds :
  Py.truthy_str (TaskQueue.timeout_message max_age_seconds) = true.
Proof. reflexivity. Qed.

(** X15.  With a positive timeout, [enforce] reports the tasks the queue
    has just timed out, each once, task by task in the order the query
    answered them, whatever that order is: one cleanup, one completion
    recorded, one execution logged and one report entry per task, then
    the message to the assignee if there is one and a bot, then the
    status cleared if there is a tracker.  The message reported is the
    one the queue generated, never the fallback; the duration is counted
    up to the time the queue failed the task, and is never below the
    timeout.  Called again with the clock at the same cutoff it reports
    nothing; with a timeout of zero or less it does nothing. *)
Theorem enforce_reports_each_timed_out_task_once
    (s : TaskTimeoutManager.Settings)
    (answered : list Task.t -> list Task.t)
    (now_cutoff now_failed now : datetime) (db : TaskQueue.Store) :
  (forall rows, Permutation rows (answered rows)) ->
  let timeout := TaskTimeoutManager.task_timeout_seconds s in
  let tasks :=
    fst (TaskQueue.timeout_expired_tasks now_cutoff now_failed timeout db) in
  let db' :=
    snd (TaskQueue.timeout_expired_tasks now_cutoff now_failed timeout db) in
  (0 < timeout ->
   TaskTimeoutManager.enforce s answered now_cutoff now_failed now db
   = (flat_map (TaskTimeoutManager.report s now) (answered tasks), db')
   /\ Permutation tasks (answered tasks)
   /\ (forall task,
         In task tasks ->
         exists started duration,
           Task.started_at task = Some started
           /\ duration
              = Z.max (Z.quot (now_failed - started) 1000000) timeout
           /\ timeout <= duration
           /\ (now_cutoff <= now_failed ->
               duration = Z.quot (now_failed - started) 1000000)
           /\ TaskTimeoutManager.report s now task
              = [TaskTimeoutManager.CleanupWorkspace (Task.id task);
                 TaskTimeoutManager.RecordTaskCompletion duration;
                 TaskTimeoutManager.LogTaskExecution (Task.id task) duration;
                 TaskTimeoutManager.AppendTaskCompletion (Task.id task)
                   duration (TaskQueue.timeout_message timeout)
                   (Task.project_id task)]
                ++ TaskTimeoutManager._notify_timeout s task duration)
   /\ (forall now_failed' now',
         TaskTimeoutManager.enforce s answered now_cutoff now_failed' now' db'
         = ([], db')))
  /\ (timeout <= 0 ->
      TaskTimeoutManager.enforce s answered now_cutoff now_failed now db
      = ([], db)).
Proof.
  intro Hanswered. cbv zeta. split.
  - intro Hpos. unfold TaskTimeoutManager.enforce.
    assert (E : (TaskTimeoutManager.task_timeout_seconds s <=? 0) = false)
      by lia.
    rewrite E. rewrite !(timeout_expired_tasks_enabled _ _ _ _ Hpos).
    cbn [fst snd].
    set (timeout := TaskTimeoutManager.task_timeout_seconds s) in *.
    set (cutoff := now_cutoff - seconds timeout).
    split; [|split; [|split]].
    + now destruct (answered (map _ (filter _ db))).
    + apply Hanswered.
    + intros task Htask. apply in_map_iff in Htask.
      destruct Htask as (x & <- & Hx). apply filter_In in Hx.
      destruct Hx as [Hx Hexp].
      unfold TaskQueue.is_expired in Hexp. apply andb_prop in Hexp.
      destruct Hexp as [_ Hexp].
      destruct (Task.started_at x) as [started|] eqn:Es; [|discriminate].
      exists started.
      exists (Z.max (Z.quot (now_failed - started) 1000000) timeout).
      split; [exact Es|]. split; [reflexivity|]. split; [lia|]. split.
      * intro Hclock. apply Z.max_l.
        assert (Hlong : timeout * 1000000 <= now_failed - started)
          by (unfold cutoff, seconds in Hexp; lia).
        apply Z.quot_le_lower_bound; lia.
      * unfold TaskTimeoutManager.report,
          TaskTimeoutManager._log_timeout_metrics,
          TaskTimeoutManager._compute_elapsed,
          TaskTimeoutManager.total_seconds.
        fold timeout.
        change (Task.error_message (TaskQueue.time_out now_failed timeout x))
          with (Some (TaskQueue.timeout_message timeout)).
        change (Task.started_at (TaskQueue.time_out now_failed timeout x))
          with (Task.started_at x).
        change (Task.completed_at (TaskQueue.time_out now_failed timeout x))
          with (Some now_failed).
        rewrite Es, timeout_message_truthy. reflexivity.
    + intros now_failed' now'.
      rewrite (timeout_expired_tasks_enabled _ _ _ _ Hpos).
      fold cutoff. rewrite timeout_sweep_leaves_none. cbn [map].
      rewrite (Permutation_nil (Hanswered [])).
      f_equal. apply map_if_filter_nil, timeout_sweep_leaves_none.
  - intro Hle. unfold TaskTimeoutManager.enforce.
    assert (E : (TaskTimeoutManager.task_timeout_seconds s <=? 0) = true)
      by lia.
    now rewrite E.
Qed.

(** An instance, on three running tasks with a timeout of 60 seconds and
    a query that answers in the reverse of the table order: at second
    120 the tasks started at seconds 0 and 30 are reported, the later row
    first. *)
Lemma enforce_witness :
  (forall rows : list Task.t, Permutation rows (List.rev rows))
  /\ fst (TaskTimeoutManager.enforce
            {| TaskTimeoutManager.task_timeout_seconds := 60;
               TaskTimeoutManager.bot := true;
               TaskTimeoutManager.live_status_tracker := true |}
            (@List.rev Task.t)
            (seconds 120) (seconds 121) (seconds 122)
            [running_row 1 0; running_row 2 (seconds 100);
             running_row 3 (seconds 30)])
     = [TaskTimeoutManager.CleanupWorkspace 3;
        TaskTimeoutManager.RecordTaskCompletion 91;
        TaskTimeoutManager.LogTaskExecution 3 91;
        TaskTimeoutManager.AppendTaskCompletion 3 91
          "Timed out after exceeding 1 minute limit." None;
        TaskTimeoutManager.ClearLiveStatus 3;
        TaskTimeoutManager.CleanupWorkspace 1;
        TaskTimeoutManager.RecordTaskCompletion 121;
        TaskTimeoutManager.LogTaskExecution 1 121;
        TaskTimeoutManager.AppendTaskCompletion 1 121
          "Timed out after exceeding 1 minute limit." None;
        TaskTimeoutManager.ClearLiveStatus 1].
Proof.
  split; [apply Permutation_rev|].
  destruct (enforce_reports_each_timed_out_task_once
              {| TaskTimeoutManager.task_timeout_seconds := 60;
                 TaskTimeoutManager.bot := true;
                 TaskTimeoutManager.live_status_tracker := true |}
              (@List.rev Task.t)
              (seconds 120) (seconds 121) (seconds 122)
              [running_row 1 0; running_row 2 (seconds 100);
               running_row 3 (seconds 30)]
              (@Permutation_rev Task.t))
    as [H _].
  destruct H as (H & _); [simpl; lia|].
  rewrite H. reflexivity.
Defined.

(* ================================================================== *)
(** * Properties of the workspace repository *)
(* ================================================================== *)

(** *** The ignore file *)

Lemma mem_spec x l : GitWorkspace.mem x l = true <-> In x l.
Proof.
  unfold GitWorkspace.mem. rewrite existsb_exists. split.
  - intros (y & Hy & E). apply String.eqb_eq in E. now subst.
  - intro H. exists x. split; [exact H|apply String.eqb_refl].
Qed.

Lemma updated_lines_fixed l :
  In GitWorkspace.managed_header l -> In "data/" l ->
  GitWorkspace.updated_lines l = l.
Proof.
  intros Hh Hd. unfold GitWorkspace.updated_lines.
  apply mem_spec in Hh. rewrite Hh. cbn [negb fold_left
    GitWorkspace.ignore_entries].
  apply mem_spec in Hd. now rewrite Hd.
Qed.

Lemma updated_lines_spec l :
  exists added,
    GitWorkspace.updated_lines l = l ++ added
    /\ (List.length added <= 3)%nat
    /\ In GitWorkspace.managed_header (l ++ added)
    /\ In "data/" (l ++ added)
    /\ (In GitWorkspace.managed_header l -> In "data/" l -> added = []).
Proof.
  unfold GitWorkspace.updated_lines.
  cbn [fold_left GitWorkspace.ignore_entries].
  destruct (GitWorkspace.mem GitWorkspace.managed_header l) eqn:Eh;
    cbn [negb].
  - destruct (GitWorkspace.mem "data/" l) eqn:Ed; cbn [negb].
    + exists []. rewrite app_nil_r. apply mem_spec in Eh, Ed.
      repeat split; try assumption. simpl. lia.
    + exists ["data/"]. apply mem_spec in Eh.
      split; [reflexivity|]. split; [simpl; lia|].
      split; [apply in_or_app; now left|].
      split; [apply in_or_app; right; now left|].
      intros _ Hd. apply mem_spec in Hd. congruence.
  - set (sep := if _ && _ then l ++ [""] else l).
    assert (Hsep : exists blank,
               sep = l ++ blank /\ (List.length blank <= 1)%nat).
    { unfold sep. destruct (_ && _).
      - exists [""]. split; [reflexivity|simpl; lia].
      - exists []. rewrite app_nil_r. split; [reflexivity|simpl; lia]. }
    destruct Hsep as (blank & -> & Hlen).
    assert (Hno : In GitWorkspace.managed_header l -> False).
    { intro H. apply mem_spec in H. congruence. }
    destruct (GitWorkspace.mem "data/"
                ((l ++ blank) ++ [GitWorkspace.managed_header])) eqn:Ed;
      cbn [negb].
    + exists (blank ++ [GitWorkspace.managed_header]).
      rewrite app_assoc. split; [reflexivity|].
      split; [rewrite length_app; simpl; lia|].
      split; [apply in_or_app; right; now left|].
      split; [now apply mem_spec|]. tauto.
    + exists (blank ++ [GitWorkspace.managed_header; "data/"]).
      split; [now rewrite <- !app_assoc|].
      split; [rewrite length_app; simpl; lia|].
      rewrite app_assoc.
      split; [apply in_or_app; right; now left|].
      split; [apply in_or_app; right; right; now left|]. tauto.
Qed.

(** X16.  [_ensure_gitignore] writes nothing exactly when the file names
    the header and the entry [data/] already.  Otherwise it only appends:
    the lines of the file stay, in their order, followed by at most three
    more (a blank line, the header, the entry); what it writes names the
    header and the entry, and a second call writes nothing. *)
Theorem _ensure_gitignore_appends_once (gitignore : option (list string)) :
  let existing_lines :=
    match gitignore with Some lines => lines | None => [] end in
  (GitWorkspace._ensure_gitignore gitignore = None
   <-> In GitWorkspace.managed_header existing_lines
       /\ In "data/" existing_lines)
  /\ match GitWorkspace._ensure_gitignore gitignore with
     | Some written =>
         exists added,
           written = existing_lines ++ added
           /\ added <> []
           /\ (List.length added <= 3)%nat
           /\ In GitWorkspace.managed_header written
           /\ In "data/" written
           /\ GitWorkspace._ensure_gitignore (Some written) = None
     | None => True
     end.
Proof.
  cbv zeta. unfold GitWorkspace._ensure_gitignore.
  set (existing := match gitignore with Some lines => lines | None => [] end).
  destruct (updated_lines_spec existing)
    as (added & E & Hlen & Hh & Hd & Hnamed).
  destruct (list_eq_dec string_dec (GitWorkspace.updated_lines existing)
              existing) as [Heq | Hne].
  - split; [|exact I]. split; [intros _|reflexivity].
    rewrite E in Heq.
    assert (added = []) as ->.
    { apply (f_equal (@List.length string)) in Heq.
      rewrite length_app in Heq. destruct added; [reflexivity|].
      simpl in Heq. lia. }
    rewrite app_nil_r in Hh, Hd. now split.
  - split.
    + split; [discriminate|]. intros [Hh' Hd']. exfalso. apply Hne.
      now apply updated_lines_fixed.
    + exists added. split; [exact E|]. split.
      * intros ->. rewrite app_nil_r in E. contradiction.
      * rewrite E. split; [exact Hlen|]. split; [exact Hh|].
        split; [exact Hd|].
        rewrite (updated_lines_fixed _ Hh Hd).
        now destruct (list_eq_dec string_dec (existing ++ added)
                        (existing ++ added)).
Qed.

(** A file that ends with a line of text gets a blank line, the header
    and the entry; a missing file gets the header and the entry. *)
Example _ensure_gitignore_sample :
  GitWorkspace._ensure_gitignore (Some ["*.pyc"])
  = Some ["*.pyc"; ""; "# Sleepless Agent managed ignores"; "data/"]
  /\ GitWorkspace._ensure_gitignore None
     = Some ["# Sleepless Agent managed ignores"; "data/"].
Proof. split; reflexivity. Qed.

(** *** The push *)

Lemma alternates_app_quiet warned quiet logs :
  (forall l, In l quiet ->
             l <> GitWorkspace.WarningPushUnavailable
             /\ l <> GitWorkspace.InfoPushRecovered) ->
  alternates warned (quiet ++ logs) = alternates warned logs.
Proof.
  induction quiet as [|l quiet IH]; intro H; [reflexivity|].
  simpl. destruct (H l (or_introl eq_refl)) as [H1 H2].
  destruct l; try congruence; apply IH; intros l' Hl'; apply H; now right.
Qed.

Lemma push_all_step auto_create_repo a flag :
  exists quiet,
    (forall l, In l quiet ->
               l <> GitWorkspace.WarningPushUnavailable
               /\ l <> GitWorkspace.InfoPushRecovered)
    /\ let '(_, flag', logged) :=
         GitWorkspace.push_all auto_create_repo a flag in
       (logged = quiet /\ flag' = flag)
       \/ (logged = quiet ++ [GitWorkspace.WarningPushUnavailable]
           /\ flag = false /\ flag' = true)
       \/ (logged = quiet ++ [GitWorkspace.InfoPushRecovered]
           /\ flag = true /\ flag' = false).
Proof.
  unfold GitWorkspace.push_all.
  destruct (negb (GitWorkspace._has_remote a "origin")).
  - exists [GitWorkspace.DebugNoRemote]. split.
    + intros l [<- | []]. split; discriminate.
    + left. now split.
  - set (created := if auto_create_repo then _ else []).
    assert (Hquiet : forall l, In l created ->
                       l <> GitWorkspace.WarningPushUnavailable
                       /\ l <> GitWorkspace.InfoPushRecovered).
    { unfold created. intros l Hl.
      destruct auto_create_repo; [|contradiction].
      destruct (GitWorkspace.remote_url a) as [url | m | m].
      - destruct (_ && _); [|contradiction].
        destruct (GitWorkspace._create_github_repo a url);
          destruct Hl as [<- | []]; split; discriminate.
      - destruct Hl as [<- | []]; split; discriminate.
      - destruct Hl as [<- | []]; split; discriminate. }
    assert (Hquiet' : forall m l, In l (created ++ [m]) ->
                        m <> GitWorkspace.WarningPushUnavailable ->
                        m <> GitWorkspace.InfoPushRecovered ->
                        l <> GitWorkspace.WarningPushUnavailable
                        /\ l <> GitWorkspace.InfoPushRecovered).
    { intros m l Hl H1 H2. apply in_app_or in Hl.
      destruct Hl as [Hl | [<- | []]]; [now apply Hquiet | now split]. }
    destruct (GitWorkspace.push a) as [out | m | m].
    + destruct flag.
      * exists created. split; [exact Hquiet|]. right. right. now repeat split.
      * exists created. split; [exact Hquiet|]. left. now split.
    + destruct (GitWorkspace.unavailable m).
      * destruct flag; cbn [negb].
        -- exists (created ++ [GitWorkspace.DebugStillUnreachable]). split.
           ++ intros l Hl. apply (Hquiet' _ l Hl); discriminate.
           ++ left. now split.
        -- exists created. split; [exact Hquiet|].
           right. left. now repeat split.
      * exists (created ++ [GitWorkspace.ErrorPushFailed m]). split.
        -- intros l Hl. apply (Hquiet' _ l Hl); discriminate.
        -- left. now split.
    + exists (created ++ [GitWorkspace.ErrorPushFailed m]). split.
      * intros l Hl. apply (Hquiet' _ l Hl); discriminate.
      * left. now split.
Qed.

(** X17.  Over any sequence of calls of [push_all], whatever git answers,
    the warning of an unavailable remote is logged once per outage: in
    the lines logged, that warning and the notice of a recovery
    alternate, starting with the warning.  A push that fails because the
    repository is not found or cannot be read never raises; [push_all]
    raises exactly when [origin] is configured and the push fails in
    another way. *)
Theorem push_all_warns_once_per_outage (auto_create_repo : bool)
    (calls : list GitWorkspace.PushAnswers) :
  alternates false (snd (pushes auto_create_repo false calls)) = true
  /\ (forall a flag,
        (exists message,
           fst (fst (GitWorkspace.push_all auto_create_repo a flag))
           = Py.Raised message)
        <-> GitWorkspace._has_remote a "origin" = true
            /\ match GitWorkspace.push a with
               | GitWorkspace.GitOk _ => False
               | GitWorkspace.GitRuntimeError message =>
                   GitWorkspace.unavailable message = false
               | GitWorkspace.GitOtherError _ => True
               end).
Proof.
  split.
  - generalize false as flag. induction calls as [|a calls IH]; intro flag;
      [reflexivity|].
    cbn [pushes].
    destruct (push_all_step auto_create_repo a flag) as (quiet & Hq & Hstep).
    destruct (GitWorkspace.push_all auto_create_repo a flag)
      as [[r flag'] logged].
    specialize (IH flag').
    destruct (pushes auto_create_repo flag' calls) as [flag'' later].
    cbn [snd] in *.
    destruct Hstep as [[-> ->] | [(-> & -> & ->) | (-> & -> & ->)]].
    + now rewrite alternates_app_quiet.
    + rewrite <- app_assoc, alternates_app_quiet by exact Hq.
      simpl. exact IH.
    + rewrite <- app_assoc, alternates_app_quiet by exact Hq.
      simpl. exact IH.
  - intros a flag. unfold GitWorkspace.push_all.
    destruct (GitWorkspace._has_remote a "origin"); cbn [negb].
    + destruct (GitWorkspace.push a) as [out | m | m].
      * destruct flag; cbn [fst]; split;
          [intros (? & H); discriminate H | tauto
          | intros (? & H); discriminate H | tauto].
      * destruct (GitWorkspace.unavailable m).
        -- destruct flag; cbn [negb fst]; split;
             try (intros (? & H); discriminate H);
             intros [_ H]; discriminate H.
        -- cbn [fst]. split; [now split|]. intros _. now exists m.
      * cbn [fst]. split; [now split|]. intros _. now exists m.
    + cbn [fst]. split; [intros (? & H); discriminate H|].
      intros [H _]. discriminate H.
Qed.

(** Three pushes to a remote that cannot be reached: one warning. *)
Example pushes_unreachable :
  pushes false false [unreachable; unreachable; unreachable]
  = (true,
     [GitWorkspace.WarningPushUnavailable; GitWorkspace.DebugStillUnreachable;
      GitWorkspace.DebugStillUnreachable]).
Proof. reflexivity. Qed.

(** *** The summary file *)

Lemma length_take n s :
  String.length (Py.take n s) = Nat.min n (String.length s).
Proof.
  unfold Py.take. revert n.
  induction s as [|c s IH]; intros [|n]; simpl; try reflexivity.
  now rewrite IH.
Qed.

Lemma take_all n s : (String.length s <= n)%nat -> Py.take n s = s.
Proof.
  unfold Py.take. revert n.
  induction s as [|c s IH]; intros [|n]; simpl; intro H;
    try reflexivity; try lia.
  rewrite IH by lia. reflexivity.
Qed.

Lemma take_prefix n s : exists rest, s = (Py.take n s ++ rest)%string.
Proof.
  unfold Py.take. revert n.
  induction s as [|c s IH]; intros [|n]; simpl.
  - now exists "".
  - now exists "".
  - now exists (String c s).
  - destruct (IH n) as (rest & E). exists rest. now rewrite <- E.
Qed.

(** X18.  With a limit that is not negative, the output
    [write_summary_file] puts in the summary is the result output itself
    when that is no longer than the limit; otherwise it is the first
    [limit] characters of the output followed by the truncation notice.
    Either way it is at most 32 characters longer than the limit. *)
Theorem summary_output_is_bounded (limit : Z) (result_output : string) :
  0 <= limit ->
  (PyText.len result_output <= limit ->
   GitWorkspace.truncated_output limit result_output = result_output)
  /\ (limit < PyText.len result_output ->
      exists kept rest,
        result_output = (kept ++ rest)%string
        /\ PyText.len kept = limit
        /\ GitWorkspace.truncated_output limit result_output
           = (kept ++ GitWorkspace.truncation_marker)%string)
  /\ PyText.len (GitWorkspace.truncated_output limit result_output)
     <= limit + 32.
Proof.
  intro Hlimit.
  unfold GitWorkspace.truncated_output, PyText.slice_to, PyText.len.
  assert (E : (limit <? 0) = false) by lia. rewrite E.
  destruct (Z.ltb_spec limit (Z.of_nat (String.length result_output)))
    as [Hlong | Hshort].
  - split; [lia|]. split.
    + intros _. destruct (take_prefix (Z.to_nat limit) result_output)
        as (rest & Hrest).
      exists (Py.take (Z.to_nat limit) result_output), rest.
      split; [exact Hrest|]. split; [|reflexivity].
      rewrite length_take. lia.
    + rewrite length_append, length_take.
      change (String.length GitWorkspace.truncation_marker) with 32%nat.
      lia.
  - split; [intros _; apply take_all; lia|]. split; [lia|].
    rewrite length_take. lia.
Qed.

(** An instance: an output of eleven characters under a limit of five. *)
Lemma summary_output_witness :
  GitWorkspace.truncated_output 5 "hello world"
  = ("hello" ++ GitWorkspace.truncation_marker)%string.
Proof.
  destruct (summary_output_is_bounded 5 "hello world") as (_ & H & _);
    [lia|].
  destruct H as (kept & rest & Hsplit & Hlen & ->); [reflexivity|].
  f_equal.
  destruct kept as [|a [|b [|c [|d [|e [|f kept]]]]]];
    try (cbv in Hlen; discriminate Hlen).
  - now injection Hsplit as <- <- <- <- <-.
  - exfalso. unfold PyText.len in Hlen. simpl in Hlen. lia.
Defined.

(** *** Branches *)

(** X19.  [determine_branch] gives every project with a non-empty id a
    branch of its own under [project/]; two different projects never
    share a branch.  A task with no project id, or with an empty one,
    goes to the default branch. *)
Theorem determine_branch_separates_projects (default_task_branch : string)
    (p q : string) :
  p <> "" -> q <> "" ->
  GitManager.determine_branch default_task_branch (Some p)
  = ("project/" ++ p)%string
  /\ (GitManager.determine_branch default_task_branch (Some p)
      = GitManager.determine_branch default_task_branch (Some q) ->
      p = q)
  /\ GitManager.determine_branch default_task_branch None
     = default_task_branch
  /\ GitManager.determine_branch default_task_branch (Some "")
     = default_task_branch.
Proof.
  intros Hp Hq. unfold GitManager.determine_branch.
  destruct p as [|a p]; [contradiction|].
  destruct q as [|b q]; [contradiction|].
  cbn [Py.truthy_str]. split; [reflexivity|]. split; [|now split].
  intro E. simpl in E. injection E. intros. congruence.
Qed.

(** An instance: the projects [site] and [docs]. *)
Lemma determine_branch_witness :
  GitManager.determine_branch "tasks" (Some "site") = "project/site"
  /\ (GitManager.determine_branch "tasks" (Some "site")
      = GitManager.determine_branch "tasks" (Some "docs") ->
      "site" = "docs").
Proof.
  destruct (determine_branch_separates_projects "tasks" "site" "docs")
    as (H1 & H2 & _); [discriminate | discriminate |].
  now split.
Defined.

(* ================================================================== *)
(** * Further properties of the runtime *)
(* ================================================================== *)

Section Keeps.

Context (R : TaskRuntime.World -> TaskRuntime.World -> Prop).
Hypothesis R_refl : forall w, R w w.
Hypothesis R_trans : forall a b c, R a b -> R b c -> R a c.

Lemma keeps_ret {A : Type} (a : A) : keeps R (TaskRuntime.ret a).
Proof. intro w. apply R_refl. Qed.

Lemma keeps_raise {A : Type} e : keeps R (@TaskRuntime.raise A e).
Proof. intro w. apply R_refl. Qed.

Lemma keeps_bind {A B : Type} (m : TaskRuntime.M A)
    (k : A -> TaskRuntime.M B) :
  keeps R m -> (forall a, keeps R (k a)) -> keeps R (TaskRuntime.bind m k).
Proof.
  intros Hm Hk w. unfold TaskRuntime.bind.
  specialize (Hm w). destruct (m w) as [[e | a] w']; [exact Hm|].
  eapply R_trans; [exact Hm | apply Hk].
Qed.

Lemma keeps_try_except {A : Type} (body : TaskRuntime.M A) handler :
  keeps R body -> (forall e, keeps R (handler e)) ->
  keeps R (TaskRuntime.try_except body handler).
Proof.
  intros Hb Hh w. unfold TaskRuntime.try_except.
  specialize (Hb w). destruct (body w) as [[e | a] w']; [|exact Hb].
  eapply R_trans; [exact Hb | apply Hh].
Qed.

End Keeps.

Lemma never_raises_ret {A : Type} (a : A) : never_raises (TaskRuntime.ret a).
Proof. intro w. now exists a. Qed.

Lemma never_raises_call c : never_raises (TaskRuntime.call c).
Proof. intro w. now exists tt. Qed.

Lemma never_raises_bind {A B : Type} (m : TaskRuntime.M A)
    (k : A -> TaskRuntime.M B) :
  never_raises m -> (forall a, never_raises (k a)) ->
  never_raises (TaskRuntime.bind m k).
Proof.
  intros Hm Hk w. unfold TaskRuntime.bind.
  destruct (Hm w) as (a & Ha). destruct (m w) as [[e | a'] w'];
    [discriminate Ha|]. apply Hk.
Qed.

Lemma never_raises_try_except {A : Type} (body : TaskRuntime.M A) handler :
  never_cancelled body ->
  (forall e, e <> TaskRuntime.CancelledError -> never_raises (handler e)) ->
  never_raises (TaskRuntime.try_except body handler).
Proof.
  intros Hb Hh w. unfold TaskRuntime.try_except.
  specialize (Hb w).
  destruct (body w) as [[e | a] w']; [|now exists a].
  apply Hh. intros ->. now apply Hb.
Qed.

Lemma never_raises_on_queue {A : Type}
    (op : TaskQueue.Store -> A * TaskQueue.Store) :
  never_raises (TaskRuntime.on_queue op).
Proof.
  intro w. unfold TaskRuntime.on_queue.
  destruct (op (TaskRuntime.tasks w)) as [a db]. now exists a.
Qed.

Lemma never_raises_mark_failed c task_id message :
  never_raises (TaskRuntime.mark_failed c task_id message).
Proof.
  apply never_raises_bind; [apply never_raises_call|].
  intros _. apply never_raises_on_queue.
Qed.

Lemma never_raises_mark_completed c task_id result_id :
  never_raises (TaskRuntime.mark_completed c task_id result_id).
Proof.
  apply never_raises_bind; [apply never_raises_call|].
  intros _. apply never_raises_on_queue.
Qed.

Lemma never_cancelled_of_never_raises {A : Type} (m : TaskRuntime.M A) :
  never_raises m -> never_cancelled m.
Proof. intros H w E. destruct (H w) as (a & Ha). congruence. Qed.

Lemma never_cancelled_raise {A : Type} e :
  e <> TaskRuntime.CancelledError ->
  never_cancelled (@TaskRuntime.raise A e).
Proof. intros He w E. cbn in E. congruence. Qed.

Lemma never_cancelled_bind {A B : Type} (m : TaskRuntime.M A)
    (k : A -> TaskRuntime.M B) :
  never_cancelled m -> (forall a, never_cancelled (k a)) ->
  never_cancelled (TaskRuntime.bind m k).
Proof.
  intros Hm Hk w. unfold TaskRuntime.bind. specialize (Hm w).
  destruct (m w) as [[e | a] w']; [|apply Hk].
  cbn [fst] in *. intro E. apply Hm. congruence.
Qed.

Lemma never_cancelled_save_result c task_id output files_modified
    commands_executed processing_time_seconds git_commit_sha git_pr_url
    git_branch workspace_path :
  never_cancelled
    (TaskRuntime.save_result c task_id output files_modified
       commands_executed processing_time_seconds git_commit_sha git_pr_url
       git_branch workspace_path).
Proof.
  apply never_cancelled_bind;
    [apply never_cancelled_of_never_raises, never_raises_call|].
  intros _ w.
  destruct (ResultManager.save_result _ _ _ _ _ _ _ _ _ _ _ _)
    as [[result | exc] db]; discriminate.
Qed.

Lemma never_cancelled_git_commit c branch workspace files message :
  never_cancelled (TaskRuntime.git_commit c branch workspace files message).
Proof.
  apply never_cancelled_bind;
    [apply never_cancelled_of_never_raises, never_raises_call|].
  intros _.
  destruct (TaskRuntime.commit_workspace_changes c branch workspace files
              message).
  - apply never_cancelled_of_never_raises, never_raises_ret.
  - now apply never_cancelled_raise.
Qed.

Lemma never_cancelled_maybe_commit_changes c task workspace files_modified
    result_output git_branch :
  never_cancelled
    (TaskRuntime._maybe_commit_changes c task workspace files_modified
       result_output git_branch).
Proof.
  assert (Hcommit : forall targets message,
             never_cancelled
               (match targets with
                | _ :: _ =>
                    TaskRuntime.git_commit c git_branch workspace targets
                      message
                | [] => TaskRuntime.ret None
                end)).
  { intros [|t ts] message;
      [apply never_cancelled_of_never_raises, never_raises_ret
      |apply never_cancelled_git_commit]. }
  unfold TaskRuntime._maybe_commit_changes.
  destruct (Task.priority task).
  - apply never_cancelled_bind; [|intros files; apply Hcommit].
    destruct (Py.set files_modified);
      apply never_cancelled_of_never_raises;
      [|apply never_raises_ret].
    apply never_raises_bind; [apply never_raises_call|].
    intros _. apply never_raises_ret.
  - destruct (Py.set files_modified) as [|f fs];
      [apply never_cancelled_of_never_raises, never_raises_ret|].
    destruct (GitManager.validate_changes _ _ _ _) as [[|] validation_msg];
      cbn [negb];
      [apply Hcommit
      |apply never_cancelled_of_never_raises, never_raises_ret].
  - apply never_cancelled_bind; [|intros files; apply Hcommit].
    destruct (Py.set files_modified);
      apply never_cancelled_of_never_raises;
      [|apply never_raises_ret].
    apply never_raises_bind; [apply never_raises_call|].
    intros _. apply never_raises_ret.
Qed.

Lemma never_raises_update_result_commit_info result_id sha pr branch :
  never_raises (TaskRuntime.update_result_commit_info result_id sha pr branch).
Proof.
  apply never_raises_bind; [apply never_raises_call|].
  intros _ w. now exists tt.
Qed.

Lemma never_raises_handle_pause c task reset_time result_output
    files_modified commands_executed workspace :
  never_raises
    (TaskRuntime._handle_pause_exception c task reset_time result_output
       files_modified commands_executed workspace).
Proof.
  apply never_raises_bind.
  - apply never_raises_try_except.
    + apply never_cancelled_bind; [apply never_cancelled_save_result|].
      intros result. apply never_cancelled_of_never_raises.
      apply never_raises_bind; [apply never_raises_mark_completed|].
      intros _. apply never_raises_ret.
    + intros e He. destruct e; [| |contradiction]; apply never_raises_ret.
  - intros _. cbv zeta.
    match goal with
    | |- never_raises (if ?b then _ else _) => destruct b
    end; [apply never_raises_call | apply never_raises_ret].
Qed.

(** The steps of [execute] under its handlers are cancelled only where
    the adapter is. *)
Lemma never_cancelled_body c task :
  TaskRuntime.execute_task c <> TaskRuntime.Cancelled ->
  never_cancelled
    (TaskRuntime.bind (TaskRuntime._run_task_with_timeout c task)
       (fun r =>
          let '(result_output, files_modified, commands_executed, exit_code,
                usage_metrics, eval_status) := r in
          let processing_time := TaskRuntime.processing_time c in
          let files_modified :=
            match files_modified with
            | [] => []
            | _ :: _ => Py.sorted files_modified
            end in
          let git_branch :=
            GitManager.determine_branch (TaskRuntime.default_task_branch c)
              (Task.project_id task) in
          let workspace := TaskRuntime.get_workspace_path c in
          TaskRuntime.bind
            (TaskRuntime.save_result c (Task.id task) result_output
               files_modified commands_executed (Some processing_time) None
               None (Some git_branch) (Some workspace))
            (fun result =>
               TaskRuntime.bind
                 (if TaskRuntime.workspace_exists c then
                    TaskRuntime.bind
                      (TaskRuntime.call
                         (TaskRuntime.CleanupWorkspaceCaches workspace))
                      (fun _ =>
                         TaskRuntime.bind
                           (TaskRuntime._maybe_commit_changes c task workspace
                              files_modified result_output git_branch)
                           (fun git_commit_sha =>
                              if Py.truthy_opt_str git_commit_sha
                              then TaskRuntime.update_result_commit_info
                                     (Result.id result) git_commit_sha None
                                     (Some git_branch)
                              else TaskRuntime.ret tt))
                  else TaskRuntime.ret tt)
                 (fun _ =>
                    TaskRuntime.bind
                      (if TaskRuntime.evaluator_says_failed eval_status
                       then TaskRuntime.mark_failed c (Task.id task)
                              ("Evaluator status: "
                               ++ TaskRuntime.str_of_status eval_status)%string
                       else TaskRuntime.mark_completed c (Task.id task)
                              (Some (Result.id result)))
                      (fun _ => TaskRuntime.ret tt))))).
Proof.
  intro Hadapter. apply never_cancelled_bind.
  - unfold TaskRuntime._run_task_with_timeout.
    destruct (TaskRuntime.execute_task c); try contradiction;
      [apply never_cancelled_of_never_raises, never_raises_ret
      |apply never_cancelled_raise; discriminate ..].
  - intros [[[[[result_output files_modified] commands_executed] exit_code]
               usage_metrics] eval_status]. cbv zeta.
    apply never_cancelled_bind; [apply never_cancelled_save_result|].
    intro result. apply never_cancelled_bind.
    + destruct (TaskRuntime.workspace_exists c);
        [|apply never_cancelled_of_never_raises, never_raises_ret].
      apply never_cancelled_bind;
        [apply never_cancelled_of_never_raises, never_raises_call|].
      intros _. apply never_cancelled_bind;
        [apply never_cancelled_maybe_commit_changes|].
      intro sha. apply never_cancelled_of_never_raises.
      destruct (Py.truthy_opt_str sha);
        [apply never_raises_update_result_commit_info | apply never_raises_ret].
    + intros _. apply never_cancelled_of_never_raises.
      apply never_raises_bind; [|intros _; apply never_raises_ret].
      destruct (TaskRuntime.evaluator_says_failed eval_status);
        [apply never_raises_mark_failed | apply never_raises_mark_completed].
Qed.

(** X20.  [execute] catches every [Exception]: whatever the adapter, the
    result store, the file system and the commit manager do, it returns
    after the timeout, the pause, a failed save and a failed commit
    alike.  It does not catch the cancellation of its wait on the
    adapter, which is not an [Exception]: [execute] then raises the
    [CancelledError], having made no call but [mark_in_progress], and
    the task stays IN_PROGRESS with no Result. *)
Theorem execute_raises_only_when_cancelled (c : TaskRuntime.Collaborators)
    (task : Task.t) (w : TaskRuntime.World) :
  match TaskRuntime.execute_task c with
  | TaskRuntime.Cancelled =>
      TaskRuntime.execute c task w
      = (inl TaskRuntime.CancelledError,
         TaskRuntime.mkWorld
           (snd (TaskQueue.mark_in_progress (TaskRuntime.now_started c)
                   (Task.id task) (TaskRuntime.tasks w)))
           (TaskRuntime.results w)
           (TaskRuntime.calls w
            ++ [TaskRuntime.MarkInProgress (Task.id task)]))
      /\ forall row,
           TaskQueue.query_first (Task.id task) (TaskRuntime.tasks w)
           = Some row ->
           exists row',
             TaskQueue.query_first (Task.id task)
               (TaskRuntime.tasks (snd (TaskRuntime.execute c task w)))
             = Some row'
             /\ Task.status row' = IN_PROGRESS
  | _ => fst (TaskRuntime.execute c task w) = inr tt
  end.
Proof.
  assert (Hreturns :
            TaskRuntime.execute_task c <> TaskRuntime.Cancelled ->
            fst (TaskRuntime.execute c task w) = inr tt).
  { intro Hadapter.
    assert (H : never_raises (TaskRuntime.execute c task)).
    { unfold TaskRuntime.execute.
      apply never_raises_bind.
      - apply never_raises_bind; [apply never_raises_call|].
        intros _. apply never_raises_on_queue.
      - intros _. apply never_raises_try_except.
        + now apply never_cancelled_body.
        + intros [reset usage | message |] He; [| |contradiction].
          * apply never_raises_handle_pause.
          * apply never_raises_bind; [apply never_raises_mark_failed|].
            intros _. apply never_raises_ret. }
    destruct (H w) as ([] & E). exact E. }
  destruct (TaskRuntime.execute_task c) eqn:Hadapter;
    try (apply Hreturns; discriminate).
  assert (Hrun : TaskRuntime.execute c task w
                 = (inl TaskRuntime.CancelledError,
                    TaskRuntime.mkWorld
                      (snd (TaskQueue.mark_in_progress
                              (TaskRuntime.now_started c) (Task.id task)
                              (TaskRuntime.tasks w)))
                      (TaskRuntime.results w)
                      (TaskRuntime.calls w
                       ++ [TaskRuntime.MarkInProgress (Task.id task)]))).
  { unfold TaskRuntime.execute.
    rewrite (bind_returns _ _ _ _ _ (mark_in_progress_run c (Task.id task) w)).
    unfold TaskRuntime.try_except, TaskRuntime.bind,
      TaskRuntime._run_task_with_timeout.
    rewrite Hadapter. reflexivity. }
  split; [exact Hrun|]. intros row Hrow. rewrite Hrun. cbn [snd].
  apply (mark_in_progress_row _ _ _ _ Hrow).
Qed.

(** A run that is cancelled, on the one task of the examples. *)
Example execute_cancelled :
  TaskRuntime.execute (sample_collaborators TaskRuntime.Cancelled)
    pending_task one_task_world
  = (inl TaskRuntime.CancelledError,
     TaskRuntime.mkWorld
       [Task.mk 1 "write the report" SERIOUS (Some NEW) IN_PROGRESS 10
          (Some 100) None None 1 None None None None None None None]
       [] [TaskRuntime.MarkInProgress 1]).
Proof. reflexivity. Qed.

(** *** What [execute] leaves as it is *)

Lemma touches_only_refl task_id w : touches_only task_id w w.
Proof.
  split; [reflexivity|]. split; [reflexivity|]. split.
  - intros row H. exists row. tauto.
  - split; [reflexivity|]. exists []. now rewrite app_nil_r.
Qed.

Lemma touches_only_trans task_id a b c :
  touches_only task_id a b -> touches_only task_id b c ->
  touches_only task_id a c.
Proof.
  intros (H1 & H2 & H3 & H4 & later1 & H5) (K1 & K2 & K3 & K4 & later2 & K5).
  split; [intros other Hne; now rewrite K1, H1|].
  split; [now rewrite K2, H2|]. split.
  - intros row Hrow. destruct (H3 row Hrow) as (row1 & Hrow1 & Ha & Hs & Hp).
    destruct (K3 row1 Hrow1) as (row2 & Hrow2 & Ka & Ks & Kp).
    exists row2. split; [exact Hrow2|]. split; [congruence|].
    split; [congruence|]. auto.
  - split.
    + intro Hnone. rewrite K4; [now apply H4|]. rewrite H4; assumption.
    + exists (later1 ++ later2). now rewrite K5, H5, app_assoc.
Qed.

(** A step that writes no task. *)
Lemma touches_only_same_tasks task_id w w' later :
  TaskRuntime.tasks w' = TaskRuntime.tasks w ->
  TaskRuntime.calls w' = TaskRuntime.calls w ++ later ->
  touches_only task_id w w'.
Proof.
  intros Ht Hc. unfold touches_only. rewrite Ht.
  split; [reflexivity|]. split; [reflexivity|]. split.
  - intros row H. exists row. tauto.
  - split; [reflexivity|]. now exists later.
Qed.

Lemma keeps_call task_id c : keeps (touches_only task_id) (TaskRuntime.call c).
Proof.
  intro w. now apply (touches_only_same_tasks _ _ _ [c]).
Qed.

Lemma keeps_save_result task_id c id output files commands pt sha pr br ws :
  keeps (touches_only task_id)
    (TaskRuntime.save_result c id output files commands pt sha pr br ws).
Proof.
  intro w. unfold TaskRuntime.save_result, TaskRuntime.bind, TaskRuntime.call.
  cbn [TaskRuntime.tasks TaskRuntime.results TaskRuntime.calls].
  destruct (ResultManager.save_result _ _ _ _ _ _ _ _ _ _ _ _)
    as [[r | exc] db];
    now apply (touches_only_same_tasks _ _ _ [TaskRuntime.SaveResult id output]).
Qed.

Lemma keeps_update_result_commit_info task_id result_id sha pr br :
  keeps (touches_only task_id)
    (TaskRuntime.update_result_commit_info result_id sha pr br).
Proof.
  intro w.
  now apply (touches_only_same_tasks _ _ _
               [TaskRuntime.UpdateResultCommitInfo result_id sha]).
Qed.

Lemma keeps_git_commit task_id c branch workspace files message :
  keeps (touches_only task_id)
    (TaskRuntime.git_commit c branch workspace files message).
Proof.
  intro w. unfold TaskRuntime.git_commit, TaskRuntime.bind, TaskRuntime.call.
  destruct (TaskRuntime.commit_workspace_changes c _ _ _ _);
    now apply (touches_only_same_tasks _ _ _
                 [TaskRuntime.CommitWorkspaceChanges branch workspace files
                    message]).
Qed.

Lemma keeps_maybe_commit_changes task_id c task workspace files output branch :
  keeps (touches_only task_id)
    (TaskRuntime._maybe_commit_changes c task workspace files output branch).
Proof.
  pose proof (touches_only_refl task_id) as Hrefl.
  pose proof (touches_only_trans task_id) as Htrans.
  unfold TaskRuntime._maybe_commit_changes.
  destruct (Task.priority task).
  - apply keeps_bind; [exact Htrans| |].
    + destruct (Py.set files); [|now apply keeps_ret].
      apply keeps_bind; [exact Htrans | apply keeps_call|].
      intros _. now apply keeps_ret.
    + intro targets.
      destruct (TaskRuntime._collect_commit_targets c workspace targets);
        [now apply keeps_ret | apply keeps_git_commit].
  - destruct (Py.set files); [now apply keeps_ret|].
    destruct (GitManager.validate_changes _ _ _ _) as [is_valid msg].
    destruct (negb is_valid); [now apply keeps_ret|].
    destruct (TaskRuntime._collect_commit_targets c workspace _);
      [now apply keeps_ret | apply keeps_git_commit].
  - apply keeps_bind; [exact Htrans| |].
    + destruct (Py.set files); [|now apply keeps_ret].
      apply keeps_bind; [exact Htrans | apply keeps_call|].
      intros _. now apply keeps_ret.
    + intro targets.
      destruct (TaskRuntime._collect_commit_targets c workspace targets);
        [now apply keeps_ret | apply keeps_git_commit].
Qed.

(** A write of the queue on the task itself that keeps its attempts and
    its start time and does not make it PENDING. *)
Lemma touches_only_write (task_id : Z) (wr : QueueWrite) w w' later :
  TaskRuntime.tasks w' = after_write wr (TaskRuntime.tasks w) ->
  TaskRuntime.calls w' = TaskRuntime.calls w ++ later ->
  (forall other,
     other <> task_id ->
     TaskQueue.query_first other (after_write wr (TaskRuntime.tasks w))
     = TaskQueue.query_first other (TaskRuntime.tasks w)) ->
  (forall row,
     TaskQueue.query_first task_id (TaskRuntime.tasks w) = Some row ->
     exists row',
       TaskQueue.query_first task_id (after_write wr (TaskRuntime.tasks w))
       = Some row'
       /\ Task.attempt_count row' = Task.attempt_count row
       /\ Task.started_at row' = Task.started_at row
       /\ Task.status row' <> PENDING) ->
  (TaskQueue.query_first task_id (TaskRuntime.tasks w) = None ->
   after_write wr (TaskRuntime.tasks w) = TaskRuntime.tasks w) ->
  touches_only task_id w w'.
Proof.
  intros Ht Hc Hother Hrow Hnone. unfold touches_only. rewrite Ht.
  split; [exact Hother|]. split; [apply identity_after_write|]. split.
  - intros row H. destruct (Hrow row H) as (row' & H1 & H2 & H3 & H4).
    exists row'. tauto.
  - split; [exact Hnone|]. now exists later.
Qed.

Lemma keeps_mark_completed c task_id result_id :
  keeps (touches_only task_id) (TaskRuntime.mark_completed c task_id result_id).
Proof.
  intro w. rewrite mark_completed_run. cbn [snd].
  apply (touches_only_write task_id
           (WMarkCompleted (TaskRuntime.now_finished c) task_id result_id)
           _ _ [TaskRuntime.MarkCompleted task_id result_id]);
    try reflexivity; cbn [after_write];
    unfold TaskQueue.mark_completed, TaskQueue._run_write.
  - intros other Hne.
    destruct (TaskQueue.query_first task_id (TaskRuntime.tasks w)) eqn:E;
      [|reflexivity].
    cbn [snd]. apply query_first_flush_other; [|exact Hne].
    apply (query_first_id _ _ _ E).
  - intros row E. rewrite E. cbn [snd]. eexists. split.
    + eapply query_first_flush; [|exact E]. apply (query_first_id _ _ _ E).
    + repeat split. discriminate.
  - intro E. now rewrite E.
Qed.

Lemma keeps_mark_failed c task_id message :
  keeps (touches_only task_id) (TaskRuntime.mark_failed c task_id message).
Proof.
  intro w. rewrite mark_failed_run. cbn [snd].
  apply (touches_only_write task_id
           (WMarkFailed (TaskRuntime.now_finished c) task_id message)
           _ _ [TaskRuntime.MarkFailed task_id message]);
    try reflexivity; cbn [after_write];
    unfold TaskQueue.mark_failed, TaskQueue._run_write.
  - intros other Hne.
    destruct (TaskQueue.query_first task_id (TaskRuntime.tasks w)) eqn:E;
      [|reflexivity].
    cbn [snd]. apply query_first_flush_other; [|exact Hne].
    simpl. destruct (Task.completed_at t); apply (query_first_id _ _ _ E).
  - intros row E. rewrite E. cbn [snd]. eexists. split.
    + eapply query_first_flush; [|exact E].
      simpl. destruct (Task.completed_at row); apply (query_first_id _ _ _ E).
    + simpl. destruct (Task.completed_at row); repeat split; discriminate.
  - intro E. now rewrite E.
Qed.

Lemma keeps_handle_pause c task reset_time result_output files_modified
    commands_executed workspace :
  keeps (touches_only (Task.id task))
    (TaskRuntime._handle_pause_exception c task reset_time result_output
       files_modified commands_executed workspace).
Proof.
  pose proof (touches_only_refl (Task.id task)) as Hrefl.
  pose proof (touches_only_trans (Task.id task)) as Htrans.
  unfold TaskRuntime._handle_pause_exception.
  apply keeps_bind; [exact Htrans| |].
  - apply keeps_try_except; [exact Htrans| |].
    + apply keeps_bind; [exact Htrans | apply keeps_save_result|].
      intro result. apply keeps_bind; [exact Htrans | |].
      * apply keeps_mark_completed.
      * intros _. now apply keeps_ret.
    + intros e. destruct e; [now apply keeps_ret .. | now apply keeps_raise].
  - intros _. cbv zeta.
    match goal with
    | |- keeps _ (if ?b then _ else _) => destruct b
    end; [apply keeps_call | now apply keeps_ret].
Qed.

Lemma keeps_after_mark_in_progress c task :
  keeps (touches_only (Task.id task))
    (TaskRuntime.try_except
       (TaskRuntime.bind (TaskRuntime._run_task_with_timeout c task)
          (fun r =>
             let '(result_output, files_modified, commands_executed,
                   exit_code, usage_metrics, eval_status) := r in
             let processing_time := TaskRuntime.processing_time c in
             let files_modified :=
               match files_modified with
               | [] => []
               | _ :: _ => Py.sorted files_modified
               end in
             let git_branch :=
               GitManager.determine_branch (TaskRuntime.default_task_branch c)
                 (Task.project_id task) in
             let workspace := TaskRuntime.get_workspace_path c in
             TaskRuntime.bind
               (TaskRuntime.save_result c (Task.id task) result_output
                  files_modified commands_executed (Some processing_time)
                  None None (Some git_branch) (Some workspace))
               (fun result =>
                  TaskRuntime.bind
                    (if TaskRuntime.workspace_exists c then
                       TaskRuntime.bind
                         (TaskRuntime.call
                            (TaskRuntime.CleanupWorkspaceCaches workspace))
                         (fun _ =>
                            TaskRuntime.bind
                              (TaskRuntime._maybe_commit_changes c task
                                 workspace files_modified result_output
                                 git_branch)
                              (fun git_commit_sha =>
                                 if Py.truthy_opt_str git_commit_sha
                                 then TaskRuntime.update_result_commit_info
                                        (Result.id result) git_commit_sha None
                                        (Some git_branch)
                                 else TaskRuntime.ret tt))
                     else TaskRuntime.ret tt)
                    (fun _ =>
                       TaskRuntime.bind
                         (if TaskRuntime.evaluator_says_failed eval_status
                          then TaskRuntime.mark_failed c (Task.id task)
                                 ("Evaluator status: "
                                  ++ TaskRuntime.str_of_status eval_status)
                          else TaskRuntime.mark_completed c (Task.id task)
                                 (Some (Result.id result)))
                         (fun _ => TaskRuntime.ret tt)))))
       (fun exc =>
          match exc with
          | TaskRuntime.PauseException reset_time usage_percent =>
              TaskRuntime._handle_pause_exception c task reset_time "" [] []
                None
          | TaskRuntime.Error message =>
              TaskRuntime.bind
                (TaskRuntime.mark_failed c (Task.id task) message)
                (fun _ => TaskRuntime.ret tt)
          | TaskRuntime.CancelledError =>
              TaskRuntime.raise TaskRuntime.CancelledError
          end)).
Proof.
  pose proof (touches_only_refl (Task.id task)) as Hrefl.
  pose proof (touches_only_trans (Task.id task)) as Htrans.
  apply keeps_try_except; [exact Htrans| |].
  - apply keeps_bind; [exact Htrans| |].
    + unfold TaskRuntime._run_task_with_timeout.
      destruct (TaskRuntime.execute_task c);
        [now apply keeps_ret | now apply keeps_raise ..].
    + intros [[[[[result_output files_modified] commands_executed] exit_code]
                 usage_metrics] eval_status].
      cbv zeta.
      apply keeps_bind; [exact Htrans | apply keeps_save_result|].
      intro result. apply keeps_bind; [exact Htrans| |].
      * destruct (TaskRuntime.workspace_exists c); [|now apply keeps_ret].
        apply keeps_bind; [exact Htrans | apply keeps_call|].
        intros _. apply keeps_bind;
          [exact Htrans | apply keeps_maybe_commit_changes|].
        intro sha. destruct (Py.truthy_opt_str sha);
          [apply keeps_update_result_commit_info | now apply keeps_ret].
      * intros _. apply keeps_bind; [exact Htrans| |].
        -- destruct (TaskRuntime.evaluator_says_failed eval_status);
             [apply keeps_mark_failed | apply keeps_mark_completed].
        -- intros _. now apply keeps_ret.
  - intros [reset usage | message |].
    + apply keeps_handle_pause.
    + apply keeps_bind; [exact Htrans | apply keeps_mark_failed|].
      intros _. now apply keeps_ret.
    + now apply keeps_raise.
Qed.

(** X21.  Whatever happens during [execute], the rows of the other tasks
    read as before, no row is added or removed, and no row changes its
    id, description, creation time, context or project.  The first call
    is [mark_in_progress]; the row of the task itself ends with one more
    attempt counted, started at the time of that call, and not PENDING.
    When the table has no row for the task, it is left as it is. *)
Theorem execute_touches_only_its_task (c : TaskRuntime.Collaborators)
    (task : Task.t) (w : TaskRuntime.World) :
  let w' := snd (TaskRuntime.execute c task w) in
  (forall other,
     other <> Task.id task ->
     TaskQueue.query_first other (TaskRuntime.tasks w')
     = TaskQueue.query_first other (TaskRuntime.tasks w))
  /\ map identity (TaskRuntime.tasks w') = map identity (TaskRuntime.tasks w)
  /\ (exists later,
        TaskRuntime.calls w'
        = TaskRuntime.calls w
          ++ TaskRuntime.MarkInProgress (Task.id task) :: later)
  /\ (forall row,
        TaskQueue.query_first (Task.id task) (TaskRuntime.tasks w) = Some row ->
        exists row',
          TaskQueue.query_first (Task.id task) (TaskRuntime.tasks w')
          = Some row'
          /\ Task.attempt_count row' = Task.attempt_count row + 1
          /\ Task.started_at row' = Some (TaskRuntime.now_started c)
          /\ Task.status row' <> PENDING)
  /\ (TaskQueue.query_first (Task.id task) (TaskRuntime.tasks w) = None ->
      TaskRuntime.tasks w' = TaskRuntime.tasks w).
Proof.
  cbv zeta. unfold TaskRuntime.execute.
  erewrite bind_returns; [|apply mark_in_progress_run].
  set (w1 := TaskRuntime.mkWorld _ _ _).
  destruct (keeps_after_mark_in_progress c task w1)
    as (H1 & H2 & H3 & H4 & later & H5).
  match type of H1 with
  | context [snd ?run] => set (w' := snd run) in *
  end.
  assert (Hdb1 : TaskRuntime.tasks w1
                 = after_write
                     (WMarkInProgress (TaskRuntime.now_started c)
                        (Task.id task))
                     (TaskRuntime.tasks w)) by reflexivity.
  split; [|split; [|split; [|split]]].
  - intros other Hne. rewrite (H1 other Hne), Hdb1. cbn [after_write].
    unfold TaskQueue.mark_in_progress, TaskQueue._run_write.
    destruct (TaskQueue.query_first (Task.id task) (TaskRuntime.tasks w))
      eqn:E; [|reflexivity].
    cbn [snd]. apply query_first_flush_other; [|exact Hne].
    apply (query_first_id _ _ _ E).
  - rewrite H2, Hdb1. apply identity_after_write.
  - exists later. rewrite H5. subst w1.
    cbn [TaskRuntime.calls]. now rewrite <- app_assoc.
  - intros row Hrow.
    assert (Hrow1 : exists row1,
               TaskQueue.query_first (Task.id task) (TaskRuntime.tasks w1)
               = Some row1
               /\ Task.attempt_count row1 = Task.attempt_count row + 1
               /\ Task.started_at row1 = Some (TaskRuntime.now_started c)
               /\ Task.status row1 <> PENDING).
    { rewrite Hdb1. cbn [after_write].
      unfold TaskQueue.mark_in_progress, TaskQueue._run_write.
      rewrite Hrow. cbn [snd]. eexists. split.
      - eapply query_first_flush; [|exact Hrow].
        apply (query_first_id _ _ _ Hrow).
      - repeat split. discriminate. }
    destruct Hrow1 as (row1 & Hq1 & Ha & Hs & Hp).
    destruct (H3 row1 Hq1) as (row' & Hq' & Ha' & Hs' & Hp').
    exists row'. split; [exact Hq'|]. split; [congruence|].
    split; [congruence|]. auto.
  - intro Hnone.
    assert (Hsame : TaskRuntime.tasks w1 = TaskRuntime.tasks w).
    { rewrite Hdb1. cbn [after_write].
      unfold TaskQueue.mark_in_progress, TaskQueue._run_write.
      now rewrite Hnone. }
    rewrite H4; [exact Hsame|]. now rewrite Hsame.
Qed.

(** *** Errors *)

Lemma raises_run c task w message :
  TaskRuntime.execute_task c = TaskRuntime.Raises message ->
  TaskRuntime._run_task_with_timeout c task w
  = (inl (TaskRuntime.Error message), w).
Proof.
  intro H. unfold TaskRuntime._run_task_with_timeout. now rewrite H.
Qed.

Lemma save_result_fails_run c task_id w output files commands pt sha pr br ws
    exc :
  TaskRuntime.save_result_error c = Some exc ->
  TaskRuntime.save_result c task_id output files commands pt sha pr br ws w
  = (inl (TaskRuntime.Error exc),
     TaskRuntime.mkWorld (TaskRuntime.tasks w) (TaskRuntime.results w)
       (TaskRuntime.calls w ++ [TaskRuntime.SaveResult task_id output])).
Proof.
  intro H. unfold TaskRuntime.save_result, TaskRuntime.bind, TaskRuntime.call.
  now rewrite H.
Qed.

(** X22.  An exception of the adapter other than the timeout and the
    pause fails the task with the message of the exception: the only
    calls are [mark_in_progress] and [mark_failed], no Result is saved
    and nothing is committed.  When the adapter returns but the Result
    cannot be saved, the task is failed with the message of that error
    before any cleanup or commit is attempted, and the result table is
    as before. *)
Theorem execute_error_marks_failed (c : TaskRuntime.Collaborators)
    (task row : Task.t) (w : TaskRuntime.World) :
  TaskQueue.query_first (Task.id task) (TaskRuntime.tasks w) = Some row ->
  (forall message,
     TaskRuntime.execute_task c = TaskRuntime.Raises message ->
     exists w' row',
       TaskRuntime.execute c task w = (inr tt, w')
       /\ TaskRuntime.results w' = TaskRuntime.results w
       /\ TaskRuntime.calls w'
          = TaskRuntime.calls w
            ++ [TaskRuntime.MarkInProgress (Task.id task);
                TaskRuntime.MarkFailed (Task.id task) message]
       /\ TaskQueue.query_first (Task.id task) (TaskRuntime.tasks w')
          = Some row'
       /\ Task.status row' = FAILED
       /\ Task.error_message row' = Some message)
  /\ (forall result_output files_modified commands_executed exit_code
             usage_metrics eval_status exc,
        TaskRuntime.execute_task c
        = TaskRuntime.Returns result_output files_modified commands_executed
            exit_code usage_metrics eval_status ->
        TaskRuntime.save_result_error c = Some exc ->
        exists w' row',
          TaskRuntime.execute c task w = (inr tt, w')
          /\ TaskRuntime.results w' = TaskRuntime.results w
          /\ TaskRuntime.calls w'
             = TaskRuntime.calls w
               ++ [TaskRuntime.MarkInProgress (Task.id task);
                   TaskRuntime.SaveResult (Task.id task) result_output;
                   TaskRuntime.MarkFailed (Task.id task) exc]
          /\ TaskQueue.query_first (Task.id task) (TaskRuntime.tasks w')
             = Some row'
          /\ Task.status row' = FAILED
          /\ Task.error_message row' = Some exc).
Proof.
  intro Hrow.
  destruct (mark_in_progress_row (TaskRuntime.now_started c) _ _ _ Hrow)
    as (row1 & Hrow1 & _).
  split.
  - intros message Hadapter.
    destruct (mark_failed_row (TaskRuntime.now_finished c) _ _ _ Hrow1 message)
      as (row2 & Hrow2 & Hstatus & Hmessage).
    eexists. exists row2. split.
    + unfold TaskRuntime.execute.
      erewrite bind_returns; [|apply mark_in_progress_run].
      erewrite try_except_raises;
        [|erewrite bind_raises; [reflexivity | eapply raises_run; exact Hadapter]].
      cbv beta iota.
      erewrite bind_returns; [|apply mark_failed_run].
      reflexivity.
    + cbn [TaskRuntime.tasks TaskRuntime.results TaskRuntime.calls].
      split; [reflexivity|]. split; [now rewrite <- app_assoc|].
      split; [exact Hrow2|]. now split.
  - intros result_output files_modified commands_executed exit_code
      usage_metrics eval_status exc Hadapter Hsave.
    destruct (mark_failed_row (TaskRuntime.now_finished c) _ _ _ Hrow1 exc)
      as (row2 & Hrow2 & Hstatus & Hmessage).
    eexists. exists row2. split.
    + unfold TaskRuntime.execute.
      erewrite bind_returns; [|apply mark_in_progress_run].
      erewrite try_except_raises.
      2:{ erewrite bind_returns; [|eapply returns_run; exact Hadapter].
          cbv beta iota zeta.
          erewrite bind_raises; [reflexivity|].
          eapply save_result_fails_run; exact Hsave. }
      cbv beta iota.
      erewrite bind_returns; [|apply mark_failed_run].
      reflexivity.
    + cbn [TaskRuntime.tasks TaskRuntime.results TaskRuntime.calls].
      split; [reflexivity|]. split; [now rewrite <- !app_assoc|].
      split; [exact Hrow2|]. now split.
Qed.

(** An instance: the adapter raises on the waiting task. *)
Lemma execute_error_witness :
  exists w' row',
    TaskRuntime.execute
      (sample_collaborators (TaskRuntime.Raises "adapter crashed"))
      pending_task one_task_world = (inr tt, w')
    /\ TaskRuntime.results w' = []
    /\ TaskRuntime.calls w'
       = [TaskRuntime.MarkInProgress 1;
          TaskRuntime.MarkFailed 1 "adapter crashed"]
    /\ TaskQueue.query_first 1 (TaskRuntime.tasks w') = Some row'
    /\ Task.status row' = FAILED
    /\ Task.error_message row' = Some "adapter crashed".
Proof.
  destruct (execute_error_marks_failed
              (sample_collaborators (TaskRuntime.Raises "adapter crashed"))
              pending_task pending_task one_task_world eq_refl) as [H _].
  exact (H "adapter crashed" eq_refl).
Defined.

(** *** A pause whose Result cannot be saved *)

(** X23.  When the adapter signals a pause and the Result cannot be
    saved, [execute] still returns and still sleeps until the reset time,
    but the task is neither completed nor failed: it stays IN_PROGRESS
    with the start time of this run, and no Result is stored.  The next
    timeout sweep that finds it stale is what fails it. *)
Theorem execute_pause_without_result_stays_in_progress
    (c : TaskRuntime.Collaborators) (task row : Task.t)
    (w : TaskRuntime.World) (reset_time : option datetime)
    (usage_percent : Z) (exc : string) :
  TaskRuntime.execute_task c = TaskRuntime.Pauses reset_time usage_percent ->
  TaskRuntime.save_result_error c = Some exc ->
  TaskQueue.query_first (Task.id task) (TaskRuntime.tasks w) = Some row ->
  let duration :=
    TaskRuntime.sleep_seconds reset_time (TaskRuntime.now_paused c) in
  exists w' row',
    TaskRuntime.execute c task w = (inr tt, w')
    /\ TaskRuntime.results w' = TaskRuntime.results w
    /\ TaskRuntime.calls w'
       = TaskRuntime.calls w
         ++ [TaskRuntime.MarkInProgress (Task.id task);
             TaskRuntime.SaveResult (Task.id task)
               TaskRuntime.pause_placeholder]
         ++ (if 0 <? duration then [TaskRuntime.Sleep duration] else [])
    /\ TaskQueue.query_first (Task.id task) (TaskRuntime.tasks w') = Some row'
    /\ Task.status row' = IN_PROGRESS
    /\ Task.started_at row' = Some (TaskRuntime.now_started c)
    /\ (forall now_cutoff now max_age_seconds,
          0 < max_age_seconds ->
          TaskRuntime.now_started c < now_cutoff - seconds max_age_seconds ->
          In (TaskQueue.time_out now max_age_seconds row')
            (fst (TaskQueue.timeout_expired_tasks now_cutoff now
                    max_age_seconds (TaskRuntime.tasks w')))).
Proof.
  intros Hadapter Hsave Hrow duration.
  pose proof (query_first_id _ _ _ Hrow) as Hid.
  set (row1 := Task.set_attempt_count (Task.attempt_count row + 1)
                 (Task.set_started_at (Some (TaskRuntime.now_started c))
                    (Task.set_status IN_PROGRESS row))).
  set (db1 := TaskQueue.flush (Task.id task) row1 (TaskRuntime.tasks w)).
  assert (Hrow1 : TaskQueue.query_first (Task.id task) db1 = Some row1)
    by (eapply query_first_flush; [exact Hid | exact Hrow]).
  assert (Hdb1 : snd (TaskQueue.mark_in_progress (TaskRuntime.now_started c)
                        (Task.id task) (TaskRuntime.tasks w)) = db1).
  { unfold TaskQueue.mark_in_progress, TaskQueue._run_write.
    now rewrite Hrow. }
  assert (Hsleep : (0 <? duration)
                   && match reset_time with Some _ => true | None => false end
                   = (0 <? duration)).
  { unfold duration. destruct reset_time; [apply andb_true_r | reflexivity]. }
  exists (TaskRuntime.mkWorld db1 (TaskRuntime.results w)
            (TaskRuntime.calls w
             ++ [TaskRuntime.MarkInProgress (Task.id task);
                 TaskRuntime.SaveResult (Task.id task)
                   TaskRuntime.pause_placeholder]
             ++ (if 0 <? duration then [TaskRuntime.Sleep duration] else []))).
  exists row1. split.
  - unfold TaskRuntime.execute.
    erewrite bind_returns; [|apply mark_in_progress_run].
    erewrite try_except_raises;
      [|erewrite bind_raises; [reflexivity | eapply pause_run; exact Hadapter]].
    cbv beta iota. unfold TaskRuntime._handle_pause_exception.
    erewrite bind_returns.
    2:{ erewrite try_except_raises.
        2:{ erewrite bind_raises; [reflexivity|].
            eapply save_result_fails_run; exact Hsave. }
        reflexivity. }
    fold duration. rewrite Hsleep, Hdb1.
    destruct (0 <? duration);
      unfold TaskRuntime.call, TaskRuntime.ret;
      cbn [TaskRuntime.tasks TaskRuntime.results TaskRuntime.calls];
      repeat rewrite <- app_assoc; [reflexivity|].
    now rewrite app_nil_r.
  - cbn [TaskRuntime.tasks TaskRuntime.results TaskRuntime.calls].
    split; [reflexivity|]. split; [reflexivity|].
    split; [exact Hrow1|]. split; [reflexivity|]. split; [reflexivity|].
    intros now_cutoff now max_age_seconds Hpos Hstale.
    rewrite (timeout_expired_tasks_enabled _ _ _ _ Hpos). cbn [fst].
    apply in_map. apply filter_In. split.
    + unfold TaskQueue.query_first in Hrow1. now apply find_some in Hrow1.
    + unfold TaskQueue.is_expired. simpl. lia.
Qed.

(** An instance: a pause until time 500 on the waiting task, with a
    result store that cannot be written. *)
Lemma execute_pause_without_result_witness :
  exists w' row',
    TaskRuntime.execute (failing_store (TaskRuntime.Pauses (Some 500) 95))
      pending_task one_task_world = (inr tt, w')
    /\ TaskRuntime.results w' = []
    /\ Task.status row' = IN_PROGRESS
    /\ TaskQueue.query_first 1 (TaskRuntime.tasks w') = Some row'.
Proof.
  destruct (execute_pause_without_result_stays_in_progress
              (failing_store (TaskRuntime.Pauses (Some 500) 95))
              pending_task pending_task one_task_world (Some 500) 95
              "disk full" eq_refl eq_refl eq_refl)
    as (w' & row' & H1 & H2 & _ & H4 & H5 & _).
  exists w', row'. repeat split; assumption.
Defined.

(** *** The files of a commit *)

Lemma py_sorted_stable l : Py.sorted l = Stable.sort_by String.leb l.
Proof.
  induction l as [|x l IH]; simpl; [reflexivity|]. rewrite IH.
  generalize (Stable.sort_by String.leb l). intro s.
  induction s as [|y s IHs]; simpl; [reflexivity|].
  destruct (String.leb x y); [reflexivity|now rewrite IHs].
Qed.

Lemma py_sorted_perm l : Permutation l (Py.sorted l).
Proof. rewrite py_sorted_stable. apply sort_by_perm. Qed.

Lemma py_sorted_sorted l :
  StronglySorted (fun a b => String.leb a b = true) (Py.sorted l).
Proof.
  rewrite py_sorted_stable.
  apply sort_by_sorted; [apply String.leb_total | apply string_leb_trans].
Qed.

Lemma In_set_add x y s : In x (Py.set_add y s) <-> x = y \/ In x s.
Proof.
  unfold Py.set_add. destruct (in_dec string_dec y s) as [H | H].
  - split; [tauto|]. intros [-> | Hx]; assumption.
  - rewrite in_app_iff. simpl. intuition congruence.
Qed.

Lemma NoDup_set_add y s : NoDup s -> NoDup (Py.set_add y s).
Proof.
  intro H. unfold Py.set_add. destruct (in_dec string_dec y s) as [Hy | Hy];
    [exact H|].
  apply NoDup_app; [exact H | repeat constructor; intros [] |].
  intros a Ha [<- | []]. contradiction.
Qed.

Lemma fold_set_add (g : string -> string) files s :
  let r := fold_left (fun paths file_path => Py.set_add (g file_path) paths)
             files s in
  (NoDup s -> NoDup r)
  /\ (forall x, In x r <-> (exists file, In file files /\ g file = x) \/ In x s).
Proof.
  revert s. induction files as [|f files IH]; intro s; simpl.
  - split; [tauto|]. intro x. split; [tauto|].
    intros [(file & [] & _) | H]; exact H.
  - destruct (IH (Py.set_add (g f) s)) as [H1 H2]. split.
    + intro Hs. apply H1. now apply NoDup_set_add.
    + intro x. rewrite H2, In_set_add. split.
      * intros [(file & Hfile & E) | [E | H]].
        -- left. exists file. split; [now right | exact E].
        -- left. exists f. split; [now left | now symmetry].
        -- now right.
      * intros [(file & [<- | Hfile] & E) | H].
        -- right. left. now symmetry.
        -- left. now exists file.
        -- right. now right.
Qed.

Lemma truthy_str_spec s : Py.truthy_str s = true <-> s <> "".
Proof. destruct s; simpl; split; congruence. Qed.

Lemma as_posix_not_empty s : Py.as_posix s <> "".
Proof.
  unfold Py.as_posix, Py.str_or. cbv zeta.
  match goal with
  | |- (if Py.truthy_str ?text then _ else _) <> _ =>
      destruct (Py.truthy_str text) eqn:E
  end; [now apply truthy_str_spec | discriminate].
Qed.

Lemma relative_to_workspace_spec relpath f :
  TaskRuntime._relative_to_workspace relpath = Some f
  <-> exists entry,
        relpath = Some entry /\ entry <> "" /\ entry <> "."
        /\ Py.as_posix entry = f.
Proof.
  unfold TaskRuntime._relative_to_workspace.
  destruct relpath as [r|];
    [|split; [discriminate | intros (entry & H & _); discriminate]].
  destruct (negb (Py.truthy_str r) || String.eqb r ".") eqn:E.
  - split; [discriminate|]. intros (entry & [= <-] & H1 & H2 & _).
    apply orb_true_iff in E. destruct E as [E | E].
    + apply negb_true_iff in E. apply truthy_str_spec in H1. congruence.
    + apply String.eqb_eq in E. contradiction.
  - apply orb_false_iff in E. destruct E as [E1 E2].
    apply negb_false_iff, truthy_str_spec in E1.
    apply String.eqb_neq in E2. split.
    + intros [= <-]. now exists r.
    + intros (entry & [= <-] & _ & _ & <-). reflexivity.
Qed.

(** The paths [_collect_commit_targets] returns. *)
Lemma _collect_commit_targets_spec (c : TaskRuntime.Collaborators)
    (workspace_path : string) (base_files : list string) :
  let targets :=
    TaskRuntime._collect_commit_targets c workspace_path base_files in
  StronglySorted (fun a b => String.leb a b = true) targets
  /\ NoDup targets
  /\ (forall f,
        In f targets
        <-> f <> "."
            /\ exists entry,
                 gathered c base_files entry /\ Py.as_posix entry = f).
Proof.
  cbv zeta. unfold TaskRuntime._collect_commit_targets.
  set (p0 := Py.set (map Py.as_posix (filter Py.truthy_str base_files))).
  assert (H0 : NoDup p0
               /\ forall x,
                    In x p0
                    <-> exists entry,
                          (In entry base_files /\ entry <> "")
                          /\ Py.as_posix entry = x).
  { split; [apply NoDup_nodup|]. intro x. unfold p0, Py.set.
    rewrite nodup_In, in_map_iff. split.
    - intros (entry & E & H). apply filter_In in H.
      rewrite truthy_str_spec in H. now exists entry.
    - intros (entry & H & E). exists entry. split; [exact E|].
      apply filter_In. now rewrite truthy_str_spec. }
  set (p1 := match TaskRuntime.list_workspace_files c with
             | Py.Returned files => fold_left _ files p0
             | Py.Raised _ => p0
             end).
  assert (H1 : NoDup p1
               /\ forall x,
                    In x p1
                    <-> In x p0
                        \/ exists entry,
                             (exists files,
                                TaskRuntime.list_workspace_files c
                                = Py.Returned files /\ In entry files)
                             /\ Py.as_posix entry = x).
  { unfold p1. destruct (TaskRuntime.list_workspace_files c) as [files | m].
    - destruct (fold_set_add Py.as_posix files p0) as [Hn Hi].
      split; [now apply Hn|].
      intro x. rewrite Hi. split.
      + intros [(file & Hfile & E) | H]; [right | now left].
        exists file. split; [now exists files | exact E].
      + intros [H | (entry & (fs & [= <-] & Hentry) & E)]; [now right|].
        left. now exists entry.
    - split; [tauto|]. intro x. split; [tauto|].
      intros [H | (entry & (fs & E & _) & _)]; [exact H | discriminate E]. }
  set (p2 := if TaskRuntime.tasks_root_exists c then _ else p1).
  assert (H2 : NoDup p2
               /\ forall x,
                    In x p2
                    <-> In x p1
                        \/ exists entry,
                             (TaskRuntime.tasks_root_exists c = true
                              /\ TaskRuntime.tasks_root_relpath c = Some entry
                              /\ entry <> "" /\ entry <> ".")
                             /\ Py.as_posix entry = x).
  { unfold p2. destruct (TaskRuntime.tasks_root_exists c).
    - destruct (TaskRuntime._relative_to_workspace
                  (TaskRuntime.tasks_root_relpath c)) as [rel|] eqn:E.
      + apply relative_to_workspace_spec in E.
        destruct E as (entry & E & Hne & Hdot & <-).
        pose proof (as_posix_not_empty entry) as Hposix.
        apply truthy_str_spec in Hposix. rewrite Hposix.
        split; [apply NoDup_set_add, H1|].
        intro x. rewrite In_set_add. split.
        * intros [-> | H]; [right | now left]. now exists entry.
        * intros [H | (entry' & (_ & Ex & _) & <-)]; [now right | left].
          congruence.
      + split; [apply H1|]. intro x. split; [tauto|].
        intros [H | (entry & (_ & Ex & Hne & Hdot) & Hx)]; [exact H|].
        assert (Habs : TaskRuntime._relative_to_workspace
                         (TaskRuntime.tasks_root_relpath c) = Some x)
          by (apply relative_to_workspace_spec; now exists entry).
        congruence.
    - split; [apply H1|]. intro x. split; [tauto|].
      intros [H | (entry & (Habs & _) & _)]; [exact H | discriminate Habs]. }
  set (p3 := if TaskRuntime.data_dir_exists c then _ else p2).
  assert (H3 : NoDup p3
               /\ forall x,
                    In x p3
                    <-> In x p2
                        \/ exists entry,
                             (TaskRuntime.data_dir_exists c = true
                              /\ TaskRuntime.data_dir_relpath c = Some entry
                              /\ entry <> "" /\ entry <> ".")
                             /\ Py.as_posix entry = x).
  { unfold p3. destruct (TaskRuntime.data_dir_exists c).
    - destruct (TaskRuntime._relative_to_workspace
                  (TaskRuntime.data_dir_relpath c)) as [rel|] eqn:E.
      + apply relative_to_workspace_spec in E.
        destruct E as (entry & E & Hne & Hdot & <-).
        pose proof (as_posix_not_empty entry) as Hposix.
        apply truthy_str_spec in Hposix. rewrite Hposix.
        split; [apply NoDup_set_add, H2|].
        intro x. rewrite In_set_add. split.
        * intros [-> | H]; [right | now left]. now exists entry.
        * intros [H | (entry' & (_ & Ex & _) & <-)]; [now right | left].
          congruence.
      + split; [apply H2|]. intro x. split; [tauto|].
        intros [H | (entry & (_ & Ex & Hne & Hdot) & Hx)]; [exact H|].
        assert (Habs : TaskRuntime._relative_to_workspace
                         (TaskRuntime.data_dir_relpath c) = Some x)
          by (apply relative_to_workspace_spec; now exists entry).
        congruence.
    - split; [apply H2|]. intro x. split; [tauto|].
      intros [H | (entry & (Habs & _) & _)]; [exact H | discriminate Habs]. }
  split; [apply py_sorted_sorted|]. split.
  - apply (Permutation_NoDup (py_sorted_perm _)). apply NoDup_filter, H3.
  - intro f.
    assert (Hperm : In f (Py.sorted
                            (filter (fun path => Py.truthy_str path
                                                 && negb (String.eqb path "."))
                               p3))
                    <-> In f (filter (fun path => Py.truthy_str path
                                                  && negb (String.eqb path "."))
                                p3)).
    { split; apply Permutation_in;
        [apply Permutation_sym|]; apply py_sorted_perm. }
    rewrite Hperm, filter_In, andb_true_iff, negb_true_iff, truthy_str_spec,
      String.eqb_neq.
    destruct H0 as [_ H0], H1 as [_ H1], H2 as [_ H2], H3 as [_ H3].
    rewrite H3, H2, H1, H0. unfold gathered. split.
    + intros ([[[(e & He & E) | (e & He & E)] | (e & He & E)]
              | (e & He & E)] & Hne & Hdot);
        (split; [exact Hdot|]); exists e; tauto.
    + intros (Hdot & e & He & E). split.
      * destruct He as [He | [He | [He | He]]].
        -- left. left. left. now exists e.
        -- left. left. right. now exists e.
        -- left. right. now exists e.
        -- right. now exists e.
      * split; [|exact Hdot]. rewrite <- E. apply as_posix_not_empty.
Qed.

(** X24.  The files [_collect_commit_targets] hands to the commit are in
    sorted order, each once, and never the empty path or the workspace
    itself ("."); they are exactly the paths [as_posix] makes, the dot
    apart, of the non-empty base files, of the files listed in the
    workspace when the listing can be read, and of the parent and data
    directories where they exist.  Two spellings of one path are one
    target. *)
Theorem _collect_commit_targets_sorted_and_clean
    (c : TaskRuntime.Collaborators) (workspace_path : string)
    (base_files : list string) :
  let targets :=
    TaskRuntime._collect_commit_targets c workspace_path base_files in
  StronglySorted (fun a b => String.leb a b = true) targets
  /\ NoDup targets
  /\ ~ In "" targets
  /\ ~ In "." targets
  /\ (forall f,
        In f targets
        <-> f <> "."
            /\ exists entry,
                 gathered c base_files entry /\ Py.as_posix entry = f).
Proof.
  destruct (_collect_commit_targets_spec c workspace_path base_files)
    as (Hsorted & Hnodup & Hin).
  cbv zeta in *. split; [exact Hsorted|]. split; [exact Hnodup|].
  split; [|split; [|exact Hin]].
  - intro H. apply Hin in H. destruct H as (_ & entry & _ & E).
    now apply (as_posix_not_empty entry).
  - intro H. apply Hin in H. now destruct H as (H & _).
Qed.

(** Base files spelt with a leading dot, a trailing slash, a doubled
    slash, and one file spelt twice. *)
Example _collect_commit_targets_normalises :
  TaskRuntime._collect_commit_targets bare_workspace "/ws/task_1"
    ["./a.txt"; "sub/"; "b//c.txt"; "a.txt"; "."; ""]
  = ["a.txt"; "b/c.txt"; "sub"].
Proof. reflexivity. Qed.

(** *** What a SERIOUS commit validates and what it commits *)

Lemma set_not_nil files : files <> [] -> Py.set files <> [].
Proof.
  intros Hne Hnil. destruct files as [|f files]; [contradiction|].
  assert (Hin : In f (Py.set (f :: files)))
    by (apply nodup_In; now left).
  now rewrite Hnil in Hin.
Qed.

(** X25.  For a SERIOUS task [_maybe_commit_changes] validates the files
    the adapter reported and commits more than those: when the reported
    files pass [validate_changes], the one commit it makes also takes
    every file listed in the workspace, reported or not, under the path
    [as_posix] makes of it, and so a file the validation never read. *)
Theorem serious_commit_takes_unreported_files (c : TaskRuntime.Collaborators)
    (task : Task.t) (workspace : string) (files_modified : list string)
    (result_output git_branch validation_msg : string)
    (listed : list string) (w : TaskRuntime.World) :
  Task.priority task = SERIOUS ->
  files_modified <> [] ->
  GitManager.validate_changes (TaskRuntime.read_text c)
    (TaskRuntime.ast_parse c) workspace (Py.sorted (Py.set files_modified))
  = (true, validation_msg) ->
  TaskRuntime.list_workspace_files c = Py.Returned listed ->
  exists targets,
    (forall f,
        In f files_modified -> f <> "" -> Py.as_posix f <> "." ->
        In (Py.as_posix f) targets)
    /\ (forall f,
          In f listed -> Py.as_posix f <> "." -> In (Py.as_posix f) targets)
    /\ TaskRuntime.calls
         (snd (TaskRuntime._maybe_commit_changes c task workspace
                 files_modified result_output git_branch w))
       = TaskRuntime.calls w
         ++ match targets with
            | [] => []
            | _ :: _ =>
                [TaskRuntime.CommitWorkspaceChanges git_branch workspace
                   targets
                   (TaskRuntime.commit_message "Implement task #" task ": ")]
            end.
Proof.
  intros Hserious Hfiles Hvalid Hlisted.
  destruct (_collect_commit_targets_spec c workspace
              (Py.set files_modified)) as (_ & _ & Hin).
  cbv zeta in Hin.
  exists (TaskRuntime._collect_commit_targets c workspace
            (Py.set files_modified)).
  split; [|split].
  - intros f Hf Hne Hdot. apply Hin. split; [exact Hdot|].
    exists f. split; [|reflexivity]. left. split; [|exact Hne].
    now apply nodup_In.
  - intros f Hf Hdot. apply Hin. split; [exact Hdot|].
    exists f. split; [|reflexivity]. right. left. now exists listed.
  - unfold TaskRuntime._maybe_commit_changes. rewrite Hserious.
    pose proof (set_not_nil files_modified Hfiles) as Hset.
    destruct (Py.set files_modified) as [|f0 fs] eqn:Eset; [contradiction|].
    rewrite Hvalid. cbn [negb].
    destruct (TaskRuntime._collect_commit_targets c workspace (f0 :: fs))
      as [|t ts] eqn:Et.
    + cbn. now rewrite app_nil_r.
    + unfold TaskRuntime.git_commit, TaskRuntime.bind, TaskRuntime.call.
      now destruct (TaskRuntime.commit_workspace_changes c _ _ _ _).
Qed.

(** An instance: the adapter reports [main.py], which passes the
    validation; the workspace also holds [settings.env], which names a
    password and would not pass; both are committed, with the directory
    above the workspace. *)
Lemma serious_commit_witness :
  fst (GitManager.validate_changes (TaskRuntime.read_text unreported_secret)
         (TaskRuntime.ast_parse unreported_secret) "/ws/task_1"
         ["settings.env"]) = false
  /\ exists targets,
       In "settings.env" targets
       /\ TaskRuntime.calls
            (snd (TaskRuntime._maybe_commit_changes unreported_secret
                    pending_task "/ws/task_1" ["main.py"] "done" "tasks"
                    one_task_world))
          = [TaskRuntime.CommitWorkspaceChanges "tasks" "/ws/task_1" targets
               (TaskRuntime.commit_message "Implement task #" pending_task
                  ": ")].
Proof.
  split; [reflexivity|].
  destruct (serious_commit_takes_unreported_files unreported_secret
              pending_task "/ws/task_1" ["main.py"] "done" "tasks" "OK"
              ["main.py"; "./settings.env"] one_task_world)
    as (targets & _ & Hlisted & Hcalls);
    [reflexivity | discriminate | reflexivity | reflexivity |].
  exists targets.
  assert (Hin : In "settings.env" targets).
  { apply (Hlisted "./settings.env"); [right; now left | discriminate]. }
  split; [exact Hin|].
  rewrite Hcalls. destruct targets; [contradiction|reflexivity].
Defined.

(** The commit of that run, as requested. *)
Example serious_commit_unreported_secret :
  TaskRuntime.calls
    (snd (TaskRuntime._maybe_commit_changes unreported_secret pending_task
            "/ws/task_1" ["main.py"] "done" "tasks" one_task_world))
  = [TaskRuntime.CommitWorkspaceChanges "tasks" "/ws/task_1"
       [".."; "main.py"; "settings.env"] "Implement task #1: write the report"].
Proof. reflexivity. Qed.

(** *** When [execute] commits *)

Section AddsCalls.

Variable P : TaskRuntime.Call -> Prop.

Lemma adds_calls_refl w : adds_calls P w w.
Proof. exists []. now rewrite app_nil_r. Qed.

Lemma adds_calls_same w w' :
  TaskRuntime.calls w' = TaskRuntime.calls w -> adds_calls P w w'.
Proof. intro H. exists []. now rewrite app_nil_r. Qed.

Lemma adds_calls_trans a b c :
  adds_calls P a b -> adds_calls P b c -> adds_calls P a c.
Proof.
  intros (l1 & H1 & F1) (l2 & H2 & F2). exists (l1 ++ l2). split.
  - now rewrite H2, H1, app_assoc.
  - apply Forall_app. now split.
Qed.

Lemma adds_call x : P x -> keeps (adds_calls P) (TaskRuntime.call x).
Proof.
  intros Hx w. exists [x]. split; [reflexivity|]. now constructor.
Qed.

Lemma adds_on_queue {A : Type} (op : TaskQueue.Store -> A * TaskQueue.Store) :
  keeps (adds_calls P) (TaskRuntime.on_queue op).
Proof.
  intro w. unfold TaskRuntime.on_queue.
  destruct (op (TaskRuntime.tasks w)). now apply adds_calls_same.
Qed.

Lemma adds_mark_in_progress c task_id :
  P (TaskRuntime.MarkInProgress task_id) ->
  keeps (adds_calls P) (TaskRuntime.mark_in_progress c task_id).
Proof.
  intro H. apply keeps_bind; [exact adds_calls_trans | now apply adds_call|].
  intros _. apply adds_on_queue.
Qed.

Lemma adds_mark_completed c task_id result_id :
  P (TaskRuntime.MarkCompleted task_id result_id) ->
  keeps (adds_calls P) (TaskRuntime.mark_completed c task_id result_id).
Proof.
  intro H. apply keeps_bind; [exact adds_calls_trans | now apply adds_call|].
  intros _. apply adds_on_queue.
Qed.

Lemma adds_mark_failed c task_id message :
  P (TaskRuntime.MarkFailed task_id message) ->
  keeps (adds_calls P) (TaskRuntime.mark_failed c task_id message).
Proof.
  intro H. apply keeps_bind; [exact adds_calls_trans | now apply adds_call|].
  intros _. apply adds_on_queue.
Qed.

Lemma adds_save_result c id output files commands pt sha pr br ws :
  P (TaskRuntime.SaveResult id output) ->
  keeps (adds_calls P)
    (TaskRuntime.save_result c id output files commands pt sha pr br ws).
Proof.
  intro H. apply keeps_bind; [exact adds_calls_trans | now apply adds_call|].
  intros _ w.
  destruct (ResultManager.save_result _ _ _ _ _ _ _ _ _ _ _ _)
    as [[r | exc] db]; now apply adds_calls_same.
Qed.

Lemma adds_update_result_commit_info result_id sha pr br :
  P (TaskRuntime.UpdateResultCommitInfo result_id sha) ->
  keeps (adds_calls P)
    (TaskRuntime.update_result_commit_info result_id sha pr br).
Proof.
  intro H. apply keeps_bind; [exact adds_calls_trans | now apply adds_call|].
  intros _ w. now apply adds_calls_same.
Qed.

Lemma adds_git_commit c branch workspace files message :
  P (TaskRuntime.CommitWorkspaceChanges branch workspace files message) ->
  keeps (adds_calls P)
    (TaskRuntime.git_commit c branch workspace files message).
Proof.
  intro H. apply keeps_bind; [exact adds_calls_trans | now apply adds_call|].
  intros _.
  destruct (TaskRuntime.commit_workspace_changes c _ _ _ _);
    [apply keeps_ret | apply keeps_raise]; exact adds_calls_refl.
Qed.

Lemma adds_maybe_commit_changes c task workspace files output branch :
  P (TaskRuntime.WriteSummaryFile workspace) ->
  (forall targets message,
     targets <> [] ->
     P (TaskRuntime.CommitWorkspaceChanges branch workspace targets message)) ->
  keeps (adds_calls P)
    (TaskRuntime._maybe_commit_changes c task workspace files output branch).
Proof.
  intros Hsummary Hcommit.
  pose proof adds_calls_refl as Hrefl.
  pose proof adds_calls_trans as Htrans.
  assert (Hthought :
            forall prefix sep,
              keeps (adds_calls P)
                (TaskRuntime.bind
                   match Py.set files with
                   | [] =>
                       TaskRuntime.bind
                         (TaskRuntime.call
                            (TaskRuntime.WriteSummaryFile workspace))
                         (fun _ =>
                            TaskRuntime.ret
                              (if Py.truthy_opt_str
                                    (TaskRuntime.write_summary_file c)
                               then match TaskRuntime.write_summary_file c with
                                    | Some summary_rel_path =>
                                        Py.set_add summary_rel_path
                                          (Py.set files)
                                    | None => Py.set files
                                    end
                               else Py.set files))
                   | _ :: _ => TaskRuntime.ret (Py.set files)
                   end
                   (fun files_for_commit =>
                      match
                        TaskRuntime._collect_commit_targets c workspace
                          files_for_commit
                      with
                      | [] => TaskRuntime.ret None
                      | _ :: _ =>
                          TaskRuntime.git_commit c branch workspace
                            (TaskRuntime._collect_commit_targets c workspace
                               files_for_commit)
                            (TaskRuntime.commit_message prefix task sep)
                      end))).
  { intros prefix sep. apply keeps_bind; [exact Htrans| |].
    - destruct (Py.set files); [|now apply keeps_ret].
      apply keeps_bind; [exact Htrans | now apply adds_call|].
      intros _. now apply keeps_ret.
    - intro targets.
      destruct (TaskRuntime._collect_commit_targets c workspace targets)
        eqn:E; [now apply keeps_ret|].
      apply adds_git_commit, Hcommit. discriminate. }
  unfold TaskRuntime._maybe_commit_changes.
  destruct (Task.priority task); [apply Hthought | | apply Hthought].
  destruct (Py.set files); [now apply keeps_ret|].
  destruct (GitManager.validate_changes _ _ _ _) as [is_valid msg].
  destruct (negb is_valid); [now apply keeps_ret|].
  destruct (TaskRuntime._collect_commit_targets c workspace _) eqn:E;
    [now apply keeps_ret|].
  apply adds_git_commit, Hcommit. discriminate.
Qed.

Lemma adds_handle_pause c task reset_time result_output files_modified
    commands_executed workspace :
  (forall output, P (TaskRuntime.SaveResult (Task.id task) output)) ->
  (forall result_id, P (TaskRuntime.MarkCompleted (Task.id task) result_id)) ->
  (forall duration, P (TaskRuntime.Sleep duration)) ->
  keeps (adds_calls P)
    (TaskRuntime._handle_pause_exception c task reset_time result_output
       files_modified commands_executed workspace).
Proof.
  intros Hsave Hmark Hsleep.
  pose proof adds_calls_refl as Hrefl.
  pose proof adds_calls_trans as Htrans.
  unfold TaskRuntime._handle_pause_exception.
  apply keeps_bind; [exact Htrans| |].
  - apply keeps_try_except; [exact Htrans| |].
    + apply keeps_bind; [exact Htrans | apply adds_save_result, Hsave|].
      intro result. apply keeps_bind; [exact Htrans | |].
      * apply adds_mark_completed, Hmark.
      * intros _. now apply keeps_ret.
    + intros e. destruct e; [now apply keeps_ret .. | now apply keeps_raise].
  - intros _. cbv zeta.
    match goal with
    | |- keeps _ (if ?b then _ else _) => destruct b
    end; [apply adds_call, Hsleep | now apply keeps_ret].
Qed.

End AddsCalls.

Lemma keeps_bind_raises {A B : Type}
    (R : TaskRuntime.World -> TaskRuntime.World -> Prop)
    (m : TaskRuntime.M A) (k : A -> TaskRuntime.M B) :
  (forall w, exists e, fst (m w) = inl e) ->
  keeps R m -> keeps R (TaskRuntime.bind m k).
Proof.
  intros Hraise Hm w. unfold TaskRuntime.bind.
  specialize (Hm w). destruct (Hraise w) as (e & He).
  destruct (m w) as [[e' | a] w']; [exact Hm | discriminate He].
Qed.

(** X26.  [execute] cleans the workspace, writes the summary file and
    commits only when the adapter has returned, the Result has been
    saved and the workspace exists: never after a timeout, a pause or an
    error, and never for a workspace that is missing.  Every commit it
    asks for is of a non-empty list of files of the workspace of the
    task, on the branch [determine_branch] gives for its project. *)
Theorem execute_commits_only_saved_work (c : TaskRuntime.Collaborators)
    (task : Task.t) (w : TaskRuntime.World) :
  exists later,
    TaskRuntime.calls (snd (TaskRuntime.execute c task w))
    = TaskRuntime.calls w ++ later
    /\ forall call, In call later -> commit_allowed c task call.
Proof.
  assert (H : keeps (adds_calls (commit_allowed c task))
                (TaskRuntime.execute c task)).
  { pose proof (adds_calls_refl (commit_allowed c task)) as Hrefl.
    pose proof (adds_calls_trans (commit_allowed c task)) as Htrans.
    assert (Hhandler :
              forall exc,
                keeps (adds_calls (commit_allowed c task))
                  match exc with
                  | TaskRuntime.PauseException reset_time usage_percent =>
                      TaskRuntime._handle_pause_exception c task reset_time
                        "" [] [] None
                  | TaskRuntime.Error message =>
                      TaskRuntime.bind
                        (TaskRuntime.mark_failed c (Task.id task) message)
                        (fun _ => TaskRuntime.ret tt)
                  | TaskRuntime.CancelledError =>
                      TaskRuntime.raise TaskRuntime.CancelledError
                  end).
    { intros [reset usage | message |].
      - apply adds_handle_pause; intros; exact I.
      - apply keeps_bind; [exact Htrans | now apply adds_mark_failed|].
        intros _. now apply keeps_ret.
      - now apply keeps_raise. }
    unfold TaskRuntime.execute.
    apply keeps_bind; [exact Htrans | now apply adds_mark_in_progress|].
    intros _. apply keeps_try_except; [exact Htrans | | exact Hhandler].
    unfold TaskRuntime._run_task_with_timeout.
    destruct (TaskRuntime.execute_task c)
      as [out files cmds code usage ev | | reset usage | message |] eqn:Ea;
      [| apply keeps_bind_raises; [intro w0; now eexists | now apply keeps_raise]
       ..].
    apply keeps_bind; [exact Htrans | now apply keeps_ret|].
    intros [[[[[result_output files_modified] commands_executed] exit_code]
               usage_metrics] eval_status].
    cbv zeta.
    assert (Hmark :
              forall result : Result.t,
                keeps (adds_calls (commit_allowed c task))
                  (TaskRuntime.bind
                     (if TaskRuntime.evaluator_says_failed eval_status
                      then TaskRuntime.mark_failed c (Task.id task)
                             ("Evaluator status: "
                              ++ TaskRuntime.str_of_status eval_status)
                      else TaskRuntime.mark_completed c (Task.id task)
                             (Some (Result.id result)))
                     (fun _ => TaskRuntime.ret tt))).
    { intro result. apply keeps_bind; [exact Htrans| |].
      - destruct (TaskRuntime.evaluator_says_failed eval_status);
          [now apply adds_mark_failed | now apply adds_mark_completed].
      - intros _. now apply keeps_ret. }
    destruct (TaskRuntime.save_result_error c) as [exc|] eqn:Es.
    - apply keeps_bind_raises.
      + intro w0. eexists. erewrite save_result_fails_run by exact Es.
        reflexivity.
      + now apply adds_save_result.
    - apply keeps_bind; [exact Htrans | now apply adds_save_result|].
      intro result. apply keeps_bind; [exact Htrans | | intros _; apply Hmark].
      destruct (TaskRuntime.workspace_exists c) eqn:Ew;
        [|now apply keeps_ret].
      assert (Hready :
                TaskRuntime.workspace_exists c = true
                /\ TaskRuntime.save_result_error c = None
                /\ exists result_output files_modified commands_executed
                          exit_code usage_metrics eval_status,
                     TaskRuntime.execute_task c
                     = TaskRuntime.Returns result_output files_modified
                         commands_executed exit_code usage_metrics eval_status).
      { split; [exact Ew|]. split; [exact Es|].
        exists out, files, cmds, code, usage, ev. exact Ea. }
      apply keeps_bind; [exact Htrans| |].
      + apply adds_call. simpl. now split.
      + intros _. apply keeps_bind; [exact Htrans| |].
        * apply adds_maybe_commit_changes.
          -- simpl. now split.
          -- intros targets message Hne. simpl. now repeat split.
        * intro sha. destruct (Py.truthy_opt_str sha);
            [now apply adds_update_result_commit_info | now apply keeps_ret]. }
  destruct (H w) as (later & Hcalls & Hall).
  exists later. split; [exact Hcalls|]. now apply Forall_forall.
Qed.

(** *** The evaluator and the commit *)

Lemma execute_returns_split c task w result_output files_modified
    commands_executed exit_code usage_metrics eval_status :
  TaskRuntime.execute_task c
  = TaskRuntime.Returns result_output files_modified commands_executed
      exit_code usage_metrics eval_status ->
  TaskRuntime.execute c task w
  = match save_and_commit c task result_output files_modified
            commands_executed
            (snd (TaskRuntime.mark_in_progress c (Task.id task) w)) with
    | (inr result, w2) =>
        (inr tt,
         snd ((if TaskRuntime.evaluator_says_failed eval_status
               then TaskRuntime.mark_failed c (Task.id task)
                      ("Evaluator status: "
                       ++ TaskRuntime.str_of_status eval_status)
               else TaskRuntime.mark_completed c (Task.id task)
                      (Some (Result.id result))) w2))
    | (inl (TaskRuntime.Error message), w2) =>
        (inr tt, snd (TaskRuntime.mark_failed c (Task.id task) message w2))
    | (inl (TaskRuntime.PauseException reset_time usage_percent), w2) =>
        TaskRuntime._handle_pause_exception c task reset_time "" [] [] None w2
    | (inl TaskRuntime.CancelledError, w2) =>
        (inl TaskRuntime.CancelledError, w2)
    end.
Proof.
  intro Hadapter. unfold TaskRuntime.execute.
  erewrite bind_returns; [|apply mark_in_progress_run].
  rewrite mark_in_progress_run. cbn [snd].
  set (w1 := TaskRuntime.mkWorld _ _ _).
  unfold TaskRuntime.try_except.
  erewrite bind_returns; [|eapply returns_run; exact Hadapter].
  cbv beta iota zeta. unfold save_and_commit. cbv zeta.
  match goal with
  | |- context [TaskRuntime.bind
                  (TaskRuntime.save_result ?a1 ?a2 ?a3 ?a4 ?a5 ?a6 ?a7 ?a8
                     ?a9 ?a10) _ w1] =>
      destruct (TaskRuntime.save_result a1 a2 a3 a4 a5 a6 a7 a8 a9 a10 w1)
        as [[e | result] w2] eqn:ES
  end.
  - rewrite (bind_raises _ _ _ _ _ ES). rewrite (bind_raises _ _ _ _ _ ES).
    destruct e as [reset usage | message |]; [reflexivity| |reflexivity].
    erewrite bind_returns; [|apply mark_failed_run].
    rewrite (mark_failed_run c (Task.id task) _ _). reflexivity.
  - rewrite (bind_returns _ _ _ _ _ ES). rewrite (bind_returns _ _ _ _ _ ES).
    match goal with
    | |- context [TaskRuntime.bind
                    (if TaskRuntime.workspace_exists c then ?a else ?b) _ w2] =>
        destruct ((if TaskRuntime.workspace_exists c then a else b) w2)
          as [[e | u] w3] eqn:EC
    end.
    + rewrite (bind_raises _ _ _ _ _ EC). rewrite (bind_raises _ _ _ _ _ EC).
      destruct e as [reset usage | message |]; [reflexivity| |reflexivity].
      erewrite bind_returns; [|apply mark_failed_run].
      rewrite (mark_failed_run c (Task.id task) _ _). reflexivity.
    + rewrite (bind_returns _ _ _ _ _ EC). rewrite (bind_returns _ _ _ _ _ EC).
      destruct (TaskRuntime.evaluator_says_failed eval_status).
      * erewrite bind_returns; [|apply mark_failed_run].
        unfold TaskRuntime.ret. cbv beta iota.
        rewrite (mark_failed_run c (Task.id task) _ _). reflexivity.
      * erewrite bind_returns; [|apply mark_completed_run].
        unfold TaskRuntime.ret. cbv beta iota.
        rewrite (mark_completed_run c (Task.id task) _ _). reflexivity.
Qed.

Lemma removelast_snoc {A : Type} (l : list A) x : removelast (l ++ [x]) = l.
Proof. apply removelast_last. Qed.

(** X27.  The status the evaluator reports changes the final mark and
    nothing before it: two runs of [execute] that differ only in that
    status save the same Result, clean up and commit alike, and leave the
    same result table; only their last call differs.  So the work of a
    task the evaluator fails is committed like that of one it passes. *)
Theorem evaluator_status_does_not_change_the_commit
    (c : TaskRuntime.Collaborators) (task : Task.t) (w : TaskRuntime.World)
    (result_output : string) (files_modified commands_executed : list string)
    (exit_code : Z) (usage_metrics : option Py.dict)
    (status1 status2 : option string) :
  let run status :=
    snd (TaskRuntime.execute
           (with_adapter c
              (TaskRuntime.Returns result_output files_modified
                 commands_executed exit_code usage_metrics status))
           task w) in
  TaskRuntime.results (run status1) = TaskRuntime.results (run status2)
  /\ removelast (TaskRuntime.calls (run status1))
     = removelast (TaskRuntime.calls (run status2))
  /\ (forall branch workspace files message,
        In (TaskRuntime.CommitWorkspaceChanges branch workspace files message)
          (TaskRuntime.calls (run status1))
        <-> In (TaskRuntime.CommitWorkspaceChanges branch workspace files
                  message)
              (TaskRuntime.calls (run status2))).
Proof.
  cbv beta zeta.
  set (c1 := with_adapter c
               (TaskRuntime.Returns result_output files_modified
                  commands_executed exit_code usage_metrics status1)).
  set (c2 := with_adapter c
               (TaskRuntime.Returns result_output files_modified
                  commands_executed exit_code usage_metrics status2)).
  rewrite (execute_returns_split c1 task w result_output files_modified
             commands_executed exit_code usage_metrics status1 eq_refl).
  rewrite (execute_returns_split c2 task w result_output files_modified
             commands_executed exit_code usage_metrics status2 eq_refl).
  change (save_and_commit c2 task result_output files_modified
            commands_executed
            (snd (TaskRuntime.mark_in_progress c2 (Task.id task) w)))
    with (save_and_commit c1 task result_output files_modified
            commands_executed
            (snd (TaskRuntime.mark_in_progress c1 (Task.id task) w))).
  destruct (save_and_commit c1 task result_output files_modified
              commands_executed
              (snd (TaskRuntime.mark_in_progress c1 (Task.id task) w)))
    as [[[reset usage | message |] | result] w2].
  - change (TaskRuntime._handle_pause_exception c2 task reset "" [] [] None w2)
      with (TaskRuntime._handle_pause_exception c1 task reset "" [] [] None w2).
    repeat split; tauto.
  - rewrite !mark_failed_run. cbn [snd TaskRuntime.results TaskRuntime.calls].
    repeat split; tauto.
  - repeat split; tauto.
  - assert (Hmark : forall (ci : TaskRuntime.Collaborators) status,
              exists mark,
                TaskRuntime.results
                  (snd ((if TaskRuntime.evaluator_says_failed status
                         then TaskRuntime.mark_failed ci (Task.id task)
                                ("Evaluator status: "
                                 ++ TaskRuntime.str_of_status status)
                         else TaskRuntime.mark_completed ci (Task.id task)
                                (Some (Result.id result))) w2))
                = TaskRuntime.results w2
                /\ TaskRuntime.calls
                     (snd ((if TaskRuntime.evaluator_says_failed status
                            then TaskRuntime.mark_failed ci (Task.id task)
                                   ("Evaluator status: "
                                    ++ TaskRuntime.str_of_status status)
                            else TaskRuntime.mark_completed ci (Task.id task)
                                   (Some (Result.id result))) w2))
                   = TaskRuntime.calls w2 ++ [mark]
                /\ forall branch workspace files message,
                     mark <> TaskRuntime.CommitWorkspaceChanges branch
                               workspace files message).
    { intros ci status.
      destruct (TaskRuntime.evaluator_says_failed status).
      - rewrite mark_failed_run. eexists. repeat split. discriminate.
      - rewrite mark_completed_run. eexists. repeat split. discriminate. }
    cbn [snd].
    destruct (Hmark c1 status1) as (m1 & Hr1 & Hc1 & Hn1).
    destruct (Hmark c2 status2) as (m2 & Hr2 & Hc2 & Hn2).
    rewrite Hr1, Hr2, Hc1, Hc2, !removelast_snoc.
    split; [reflexivity|]. split; [reflexivity|].
    intros branch workspace files message. rewrite !in_app_iff. simpl.
    specialize (Hn1 branch workspace files message).
    specialize (Hn2 branch workspace files message).
    tauto.
Qed.

(* ================================================================== *)
(** * Properties of the refinement tasks *)
(* ================================================================== *)

Lemma already_refined_app {J : Py.JsonModule} parent_id l1 l2 :
  Refinement.already_refined parent_id (l1 ++ l2)
  = match Refinement.already_refined parent_id l1 with
    | Py.Returned false => Refinement.already_refined parent_id l2
    | r => r
    end.
Proof.
  induction l1 as [|x l1 IH]; simpl; [reflexivity|].
  destruct (Task.context x) as [text|]; [|exact IH].
  destruct (Py.loads text) as [[| b | n | s | items | items | d]|];
    try reflexivity; try exact IH.
  destruct (match Refinement.dict_get Refinement.REFINEMENT_CONTEXT_KEY d with
            | Some v => Refinement.eq_int v parent_id
            | None => false
            end); [reflexivity|exact IH].
Qed.

Lemma flush_new_row (db : TaskQueue.Store) (task task' : Task.t) :
  Task.id task = TaskQueue.next_id db ->
  TaskQueue.flush (Task.id task) task' (db ++ [task]) = db ++ [task'].
Proof.
  intro Hid.
  assert (Hfresh : forall x, In x db -> Task.id x <> Task.id task).
  { intros x Hx. apply next_id_above in Hx. lia. }
  induction db as [|x db IH]; simpl.
  - unfold TaskQueue.has_id. now rewrite Z.eqb_refl.
  - unfold TaskQueue.has_id at 1.
    destruct (Z.eqb_spec (Task.id x) (Task.id task)) as [E|E].
    + exfalso. apply (Hfresh x); [now left | exact E].
    + f_equal.
      clear IH.
      assert (Hfresh' : forall y, In y db -> Task.id y <> Task.id task)
        by (intros y Hy; apply Hfresh; now right).
      clear Hfresh Hid E. induction db as [|y db IH]; simpl.
      * unfold TaskQueue.has_id. now rewrite Z.eqb_refl.
      * unfold TaskQueue.has_id at 1.
        destruct (Z.eqb_spec (Task.id y) (Task.id task)) as [E|E].
        -- exfalso. apply (Hfresh' y); [now left | exact E].
        -- f_equal. apply IH. intros z Hz. apply Hfresh'. now right.
Qed.

(** X28.  With the reference [json] module, a refinement task
    [ensure_refinement_task] has created is SERIOUS and PENDING, in the
    project of its source, with a context that reads back and names the
    source; the history gets one row for it.  While that task is PENDING,
    another call for the same source, whatever its other arguments,
    creates nothing and writes nothing.  The guard looks at the tasks
    that are PENDING or IN_PROGRESS only: once the refinement task is
    completed, the next call for the same source creates another one. *)
Theorem ensure_refinement_task_once_per_live_task
    (now history_now : datetime) (generated_at : string)
    (source_task : Task.t) (project_name : option string)
    (recommendations outstanding_items : option (list string))
    (db db' : TaskQueue.Store)
    (history history' : list Refinement.GenerationHistory) (task : Task.t) :
  @Refinement.ensure_refinement_task reference_json now history_now
    generated_at source_task project_name recommendations outstanding_items
    db history
  = (Py.Returned (Some task), db', history') ->
  db' = db ++ [task]
  /\ Task.priority task = SERIOUS
  /\ Task.status task = PENDING
  /\ Task.project_id task = Task.project_id source_task
  /\ fst (@TaskQueue.get_task_context reference_json (Task.id task) db')
     = Py.Returned
         (Some (Py.JDict
                  (refinement_context (Task.id source_task) generated_at)))
  /\ (exists row,
        history' = history ++ [row]
        /\ Refinement.history_task_id row = Task.id task
        /\ Refinement.source row = "refinement")
  /\ (forall now2 history_now2 generated_at2 source_task2 project_name2
             recommendations2 outstanding_items2,
        Task.id source_task2 = Task.id source_task ->
        @Refinement.ensure_refinement_task reference_json now2 history_now2
          generated_at2 source_task2 project_name2 recommendations2
          outstanding_items2 db' history'
        = (Py.Returned None, db', history'))
  /\ (forall completed_at result_id now3 history_now3 generated_at3,
        exists task3 history3,
          @Refinement.ensure_refinement_task reference_json now3 history_now3
            generated_at3 source_task project_name recommendations
            outstanding_items
            (snd (TaskQueue.mark_completed completed_at (Task.id task)
                    result_id db'))
            history'
          = (Py.Returned (Some task3),
             snd (TaskQueue.mark_completed completed_at (Task.id task)
                    result_id db') ++ [task3],
             history3)).
Proof.
  unfold Refinement.ensure_refinement_task.
  destruct (@Refinement.already_refined reference_json (Task.id source_task)
              (filter Refinement.is_candidate db)) as [[|] | exc] eqn:Eloop;
    try discriminate.
  unfold TaskQueue.add_task, TaskQueue._run_write. cbv zeta.
  cbn [Py.truthy_dict].
  intro H. injection H as Htask Hdb Hhistory.
  subst db' history'. rewrite Htask.
  set (context := refinement_context (Task.id source_task) generated_at).
  assert (Hcontext : Task.context task
                     = Some (PyJson.dump (Py.JDict context)))
    by (now rewrite <- Htask).
  assert (Hid : Task.id task = TaskQueue.next_id db)
    by (now rewrite <- Htask).
  assert (Hstatus : Task.status task = PENDING) by (now rewrite <- Htask).
  assert (Hcandidate : Refinement.is_candidate task = true).
  { unfold Refinement.is_candidate. now rewrite Hstatus, Hcontext. }
  assert (Hmatch : @Refinement.already_refined reference_json
                     (Task.id source_task) [task]
                   = Py.Returned true).
  { cbn [Refinement.already_refined].
    rewrite Hcontext. cbn [Py.loads reference_json]. rewrite load_dump.
    unfold context, refinement_context. cbn [as_loaded map fst snd].
    cbn [Refinement.dict_get Refinement.REFINEMENT_CONTEXT_KEY String.eqb
         Ascii.eqb Bool.eqb Refinement.eq_int].
    now rewrite Z.eqb_refl. }
  split; [reflexivity|]. split; [now rewrite <- Htask|].
  split; [exact Hstatus|]. split; [now rewrite <- Htask|]. split.
  - unfold TaskQueue.get_task_context, TaskQueue.get_task, TaskQueue._run_read.
    rewrite (query_first_new_row db task Hid), Hcontext.
    destruct (PyJson.dump (Py.JDict context)) eqn:Edump;
      [now apply dump_not_empty in Edump|].
    cbn [Py.truthy_str Py.loads reference_json].
    rewrite <- Edump, load_dump. reflexivity.
  - split.
    + eexists. split; [reflexivity|]. now split.
    + split.
      * intros now2 history_now2 generated_at2 source_task2 project_name2
          recommendations2 outstanding_items2 Hsame.
        rewrite filter_app. cbn [filter]. rewrite Hcandidate.
        rewrite already_refined_app, Hsame, Eloop.
        now rewrite Hmatch.
      * intros completed_at result_id now3 history_now3 generated_at3.
        unfold TaskQueue.mark_completed, TaskQueue._run_write.
        rewrite (query_first_new_row db task Hid). cbn [snd].
        rewrite (flush_new_row db task _ Hid).
        rewrite filter_app. cbn [filter].
        assert (Hdone : Refinement.is_candidate
                          (Task.set_result_id result_id
                             (Task.set_completed_at (Some completed_at)
                                (Task.set_status COMPLETED task))) = false)
          by reflexivity.
        rewrite Hdone, app_nil_r, Eloop.
        eexists. eexists. reflexivity.
Qed.

(** An instance: the first call for the finished task creates a
    refinement task, the second call creates nothing. *)
Lemma ensure_refinement_task_witness :
  match
    @Refinement.ensure_refinement_task reference_json 100 101
      "2025-01-01T00:00:00" completed_task (Some "site") None None
      [completed_task] []
  with
  | (Py.Returned (Some task), db', history') =>
      @Refinement.ensure_refinement_task reference_json 200 201
        "2025-01-02T00:00:00" completed_task (Some "site") None None db'
        history'
      = (Py.Returned None, db', history')
  | _ => False
  end.
Proof.
  destruct (@Refinement.ensure_refinement_task reference_json 100 101
              "2025-01-01T00:00:00" completed_task (Some "site") None None
              [completed_task] [])
    as [[[[task|] | exc] db'] history'] eqn:E;
    try (vm_compute in E; discriminate E).
  destruct (ensure_refinement_task_once_per_live_task _ _ _ _ _ _ _ _ _ _ _ _ E)
    as (_ & _ & _ & _ & _ & _ & H & _).
  apply H. reflexivity.
Defined.

(* ================================================================== *)
(** * Properties of the commit workflow *)
(* ================================================================== *)

Section Runs.

Context (R : GitWorkflow.Repo -> GitWorkflow.Repo -> Prop).
Hypothesis R_refl : forall r, R r r.
Hypothesis R_trans : forall a b c, R a b -> R b c -> R a c.

Lemma runs_ret {A : Type} (a : A) : runs R (GitWorkflow.ret a).
Proof. intro r. apply R_refl. Qed.

Lemma runs_raise {A : Type} e : runs R (@GitWorkflow.raise A e).
Proof. intro r. apply R_refl. Qed.

Lemma runs_bind {A B : Type} (m : GitWorkflow.G A)
    (k : A -> GitWorkflow.G B) :
  runs R m -> (forall a, runs R (k a)) -> runs R (GitWorkflow.bind m k).
Proof.
  intros Hm Hk r. unfold GitWorkflow.bind.
  specialize (Hm r). destruct (m r) as [[e | a] r']; [exact Hm|].
  eapply R_trans; [exact Hm | apply Hk].
Qed.

Lemma runs_then {A B : Type} (m : GitWorkflow.G A) (k : GitWorkflow.G B) :
  runs R m -> runs R k -> runs R (GitWorkflow.then_ m k).
Proof. intros Hm Hk. apply runs_bind; [exact Hm | intros _; exact Hk]. Qed.

Lemma runs_try_except {A : Type} (body : GitWorkflow.G A) handler :
  runs R body -> (forall e, runs R (handler e)) ->
  runs R (GitWorkflow.try_except body handler).
Proof.
  intros Hb Hh r. unfold GitWorkflow.try_except.
  specialize (Hb r). destruct (body r) as [[e | a] r']; [|exact Hb].
  eapply R_trans; [exact Hb | apply Hh].
Qed.

End Runs.

Section AddsCommands.

Variable env : GitWorkflow.Env.
Variable P : GitWorkflow.Command -> Prop.

Lemma adds_commands_refl r : adds_commands P r r.
Proof. exists []. now rewrite app_nil_r. Qed.

Lemma adds_commands_same r r' :
  GitWorkflow.commands r' = GitWorkflow.commands r -> adds_commands P r r'.
Proof. intro H. exists []. now rewrite app_nil_r. Qed.

Lemma adds_commands_trans a b c :
  adds_commands P a b -> adds_commands P b c -> adds_commands P a c.
Proof.
  intros (l1 & H1 & F1) (l2 & H2 & F2). exists (l1 ++ l2). split.
  - now rewrite H2, H1, app_assoc.
  - apply Forall_app. now split.
Qed.

Lemma commands_run_git args r :
  GitWorkflow.commands (snd (GitWorkflow._run_git env args r))
  = GitWorkflow.commands r ++ [args].
Proof.
  unfold GitWorkflow._run_git.
  now destruct (GitWorkflow.run_git env (GitWorkflow.commands r) args).
Qed.

Lemma adds_run_git args :
  P args -> runs (adds_commands P) (GitWorkflow._run_git env args).
Proof.
  intros H r. exists [args]. split; [apply commands_run_git|].
  now constructor.
Qed.

Lemma adds_file_system ok what :
  runs (adds_commands P) (GitWorkflow.file_system ok what).
Proof.
  unfold GitWorkflow.file_system.
  destruct ok; [apply runs_ret | apply runs_raise]; exact adds_commands_refl.
Qed.

Lemma adds_checkout branch :
  P (git_checkout branch) ->
  runs (adds_commands P) (GitWorkflow._checkout env branch).
Proof.
  intro H. apply runs_then; [exact adds_commands_trans | |].
  - now apply adds_run_git.
  - apply runs_ret. exact adds_commands_refl.
Qed.

Lemma adds_branch_exists branch :
  P ["rev-parse"; "--verify"; branch] ->
  runs (adds_commands P) (GitWorkflow._branch_exists env branch).
Proof.
  intro H. apply runs_try_except; [exact adds_commands_trans | |].
  - apply runs_then; [exact adds_commands_trans | now apply adds_run_git|].
    apply runs_ret. exact adds_commands_refl.
  - intros _. apply runs_ret. exact adds_commands_refl.
Qed.

Lemma adds_ensure_branch branch :
  P ["rev-parse"; "--verify"; branch] ->
  P (git_checkout (GitWorkflow.main_branch env)) ->
  P ["branch"; branch; GitWorkflow.main_branch env] ->
  runs (adds_commands P) (GitWorkflow.ensure_branch env branch).
Proof.
  intros H1 H2 H3. apply runs_bind; [exact adds_commands_trans | |].
  - now apply adds_branch_exists.
  - intros [|]; [apply runs_ret; exact adds_commands_refl|].
    apply runs_then; [exact adds_commands_trans | now apply adds_checkout|].
    apply runs_then; [exact adds_commands_trans | now apply adds_run_git|].
    apply runs_ret. exact adds_commands_refl.
Qed.

Lemma adds_ensure_gitignore :
  runs (adds_commands P) (GitWorkflow._ensure_gitignore env).
Proof.
  apply runs_then; [exact adds_commands_trans | apply adds_file_system|].
  intro r.
  destruct (GitWorkspace._ensure_gitignore (GitWorkflow.gitignore r));
    now apply adds_commands_same.
Qed.

Lemma adds_init_repo :
  P ["init"] ->
  P ["config"; "user.email"; "agent@sleepless.local"] ->
  P ["config"; "user.name"; "Sleepless Agent"] ->
  P ["rev-parse"; "HEAD"] ->
  P ["add"; ".gitkeep"] ->
  P ["commit"; "-m"; "Initial commit"] ->
  P ["rev-parse"; "--verify"; GitWorkflow.default_task_branch env] ->
  P (git_checkout (GitWorkflow.main_branch env)) ->
  P ["branch"; GitWorkflow.default_task_branch env;
     GitWorkflow.main_branch env] ->
  runs (adds_commands P) (GitWorkflow.init_repo env).
Proof.
  intros H1 H2 H3 H4 H5 H6 H7 H8 H9.
  pose proof adds_commands_refl as Hrefl.
  pose proof adds_commands_trans as Htrans.
  apply runs_try_except; [exact Htrans | | intros _; now apply runs_ret].
  apply runs_then; [exact Htrans | apply adds_file_system|].
  apply runs_then; [exact Htrans | |].
  - destruct (negb (GitWorkflow.repo_exists env)); [|now apply runs_ret].
    apply runs_then; [exact Htrans | now apply adds_run_git|].
    apply runs_then; [exact Htrans | now apply adds_run_git|].
    apply runs_then; [exact Htrans | now apply adds_run_git|].
    now apply runs_ret.
  - apply runs_bind; [exact Htrans | |].
    + apply runs_try_except; [exact Htrans | | intros _; now apply runs_ret].
      apply runs_then; [exact Htrans | now apply adds_run_git|].
      now apply runs_ret.
    + intro has_commits. apply runs_then; [exact Htrans | |].
      * destruct (negb has_commits); [|now apply runs_ret].
        apply runs_then; [exact Htrans | apply adds_file_system|].
        apply runs_then; [exact Htrans | now apply adds_run_git|].
        apply runs_then; [exact Htrans | now apply adds_run_git|].
        now apply runs_ret.
      * apply runs_then; [exact Htrans | |].
        -- destruct (negb (String.eqb _ _)); [|now apply runs_ret].
           now apply adds_ensure_branch.
        -- apply runs_then; [exact Htrans | apply adds_ensure_gitignore|].
           now apply runs_ret.
Qed.

Lemma adds_fast_forward branch :
  P ["merge"; "--ff-only"; GitWorkflow.main_branch env] ->
  runs (adds_commands P) (GitWorkflow._fast_forward_with_main env branch).
Proof.
  intro H. unfold GitWorkflow._fast_forward_with_main.
  destruct (String.eqb branch (GitWorkflow.main_branch env));
    [apply runs_ret; exact adds_commands_refl|].
  apply runs_try_except; [exact adds_commands_trans | |].
  - apply runs_then; [exact adds_commands_trans | now apply adds_run_git|].
    apply runs_ret. exact adds_commands_refl.
  - intros _. apply runs_ret. exact adds_commands_refl.
Qed.

Lemma adds_stage files :
  (forall paths, P ("add" :: "--" :: paths)) ->
  runs (adds_commands P) (GitWorkflow._stage env files).
Proof.
  intro H. unfold GitWorkflow._stage.
  destruct files; [apply runs_ret; exact adds_commands_refl|].
  destruct (GitWorkflow._filter_tracked_paths env _);
    [apply runs_ret; exact adds_commands_refl|].
  apply runs_then; [exact adds_commands_trans | apply adds_run_git, H|].
  apply runs_ret. exact adds_commands_refl.
Qed.

Lemma adds_merge_after_checkout branch :
  P ["merge"; "--ff-only"; branch] ->
  P ["merge"; "--no-ff"; branch; "-m";
     ("Merge branch '" ++ branch ++ "'")%string] ->
  runs (adds_commands P)
    (GitWorkflow.try_except
       (GitWorkflow.then_
          (GitWorkflow._run_git env ["merge"; "--ff-only"; branch])
          (GitWorkflow.ret tt))
       (fun exc =>
          match exc with
          | GitWorkflow.RuntimeError _ =>
              GitWorkflow.then_
                (GitWorkflow._run_git env
                   ["merge"; "--no-ff"; branch; "-m";
                    ("Merge branch '" ++ branch ++ "'")%string])
                (GitWorkflow.ret tt)
          | GitWorkflow.OtherError _ => GitWorkflow.raise exc
          end)).
Proof.
  intros H1 H2. apply runs_try_except; [exact adds_commands_trans | |].
  - apply runs_then; [exact adds_commands_trans | now apply adds_run_git|].
    apply runs_ret. exact adds_commands_refl.
  - intros [m | m].
    + apply runs_then; [exact adds_commands_trans | now apply adds_run_git|].
      apply runs_ret. exact adds_commands_refl.
    + apply runs_raise. exact adds_commands_refl.
Qed.

Lemma adds_push_all :
  P ["remote"] -> P ["remote"; "get-url"; "origin"] -> P git_push ->
  runs (adds_commands P) (GitWorkflow.push_all env).
Proof.
  intros H1 H2 H3 r. unfold GitWorkflow.push_all. cbv zeta.
  set (remote_lines := match GitWorkflow.run_git env _ ["remote"] with
                       | GitWorkspace.GitOk stdout => _
                       | _ => None
                       end).
  set (has_remote := match remote_lines with
                     | Some lines => _
                     | None => false
                     end).
  match goal with
  | |- context [GitWorkspace.push_all ?a ?b ?c] =>
      destruct (GitWorkspace.push_all a b c) as [[result flag] lines]
  end.
  assert (Hadded :
            exists added,
              (if has_remote
               then (if has_remote && GitWorkflow.auto_create_repo env
                     then (GitWorkflow.commands r ++ [["remote"]])
                          ++ [["remote"; "get-url"; "origin"]]
                     else GitWorkflow.commands r ++ [["remote"]])
                    ++ [["push"; "--all"; "origin"]]
               else if has_remote && GitWorkflow.auto_create_repo env
                    then (GitWorkflow.commands r ++ [["remote"]])
                         ++ [["remote"; "get-url"; "origin"]]
                    else GitWorkflow.commands r ++ [["remote"]])
              = GitWorkflow.commands r ++ added
              /\ Forall P added).
  { destruct has_remote; cbn [andb].
    - destruct (GitWorkflow.auto_create_repo env).
      + exists [["remote"]; ["remote"; "get-url"; "origin"]; git_push].
        split; [now rewrite <- !app_assoc|]. now repeat constructor.
      + exists [["remote"]; git_push].
        split; [now rewrite <- !app_assoc|]. now repeat constructor.
    - exists [["remote"]]. split; [reflexivity|]. now repeat constructor. }
  destruct Hadded as (added & Hadded & Hall).
  exists added. split; [|exact Hall].
  destruct result as [u | message]; [exact Hadded|].
  now destruct (GitWorkflow.run_git env _ ["push"; "--all"; "origin"]).
Qed.

End AddsCommands.

Lemma G_bind_returns {A B : Type} (m : GitWorkflow.G A)
    (k : A -> GitWorkflow.G B) r a r' :
  m r = (inr a, r') -> GitWorkflow.bind m k r = k a r'.
Proof. intro E. unfold GitWorkflow.bind. now rewrite E. Qed.

Lemma G_bind_raises {A B : Type} (m : GitWorkflow.G A)
    (k : A -> GitWorkflow.G B) r e r' :
  m r = (inl e, r') -> GitWorkflow.bind m k r = (inl e, r').
Proof. intro E. unfold GitWorkflow.bind. now rewrite E. Qed.

Lemma G_then_returns {A B : Type} (m : GitWorkflow.G A)
    (k : GitWorkflow.G B) r a r' :
  m r = (inr a, r') -> GitWorkflow.then_ m k r = k r'.
Proof. intro E. unfold GitWorkflow.then_. now rewrite (G_bind_returns _ _ _ _ _ E). Qed.

Lemma G_then_raises {A B : Type} (m : GitWorkflow.G A)
    (k : GitWorkflow.G B) r e r' :
  m r = (inl e, r') -> GitWorkflow.then_ m k r = (inl e, r').
Proof. intro E. unfold GitWorkflow.then_. now rewrite (G_bind_raises _ _ _ _ _ E). Qed.

Lemma G_then_assoc {A B C : Type} (m : GitWorkflow.G A)
    (k : GitWorkflow.G B) (h : GitWorkflow.G C) r :
  GitWorkflow.then_ (GitWorkflow.then_ m k) h r
  = GitWorkflow.then_ m (GitWorkflow.then_ k h) r.
Proof.
  unfold GitWorkflow.then_, GitWorkflow.bind.
  now destruct (m r) as [[e | a] r'].
Qed.

Lemma push_after_commit_quiet message l :
  Forall not_push l -> push_after_commit message l.
Proof.
  intros F before after ->. apply Forall_app in F as [_ F].
  inversion F as [| c l' Hc _]. now contradiction Hc.
Qed.

Lemma push_after_commit_committed message q l :
  Forall not_push q -> In (git_commit message) q ->
  push_after_commit message (q ++ l).
Proof.
  induction q as [| c q IH]; intros F Hin before after E; [contradiction|].
  inversion F as [| c' q' Hc Hq]; subst.
  destruct before as [| b before]; cbn in E; injection E as E1 E2.
  - now contradiction Hc.
  - subst b. destruct Hin as [-> | Hin]; [now left|].
    right. now apply (IH Hq Hin before after).
Qed.

Lemma push_after_commit_prefix message q l :
  Forall not_push q -> push_after_commit message l ->
  push_after_commit message (q ++ l).
Proof.
  induction q as [| c q IH]; intros F H; [exact H|].
  inversion F as [| c' q' Hc Hq]; subst.
  intros before after E.
  destruct before as [| b before]; cbn in E; injection E as E1 E2.
  - now contradiction Hc.
  - right. now apply (IH Hq H before after).
Qed.

Lemma left_on_prefix branch q l : left_on branch l -> left_on branch (q ++ l).
Proof.
  intros (before & after & -> & F). exists (q ++ before), after.
  split; [now rewrite app_assoc | exact F].
Qed.

Lemma in_place_not_push l : Forall in_place l -> Forall not_push l.
Proof. apply Forall_impl. now intros c [H _]. Qed.

Lemma in_place_not_checkout l : Forall in_place l -> Forall not_checkout l.
Proof. apply Forall_impl. now intros c [_ H]. Qed.

Lemma plumbing_not_push message l :
  Forall (plumbing message) l -> Forall not_push l.
Proof. apply Forall_impl. now intros c (_ & H & _). Qed.

Section Workflow.

Variable env : GitWorkflow.Env.

Lemma init_repo_returns r :
  exists b, fst (GitWorkflow.init_repo env r) = inr b.
Proof.
  unfold GitWorkflow.init_repo, GitWorkflow.try_except.
  match goal with
  | |- context [match ?body r with _ => _ end] =>
      destruct (body r) as [[e | b] r']
  end; eexists; reflexivity.
Qed.

(** A checkout followed by steps that change no branch leaves the
    repository on the branch checked out. *)
Lemma left_on_after_checkout {A : Type} (P : GitWorkflow.Command -> Prop)
    branch (k : GitWorkflow.G A) r :
  P (git_checkout branch) ->
  runs (adds_commands (fun c => P c /\ not_checkout c)) k ->
  exists added,
    GitWorkflow.commands
      (snd (GitWorkflow.then_ (GitWorkflow._checkout env branch) k r))
    = GitWorkflow.commands r ++ added
    /\ left_on branch added /\ Forall P added.
Proof.
  intros HP Hk.
  pose proof (commands_run_git env (git_checkout branch) r) as C.
  unfold GitWorkflow._checkout. rewrite G_then_assoc.
  destruct (GitWorkflow._run_git env (git_checkout branch) r)
    as [[e | out] r1] eqn:E; cbn [snd] in C.
  - change ["checkout"; branch] with (git_checkout branch).
    rewrite (G_then_raises _ _ _ _ _ E). cbn [snd].
    exists [git_checkout branch]. split; [exact C|]. split.
    + exists [], []. split; [reflexivity | constructor].
    + now repeat constructor.
  - change ["checkout"; branch] with (git_checkout branch).
    rewrite (G_then_returns _ _ _ _ _ E).
    unfold GitWorkflow.then_ at 1, GitWorkflow.bind at 1, GitWorkflow.ret at 1.
    destruct (Hk r1) as (added & Hadded & F).
    exists (git_checkout branch :: added). split; [|split].
    + rewrite Hadded, C. now rewrite <- app_assoc.
    + exists [], added. split; [reflexivity|].
      revert F. apply Forall_impl. now intros c [_ H].
    + constructor; [exact HP|].
      revert F. apply Forall_impl. now intros c [H _].
Qed.

Lemma commands_checkout branch r :
  GitWorkflow.commands (snd (GitWorkflow._checkout env branch r))
  = GitWorkflow.commands r ++ [git_checkout branch].
Proof.
  pose proof (commands_run_git env (git_checkout branch) r) as C.
  unfold GitWorkflow._checkout, GitWorkflow.then_, GitWorkflow.bind.
  change ["checkout"; branch] with (git_checkout branch).
  now destruct (GitWorkflow._run_git env (git_checkout branch) r)
    as [[e | out] r1].
Qed.

Lemma G_then_ret_result {A B : Type} (m : GitWorkflow.G A) (v v' : B) r :
  fst (GitWorkflow.then_ m (GitWorkflow.ret v) r) = inr v' -> v' = v.
Proof.
  unfold GitWorkflow.then_, GitWorkflow.bind, GitWorkflow.ret.
  destruct (m r) as [[e | a] r']; cbn [fst]; [discriminate|].
  intro H. now injection H.
Qed.

(** The merge into main and the push: when they return, the repository
    is on main, unless the branch is main itself and no branch was
    changed. *)
Lemma commands_merge_and_push branch (v : option string) r :
  let run :=
    GitWorkflow.then_ (GitWorkflow._merge_branch_into_main env branch)
      (GitWorkflow.then_ (GitWorkflow.push_all env) (GitWorkflow.ret v)) r in
  exists added,
    GitWorkflow.commands (snd run) = GitWorkflow.commands r ++ added
    /\ (branch = GitWorkflow.main_branch env /\ Forall not_checkout added
        \/ left_on (GitWorkflow.main_branch env) added)
    /\ forall v', fst run = inr v' -> v' = v.
Proof.
  intro run.
  assert (Hres : forall v', fst run = inr v' -> v' = v).
  { subst run. unfold GitWorkflow.then_, GitWorkflow.bind, GitWorkflow.ret.
    destruct (GitWorkflow._merge_branch_into_main env branch r)
      as [[e | []] r1]; cbn [fst]; [discriminate|].
    destruct (GitWorkflow.push_all env r1) as [[e | []] r2]; cbn [fst];
      [discriminate|]. intros v' H. now injection H. }
  assert (Hpush :
            runs (adds_commands (fun c => True /\ not_checkout c))
              (GitWorkflow.then_ (GitWorkflow.push_all env)
                 (GitWorkflow.ret v))).
  { apply runs_then; [apply adds_commands_trans | |].
    - apply adds_push_all; (split; [exact I | intros b H; discriminate H]).
    - apply runs_ret, adds_commands_refl. }
  subst run. unfold GitWorkflow._merge_branch_into_main in *.
  destruct (String.eqb_spec branch (GitWorkflow.main_branch env)) as [Eb | Nb].
  - unfold GitWorkflow.then_ at 1, GitWorkflow.bind at 1, GitWorkflow.ret at 1.
    destruct (Hpush r) as (added & Hadded & F).
    exists added. split; [exact Hadded|]. split; [|exact Hres].
    left. split; [exact Eb|]. revert F. apply Forall_impl. now intros c [_ H].
  - rewrite G_then_assoc. rewrite G_then_assoc in Hres.
    destruct (left_on_after_checkout (fun _ => True)
                (GitWorkflow.main_branch env)
                (GitWorkflow.then_
                   (GitWorkflow.try_except
                      (GitWorkflow.then_
                         (GitWorkflow._run_git env
                            ["merge"; "--ff-only"; branch])
                         (GitWorkflow.ret tt))
                      (fun exc =>
                         match exc with
                         | GitWorkflow.RuntimeError _ =>
                             GitWorkflow.then_
                               (GitWorkflow._run_git env
                                  ["merge"; "--no-ff"; branch; "-m";
                                   ("Merge branch '" ++ branch ++ "'")%string])
                               (GitWorkflow.ret tt)
                         | GitWorkflow.OtherError _ => GitWorkflow.raise exc
                         end))
                   (GitWorkflow.then_ (GitWorkflow.push_all env)
                      (GitWorkflow.ret v))) r I)
      as (added & Hadded & Hleft & _).
    + apply runs_then; [apply adds_commands_trans | | exact Hpush].
      apply adds_merge_after_checkout;
        (split; [exact I | intros b H; discriminate H]).
    + exists added. split; [exact Hadded|]. split; [|exact Hres].
      now right.
Qed.

Lemma commands_commit_if_needed message r :
  let run := GitWorkflow._commit_if_needed env message r in
  exists added,
    GitWorkflow.commands (snd run) = GitWorkflow.commands r ++ added
    /\ Forall in_place added
    /\ forall sha, fst run = inr (Some sha) -> In (git_commit message) added.
Proof.
  intro run. subst run.
  unfold GitWorkflow._commit_if_needed, GitWorkflow._has_pending_changes.
  assert (Hstatus : in_place ["status"; "--porcelain"])
    by (split; [discriminate | intros b H; discriminate H]).
  assert (Hcommit : in_place (git_commit message))
    by (split; [discriminate | intros b H; discriminate H]).
  assert (Hsha : in_place ["rev-parse"; "HEAD"])
    by (split; [discriminate | intros b H; discriminate H]).
  pose proof (commands_run_git env ["status"; "--porcelain"] r) as C1.
  change ["commit"; "-m"; message] with (git_commit message).
  unfold GitWorkflow.then_, GitWorkflow.bind, GitWorkflow.ret.
  destruct (GitWorkflow._run_git env ["status"; "--porcelain"] r)
    as [[e | status] r1]; cbn [snd] in C1.
  - exists [["status"; "--porcelain"]]. cbn [fst snd].
    split; [exact C1|]. split; [|intros sha H; discriminate H].
    now repeat constructor.
  - destruct (PyText.strip_truthy status); cbn [negb].
    + pose proof (commands_run_git env (git_commit message) r1) as C2.
      destruct (GitWorkflow._run_git env (git_commit message) r1)
        as [[e | out] r2]; cbn [snd] in C2.
      * exists [["status"; "--porcelain"]; git_commit message].
        cbn [fst snd]. split; [|split; [|intros sha H; discriminate H]].
        -- rewrite C2, C1. now rewrite <- app_assoc.
        -- now repeat constructor.
      * pose proof (commands_run_git env ["rev-parse"; "HEAD"] r2) as C3.
        destruct (GitWorkflow._run_git env ["rev-parse"; "HEAD"] r2)
          as [[e | sha] r3]; cbn [snd] in C3;
          (exists [["status"; "--porcelain"]; git_commit message;
                   ["rev-parse"; "HEAD"]];
           cbn [fst snd];
           split; [rewrite C3, C2, C1; now rewrite <- !app_assoc|];
           split; [now repeat constructor | intros _ _; right; now left]).
    + exists [["status"; "--porcelain"]]. cbn [fst snd].
      split; [exact C1|]. split; [|intros sha H; discriminate H].
      now repeat constructor.
Qed.

(** The guarded block of [commit_workspace_changes]. *)
Lemma commands_guarded_block branch message files r :
  let run :=
    GitWorkflow.then_ (GitWorkflow._checkout env branch)
      (GitWorkflow.then_ (GitWorkflow._fast_forward_with_main env branch)
         (GitWorkflow.then_ (GitWorkflow._stage env files)
            (GitWorkflow.bind (GitWorkflow._commit_if_needed env message)
               (fun commit_sha =>
                  if negb (Py.truthy_opt_str commit_sha) then
                    GitWorkflow.then_
                      (GitWorkflow._checkout env (GitWorkflow.main_branch env))
                      (GitWorkflow.ret None)
                  else
                    GitWorkflow.then_
                      (GitWorkflow._merge_branch_into_main env branch)
                      (GitWorkflow.then_ (GitWorkflow.push_all env)
                         (GitWorkflow.ret commit_sha)))))) r in
  exists added,
    GitWorkflow.commands (snd run) = GitWorkflow.commands r ++ added
    /\ push_after_commit message added
    /\ (forall sha,
          fst run = inr (Some sha) ->
          sha <> "" /\ In (git_commit message) added)
    /\ (forall v,
          fst run = inr v -> left_on (GitWorkflow.main_branch env) added).
Proof.
  intro run. subst run.
  assert (Hco : forall b, not_push (git_checkout b))
    by (intros b H; discriminate H).
  assert (Hff : in_place ["merge"; "--ff-only"; GitWorkflow.main_branch env])
    by (split; [discriminate | intros b H; discriminate H]).
  assert (Hadd : forall paths, in_place ("add" :: "--" :: paths))
    by (split; [discriminate | intros b H; discriminate H]).
  pose proof (commands_checkout branch r) as C1.
  destruct (GitWorkflow._checkout env branch r) as [[e | []] r1] eqn:E1;
    cbn [snd] in C1.
  { rewrite (G_then_raises _ _ _ _ _ E1). cbn [fst snd].
    exists [git_checkout branch]. split; [exact C1|]. split.
    - apply push_after_commit_quiet. now repeat constructor.
    - split; intros v H; discriminate H. }
  rewrite (G_then_returns _ _ _ _ _ E1).
  destruct (adds_fast_forward env in_place branch Hff r1) as (a2 & C2 & F2).
  destruct (GitWorkflow._fast_forward_with_main env branch r1)
    as [[e | []] r2] eqn:E2; cbn [snd] in C2.
  { rewrite (G_then_raises _ _ _ _ _ E2). cbn [fst snd].
    exists ([git_checkout branch] ++ a2). split.
    - rewrite C2, C1. now rewrite <- !app_assoc.
    - split.
      + apply push_after_commit_quiet, Forall_app. split.
        * now repeat constructor.
        * now apply in_place_not_push.
      + split; intros v H; discriminate H. }
  rewrite (G_then_returns _ _ _ _ _ E2).
  destruct (adds_stage env in_place files Hadd r2) as (a3 & C3 & F3).
  destruct (GitWorkflow._stage env files r2) as [[e | []] r3] eqn:E3;
    cbn [snd] in C3.
  { rewrite (G_then_raises _ _ _ _ _ E3). cbn [fst snd].
    exists ([git_checkout branch] ++ a2 ++ a3). split.
    - rewrite C3, C2, C1. now rewrite <- !app_assoc.
    - split.
      + apply push_after_commit_quiet. repeat (apply Forall_app; split).
        * now repeat constructor.
        * now apply in_place_not_push.
        * now apply in_place_not_push.
      + split; intros v H; discriminate H. }
  rewrite (G_then_returns _ _ _ _ _ E3).
  destruct (commands_commit_if_needed message r3) as (a4 & C4 & F4 & H4).
  destruct (GitWorkflow._commit_if_needed env message r3)
    as [[e | commit_sha] r4] eqn:E4; cbn [fst snd] in C4, H4.
  { rewrite (G_bind_raises _ _ _ _ _ E4). cbn [fst snd].
    exists ([git_checkout branch] ++ a2 ++ a3 ++ a4). split.
    - rewrite C4, C3, C2, C1. now rewrite <- !app_assoc.
    - split.
      + apply push_after_commit_quiet. repeat (apply Forall_app; split).
        * now repeat constructor.
        * now apply in_place_not_push.
        * now apply in_place_not_push.
        * now apply in_place_not_push.
      + split; intros v H; discriminate H. }
  rewrite (G_bind_returns _ _ _ _ _ E4).
  assert (Hquiet : Forall not_push ([git_checkout branch] ++ a2 ++ a3 ++ a4)).
  { repeat (apply Forall_app; split).
    - now repeat constructor.
    - now apply in_place_not_push.
    - now apply in_place_not_push.
    - now apply in_place_not_push. }
  assert (Hback :
            negb (Py.truthy_opt_str commit_sha) = true ->
            exists added,
              GitWorkflow.commands
                (snd
                   (GitWorkflow.then_
                      (GitWorkflow._checkout env (GitWorkflow.main_branch env))
                      (GitWorkflow.ret (@None string)) r4))
              = GitWorkflow.commands r ++ added
              /\ push_after_commit message added
              /\ left_on (GitWorkflow.main_branch env) added).
  { intros _.
    destruct (left_on_after_checkout not_push (GitWorkflow.main_branch env)
                (GitWorkflow.ret (@None string)) r4 (Hco _))
      as (a5 & C5 & L5 & F5).
    - apply runs_ret, adds_commands_refl.
    - exists (([git_checkout branch] ++ a2 ++ a3 ++ a4) ++ a5). split.
      + rewrite C5, C4, C3, C2, C1. now rewrite <- !app_assoc.
      + split.
        * apply push_after_commit_quiet, Forall_app. now split.
        * now apply left_on_prefix. }
  destruct (negb (Py.truthy_opt_str commit_sha)) eqn:Esha.
  { destruct (Hback eq_refl) as (added & C & Hpush & Hleft).
    exists added. split; [exact C|]. split; [exact Hpush|]. split.
    - intros sha H. apply G_then_ret_result in H. discriminate H.
    - intros v _. exact Hleft. }
  destruct commit_sha as [[| c sha] |]; try discriminate Esha.
  destruct (commands_merge_and_push branch (Some (String c sha)) r4)
    as (a5 & C5 & L5 & R5).
  exists (([git_checkout branch] ++ a2 ++ a3 ++ a4) ++ a5). split.
  { rewrite C5, C4, C3, C2, C1. now rewrite <- !app_assoc. }
  assert (Hin : In (git_commit message)
                  ([git_checkout branch] ++ a2 ++ a3 ++ a4)).
  { apply in_or_app. right. apply in_or_app. right. apply in_or_app. right.
    now apply (H4 (String c sha)). }
  split; [now apply push_after_commit_committed|]. split.
  - intros sha' H. apply R5 in H. injection H as ->.
    split; [discriminate|]. apply in_or_app. now left.
  - intros v _. destruct L5 as [[Eb F5] | L5].
    + exists [], ((a2 ++ a3 ++ a4) ++ a5). split.
      * now rewrite Eb.
      * repeat (apply Forall_app; split);
          try (now apply in_place_not_checkout); exact F5.
    + now apply left_on_prefix.
Qed.

End Workflow.

(** X29 (storage/git.py, [GitManager.commit_workspace_changes] with
    [init_repo], [ensure_branch], [_stage], [_commit_if_needed],
    [_merge_branch_into_main] and [push_all]).  Whatever git, the file
    system and the remote answer, and whether the call returns or raises:
    the call only adds git commands, and it pushes only after it has made
    the commit with [message].  When it returns a commit id, that id is
    not empty and the commit was made.  When it returns and some file
    lies inside the repository, the last branch it checked out is the
    main branch.  When no file lies inside the repository it returns
    [None] if it returns, and it has staged no path, made no commit with
    [message] and pushed nothing. *)
Theorem commit_workspace_changes_pushes_only_committed_work
    (env : GitWorkflow.Env) (branch workspace_path : string)
    (files : list string) (message : string) (repo : GitWorkflow.Repo) :
  message <> "Initial commit" ->
  let run :=
    GitWorkflow.commit_workspace_changes env branch workspace_path files
      message repo in
  exists added,
    GitWorkflow.commands (snd run) = GitWorkflow.commands repo ++ added
    /\ push_after_commit message added
    /\ (forall sha,
          fst run = inr (Some sha) ->
          sha <> "" /\ In (git_commit message) added)
    /\ (forall v,
          fst run = inr v ->
          GitWorkflow._normalize_files env workspace_path files <> [] ->
          left_on (GitWorkflow.main_branch env) added)
    /\ (GitWorkflow._normalize_files env workspace_path files = [] ->
        Forall (plumbing message) added
        /\ forall v, fst run = inr v -> v = None).
Proof.
  intros Hmessage run. subst run.
  assert (Hplain : forall args : GitWorkflow.Command,
             hd "" args <> "commit" -> hd "" args <> "push" ->
             hd "" args <> "add" -> plumbing message args).
  { intros args H1 H2 H3. split; [|split].
    - intros ->. now apply H1.
    - intros ->. now apply H2.
    - intros paths ->. now apply H3. }
  assert (Hgitkeep : plumbing message ["add"; ".gitkeep"]).
  { split; [|split]; try discriminate; intros paths H; discriminate H. }
  assert (Hinitial : plumbing message ["commit"; "-m"; "Initial commit"]).
  { split; [|split].
    - intro H. injection H as H. now apply Hmessage.
    - discriminate.
    - intros paths H. discriminate H. }
  destruct (init_repo_returns env repo) as [b Hb].
  assert (Hinit : runs (adds_commands (plumbing message))
                    (GitWorkflow.init_repo env))
    by (apply adds_init_repo; try exact Hinitial; try exact Hgitkeep;
        apply Hplain; cbn; discriminate).
  assert (Hensure : runs (adds_commands (plumbing message))
                      (GitWorkflow.ensure_branch env branch))
    by (apply adds_ensure_branch; apply Hplain; cbn; discriminate).
  destruct (Hinit repo) as (a0 & C0 & F0).
  destruct (GitWorkflow.init_repo env repo) as [[e | b'] r0] eqn:E0;
    cbn [fst snd] in Hb, C0; [discriminate Hb|].
  unfold GitWorkflow.commit_workspace_changes.
  rewrite (G_then_returns _ _ _ _ _ E0).
  destruct (Hensure r0) as (a1 & C1 & F1).
  assert (F01 : Forall (plumbing message) (a0 ++ a1))
    by (apply Forall_app; now split).
  destruct (GitWorkflow.ensure_branch env branch r0) as [[e | []] r1] eqn:E1;
    cbn [snd] in C1.
  { rewrite (G_then_raises _ _ _ _ _ E1). cbn [fst snd].
    exists (a0 ++ a1). split; [rewrite C1, C0; now rewrite app_assoc|].
    split; [eapply push_after_commit_quiet, plumbing_not_push, F01|].
    split; [intros v H; discriminate H|].
    split; [intros v H; discriminate H|].
    intros _. split; [exact F01 | intros v H; discriminate H]. }
  rewrite (G_then_returns _ _ _ _ _ E1). cbv zeta.
  destruct (GitWorkflow._normalize_files env workspace_path files)
    as [| file rest] eqn:En.
  { unfold GitWorkflow.ret. cbn [fst snd].
    exists (a0 ++ a1). split; [rewrite C1, C0; now rewrite app_assoc|].
    split; [eapply push_after_commit_quiet, plumbing_not_push, F01|].
    split; [intros v H; discriminate H|].
    split; [intros v _ H; now contradiction H|].
    intros _. split; [exact F01|]. intros v H. now injection H. }
  destruct (commands_guarded_block env branch message (file :: rest) r1)
    as (a2 & C2 & P2 & S2 & L2).
  exists ((a0 ++ a1) ++ a2). split.
  { rewrite C2, C1, C0. now rewrite <- !app_assoc. }
  split.
  { apply push_after_commit_prefix; [|exact P2].
    eapply plumbing_not_push, F01. }
  split.
  { intros sha H. destruct (S2 sha H) as [Hsha Hin].
    split; [exact Hsha|]. apply in_or_app. now right. }
  split.
  { intros v H _. apply left_on_prefix. now apply (L2 v). }
  intro H. discriminate H.
Qed.

Lemma commit_workspace_changes_witness :
  "Task 7" <> "Initial commit"
  /\ exists added,
       GitWorkflow.commands
         (snd
            (GitWorkflow.commit_workspace_changes agreeable "project/site"
               "workspace" ["main.py"] "Task 7" fresh_repo))
       = GitWorkflow.commands fresh_repo ++ added
       /\ push_after_commit "Task 7" added
       /\ (forall sha,
             fst
               (GitWorkflow.commit_workspace_changes agreeable "project/site"
                  "workspace" ["main.py"] "Task 7" fresh_repo)
             = inr (Some sha) ->
             sha <> "" /\ In (git_commit "Task 7") added)
       /\ (forall v,
             fst
               (GitWorkflow.commit_workspace_changes agreeable "project/site"
                  "workspace" ["main.py"] "Task 7" fresh_repo)
             = inr v ->
             GitWorkflow._normalize_files agreeable "workspace" ["main.py"]
             <> [] ->
             left_on (GitWorkflow.main_branch agreeable) added)
       /\ (GitWorkflow._normalize_files agreeable "workspace" ["main.py"] = []
           -> Forall (plumbing "Task 7") added
              /\ forall v,
                   fst
                     (GitWorkflow.commit_workspace_changes agreeable
                        "project/site" "workspace" ["main.py"] "Task 7"
                        fresh_repo)
                   = inr v -> v = None).
Proof.
  split; [discriminate|].
  apply (commit_workspace_changes_pushes_only_committed_work agreeable
           "project/site" "workspace" ["main.py"] "Task 7" fresh_repo).
  discriminate.
Defined.

(** A run where every command goes through and the work tree has
    changes: the commands in order, the commit id returned, and the
    ignore file written. *)
Example commit_workspace_changes_agreeable :
  GitWorkflow.commit_workspace_changes agreeable "project/site" "workspace"
    ["main.py"] "Task 7" fresh_repo
  = (inr (Some "0a1b2c3d"),
     GitWorkflow.mkRepo
       [["rev-parse"; "HEAD"];
        ["rev-parse"; "--verify"; "tasks"];
        ["rev-parse"; "--verify"; "project/site"];
        ["checkout"; "project/site"];
        ["merge"; "--ff-only"; "main"];
        ["add"; "--"; "tasks/task_1/main.py"];
        ["status"; "--porcelain"];
        ["commit"; "-m"; "Task 7"];
        ["rev-parse"; "HEAD"];
        ["checkout"; "main"];
        ["merge"; "--ff-only"; "project/site"];
        ["remote"];
        ["push"; "--all"; "origin"]]
       false
       (Some ["# Sleepless Agent managed ignores"; "data/"])
       []).
Proof. vm_compute. reflexivity. Qed.
